(** * NebuiaHandler / NebuiaClient: orchestration, polling and result shaping

    A shallow embedding of the document-processing workflow of
    [exec.py] (class [NebuiaHandler]) and of the polling primitive
    [wait_for_record_completion] of [nebuia_client.py] (class
    [NebuiaClient]).

    Modelling decisions, all stated once here:

    - Parsed JSON bodies are trees ([json]); a Python [dict] is an
      association list in insertion order, as iteration order is observable.
      JSON numbers are modelled by integers.
    - The remote service, the file system and the clock form the
      environment ([Env]): every HTTP endpoint of the client is an oracle
      on an abstract world state, so that every theorem holds for every
      behaviour of the service.  Clock readings, timeouts and sleep lengths
      share one unit and are integers.
    - Handler code runs in the monad [M]: it threads the world, may raise a
      Python exception, and records the calls it makes (with their replies)
      in a trace.  The two [while] loops take fuel; running out of it is the
      outcome [Abort OutOfFuel], which no [except] clause can catch.
    - Logging and console output are not modelled.  Only exceptions derived
      from Python's [Exception] are modelled (no [KeyboardInterrupt]).
    - The file system answers [Path.exists()] and [open]: it may answer
      with the [OSError] that [exists()] lets through (a name that is too
      long, for one) and with the [OSError] of [open] (a directory, a file
      that may not be read).  [time.sleep] refuses a negative length and a
      length beyond what the platform clock holds.
    - [extract_document_entities] mutates dictionaries and lists, so it is
      modelled over an explicit store of Python objects ([heap]) in which
      [dict.copy], [del] and [list.append] allocate and write. *)

From Stdlib Require Import List String Ascii ZArith Bool Lia Arith DecimalString.
Import ListNotations.
Local Open Scope string_scope.
Local Open Scope Z_scope.

Set Implicit Arguments.

(* ================================================================== *)
(** * Python values coming from parsed JSON *)

#[local] Unset Elimination Schemes.
Inductive json : Type :=
| JNull
| JBool (b : bool)
| JNum (n : Z)
| JStr (s : string)
| JList (l : list json)
| JDict (d : list (string * json)).
#[local] Set Elimination Schemes.

(** Insertion-ordered dictionaries with string keys. *)
Definition dict (V : Type) := list (string * V).

Section Dict.
Variable V : Type.

Fixpoint dict_get (k : string) (d : dict V) : option V :=
  match d with
  | [] => None
  | (k', v) :: rest => if String.eqb k k' then Some v else dict_get k rest
  end.

Definition dict_mem (k : string) (d : dict V) : bool :=
  match dict_get k d with Some _ => true | None => false end.

(** [d[k] = v]: an existing key keeps its place, a new one goes last. *)
Fixpoint dict_set (k : string) (v : V) (d : dict V) : dict V :=
  match d with
  | [] => [(k, v)]
  | (k', v') :: rest =>
      if String.eqb k k' then (k', v) :: rest
      else (k', v') :: dict_set k v rest
  end.

Definition dict_keys (d : dict V) : list string := map fst d.

(** Truth value of a dict: [not d] holds for the empty one. *)
Definition dict_is_empty (d : dict V) : bool :=
  match d with [] => true | _ => false end.
End Dict.

(** Python truthiness ([if v:], [not v]). *)
Definition truthy (v : json) : bool :=
  match v with
  | JNull => false
  | JBool b => b
  | JNum n => negb (n =? 0)
  | JStr s => negb (String.eqb s "")
  | JList l => match l with [] => false | _ => true end
  | JDict d => match d with [] => false | _ => true end
  end.

(** [v == s] for a string [s]. *)
Definition py_eq_str (v : json) (s : string) : bool :=
  match v with
  | JStr s' => String.eqb s' s
  | _ => false
  end.

(** [v is True]. *)
Definition py_is_True (v : json) : bool :=
  match v with
  | JBool true => true
  | _ => false
  end.

(* ================================================================== *)
(** * Exceptions and outcomes *)

Inductive exn_class : Type :=
| NebuiaError | NebuiaApiError | TimeoutError | FileNotFoundError
| ValueError | TypeError | AttributeError | KeyError | OtherException
| OSError | OverflowError.

(** An exception object: its class and [str(e)]. *)
Record exn : Type := Exn { exn_cls : exn_class; exn_msg : string }.

(** [except NebuiaError]: [NebuiaApiError] derives from [NebuiaError]. *)
Definition is_NebuiaError (e : exn) : bool :=
  match exn_cls e with
  | NebuiaError | NebuiaApiError => true
  | _ => false
  end.

(** [except TimeoutError]. *)
Definition is_TimeoutError (e : exn) : bool :=
  match exn_cls e with
  | TimeoutError => true
  | _ => false
  end.

Inductive abort : Type :=
| OutOfFuel
| DanglingRef.

Inductive result (A : Type) : Type :=
| Ret (a : A)
| Raise (e : exn)
| Abort (why : abort).
Arguments Raise {A} e.
Arguments Abort {A} why.

Definition rbind {A B} (r : result A) (f : A -> result B) : result B :=
  match r with
  | Ret a => f a
  | Raise e => Raise e
  | Abort y => Abort y
  end.

(* ================================================================== *)
(** * Dynamic operations on parsed values *)

Definition type_name (v : json) : string :=
  match v with
  | JNull => "NoneType"
  | JBool _ => "bool"
  | JNum _ => "int"
  | JStr _ => "str"
  | JList _ => "list"
  | JDict _ => "dict"
  end.

(** [v.get(k, default)]: only dicts have the method. *)
Definition py_get (v : json) (k : string) (default : json) : result json :=
  match v with
  | JDict d => Ret (match dict_get k d with Some x => x | None => default end)
  | _ => Raise (Exn AttributeError
                 ("'" ++ type_name v ++ "' object has no attribute 'get'"))
  end.

(** [v[k]] for a string [k]. *)
Definition py_getitem (v : json) (k : string) : result json :=
  match v with
  | JDict d =>
      match dict_get k d with
      | Some x => Ret x
      | None => Raise (Exn KeyError ("'" ++ k ++ "'"))
      end
  | JList _ => Raise (Exn TypeError "list indices must be integers or slices, not str")
  | JStr _ => Raise (Exn TypeError "string indices must be integers, not 'str'")
  | _ => Raise (Exn TypeError ("'" ++ type_name v ++ "' object is not subscriptable"))
  end.

(** [v[k] = x] for a string [k]; the updated object is returned. *)
Definition py_setitem (v : json) (k : string) (x : json) : result json :=
  match v with
  | JDict d => Ret (JDict (dict_set k x d))
  | JList _ => Raise (Exn TypeError "list indices must be integers or slices, not str")
  | _ => Raise (Exn TypeError
                 ("'" ++ type_name v ++ "' object does not support item assignment"))
  end.

Fixpoint chars (s : string) : list json :=
  match s with
  | EmptyString => []
  | String c rest => JStr (String c EmptyString) :: chars rest
  end.

(** The elements a [for x in v] loop visits. *)
Definition py_iter (v : json) : result (list json) :=
  match v with
  | JList l => Ret l
  | JDict d => Ret (map (fun kv => JStr (fst kv)) d)
  | JStr s => Ret (chars s)
  | _ => Raise (Exn TypeError ("'" ++ type_name v ++ "' object is not iterable"))
  end.

Fixpoint is_prefix (p s : string) : bool :=
  match p, s with
  | EmptyString, _ => true
  | String a p', String b s' => Ascii.eqb a b && is_prefix p' s'
  | String _ _, EmptyString => false
  end.

Fixpoint is_substring (p s : string) : bool :=
  is_prefix p s
  || match s with
     | EmptyString => false
     | String _ s' => is_substring p s'
     end.

(** [k in v] for a string [k]. *)
Definition py_contains (k : string) (v : json) : result bool :=
  match v with
  | JDict d => Ret (dict_mem k d)
  | JList l => Ret (existsb (fun x => py_eq_str x k) l)
  | JStr s => Ret (is_substring k s)
  | _ => Raise (Exn TypeError
                 ("argument of type '" ++ type_name v ++ "' is not iterable"))
  end.

(* ================================================================== *)
(** * pathlib: the part of [PurePosixPath] the handler uses *)

Module Pathlib.

Record Path : Type := MkPath { root : string; tail : list string }.

(** [s.split('/')]. *)
Fixpoint split_sep (s : string) : list string :=
  match s with
  | EmptyString => [EmptyString]
  | String c rest =>
      if Ascii.eqb c "/" then EmptyString :: split_sep rest
      else match split_sep rest with
           | [] => [String c EmptyString]
           | p :: ps => String c p :: ps
           end
  end.

(** [posixpath.splitroot]: the root is "/" for one or for three and more
    leading slashes, "//" for exactly two. *)
Definition splitroot (p : string) : string * string :=
  match p with
  | String "/" (String "/" (String "/" r)) => ("/", String "/" (String "/" r))
  | String "/" (String "/" r) => ("//", r)
  | String "/" r => ("/", r)
  | _ => ("", p)
  end.

Definition keep_part (x : string) : bool :=
  negb (String.eqb x "") && negb (String.eqb x ".").

(** [Path(p)]: empty and "." components are dropped. *)
Definition parse (p : string) : Path :=
  let (rt, rel) := splitroot p in
  MkPath rt (filter keep_part (split_sep rel)).

Fixpoint join (parts : list string) : string :=
  match parts with
  | [] => ""
  | [x] => x
  | x :: rest => x ++ "/" ++ join rest
  end.

(** [str(path)]. *)
Definition str (p : Path) : string :=
  let s := root p ++ join (tail p) in
  if String.eqb s "" then "." else s.

(** [path.name]: the last component. *)
Definition name (p : Path) : string := last (tail p) "".

(** [s.rfind('.')]. *)
Fixpoint rfind_dot (s : string) : option nat :=
  match s with
  | EmptyString => None
  | String c rest =>
      match rfind_dot rest with
      | Some i => Some (S i)
      | None => if Ascii.eqb c "." then Some O else None
      end
  end.

(** [path.suffix]: from the last dot of the name on, unless that dot is
    the first or the last character. *)
Definition suffix (p : Path) : string :=
  let n := name p in
  match rfind_dot n with
  | Some i =>
      if (Nat.ltb 0 i && Nat.ltb i (String.length n - 1))%bool
      then substring i (String.length n - i) n
      else ""
  | None => ""
  end.

Definition lower_ascii (c : ascii) : ascii :=
  let n := nat_of_ascii c in
  if (Nat.leb 65 n && Nat.leb n 90)%bool then ascii_of_nat (n + 32) else c.

(** [s.lower()].  Strings are byte strings here; lowering the ASCII
    letters decides [s.lower() == '.pdf'] as Python does, no other
    character lowers to one of [.], [p], [d], [f]. *)
Fixpoint lower (s : string) : string :=
  match s with
  | EmptyString => EmptyString
  | String c rest => String (lower_ascii c) (lower rest)
  end.

(** [path.suffix.lower() == '.pdf']. *)
Definition is_pdf (p : Path) : bool := String.eqb (lower (suffix p)) ".pdf".

End Pathlib.

(* ================================================================== *)
(** * The environment: remote service, file system, clock *)

(** What a client endpoint gives back: the parsed body, or the exception
    the request raised. *)
Inductive reply : Type :=
| Reply (body : json)
| Fault (e : exn).

Definition result_of_reply (r : reply) : result json :=
  match r with
  | Reply body => Ret body
  | Fault e => Raise e
  end.

(** Calls that leave the process, as the trace records them. *)
Inductive event : Type :=
| EvTime (t : Z)
| EvSleep (d : Z)
| EvCreateRecord (configuration_ref : string) (r : reply)
| EvUpload (record_id : json) (file_path document_type : string) (r : reply)
| EvGetRecord (record_id : json) (r : reply)
| EvStatus (document_id : json) (r : reply)
| EvVerify (record_id document_type_id : json) (r : reply)
| EvCreateJob (record_id : json) (r : reply).

Record Env (W : Type) : Type := MkEnv {
  (** the wall clock of a world *)
  now : W -> Z;
  (** the world after a [time.time()] call *)
  tick : W -> W;
  (** the world after [time.sleep(d)], [0 <= d] *)
  slept : Z -> W -> W;
  (** [Path(p).exists()], asked with [str(path)], when it answers *)
  fs_exists : string -> W -> bool;
  (** [str(e)] of the [OSError] that [Path(p).exists()] lets through, if
      [os.stat] raised one: [exists()] answers [False] for ENOENT, ENOTDIR,
      EBADF and ELOOP only *)
  fs_stat_error : string -> W -> option string;
  (** [str(e)] of the [OSError] of [open(p, "rb")], if it raises one *)
  fs_open_error : string -> W -> option string;
  (** [str(e)] of the [OverflowError] of [time.sleep(d)] *)
  sleep_overflow_msg : Z -> string;
  (** POST /records/create *)
  http_create_record : string -> W -> reply * W;
  (** POST /records/{id}/documents *)
  http_upload_document : json -> string -> string -> W -> reply * W;
  (** GET /records/{id} *)
  http_get_record_details : json -> W -> reply * W;
  (** GET embeddings-distributor /document/{id}/status *)
  http_get_document_status : json -> W -> reply * W;
  (** GET /records/{id}/type/{docTypeId} *)
  http_verify_document_type : json -> json -> W -> reply * W;
  (** POST /records/{id}/process *)
  http_create_processing_job : json -> W -> reply * W;
  (** [str(v)] of a value that is not a string *)
  py_repr : json -> string
}.

(** Clocks that do not run backwards and sleeps that last. *)
Record ClockLaws (W : Type) (env : Env W) : Prop := MkClockLaws {
  tick_mono : forall w, now env w <= now env (tick env w);
  slept_adv : forall d w, 0 <= d -> now env w + d <= now env (slept env d w);
  status_mono : forall i w,
      now env w <= now env (snd (http_get_document_status env i w));
  record_mono : forall i w,
      now env w <= now env (snd (http_get_record_details env i w))
}.

(* ================================================================== *)
(** * The monad of handler code *)

Definition M (W A : Type) : Type := W -> result A * W * list event.

Definition ret {W A} (a : A) : M W A := fun w => (Ret a, w, []).

Definition raise {W A} (e : exn) : M W A := fun w => (Raise e, w, []).

Definition out_of_fuel {W A} : M W A := fun w => (Abort OutOfFuel, w, []).

Definition lift {W A} (r : result A) : M W A := fun w => (r, w, []).

Definition bind {W A B} (m : M W A) (f : A -> M W B) : M W B :=
  fun w =>
    match m w with
    | (Ret a, w1, t1) =>
        match f a w1 with
        | (r, w2, t2) => (r, w2, (t1 ++ t2)%list)
        end
    | (Raise e, w1, t1) => (Raise e, w1, t1)
    | (Abort y, w1, t1) => (Abort y, w1, t1)
    end.

(** [try: m  except Exception as e: h e]. *)
Definition try_except {W A} (m : M W A) (h : exn -> M W A) : M W A :=
  fun w =>
    match m w with
    | (Raise e, w1, t1) =>
        match h e w1 with
        | (r, w2, t2) => (r, w2, (t1 ++ t2)%list)
        end
    | other => other
    end.

(** [try: m  finally: f]. *)
Definition try_finally {W A} (m : M W A) (f : M W unit) : M W A :=
  fun w =>
    match m w with
    | (Abort y, w1, t1) => (Abort y, w1, t1)
    | (r, w1, t1) =>
        match f w1 with
        | (Ret _, w2, t2) => (r, w2, (t1 ++ t2)%list)
        | (Raise e, w2, t2) => (Raise e, w2, (t1 ++ t2)%list)
        | (Abort y, w2, t2) => (Abort y, w2, (t1 ++ t2)%list)
        end
    end.

Declare Scope monad_scope.
Delimit Scope monad_scope with monad.
Notation "x <- m ;; k" := (bind m (fun x => k))
  (at level 61, m at next level, right associativity) : monad_scope.
Notation "' pat <- m ;; k" := (bind m (fun x => match x with pat => k end))
  (at level 61, pat pattern, m at next level, right associativity) : monad_scope.
Notation "m ;; k" := (bind m (fun _ => k))
  (at level 61, right associativity) : monad_scope.
Local Open Scope monad_scope.

Definition outcome {W A} (x : result A * W * list event) : result A := fst (fst x).
Definition final {W A} (x : result A * W * list event) : W := snd (fst x).
Definition trace {W A} (x : result A * W * list event) : list event := snd x.

(* ================================================================== *)
(** * What the code takes from the Python runtime *)

Section Runtime.
Variable W : Type.
Variable env : Env W.

(** [time.time()] *)
Definition time_time : M W Z :=
  fun w => (Ret (now env w), tick env w, [EvTime (now env w)]).

(** The longest sleep, in seconds: [time.sleep] keeps the length as a
    64-bit count of nanoseconds. *)
Definition SLEEP_MAX : Z := 9223372036.

(** [time.sleep(d)]: a negative length is a [ValueError], a length whose
    nanoseconds do not fit 64 bits an [OverflowError]. *)
Definition time_sleep (d : Z) : M W unit :=
  if d <? 0 then raise (Exn ValueError "sleep length must be non-negative")
  else if SLEEP_MAX <? d then
    raise (Exn OverflowError (sleep_overflow_msg env d))
  else fun w => (Ret tt, slept env d w, [EvSleep d]).

(** [path.exists()]: the answer, or the [OSError] it lets through. *)
Definition path_exists (p : Pathlib.Path) : M W bool :=
  fun w =>
    match fs_stat_error env (Pathlib.str p) w with
    | Some msg => (Raise (Exn OSError msg), w, [])
    | None => (Ret (fs_exists env (Pathlib.str p) w), w, [])
    end.

(** [open(path, "rb")]: the file is open, or the [OSError] is raised. *)
Definition open_rb (p : Pathlib.Path) : M W unit :=
  fun w =>
    match fs_open_error env (Pathlib.str p) w with
    | Some msg => (Raise (Exn OSError msg), w, [])
    | None => (Ret tt, w, [])
    end.

(** [f.close()]: no call leaves the process and no time passes. *)
Definition file_close (p : Pathlib.Path) : M W unit := ret tt.

Definition py_str (v : json) : string :=
  match v with
  | JStr s => s
  | _ => py_repr env v
  end.

(** A request: the reply of the service, recorded in the trace. *)
Definition call (send : W -> reply * W) (ev : reply -> event) : M W json :=
  fun w => let (r, w') := send w in (result_of_reply r, w', [ev r]).

End Runtime.

(* ================================================================== *)
(** * NebuiaClient *)

Module NebuiaClient.

Section Client.
Variable W : Type.
Variable env : Env W.

Definition create_record (configuration_ref : string) : M W json :=
  call (http_create_record env configuration_ref)
       (EvCreateRecord configuration_ref).

Definition get_record_details (record_id : json) : M W json :=
  call (http_get_record_details env record_id) (EvGetRecord record_id).

Definition create_processing_job (record_id : json) : M W json :=
  call (http_create_processing_job env record_id) (EvCreateJob record_id).

Definition get_document_status (document_id : json) : M W json :=
  call (http_get_document_status env document_id) (EvStatus document_id).

Definition verify_document_type (record_id document_type_id : json) : M W json :=
  call (http_verify_document_type env record_id document_type_id)
       (EvVerify record_id document_type_id).

(** [upload_document]: the file must exist and be a PDF, and it is
    opened, before anything is sent; it is closed whatever the request
    comes to. *)
Definition upload_document (record_id : json) (file_path document_type : string)
  : M W json :=
  let path := Pathlib.parse file_path in
  ex <- path_exists env path ;;
  if negb ex then
    raise (Exn FileNotFoundError ("File not found: " ++ Pathlib.str path))
  else if negb (Pathlib.is_pdf path) then
    raise (Exn ValueError ("File must be a PDF: " ++ Pathlib.str path))
  else
    open_rb env path ;;
    try_finally
      (call (http_upload_document env record_id (Pathlib.str path)
                                  document_type)
            (EvUpload record_id (Pathlib.str path) document_type))
      (file_close path).

(** The [while] loop of [wait_for_record_completion]. *)
Fixpoint wait_record_loop (fuel : nat) (record_id : json)
         (timeout polling_interval : Z)
         (status_callback : option (json -> Z -> json -> M W unit))
         (start_time : Z) : M W json :=
  match fuel with
  | O => out_of_fuel
  | S fuel' =>
      t <- time_time env ;;
      if t - start_time <? timeout then
        record_details <- get_record_details record_id ;;
        current_status <- lift (py_get record_details "status" (JStr "unknown")) ;;
        t' <- time_time env ;;
        let elapsed_time := t' - start_time in
        match status_callback with
        | Some cb => cb current_status elapsed_time record_details
        | None => ret tt
        end ;;
        if py_eq_str current_status "complete" then ret record_details
        else if py_eq_str current_status "error" then
          error_message <-
            lift (py_get record_details "error_message" (JStr "Unknown error")) ;;
          raise (Exn NebuiaError
                     ("Record processing failed: " ++ py_str env error_message))
        else
          time_sleep env polling_interval ;;
          wait_record_loop fuel' record_id timeout polling_interval
                           status_callback start_time
      else
        raise (Exn TimeoutError
                   ("Timeout exceeded for record " ++ py_str env record_id
                    ++ " after " ++ py_str env (JNum timeout) ++ " seconds"))
  end.

Definition wait_for_record_completion (fuel : nat) (record_id : json)
           (timeout polling_interval : Z)
           (status_callback : option (json -> Z -> json -> M W unit))
  : M W json :=
  start_time <- time_time env ;;
  wait_record_loop fuel record_id timeout polling_interval status_callback
                   start_time.

End Client.

End NebuiaClient.

(* ================================================================== *)
(** * NebuiaHandler *)

Module NebuiaHandler.

Section Handler.
Variable W : Type.
Variable env : Env W.

(** [status_callback]: formatting the line needs a hashable status with
    an [upper] method, that is, a string. *)
Definition status_callback (status : json) (elapsed_time : Z)
           (record_details : json) : M W unit :=
  lift (py_get record_details "is_processing" (JBool false)) ;;
  match status with
  | JList _ | JDict _ =>
      raise (Exn TypeError ("unhashable type: '" ++ type_name status ++ "'"))
  | JStr _ =>
      lift (py_get record_details "current_document_id" JNull) ;;
      ret tt
  | _ =>
      raise (Exn AttributeError
                 ("'" ++ type_name status ++ "' object has no attribute 'upper'"))
  end.

(** The [for] loop of [validate_documents]. *)
Fixpoint validate_loop (items : list (string * string))
         (valid_documents : dict string) : M W (dict string) :=
  match items with
  | [] => ret valid_documents
  | (doc_type, file_path) :: rest =>
      let path := Pathlib.parse file_path in
      ex <- path_exists env path ;;
      if negb ex then validate_loop rest valid_documents
      else if negb (Pathlib.is_pdf path) then validate_loop rest valid_documents
      else validate_loop rest
                         (dict_set doc_type (Pathlib.str path) valid_documents)
  end.

Definition validate_documents (documents : dict string) : M W (dict string) :=
  validate_loop documents [].

(** [_display_verification_points]: printing enumerates [result["points"]]. *)
Definition _display_verification_points (result : json) : M W unit :=
  has_points <- lift (py_contains "points" result) ;;
  if has_points then
    points <- lift (py_getitem result "points") ;;
    if truthy points then
      lift (py_get result "status" (JBool false)) ;;
      lift (py_get result "type_document_found" (JStr "desconocido")) ;;
      lift (py_iter points) ;;
      ret tt
    else ret tt
  else ret tt.

(** [verify_document_type] of the handler: any failure is a failed
    verification. *)
Definition verify_document_type (record_id document_type_id : json)
  : M W (bool * json) :=
  try_except
    (result <- NebuiaClient.verify_document_type env record_id
                                                  document_type_id ;;
     status <- lift (py_get result "status" JNull) ;;
     let verification_passed := py_is_True status in
     _display_verification_points result ;;
     ret (verification_passed, result))
    (fun e => ret (false, JDict [("status", JBool false);
                                 ("error", JStr (exn_msg e))])).

(** The inner [for document in ...] loop of [_create_and_upload]: the id
    of the first document of the given type. *)
Fixpoint find_document_id (doc_type : string) (documents : list json)
  : result (option json) :=
  match documents with
  | [] => Ret None
  | document :: rest =>
      rbind (py_get document "document_type" JNull) (fun t =>
      if py_eq_str t doc_type then
        rbind (py_get document "document_id" JNull) (fun i => Ret (Some i))
      else find_document_id doc_type rest)
  end.

(** The upload loop of [_create_and_upload]. *)
Fixpoint upload_loop (record_id : json) (items : list (string * string))
         (document_ids : dict json) : M W (dict json) :=
  match items with
  | [] => ret document_ids
  | (doc_type, file_path) :: rest =>
      document_ids' <-
        try_except
          (NebuiaClient.upload_document env record_id file_path doc_type ;;
           record_details <- NebuiaClient.get_record_details env record_id ;;
           documents <- lift (py_get record_details "documents" (JList [])) ;;
           ds <- lift (py_iter documents) ;;
           found <- lift (find_document_id doc_type ds) ;;
           ret (match found with
                | Some i => dict_set doc_type i document_ids
                | None => document_ids
                end))
          (fun e => ret document_ids) ;;
      upload_loop record_id rest document_ids'
  end.

(** [_create_and_upload]: [None], or the record id and the document ids. *)
Definition _create_and_upload (documents : dict string) (config_name : string)
  : M W (option (json * dict json)) :=
  record_response <- NebuiaClient.create_record env config_name ;;
  record_id <- lift (py_get record_response "id" JNull) ;;
  if negb (truthy record_id) then ret None
  else
    document_ids <- upload_loop record_id documents [] ;;
    if dict_is_empty document_ids then ret None
    else ret (Some (record_id, document_ids)).

(** One pass of the [for] loop of [_wait_for_embedding] over all of
    [document_ids]; [pending_documents] collects type, id and status. *)
Fixpoint check_round (items : list (string * json))
         (pending_documents : list (string * json * json))
  : M W (list (string * json * json)) :=
  match items with
  | [] => ret pending_documents
  | (doc_type, doc_id) :: rest =>
      pending' <-
        try_except
          (doc_status <- NebuiaClient.get_document_status env doc_id ;;
           status <- lift (py_get doc_status "status" JNull) ;;
           ret (if negb (py_eq_str status "complete")
                then (pending_documents ++ [(doc_type, doc_id, status)])%list
                else pending_documents))
          (fun e => ret (pending_documents
                           ++ [(doc_type, doc_id, JStr "error")])%list) ;;
      check_round rest pending'
  end.

(** The [while] loop of [_wait_for_embedding]; the value is
    [all_documents_processed]. *)
Fixpoint embedding_loop (fuel : nat) (document_ids : dict json)
         (check_interval timeout start_time : Z) : M W bool :=
  match fuel with
  | O => out_of_fuel
  | S fuel' =>
      t <- time_time env ;;
      if t - start_time <? timeout then
        pending_documents <- check_round document_ids [] ;;
        match pending_documents with
        | [] => ret true
        | _ :: _ =>
            time_sleep env check_interval ;;
            embedding_loop fuel' document_ids check_interval timeout start_time
        end
      else ret false
  end.

Definition _wait_for_embedding (fuel : nat) (document_ids : dict json)
           (check_interval timeout : Z) : M W bool :=
  start_time <- time_time env ;;
  all_documents_processed <-
    embedding_loop fuel document_ids check_interval timeout start_time ;;
  if negb all_documents_processed then ret false else ret true.

(** The [for] loop of [_verify_all_documents]. *)
Fixpoint verify_loop (record_id : json) (items : list (string * json))
         (verification_results : dict json) (verification_passed : bool)
  : M W (dict json * bool) :=
  match items with
  | [] => ret (verification_results, verification_passed)
  | (doc_type, doc_id) :: rest =>
      if truthy doc_id then
        ' (results', passed') <-
          try_except
            (' (is_valid, verification) <-
               verify_document_type record_id doc_id ;;
             ret (dict_set doc_type verification verification_results,
                  if negb is_valid then false else verification_passed))
            (fun e =>
               ret (dict_set doc_type
                             (JDict [("status", JBool false);
                                     ("error", JStr (exn_msg e))])
                             verification_results,
                    false)) ;;
        verify_loop record_id rest results' passed'
      else verify_loop record_id rest verification_results verification_passed
  end.

Definition _verify_all_documents (record_id : json) (document_ids : dict json)
  : M W (dict json * bool) :=
  verify_loop record_id document_ids [] true.

(** [_process_record].  The first part is the outer [try]: its value is the
    completed record when the wait succeeded, and nothing when the job
    could not be created, the wait was not asked for, or the wait failed. *)
Definition _process_record (fuel : nat) (record_id : json)
           (verification_results : dict json) (wait_for_completion : bool)
           (timeout : Z) : M W json :=
  completed <-
    try_except
      (job_response <- NebuiaClient.create_processing_job env record_id ;;
       lift (py_get job_response "job_id" JNull) ;;
       lift (py_get job_response "status" JNull) ;;
       lift (py_get job_response "message" JNull) ;;
       if wait_for_completion then
         try_except
           (completed_record <-
              NebuiaClient.wait_for_record_completion
                env fuel record_id timeout 10 (Some status_callback) ;;
            completed_record' <-
              lift (py_setitem completed_record "verification_results"
                               (JDict verification_results)) ;;
            ret (Some completed_record'))
           (fun e =>
              if is_TimeoutError e then ret None
              else if is_NebuiaError e then ret None
              else raise e)
       else ret None)
      (fun e => ret None) ;;
  match completed with
  | Some completed_record => ret completed_record
  | None =>
      record_details <- NebuiaClient.get_record_details env record_id ;;
      lift (py_setitem record_details "verification_results"
                       (JDict verification_results))
  end.

(** The body of the [try] of [process_documents]; [JNull] is [None]. *)
Definition process_documents_body (fuel : nat) (documents : dict string)
           (config_name : string) (wait_for_completion : bool) (timeout : Z)
           (auto_process : bool)
           (status_check_interval status_check_timeout : Z) : M W json :=
  valid_documents <- validate_documents documents ;;
  if dict_is_empty valid_documents then ret JNull
  else
    created <- _create_and_upload valid_documents config_name ;;
    match created with
    | None => ret JNull
    | Some (record_id, document_ids) =>
        embedding_success <-
          _wait_for_embedding fuel document_ids status_check_interval
                              status_check_timeout ;;
        if negb embedding_success then
          NebuiaClient.get_record_details env record_id
        else
          ' (verification_results, verification_passed) <-
            _verify_all_documents record_id document_ids ;;
          record_details <- NebuiaClient.get_record_details env record_id ;;
          record_details' <-
            lift (py_setitem record_details "verification_results"
                             (JDict verification_results)) ;;
          if auto_process && verification_passed then
            _process_record fuel record_id verification_results
                            wait_for_completion timeout
          else ret record_details'
    end.

(** [process_documents]: the body, and [except Exception: return None]. *)
Definition process_documents (fuel : nat) (documents : dict string)
           (config_name : string) (wait_for_completion : bool) (timeout : Z)
           (auto_process : bool)
           (status_check_interval status_check_timeout : Z) : M W json :=
  try_except
    (process_documents_body fuel documents config_name wait_for_completion
                            timeout auto_process status_check_interval
                            status_check_timeout)
    (fun e => ret JNull).

End Handler.

End NebuiaHandler.

Import NebuiaClient NebuiaHandler.

(* ================================================================== *)
(** * Reading traces *)

Definition is_verify (ev : event) : bool :=
  match ev with EvVerify _ _ _ => true | _ => false end.

Definition is_create_job (ev : event) : bool :=
  match ev with EvCreateJob _ _ => true | _ => false end.

Definition is_sleep (ev : event) : bool :=
  match ev with EvSleep _ => true | _ => false end.

(** A verification reply passes when its body is a dict whose [status] is
    the boolean [True]. *)
Definition reply_passed (r : reply) : bool :=
  match r with
  | Reply body =>
      match py_get body "status" JNull with
      | Ret status => py_is_True status
      | _ => false
      end
  | Fault _ => false
  end.

(** Every verification call recorded in the event passed. *)
Definition verify_ok (ev : event) : Prop :=
  match ev with
  | EvVerify _ _ r => reply_passed r = true
  | _ => True
  end.


(** Neither a verification nor a job creation. *)
Definition quiet (ev : event) : Prop :=
  is_verify ev = false /\ is_create_job ev = false.



(* ================================================================== *)
(** * A scripted environment, for concrete runs

    The world is the clock; only sleeping makes time pass, and the service
    answers as a function of the time of the request. *)

Definition scripted (fs : string -> bool) (create : reply)
           (upload : string -> reply) (details : Z -> reply)
           (status : json -> Z -> reply) (verify : json -> reply)
           (job : reply) : Env Z :=
  {| now := fun w => w;
     tick := fun w => w;
     slept := fun d w => w + d;
     fs_exists := fun p _ => fs p;
     fs_stat_error := fun _ _ => None;
     fs_open_error := fun _ _ => None;
     sleep_overflow_msg :=
       fun _ => "timestamp too large to convert to C _PyTime_t";
     http_create_record := fun _ w => (create, w);
     http_upload_document := fun _ _ doc_type w => (upload doc_type, w);
     http_get_record_details := fun _ w => (details w, w);
     http_get_document_status := fun i w => (status i w, w);
     http_verify_document_type := fun _ i w => (verify i, w);
     http_create_processing_job := fun _ w => (job, w);
     py_repr := fun _ => "<repr>" |}.

(** The same environment with a file system that fails: [stat_error] for
    [Path.exists()] and [open_error] for [open]. *)
Definition with_file_errors (W : Type) (env : Env W)
           (stat_error open_error : string -> option string) : Env W :=
  {| now := now env;
     tick := tick env;
     slept := slept env;
     fs_exists := fs_exists env;
     fs_stat_error := fun p _ => stat_error p;
     fs_open_error := fun p _ => open_error p;
     sleep_overflow_msg := sleep_overflow_msg env;
     http_create_record := http_create_record env;
     http_upload_document := http_upload_document env;
     http_get_record_details := http_get_record_details env;
     http_get_document_status := http_get_document_status env;
     http_verify_document_type := http_verify_document_type env;
     http_create_processing_job := http_create_processing_job env;
     py_repr := py_repr env |}.

(** Events that are not of a given kind. *)
Definition lacks (kind : event -> bool) (ev : event) : Prop := kind ev = false.

(** [emits P m]: every event [m] records satisfies [P]. *)
Definition emits (W A : Type) (P : event -> Prop) (m : M W A) : Prop :=
  forall w, Forall P (trace (m w)).

(* ================================================================== *)
(** * Vocabulary of the statements *)

(** [exists()] answers [True] for the path. *)
Definition exists_true (W : Type) (env : Env W) (w : W) (path : string)
  : bool :=
  match fs_stat_error env path w with
  | Some _ => false
  | None => fs_exists env path w
  end.

(** What [validate_documents] keeps of an entry: the path must exist and
    carry the suffix [.pdf] in any letter case. *)
Definition valid_entry (W : Type) (env : Env W) (w : W) (kv : string * string)
  : bool :=
  exists_true env w (Pathlib.str (Pathlib.parse (snd kv)))
  && Pathlib.is_pdf (Pathlib.parse (snd kv)).

(** The [OSError] that [exists()] lets through for the first entry for
    which it does, if there is one. *)
Fixpoint stat_failure (W : Type) (env : Env W) (w : W)
         (documents : dict string) : option string :=
  match documents with
  | [] => None
  | (_, file_path) :: rest =>
      match fs_stat_error env (Pathlib.str (Pathlib.parse file_path)) w with
      | Some msg => Some msg
      | None => stat_failure env w rest
      end
  end.

(** The entry as it is stored: same key, the path as [str(Path(p))]. *)
Definition stored_entry (kv : string * string) : string * string :=
  (fst kv, Pathlib.str (Pathlib.parse (snd kv))).


(** The documents a trace shows verification calls for, in call order. *)
Fixpoint verified_ids (t : list event) : list json :=
  match t with
  | [] => []
  | EvVerify _ doc_id _ :: rest => doc_id :: verified_ids rest
  | _ :: rest => verified_ids rest
  end.

(** The entries of [document_ids] whose id is truthy. *)
Definition with_truthy_id (document_ids : dict json) : dict json :=
  filter (fun kv => truthy (snd kv)) document_ids.

(** A service in which everything succeeds at once, except that the record
    details list the uploaded document without a [document_id]. *)
Definition no_id_env : Env Z :=
  scripted (fun _ => true)
           (Reply (JDict [("id", JStr "rec-1")]))
           (fun _ => Reply (JDict []))
           (fun _ => Reply (JDict [("status", JStr "waiting");
                                   ("documents",
                                    JList [JDict [("document_type", JStr "acta")]])]))
           (fun _ _ => Reply (JDict [("status", JStr "complete")]))
           (fun _ => Reply (JDict [("status", JBool true)]))
           (Reply (JDict [("job_id", JStr "job-1")])).

(* ================================================================== *)
(** * Vocabulary for the polling loops *)







Definition two_documents : dict json :=
  [("acta", JStr "doc-a"); ("poder", JStr "doc-b")].



(** Document [doc-a] is embedded from the start, [doc-b] never is. *)
Definition slow_status (doc_id : json) (t : Z) : reply :=
  if py_eq_str doc_id "doc-a" then Reply (JDict [("status", JStr "complete")])
  else Reply (JDict [("status", JStr "pending")]).

Definition slow_env : Env Z :=
  scripted (fun _ => true) (Reply (JDict [("id", JStr "rec-1")]))
           (fun _ => Reply (JDict []))
           (fun _ => Reply (JDict [("status", JStr "waiting");
                                   ("documents",
                                    JList [JDict [("document_type", JStr "acta");
                                                  ("document_id", JStr "doc-a")];
                                           JDict [("document_type", JStr "poder");
                                                  ("document_id", JStr "doc-b")]])]))
           slow_status
           (fun _ => Reply (JDict [("status", JBool true)]))
           (Reply (JDict [("job_id", JStr "job-1")])).

(** An observer that neither calls the service nor lets time pass: it only
    returns or raises, as [answer] says.  No observer ([None]) is the case
    of an [answer] that always returns. *)
Definition observer_answers (W : Type)
           (status_callback : option (json -> Z -> json -> M W unit))
           (answer : json -> Z -> json -> result unit) : Prop :=
  forall status elapsed record_details w,
    match status_callback with
    | Some cb => cb status elapsed record_details
    | None => ret tt
    end w = (answer status elapsed record_details, w, [])
    /\ forall y, answer status elapsed record_details <> Abort y.

(** The shape of the trace of the [while] loop of
    [wait_for_record_completion] and the outcome it ends with.  A turn reads
    the clock, fetches the record, reads the clock again for the elapsed
    time and informs the observer; then it returns, raises, or sleeps for
    the polling interval and takes another turn. *)
Inductive record_wait_run (W : Type) (env : Env W) (record_id : json)
          (timeout polling_interval : Z)
          (answer : json -> Z -> json -> result unit) (start_time : Z)
  : list event -> result json -> Prop :=
| wait_expired : forall t,
    timeout <= t - start_time ->
    record_wait_run env record_id timeout polling_interval answer start_time
      [EvTime t]
      (Raise (Exn TimeoutError
                  ("Timeout exceeded for record " ++ py_str env record_id
                   ++ " after " ++ py_str env (JNum timeout) ++ " seconds")))
| wait_fetch_failed : forall t e,
    t - start_time < timeout ->
    record_wait_run env record_id timeout polling_interval answer start_time
      [EvTime t; EvGetRecord record_id (Fault e)] (Raise e)
| wait_not_a_dict : forall t body e,
    t - start_time < timeout ->
    py_get body "status" (JStr "unknown") = Raise e ->
    record_wait_run env record_id timeout polling_interval answer start_time
      [EvTime t; EvGetRecord record_id (Reply body)] (Raise e)
| wait_observer_failed : forall t body status t' e,
    t - start_time < timeout ->
    py_get body "status" (JStr "unknown") = Ret status ->
    answer status (t' - start_time) body = Raise e ->
    record_wait_run env record_id timeout polling_interval answer start_time
      [EvTime t; EvGetRecord record_id (Reply body); EvTime t'] (Raise e)
| wait_complete : forall t body status t',
    t - start_time < timeout ->
    py_get body "status" (JStr "unknown") = Ret status ->
    answer status (t' - start_time) body = Ret tt ->
    py_eq_str status "complete" = true ->
    record_wait_run env record_id timeout polling_interval answer start_time
      [EvTime t; EvGetRecord record_id (Reply body); EvTime t'] (Ret body)
| wait_error : forall t body status t' error_message,
    t - start_time < timeout ->
    py_get body "status" (JStr "unknown") = Ret status ->
    answer status (t' - start_time) body = Ret tt ->
    py_eq_str status "error" = true ->
    py_get body "error_message" (JStr "Unknown error") = Ret error_message ->
    record_wait_run env record_id timeout polling_interval answer start_time
      [EvTime t; EvGetRecord record_id (Reply body); EvTime t']
      (Raise (Exn NebuiaError
                  ("Record processing failed: " ++ py_str env error_message)))
| wait_bad_interval : forall t body status t',
    t - start_time < timeout ->
    py_get body "status" (JStr "unknown") = Ret status ->
    answer status (t' - start_time) body = Ret tt ->
    py_eq_str status "complete" = false ->
    py_eq_str status "error" = false ->
    polling_interval < 0 ->
    record_wait_run env record_id timeout polling_interval answer start_time
      [EvTime t; EvGetRecord record_id (Reply body); EvTime t']
      (Raise (Exn ValueError "sleep length must be non-negative"))
| wait_overflow : forall t body status t',
    t - start_time < timeout ->
    py_get body "status" (JStr "unknown") = Ret status ->
    answer status (t' - start_time) body = Ret tt ->
    py_eq_str status "complete" = false ->
    py_eq_str status "error" = false ->
    SLEEP_MAX < polling_interval ->
    record_wait_run env record_id timeout polling_interval answer start_time
      [EvTime t; EvGetRecord record_id (Reply body); EvTime t']
      (Raise (Exn OverflowError (sleep_overflow_msg env polling_interval)))
| wait_again : forall t body status t' rest r,
    t - start_time < timeout ->
    py_get body "status" (JStr "unknown") = Ret status ->
    answer status (t' - start_time) body = Ret tt ->
    py_eq_str status "complete" = false ->
    py_eq_str status "error" = false ->
    0 <= polling_interval <= SLEEP_MAX ->
    record_wait_run env record_id timeout polling_interval answer start_time
                    rest r ->
    record_wait_run env record_id timeout polling_interval answer start_time
      (EvTime t :: EvGetRecord record_id (Reply body) :: EvTime t'
         :: EvSleep polling_interval :: rest) r.


(** Document [doc-a] is embedded from the start, [doc-b] never is, and the
    record endpoint answers until time 10 and fails from then on. *)
Definition fading_env : Env Z :=
  scripted (fun _ => true) (Reply (JDict [("id", JStr "rec-1")]))
           (fun _ => Reply (JDict []))
           (fun t =>
              if t <? 10 then
                Reply (JDict [("status", JStr "waiting");
                              ("documents",
                               JList [JDict [("document_type", JStr "acta");
                                             ("document_id", JStr "doc-a")];
                                      JDict [("document_type", JStr "poder");
                                             ("document_id", JStr "doc-b")]])])
              else Fault (Exn NebuiaApiError
                              "API Error (500): Request failed: Internal Server Error"))
           slow_status
           (fun _ => Reply (JDict [("status", JBool true)]))
           (Reply (JDict [("job_id", JStr "job-1")])).

(** A file name of 256 characters, and a file system that refuses names of
    more than 255: [os.stat] raises ENAMETOOLONG, which [exists()] lets
    through. *)
Fixpoint replicate (n : nat) (c : ascii) : string :=
  match n with
  | O => EmptyString
  | S n' => String c (replicate n' c)
  end.

Definition long_name : string := replicate 252 "a" ++ ".pdf".

Definition name_too_long (path : string) : option string :=
  if Nat.ltb 255 (String.length (Pathlib.name (Pathlib.parse path)))
  then Some ("[Errno 36] File name too long: '" ++ path ++ "'")
  else None.


(** A record that is being processed until time 20 and complete after. *)
Definition processing_env : Env Z :=
  scripted (fun _ => true) (Reply (JDict [("id", JStr "rec-1")]))
           (fun _ => Reply (JDict []))
           (fun t => Reply (JDict [("status",
                                   JStr (if t <? 20 then "processing"
                                         else "complete"));
                                  ("documents",
                                   JList [JDict [("document_type", JStr "acta");
                                                 ("document_id", JStr "doc-a")]])]))
           (fun _ _ => Reply (JDict [("status", JStr "complete")]))
           (fun _ => Reply (JDict [("status", JBool true)]))
           (Reply (JDict [("job_id", JStr "job-1")])).

(** Computations that neither touch the world nor record a call, and that
    do not run out of fuel. *)
Definition silent (W A : Type) (m : M W A) : Prop :=
  forall w, final (m w) = w /\ trace (m w) = []
            /\ forall y, outcome (m w) <> Abort y.

(** The property of a trace that job creation is gated: a job creation in
    it means auto-processing was on and every verification in it passed. *)
Definition gated (auto_process : bool) (t : list event) : Prop :=
  forall ev, In ev t -> is_create_job ev = true ->
             auto_process = true /\ Forall verify_ok t.

(** A turn of the loop of [wait_for_record_completion] from its second
    clock reading on, for an observer that answers as [answer]. *)
Definition after_fetch (W : Type) (env : Env W) (record_id : json)
           (timeout interval : Z)
           (status_callback : option (json -> Z -> json -> M W unit))
           (answer : json -> Z -> json -> result unit) (start : Z)
           (fuel : nat) (body status : json) (w1 : W)
  : result json * W * list event :=
  let t' := now env w1 in
  let w2 := tick env w1 in
  match answer status (t' - start) body with
  | Ret _ =>
      if py_eq_str status "complete" then (Ret body, w2, [EvTime t'])
      else if py_eq_str status "error" then
        (rbind (py_get body "error_message" (JStr "Unknown error"))
               (fun m => Raise (Exn NebuiaError
                                    ("Record processing failed: "
                                       ++ py_str env m))),
         w2, [EvTime t'])
      else if interval <? 0 then
        (Raise (Exn ValueError "sleep length must be non-negative"), w2,
         [EvTime t'])
      else if SLEEP_MAX <? interval then
        (Raise (Exn OverflowError (sleep_overflow_msg env interval)), w2,
         [EvTime t'])
      else
        let x := wait_record_loop env fuel record_id timeout interval
                                  status_callback start
                                  (slept env interval w2) in
        (outcome x, final x, EvTime t' :: EvSleep interval :: trace x)
  | Raise e => (Raise e, w2, [EvTime t'])
  | Abort y => (Abort y, w2, [EvTime t'])
  end.

(** The documents of the example runs. *)
Definition one_document : dict string := [("acta", "./docs/acta.pdf")].

Definition both_documents : dict string :=
  [("acta", "./docs/acta.pdf"); ("poder", "docs/poder.PDF")].

(** A file system holding one PDF and one image. *)
Definition small_fs_env : Env Z :=
  scripted (fun p => String.eqb p "docs/acta.pdf" || String.eqb p "docs/foto.png")
           (Reply (JDict [("id", JStr "rec-1")]))
           (fun _ => Reply (JDict [])) (fun _ => Reply (JDict []))
           slow_status
           (fun _ => Reply (JDict [("status", JBool true)]))
           (Reply (JDict [("job_id", JStr "job-1")])).

(** The same file system, refusing names of more than 255 characters. *)
Definition long_name_env : Env Z :=
  with_file_errors small_fs_env name_too_long (fun _ => None).

(** What the handler's [status_callback] answers: it makes no call, so its
    outcome does not depend on the world. *)
Definition status_callback_answer (status : json) (elapsed_time : Z)
           (record_details : json) : result unit :=
  outcome (status_callback (W:=unit) status elapsed_time record_details tt).

(** A record with the given status at each time, for the polling scenarios
    of the specification. *)
Definition record_with_status (status : Z -> string) : Env Z :=
  scripted (fun _ => true) (Reply (JDict [("id", JStr "rec-1")]))
           (fun _ => Reply (JDict []))
           (fun t => Reply (JDict [("status", JStr (status t));
                                   ("error_message", JStr "bad scan")]))
           (fun _ _ => Reply (JDict [("status", JStr "complete")]))
           (fun _ => Reply (JDict [("status", JBool true)]))
           (Reply (JDict [("job_id", JStr "job-1")])).

(* ================================================================== *)
(** * Result shaping over a store of Python objects

    [extract_document_entities] copies dictionaries, deletes keys and
    appends to lists.  Objects live in a store; a value is a scalar or a
    reference into it, so that two references to one object are told apart
    from two equal objects. *)

Module Store.

Definition loc := nat.

Inductive val : Type :=
| VNone
| VBool (b : bool)
| VInt (n : Z)
| VStr (s : string)
| VRef (l : loc).

Inductive obj : Type :=
| ODict (items : list (val * val))
| OList (elems : list val).

Definition heap := list obj.

(** The monad of code that works on the store. *)
Definition H (A : Type) : Type := heap -> result A * heap.

Definition ret {A} (a : A) : H A := fun h => (Ret a, h).

Definition raise {A} (e : exn) : H A := fun h => (Raise e, h).

Definition bind {A B} (m : H A) (f : A -> H B) : H B :=
  fun h =>
    match m h with
    | (Ret a, h1) => f a h1
    | (Raise e, h1) => (Raise e, h1)
    | (Abort y, h1) => (Abort y, h1)
    end.

Declare Scope store_scope.
Delimit Scope store_scope with store.
Notation "x <- m ;; k" := (bind m (fun x => k))
  (at level 61, m at next level, right associativity) : store_scope.
Notation "m ;; k" := (bind m (fun _ => k))
  (at level 61, right associativity) : store_scope.
Local Open Scope store_scope.

(** A new object, at the end of the store. *)
Definition alloc_loc (o : obj) : H loc :=
  fun h => (Ret (List.length h), (h ++ [o])%list).

Definition alloc (o : obj) : H val :=
  fun h => (Ret (VRef (List.length h)), (h ++ [o])%list).

Definition deref (l : loc) : H obj :=
  fun h =>
    match nth_error h l with
    | Some o => (Ret o, h)
    | None => (Abort DanglingRef, h)
    end.

Fixpoint update (l : loc) (o : obj) (h : heap) : heap :=
  match h, l with
  | [], _ => []
  | _ :: rest, O => o :: rest
  | x :: rest, S l' => x :: update l' o rest
  end.

(** Writing an object in place. *)
Definition store (l : loc) (o : obj) : H unit :=
  fun h => (Ret tt, update l o h).

(** [a == b] for keys: [True == 1] and [False == 0] hold in Python. *)
Definition key_eqb (a b : val) : bool :=
  match a, b with
  | VNone, VNone => true
  | VBool x, VBool y => Bool.eqb x y
  | VInt x, VInt y => x =? y
  | VBool x, VInt y => (if x then 1 else 0) =? y
  | VInt x, VBool y => x =? (if y then 1 else 0)
  | VStr x, VStr y => String.eqb x y
  | _, _ => false
  end.

Fixpoint lookup (k : val) (items : list (val * val)) : option val :=
  match items with
  | [] => None
  | (k', v) :: rest => if key_eqb k k' then Some v else lookup k rest
  end.

(** [d[k] = v] on the items of a dict. *)
Fixpoint set_item (k v : val) (items : list (val * val)) : list (val * val) :=
  match items with
  | [] => [(k, v)]
  | (k', v') :: rest =>
      if key_eqb k k' then (k', v) :: rest else (k', v') :: set_item k v rest
  end.

(** [del d[k]] on the items of a dict. *)
Fixpoint remove_key (k : val) (items : list (val * val)) : list (val * val) :=
  match items with
  | [] => []
  | (k', v) :: rest =>
      if key_eqb k k' then rest else (k', v) :: remove_key k rest
  end.

Definition type_name (v : val) : H string :=
  match v with
  | VNone => ret "NoneType"
  | VBool _ => ret "bool"
  | VInt _ => ret "int"
  | VStr _ => ret "str"
  | VRef l =>
      o <- deref l ;;
      ret (match o with ODict _ => "dict" | OList _ => "list" end)
  end.

Definition type_error {A} (v : val) (what : string) : H A :=
  n <- type_name v ;;
  raise (Exn TypeError ("'" ++ n ++ "' object " ++ what)).

Definition attribute_error {A} (v : val) (attr : string) : H A :=
  n <- type_name v ;;
  raise (Exn AttributeError
             ("'" ++ n ++ "' object has no attribute '" ++ attr ++ "'")).

(** Python truthiness. *)
Definition truthy (v : val) : H bool :=
  match v with
  | VNone => ret false
  | VBool b => ret b
  | VInt n => ret (negb (n =? 0))
  | VStr s => ret (negb (String.eqb s ""))
  | VRef l =>
      o <- deref l ;;
      ret (match o with
           | ODict [] | OList [] => false
           | _ => true
           end)
  end.

(** [x == k] for a string [k]: only an equal string is. *)
Definition eq_str (x : val) (k : string) : bool :=
  match x with
  | VStr s => String.eqb s k
  | _ => false
  end.

(** [k in c] for a string [k]. *)
Definition contains_str (c : val) (k : string) : H bool :=
  match c with
  | VRef l =>
      o <- deref l ;;
      match o with
      | ODict items =>
          ret (match lookup (VStr k) items with Some _ => true | None => false end)
      | OList elems => ret (existsb (fun x => eq_str x k) elems)
      end
  | VStr s => ret (is_substring k s)
  | _ =>
      n <- type_name c ;;
      raise (Exn TypeError ("argument of type '" ++ n ++ "' is not iterable"))
  end.

(** [c[k]] for a string [k]. *)
Definition getitem_str (c : val) (k : string) : H val :=
  match c with
  | VRef l =>
      o <- deref l ;;
      match o with
      | ODict items =>
          match lookup (VStr k) items with
          | Some v => ret v
          | None => raise (Exn KeyError ("'" ++ k ++ "'"))
          end
      | OList _ =>
          raise (Exn TypeError "list indices must be integers or slices, not str")
      end
  | VStr _ => raise (Exn TypeError "string indices must be integers, not 'str'")
  | _ => type_error c "is not subscriptable"
  end.

(** [c.get(k, default)]. *)
Definition method_get (c : val) (k : string) (default : val) : H val :=
  match c with
  | VRef l =>
      o <- deref l ;;
      match o with
      | ODict items =>
          ret (match lookup (VStr k) items with Some v => v | None => default end)
      | OList _ => attribute_error c "get"
      end
  | _ => attribute_error c "get"
  end.

Fixpoint chars (s : string) : list val :=
  match s with
  | EmptyString => []
  | String c rest => VStr (String c EmptyString) :: chars rest
  end.

(** The elements a [for x in c] loop visits.  The loops of
    [extract_document_entities] write to no object they iterate, so the
    elements are read once, at the start of the loop. *)
Definition iterate (c : val) : H (list val) :=
  match c with
  | VRef l =>
      o <- deref l ;;
      ret (match o with
           | ODict items => map fst items
           | OList elems => elems
           end)
  | VStr s => ret (chars s)
  | _ => type_error c "is not iterable"
  end.

(** [c.copy()]: a new object with the same items (a shallow copy). *)
Definition method_copy (c : val) : H val :=
  match c with
  | VRef l => o <- deref l ;; alloc o
  | _ => attribute_error c "copy"
  end.

(** [del c[k]] for a string [k]. *)
Definition delitem_str (c : val) (k : string) : H unit :=
  match c with
  | VRef l =>
      o <- deref l ;;
      match o with
      | ODict items =>
          match lookup (VStr k) items with
          | Some _ => store l (ODict (remove_key (VStr k) items))
          | None => raise (Exn KeyError ("'" ++ k ++ "'"))
          end
      | OList _ =>
          raise (Exn TypeError "list indices must be integers or slices, not str")
      end
  | _ => type_error c "doesn't support item deletion"
  end.

(** [c.append(x)]. *)
Definition method_append (c x : val) : H unit :=
  match c with
  | VRef l =>
      o <- deref l ;;
      match o with
      | OList elems => store l (OList (elems ++ [x]))
      | ODict _ => attribute_error c "append"
      end
  | _ => attribute_error c "append"
  end.

(** Hashing a key: lists and dicts are unhashable. *)
Definition hash_key (k : val) : H unit :=
  match k with
  | VRef l =>
      n <- type_name k ;;
      raise (Exn TypeError ("unhashable type: '" ++ n ++ "'"))
  | _ => ret tt
  end.

(** The dict a local variable was bound to by a dict display. *)
Definition deref_dict (d : loc) : H (list (val * val)) :=
  o <- deref d ;;
  match o with
  | ODict items => ret items
  | OList _ => fun h => (Abort DanglingRef, h)
  end.

(** [k in d], [d[k] = v] and [d[k]] for a dict [d] and any key. *)
Definition dict_contains (d : loc) (k : val) : H bool :=
  hash_key k ;;
  items <- deref_dict d ;;
  ret (match lookup k items with Some _ => true | None => false end).

Definition dict_setitem (d : loc) (k v : val) : H unit :=
  hash_key k ;;
  items <- deref_dict d ;;
  store d (ODict (set_item k v items)).

Definition dict_getitem (d : loc) (k : val) : H val :=
  hash_key k ;;
  items <- deref_dict d ;;
  match lookup k items with
  | Some v => ret v
  | None => raise (Exn KeyError "key")
  end.

Fixpoint for_each {A} (xs : list A) (body : A -> H unit) : H unit :=
  match xs with
  | [] => ret tt
  | x :: rest => body x ;; for_each rest body
  end.

(** The body of [for entity in entities]. *)
Definition process_entity (extracted_info : loc) (doc_type entity : val)
  : H unit :=
  has_structure <- contains_str entity "structure" ;;
  if has_structure then
    original <- getitem_str entity "structure" ;;
    structure <- method_copy original ;;
    has_name <- contains_str structure "name_to_show" ;;
    (if has_name then delitem_str structure "name_to_show" else ret tt) ;;
    entries <- dict_getitem extracted_info doc_type ;;
    method_append entries structure
  else ret tt.

(** The body of [for document in record_result['documents']]. *)
Definition process_document (extracted_info : loc) (document : val) : H unit :=
  doc_type <- method_get document "document_type" (VStr "unknown") ;;
  no_entities <- alloc (OList []) ;;
  entities <- method_get document "entities" no_entities ;;
  known <- dict_contains extracted_info doc_type ;;
  (if negb known then
     entries <- alloc (OList []) ;;
     dict_setitem extracted_info doc_type entries
   else ret tt) ;;
  es <- iterate entities ;;
  for_each es (process_entity extracted_info doc_type).

Definition extract_document_entities (record_result : val) : H val :=
  extracted_info <- alloc_loc (ODict []) ;;
  is_truthy <- truthy record_result ;;
  has_documents <-
    (if is_truthy then contains_str record_result "documents" else ret false) ;;
  if negb is_truthy || negb has_documents then ret (VRef extracted_info)
  else
    documents <- getitem_str record_result "documents" ;;
    ds <- iterate documents ;;
    for_each ds (process_document extracted_info) ;;
    ret (VRef extracted_info).

(** Putting a parsed JSON tree into the store, as [response.json()] builds
    it: every list and dict is a new object. *)
Fixpoint load (j : json) : H val :=
  match j with
  | JNull => ret VNone
  | JBool b => ret (VBool b)
  | JNum n => ret (VInt n)
  | JStr s => ret (VStr s)
  | JList l =>
      vs <- (fix load_all (l : list json) : H (list val) :=
               match l with
               | [] => ret []
               | x :: rest =>
                   v <- load x ;; vs <- load_all rest ;; ret (v :: vs)
               end) l ;;
      alloc (OList vs)
  | JDict d =>
      items <- (fix load_items (d : list (string * json)) : H (list (val * val)) :=
                  match d with
                  | [] => ret []
                  | (k, x) :: rest =>
                      v <- load x ;; items <- load_items rest ;;
                      ret ((VStr k, v) :: items)
                  end) d ;;
      alloc (ODict items)
  end.


(** ** Reading the store *)

Definition dict_at (h : heap) (v : val) : option (list (val * val)) :=
  match v with
  | VRef l =>
      match nth_error h l with
      | Some (ODict items) => Some items
      | _ => None
      end
  | _ => None
  end.

Definition list_at (h : heap) (v : val) : option (list val) :=
  match v with
  | VRef l =>
      match nth_error h l with
      | Some (OList elems) => Some elems
      | _ => None
      end
  | _ => None
  end.

Fixpoint all_some {A} (l : list (option A)) : option (list A) :=
  match l with
  | [] => Some []
  | Some a :: rest =>
      match all_some rest with
      | Some r => Some (a :: r)
      | None => None
      end
  | None :: _ => None
  end.

Fixpoint present {A} (l : list (option A)) : list A :=
  match l with
  | [] => []
  | Some a :: rest => a :: present rest
  | None :: rest => present rest
  end.

(** An entity of a Record payload: a dict; its [structure], when it has
    one, is a dict, whose items are the view. *)
Definition view_entity (h : heap) (entity : val)
  : option (option (list (val * val))) :=
  match dict_at h entity with
  | Some items =>
      match lookup (VStr "structure") items with
      | None => Some None
      | Some s =>
          match dict_at h s with
          | Some structure => Some (Some structure)
          | None => None
          end
      end
  | None => None
  end.

(** A document of a Record payload: a dict; its [document_type], when
    present, is a string (when absent the code uses "unknown"); its
    [entities], when present, is a list of entities.  The view is the type
    and the structures of the entities that have one, in order. *)
Definition view_document (h : heap) (document : val)
  : option (string * list (list (val * val))) :=
  match dict_at h document with
  | Some items =>
      match
        match lookup (VStr "document_type") items with
        | None => Some "unknown"
        | Some (VStr s) => Some s
        | Some _ => None
        end,
        match lookup (VStr "entities") items with
        | None => Some []
        | Some e => list_at h e
        end
      with
      | Some doc_type, Some es =>
          match all_some (map (view_entity h) es) with
          | Some structures => Some (doc_type, present structures)
          | None => None
          end
      | _, _ => None
      end
  | None => None
  end.

(** A Record payload with documents: a dict whose [documents] is a list of
    documents. *)
Definition view_record (h : heap) (record_result : val)
  : option (list (string * list (list (val * val)))) :=
  match dict_at h record_result with
  | Some items =>
      match lookup (VStr "documents") items with
      | Some d =>
          match list_at h d with
          | Some ds => all_some (map (view_document h) ds)
          | None => None
          end
      | None => None
      end
  | None => None
  end.

(** A structure without its [name_to_show] field. *)
Definition cleaned (structure : list (val * val)) : list (val * val) :=
  remove_key (VStr "name_to_show") structure.

(** What the specification asks of the result: each document type with the
    cleaned structures of that document's entities. *)
Definition shaped (docs : list (string * list (list (val * val))))
  : list (val * list (list (val * val))) :=
  map (fun d => (VStr (fst d), map cleaned (snd d))) docs.

(** The result as the caller reads it: a dict from keys to lists of dicts,
    each given by its items. *)
Definition read_entries (h : heap) (entries : val)
  : option (list (list (val * val))) :=
  match list_at h entries with
  | Some cs => all_some (map (dict_at h) cs)
  | None => None
  end.

Definition read_result (h : heap) (extracted_info : val)
  : option (list (val * list (list (val * val)))) :=
  match dict_at h extracted_info with
  | Some items =>
      all_some (map (fun kv =>
                       match read_entries h (snd kv) with
                       | Some ss => Some (fst kv, ss)
                       | None => None
                       end) items)
  | None => None
  end.

(** [m] leaves the store as it is. *)
Definition readonly {A} (m : H A) : Prop := forall h, snd (m h) = h.

(** Hoare triples on the store. *)
Definition hoare {A} (P : heap -> Prop) (m : H A)
           (Q : result A -> heap -> Prop) : Prop :=
  forall h, P h -> Q (fst (m h)) (snd (m h)).

(** While [extract_document_entities] runs: the store it was given is
    intact, and [extracted_info] is a dict whose values are references to
    objects made since. *)
Definition working (h0 : heap) (extracted_info : loc) (h : heap) : Prop :=
  (exists made, h = (h0 ++ made)%list)
  /\ (List.length h0 <= extracted_info)%nat
  /\ exists items,
      nth_error h extracted_info = Some (ODict items)
      /\ Forall (fun kv => exists l, snd kv = VRef l
                                      /\ (List.length h0 <= l)%nat) items.

(** [keeps I m]: [m] maintains the invariant [I] however it ends. *)
Definition keeps {A} (I : heap -> Prop) (m : H A) : Prop :=
  hoare I m (fun _ h => I h).

(** A value returned is a reference to an object made during the call, and
    not [extracted_info] itself. *)
Definition is_made (h0 : heap) (extracted_info : loc) (r : result val) : Prop :=
  forall v, r = Ret v ->
            exists l, v = VRef l /\ (List.length h0 <= l)%nat
                      /\ l <> extracted_info.

Definition has_key (k : string) (items : list (val * val)) : bool :=
  match lookup (VStr k) items with Some _ => true | None => false end.

(** Every object of [h0] is in [h], unchanged. *)
Definition intact (h0 h : heap) : Prop :=
  forall l o, nth_error h0 l = Some o -> nth_error h l = Some o.

(** Every object of [h] but the one at [p] is in [h'], unchanged. *)
Definition intact_but (p : loc) (h h' : heap) : Prop :=
  forall l o, nth_error h l = Some o -> l <> p -> nth_error h' l = Some o.

(** The dicts at the locations [cs] have the items [ss], and none of them
    is [extracted_info]. *)
Definition copies_at (extracted_info : loc) (h : heap) (cs : list loc)
           (ss : list (list (val * val))) : Prop :=
  Forall2 (fun c s => c <> extracted_info /\ nth_error h c = Some (ODict s))
          cs ss.

(** An item of [extracted_info] against what it should hold: the key is
    the document type, the value a list of dicts with the given items. *)
Definition entry_rep (extracted_info : loc) (h : heap) (kv : val * val)
           (a : string * list (list (val * val))) : Prop :=
  fst kv = VStr (fst a)
  /\ exists l cs,
      snd kv = VRef l /\ l <> extracted_info
      /\ nth_error h l = Some (OList (map VRef cs))
      /\ copies_at extracted_info h cs (snd a).

Definition result_rep (extracted_info : loc) (h : heap)
           (A : list (string * list (list (val * val)))) : Prop :=
  exists items,
    nth_error h extracted_info = Some (ODict items)
    /\ Forall2 (entry_rep extracted_info h) items A.

(** The record of the round trip of the specification, as a JSON tree. *)
Definition sample_record : json :=
  JDict [("status", JStr "complete");
         ("documents",
          JList [JDict [("document_type", JStr "acta");
                        ("entities",
                         JList [JDict [("structure",
                                        JDict [("name_to_show", JStr "X");
                                               ("value", JNum 1)])]])];
                 JDict [("document_type", JStr "poder")]])].

(** The store [response.json()] builds for [sample_record], and the
    reference to the record in it. *)
Definition sample_store : heap :=
  [ODict [(VStr "name_to_show", VStr "X"); (VStr "value", VInt 1)];
   ODict [(VStr "structure", VRef 0%nat)];
   OList [VRef 1%nat];
   ODict [(VStr "document_type", VStr "acta"); (VStr "entities", VRef 2%nat)];
   ODict [(VStr "document_type", VStr "poder")];
   OList [VRef 3%nat; VRef 4%nat];
   ODict [(VStr "status", VStr "complete"); (VStr "documents", VRef 5%nat)]].

Definition sample_root : val := VRef 6%nat.

(** The view of [sample_record]: the first document has one structure, the
    second has no entities. *)
Definition sample_view : list (string * list (list (val * val))) :=
  [("acta", [[(VStr "name_to_show", VStr "X"); (VStr "value", VInt 1)]]);
   ("poder", [])].

End Store.
(* ================================================================== *)
(** * NebuiaClient: the workflows built on the endpoints *)

Section Workflows.
Variable W : Type.
Variable env : Env W.

(** The upload loop of [process_full_workflow]: nothing guards an upload,
    so the first one that raises ends the loop. *)
Fixpoint upload_all (record_id : json) (items : list (string * string))
  : M W unit :=
  match items with
  | [] => ret tt
  | (doc_type, file_path) :: rest =>
      NebuiaClient.upload_document env record_id file_path doc_type ;;
      upload_all record_id rest
  end.

(** [process_full_workflow]: create the record, upload every document,
    wait for the record; whatever is raised on the way is raised again as
    a [NebuiaError]. *)
Definition process_full_workflow (fuel : nat) (configuration_ref : string)
           (document_map : dict string) (timeout : Z)
           (status_callback : option (json -> Z -> json -> M W unit))
  : M W json :=
  try_except
    (record_response <- NebuiaClient.create_record env configuration_ref ;;
     record_id <- lift (py_get record_response "id" JNull) ;;
     upload_all record_id document_map ;;
     NebuiaClient.wait_for_record_completion env fuel record_id timeout 10
                                             status_callback)
    (fun e =>
       raise (Exn NebuiaError ("Workflow execution failed: " ++ exn_msg e))).

(** The sequential loop of [process_multiple_records]. *)
Fixpoint process_each (fuel : nat) (configuration_ref : string)
         (document_maps : list (dict string)) (results : list json)
  : M W (list json) :=
  match document_maps with
  | [] => ret results
  | document_map :: rest =>
      result <- process_full_workflow fuel configuration_ref document_map
                                      900 None ;;
      process_each fuel configuration_ref rest (results ++ [result])%list
  end.

(** [process_multiple_records]: the concurrent branch only logs a
    warning. *)
Definition process_multiple_records (fuel : nat) (configuration_ref : string)
           (document_maps : list (dict string)) (concurrent : bool)
           (max_concurrent : Z) : M W (list json) :=
  if concurrent then ret []
  else process_each fuel configuration_ref document_maps [].

End Workflows.

(* ================================================================== *)
(** * More vocabulary for traces and results *)

(** The uploads the service accepted, as a trace shows them: the document
    type and the path sent, in call order. *)
Fixpoint accepted_uploads (t : list event) : list (string * string) :=
  match t with
  | [] => []
  | EvUpload _ file_path document_type (Reply _) :: rest =>
      (document_type, file_path) :: accepted_uploads rest
  | _ :: rest => accepted_uploads rest
  end.

(** The reply to the last record fetch of a trace. *)
Fixpoint last_fetch (t : list event) : option reply :=
  match t with
  | [] => None
  | ev :: rest =>
      match last_fetch rest with
      | Some r => Some r
      | None => match ev with EvGetRecord _ r => Some r | _ => None end
      end
  end.

(** No call follows an upload the service refused. *)
Fixpoint stops_at_failed_upload (t : list event) : Prop :=
  match t with
  | [] => True
  | EvUpload _ _ _ (Fault _) :: rest => rest = []
  | _ :: rest => stops_at_failed_upload rest
  end.

Definition is_create_record (ev : event) : bool :=
  match ev with EvCreateRecord _ _ => true | _ => false end.

(** [verification.get("status") is True] on a stored verification result. *)
Definition result_passed (verification : json) : bool :=
  reply_passed (Reply verification).

(** The record is complete: its [status] is the string "complete". *)
Definition is_complete (record_details : json) : Prop :=
  py_get record_details "status" (JStr "unknown") = Ret (JStr "complete").

(** A string without a path separator. *)
Fixpoint has_slash (s : string) : bool :=
  match s with
  | EmptyString => false
  | String c rest => Ascii.eqb c "/" || has_slash rest
  end.

(** What a run returns, when it returns a record, is the last snapshot of
    the record that it fetched, as it is or with [verification_results]
    set. *)
Definition returns_latest_snapshot (W : Type)
           (x : result json * W * list event) : Prop :=
  forall result,
    outcome x = Ret result ->
    result = JNull
    \/ exists snapshot,
        last_fetch (trace x) = Some (Reply snapshot)
        /\ (result = snapshot
            \/ exists verification_results,
                py_setitem snapshot "verification_results"
                           (JDict verification_results) = Ret result).

(** Verification replies: [doc-a] is what it should be, [doc-b] is not. *)
Definition mixed_verify (doc_id : json) : reply :=
  if py_eq_str doc_id "doc-a" then Reply (JDict [("status", JBool true)])
  else Reply (JDict [("status", JBool false);
                     ("points", JList [JStr "No es un poder notarial"]);
                     ("type_document_found", JStr "factura")]).

Definition mixed_env : Env Z :=
  scripted (fun _ => true) (Reply (JDict [("id", JStr "rec-1")]))
           (fun _ => Reply (JDict []))
           (fun _ => Reply (JDict [("status", JStr "waiting")]))
           (fun _ _ => Reply (JDict [("status", JStr "complete")]))
           mixed_verify
           (Reply (JDict [("job_id", JStr "job-1")])).

(** A service whose reply to the record creation carries no id. *)
Definition no_record_env : Env Z :=
  scripted (fun _ => true) (Reply (JDict [("message", JStr "quota exceeded")]))
           (fun _ => Reply (JDict [])) (fun _ => Reply (JDict []))
           (fun _ _ => Reply (JDict [("status", JStr "complete")]))
           (fun _ => Reply (JDict [("status", JBool true)]))
           (Reply (JDict [("job_id", JStr "job-1")])).

Definition is_upload (ev : event) : bool :=
  match ev with EvUpload _ _ _ _ => true | _ => false end.

(** An upload request that the service answered with an error. *)
Definition upload_refused (ev : event) : bool :=
  match ev with EvUpload _ _ _ (Fault _) => true | _ => false end.

(** The number of record creations a trace shows. *)
Definition records_created (t : list event) : nat :=
  List.length (filter is_create_record t).

(** No observer: the case of an observer that always returns. *)
Definition no_observer_answer (status : json) (elapsed_time : Z)
           (record_details : json) : result unit := Ret tt.

(** A service that refuses the upload of [poder] and accepts the others. *)
Definition refusing_env : Env Z :=
  scripted (fun _ => true) (Reply (JDict [("id", JStr "rec-1")]))
           (fun doc_type =>
              if String.eqb doc_type "poder"
              then Fault (Exn NebuiaApiError
                              "API Error (413): Request failed: Payload Too Large")
              else Reply (JDict []))
           (fun _ => Reply (JDict [("status", JStr "complete")]))
           (fun _ _ => Reply (JDict [("status", JStr "complete")]))
           (fun _ => Reply (JDict [("status", JBool true)]))
           (Reply (JDict [("job_id", JStr "job-1")])).

(** A service that refuses to create the processing job. *)
Definition failing_job_env : Env Z :=
  scripted (fun _ => true) (Reply (JDict [("id", JStr "rec-1")]))
           (fun _ => Reply (JDict []))
           (fun _ => Reply (JDict [("status", JStr "waiting")]))
           (fun _ _ => Reply (JDict [("status", JStr "complete")]))
           (fun _ => Reply (JDict [("status", JBool true)]))
           (Fault (Exn NebuiaApiError
                       "API Error (409): Request failed: Conflict")).

(** The small file system, with a PDF that exists and cannot be read. *)
Definition unreadable_env : Env Z :=
  with_file_errors
    small_fs_env (fun _ => None)
    (fun p => if String.eqb p "docs/acta.pdf"
              then Some "[Errno 13] Permission denied: 'docs/acta.pdf'"
              else None).

Definition three_documents : dict string :=
  [("acta", "docs/acta.pdf"); ("poder", "docs/poder.pdf");
   ("rfc", "docs/rfc.pdf")].
(* ================================================================== *)
(** * NebuiaClient on the wire

    The endpoints of [nebuia_client.py] as they build their requests, and
    the cURL log.  The transport ([requests.Session]), the file system, the
    clock of [time.strftime], [json.dumps], the [repr] of lists and dicts
    and the case mapping of characters beyond ASCII form the environment
    [Net]; what the client hands to the session,
    what it logs and which files it opens and closes is recorded in a
    trace.  Of [NebuiaApiError] the class and [str(e)] are modelled, not
    the attributes [status_code] and [response_body]. *)

Module Wire.

(** ** Strings as Python formats them *)

Definition upper_ascii (c : ascii) : ascii :=
  let n := nat_of_ascii c in
  if (Nat.leb 97 n && Nat.leb n 122)%bool then ascii_of_nat (n - 32) else c.

(** [s.upper()] of a string of ASCII characters. *)
Fixpoint upper_letters (s : string) : string :=
  match s with
  | EmptyString => EmptyString
  | String c rest => String (upper_ascii c) (upper_letters rest)
  end.

(** Strings are byte strings (UTF-8): a character beyond ASCII shows as a
    byte of 128 or more. *)
Fixpoint is_ascii (s : string) : bool :=
  match s with
  | EmptyString => true
  | String c rest => Nat.ltb (nat_of_ascii c) 128 && is_ascii rest
  end.

(** [str(n)] for an integer. *)
Definition str_of_int (n : Z) : string := NilZero.string_of_int (Z.to_int n).

(** [c * n] for a one-character string. *)
Fixpoint repeat_char (c : ascii) (n : nat) : string :=
  match n with
  | O => EmptyString
  | S n' => String c (repeat_char c n')
  end.

(** The new-line character. *)
Definition newline : string := String "010" EmptyString.

(** [shlex.quote]: the characters that need no quoting are those of
    [[a-zA-Z0-9_@%+=:,./-]]. *)
Definition safe_char (c : ascii) : bool :=
  let n := nat_of_ascii c in
  (Nat.leb 48 n && Nat.leb n 57) || (Nat.leb 65 n && Nat.leb n 90)
  || (Nat.leb 97 n && Nat.leb n 122)
  || existsb (Ascii.eqb c) ["_"; "@"; "%"; "+"; "="; ":"; ","; "."; "/"; "-"]%char.

Fixpoint all_safe (s : string) : bool :=
  match s with
  | EmptyString => true
  | String c rest => safe_char c && all_safe rest
  end.

(** [s.replace("'", "'\"'\"'")]: every single quote becomes a closing
    quote, a double-quoted single quote and an opening quote. *)
Fixpoint escape_quotes (s : string) : string :=
  match s with
  | EmptyString => EmptyString
  | String c rest =>
      if Ascii.eqb c "'"
      then String "'" (String "034" (String "'" (String "034"
             (String "'" (escape_quotes rest)))))
      else String c (escape_quotes rest)
  end.

Definition shlex_quote (s : string) : string :=
  if String.eqb s "" then "''"
  else if all_safe s then s
  else "'" ++ escape_quotes s ++ "'".

(** [len(v)]. *)
Definition py_len (v : json) : result Z :=
  match v with
  | JList l => Ret (Z.of_nat (List.length l))
  | JDict d => Ret (Z.of_nat (List.length d))
  | JStr s => Ret (Z.of_nat (String.length s))
  | _ => Raise (Exn TypeError
                 ("object of type '" ++ type_name v ++ "' has no len()"))
  end.

(** [v.items()]. *)
Definition py_items (v : json) : result (list (string * json)) :=
  match v with
  | JDict d => Ret d
  | _ => Raise (Exn AttributeError
                 ("'" ++ type_name v ++ "' object has no attribute 'items'"))
  end.

(** ** Requests and responses *)

Inductive verb : Type := GET | POST.

(** An entry of [files]: the name, the open file (named by its path) and
    the content type. *)
Record file_tuple : Type := MkFile {
  file_name : string;
  file_object : string;
  content_type : string
}.

(** What a [session.post] call is given as a body: nothing ([session.get]),
    [json=data], or [data=data, files=files]. *)
Inductive payload : Type :=
| NoPayload
| JsonPayload (data : json)
| FormPayload (data : json) (files : dict file_tuple).

Record request : Type := MkRequest {
  rq_verb : verb;
  rq_url : string;
  rq_headers : dict string;
  rq_params : option (dict json);
  rq_payload : payload;
  rq_timeout : Z
}.

(** [response.json()]: the parsed body, or the exception it raises, which
    is a [requests.RequestException] in some versions of the library and a
    plain [ValueError] in others. *)
Inductive body_json : Type :=
| Parsed (v : json)
| NotJson (request_exception : bool) (msg : string).

Record response : Type := MkResponse {
  ok : bool;
  status_code : Z;
  reason : string;
  body : body_json
}.

(** What a call of the session comes to: a response, a
    [requests.RequestException] (given by its [str(e)]), or another
    exception. *)
Inductive sent : Type :=
| Responded (r : response)
| RequestFailed (msg : string)
| Failed (e : exn).

Record Net (W : Type) : Type := MkNet {
  (** [session.get] and [session.post] *)
  session_send : request -> W -> sent * W;
  (** [path.exists()], when it answers *)
  file_exists : string -> W -> bool;
  (** [str(e)] of the [OSError] that [path.exists()] lets through, if
      [os.stat] raised one other than ENOENT, ENOTDIR, EBADF and ELOOP *)
  file_stat_error : string -> W -> option string;
  (** [open(path, "rb")]: the exception raised, if any *)
  file_open : string -> W -> option exn * W;
  (** [f.close()] *)
  file_close : string -> W -> W;
  (** [time.strftime("%Y-%m-%d %H:%M:%S")] *)
  strftime : W -> string;
  (** [json.dumps] *)
  json_dumps : json -> string;
  (** [str(v)] of a list or a dict *)
  repr : json -> string;
  (** [s.upper()] of a string with characters beyond ASCII *)
  unicode_upper : string -> string
}.

(** [s.upper()]: Unicode case mapping sends some characters beyond ASCII
    to ASCII letters (U+017F to S), so only ASCII strings are computed. *)
Definition upper (W : Type) (net : Net W) (s : string) : string :=
  if is_ascii s then upper_letters s else unicode_upper net s.

Inductive wire_event : Type :=
| Logged (log_entry : string)
| Sent (rq : request) (r : sent)
| Opened (path : string)
| Closed (path : string).

(** ** The monad of client code *)

Definition T (W A : Type) : Type := W -> result A * W * list wire_event.

Definition ret {W A} (a : A) : T W A := fun w => (Ret a, w, []).

Definition raise {W A} (e : exn) : T W A := fun w => (Raise e, w, []).

Definition lift {W A} (r : result A) : T W A := fun w => (r, w, []).

Definition bind {W A B} (m : T W A) (f : A -> T W B) : T W B :=
  fun w =>
    match m w with
    | (Ret a, w1, t1) =>
        match f a w1 with
        | (r, w2, t2) => (r, w2, (t1 ++ t2)%list)
        end
    | (Raise e, w1, t1) => (Raise e, w1, t1)
    | (Abort y, w1, t1) => (Abort y, w1, t1)
    end.

(** [try: m  except: h e] *)
Definition try_except {W A} (m : T W A) (h : exn -> T W A) : T W A :=
  fun w =>
    match m w with
    | (Raise e, w1, t1) =>
        match h e w1 with
        | (r, w2, t2) => (r, w2, (t1 ++ t2)%list)
        end
    | other => other
    end.

(** [try: m  finally: f] *)
Definition try_finally {W A} (m : T W A) (f : T W unit) : T W A :=
  fun w =>
    match m w with
    | (Abort y, w1, t1) => (Abort y, w1, t1)
    | (r, w1, t1) =>
        match f w1 with
        | (Ret _, w2, t2) => (r, w2, (t1 ++ t2)%list)
        | (Raise e, w2, t2) => (Raise e, w2, (t1 ++ t2)%list)
        | (Abort y, w2, t2) => (Abort y, w2, (t1 ++ t2)%list)
        end
    end.

Declare Scope wire_scope.
Delimit Scope wire_scope with wire.
Notation "x <- m ;; k" := (bind m (fun x => k))
  (at level 61, m at next level, right associativity) : wire_scope.
Notation "m ;; k" := (bind m (fun _ => k))
  (at level 61, right associativity) : wire_scope.
Local Open Scope wire_scope.

Definition outcome {W A} (x : result A * W * list wire_event) : result A :=
  fst (fst x).
Definition final {W A} (x : result A * W * list wire_event) : W := snd (fst x).
Definition trace {W A} (x : result A * W * list wire_event) : list wire_event :=
  snd x.

(** ** The client *)

(** [NebuiaCredentials] with the settings of the client. *)
Record NebuiaClient : Type := MkClient {
  client_id : string;
  api_key : string;
  api_secret : string;
  timeout : Z;
  enable_curl_logging : bool
}.

Definition BASE_URL : string := "https://clients-copilot.nebuia.com".

Definition DEFAULT_TIMEOUT : Z := 300.

(** [NebuiaCredentials.__post_init__] *)
Definition __post_init__ (client_id api_key api_secret : string) : result unit :=
  if String.eqb client_id "" || String.eqb api_key ""
     || String.eqb api_secret ""
  then Raise (Exn ValueError
                  "All credential fields (client_id, api_key, api_secret) are required")
  else Ret tt.

(** [NebuiaClient.__init__] *)
Definition __init__ (client_id api_key api_secret : string) (timeout : Z)
           (enable_curl_logging : bool) : result NebuiaClient :=
  rbind (__post_init__ client_id api_key api_secret) (fun _ =>
  Ret (MkClient client_id api_key api_secret timeout enable_curl_logging)).

(** [self.headers] and [self.upload_headers] *)
Definition headers (self : NebuiaClient) : dict string :=
  [("X-API-Key", api_key self); ("X-API-Secret", api_secret self);
   ("Content-Type", "application/json")].

Definition upload_headers (self : NebuiaClient) : dict string :=
  [("X-API-Key", api_key self); ("X-API-Secret", api_secret self)].

(** Truth value of an optional dict: [None] and [{}] are falsy. *)
Definition given {V : Type} (d : option (dict V)) : bool :=
  match d with
  | Some (_ :: _) => true
  | _ => false
  end.

Definition items_of {V : Type} (d : option (dict V)) : dict V :=
  match d with
  | Some l => l
  | None => []
  end.

Section Client.
Variable W : Type.
Variable net : Net W.
Variable self : NebuiaClient.

(** [f"{v}"] *)
Definition fmt (v : json) : string :=
  match v with
  | JStr s => s
  | JNum n => str_of_int n
  | JBool true => "True"
  | JBool false => "False"
  | JNull => "None"
  | _ => repr net v
  end.

(** The list [command] of [_to_curl_command], before it is joined. *)
Definition curl_words (method url : string) (headers : dict string)
           (params : option (dict json)) (data : json)
           (files : option (dict file_tuple)) : result (list string) :=
  let command := ["curl"; "-X"; upper net method] in
  let full_url :=
    if given params then
      url ++ "?"
          ++ String.concat "&" (map (fun kv => fst kv ++ "=" ++ fmt (snd kv))
                                    (items_of params))
    else url in
  let command := (command ++ [shlex_quote full_url])%list in
  let command :=
    (command
       ++ flat_map (fun kv => ["-H"; shlex_quote (fst kv ++ ": " ++ snd kv)])
                   headers)%list in
  let command :=
    if truthy data && negb (given files) then
      let data_str :=
        match data with
        | JDict _ => json_dumps net data
        | _ => fmt data
        end in
      (command ++ ["--data"; shlex_quote data_str])%list
    else command in
  rbind
    (if given files then
       rbind
         (if truthy data then
            rbind (py_items data) (fun fields =>
            Ret (command
                   ++ flat_map
                        (fun kv =>
                           ["-F"; shlex_quote (fst kv ++ "=" ++ fmt (snd kv))])
                        fields)%list)
          else Ret command)
         (fun command =>
            Ret (command
                   ++ flat_map
                        (fun kf =>
                           ["-F";
                            shlex_quote (fst kf ++ "=@" ++ file_name (snd kf))])
                        (items_of files))%list)
     else Ret command)
    (fun command =>
       Ret (command ++ ["--connect-timeout"; str_of_int (timeout self)])%list).

Definition _to_curl_command (method url : string) (headers : dict string)
           (params : option (dict json)) (data : json)
           (files : option (dict file_tuple)) : result string :=
  rbind (curl_words method url headers params data files) (fun command =>
  Ret (String.concat " " command)).

(** The entry [_log_curl_command] writes. *)
Definition log_entry_of (timestamp curl_command operation_name : string)
  : string :=
  newline ++ repeat_char "=" 80 ++ newline
  ++ "OPERATION: " ++ operation_name ++ newline
  ++ "TIMESTAMP: " ++ timestamp ++ newline
  ++ "CURL COMMAND:" ++ newline ++ curl_command ++ newline
  ++ repeat_char "=" 80 ++ newline.

Definition _log_curl_command (curl_command operation_name : string)
  : T W unit :=
  if negb (enable_curl_logging self) then ret tt
  else fun w =>
         (Ret tt, w,
          [Logged (log_entry_of (strftime net w) curl_command
                                operation_name)]).

(** What the [try] block of [_make_request] makes of a call of the
    session: a response that is not [ok] is a [NebuiaApiError], a
    [requests.RequestException] is a [NebuiaError], the parsed body is the
    value. *)
Definition result_of_sent (r : sent) : result json :=
  match r with
  | Responded resp =>
      if negb (ok resp) then
        Raise (Exn NebuiaApiError
                   ("API Error (" ++ str_of_int (status_code resp)
                    ++ "): Request failed: " ++ reason resp))
      else
        match body resp with
        | Parsed v => Ret v
        | NotJson true msg =>
            Raise (Exn NebuiaError ("Network error: " ++ msg))
        | NotJson false msg => Raise (Exn ValueError msg)
        end
  | RequestFailed msg => Raise (Exn NebuiaError ("Network error: " ++ msg))
  | Failed e => Raise e
  end.

(** A call of the session. *)
Definition session_call (rq : request) : T W json :=
  fun w =>
    let (r, w') := session_send net rq w in
    (result_of_sent r, w', [Sent rq r]).

Definition _make_request (method endpoint : string)
           (params : option (dict json)) (data : json)
           (files : option (dict file_tuple))
           (custom_headers : option (dict string)) (timeout : option Z)
           (operation_name : option string) : T W json :=
  let url := BASE_URL ++ endpoint in
  let headers := if given custom_headers then items_of custom_headers
                 else headers self in
  let request_timeout :=
    match timeout with
    | Some t => if t =? 0 then Wire.timeout self else t
    | None => Wire.timeout self
    end in
  let operation_name :=
    match operation_name with
    | Some n =>
        if String.eqb n "" then upper net method ++ " " ++ endpoint else n
    | None => upper net method ++ " " ++ endpoint
    end in
  (if enable_curl_logging self then
     curl_command <-
       lift (_to_curl_command method url headers params data files) ;;
     _log_curl_command curl_command operation_name
   else ret tt) ;;
  if String.eqb (upper net method) "GET" then
    session_call (MkRequest GET url headers params NoPayload request_timeout)
  else if String.eqb (upper net method) "POST" then
    if given files then
      session_call (MkRequest POST url headers params
                              (FormPayload data (items_of files))
                              request_timeout)
    else
      session_call (MkRequest POST url headers params (JsonPayload data)
                              request_timeout)
  else raise (Exn ValueError ("HTTP method " ++ method ++ " not supported")).

(** *** Configurations *)

Definition required_fields : list string :=
  ["title"; "subtitle"; "description"; "endpoint"; "icon"; "documents"].

(** [[field for field in required_fields if field not in config_data]] *)
Fixpoint missing_in (fields : list string) (config_data : json)
  : result (list string) :=
  match fields with
  | [] => Ret []
  | field :: rest =>
      rbind (py_contains field config_data) (fun present =>
      rbind (missing_in rest config_data) (fun missing =>
      Ret (if present then missing else field :: missing)))
  end.

Definition create_configuration (config_name : string) (config_data : json)
  : T W json :=
  let endpoint :=
    "/clients/" ++ client_id self ++ "/configurations/" ++ config_name in
  missing_fields <- lift (missing_in required_fields config_data) ;;
  match missing_fields with
  | _ :: _ =>
      raise (Exn ValueError
                 ("Configuration data missing required fields: "
                  ++ String.concat ", " missing_fields))
  | [] =>
      _make_request "POST" endpoint None config_data None None None
                    (Some ("Create Configuration: " ++ config_name))
  end.

Definition get_configuration (config_name : string) : T W json :=
  let endpoint :=
    "/clients/" ++ client_id self ++ "/configurations/" ++ config_name in
  _make_request "GET" endpoint None JNull None None None
                (Some ("Get Configuration: " ++ config_name)).

Definition list_configurations (page page_size : Z) : T W json :=
  let endpoint := "/clients/" ++ client_id self ++ "/configurations" in
  let params := [("page", JNum page); ("page_size", JNum page_size)] in
  _make_request "GET" endpoint (Some params) JNull None None None
                (Some "List Configurations").

(** *** Records *)

Definition create_record (configuration_ref : string) : T W json :=
  let endpoint := "/clients/" ++ client_id self ++ "/records/create" in
  let data := JDict [("configuration_ref", JStr configuration_ref)] in
  _make_request "POST" endpoint None data None None None
                (Some ("Create Record for: " ++ configuration_ref)).

Definition get_record_details (record_id : json) : T W json :=
  let endpoint :=
    "/clients/" ++ client_id self ++ "/records/" ++ fmt record_id in
  _make_request "GET" endpoint None JNull None None None
                (Some ("Get Record Details: " ++ fmt record_id)).

Definition create_processing_job (record_id : json) : T W json :=
  let endpoint :=
    "/clients/" ++ client_id self ++ "/records/" ++ fmt record_id
    ++ "/process" in
  _make_request "POST" endpoint None (JDict []) None None None
                (Some ("Create Processing Job for Record: " ++ fmt record_id)).

(** [get_document_status] goes to another host and calls the session
    itself. *)
Definition get_document_status (document_id : json) : T W json :=
  let url :=
    "https://embeddings-distributor.nebuia.com/document/" ++ fmt document_id
    ++ "/status" in
  session_call (MkRequest GET url (headers self) None NoPayload
                          (timeout self)).

(** [params[k] = v] under [if v:], for an optional string. *)
Definition add_filter (k : string) (v : option string) (params : dict json)
  : dict json :=
  match v with
  | Some s => if String.eqb s "" then params else dict_set k (JStr s) params
  | None => params
  end.

Definition list_records (page page_size : Z)
           (status configuration_ref date_from date_to : option string)
  : T W json :=
  let endpoint := "/clients/" ++ client_id self ++ "/records" in
  let params := [("page", JNum page); ("page_size", JNum page_size)] in
  let params := add_filter "status" status params in
  let params := add_filter "configuration_ref" configuration_ref params in
  let params := add_filter "date_from" date_from params in
  let params := add_filter "date_to" date_to params in
  _make_request "GET" endpoint (Some params) JNull None None None
                (Some "List Records").

(** *** Documents *)

Definition verify_document_type (record_id document_type_id : json)
           (timeout : Z) : T W json :=
  let endpoint :=
    "/clients/" ++ client_id self ++ "/records/" ++ fmt record_id ++ "/type/"
    ++ fmt document_type_id in
  _make_request "GET" endpoint None JNull None None (Some timeout)
                (Some ("Verify Document Type: " ++ fmt document_type_id
                       ++ " for Record " ++ fmt record_id)).

(** [path.exists()]: the answer, or the [OSError] it lets through. *)
Definition path_exists (p : Pathlib.Path) : T W bool :=
  fun w =>
    match file_stat_error net (Pathlib.str p) w with
    | Some msg => (Raise (Exn OSError msg), w, [])
    | None => (Ret (file_exists net (Pathlib.str p) w), w, [])
    end.

(** [open(file_path, "rb")] *)
Definition open_rb (p : Pathlib.Path) : T W unit :=
  fun w =>
    match file_open net (Pathlib.str p) w with
    | (None, w') => (Ret tt, w', [Opened (Pathlib.str p)])
    | (Some e, w') => (Raise e, w', [])
    end.

Definition close (p : Pathlib.Path) : T W unit :=
  fun w => (Ret tt, file_close net (Pathlib.str p) w, [Closed (Pathlib.str p)]).

Definition upload_document (record_id : json) (file_path document_type : string)
           (timeout : Z) : T W json :=
  let endpoint :=
    "/clients/" ++ client_id self ++ "/records/" ++ fmt record_id
    ++ "/documents" in
  let file_path := Pathlib.parse file_path in
  ex <- path_exists file_path ;;
  if negb ex then
    raise (Exn FileNotFoundError ("File not found: " ++ Pathlib.str file_path))
  else if negb (Pathlib.is_pdf file_path) then
    raise (Exn ValueError ("File must be a PDF: " ++ Pathlib.str file_path))
  else
    let file_name := Pathlib.name file_path in
    open_rb file_path ;;
    let files :=
      [("file", MkFile file_name (Pathlib.str file_path) "application/pdf")] in
    let data := JDict [("document_type", JStr document_type)] in
    try_finally
      (_make_request "POST" endpoint None data (Some files)
                     (Some (upload_headers self)) (Some timeout)
                     (Some ("Upload Document: " ++ document_type
                            ++ " to Record " ++ fmt record_id)))
      (close file_path).

Definition list_documents (record_id : json) : T W json :=
  let endpoint :=
    "/clients/" ++ client_id self ++ "/records/" ++ fmt record_id
    ++ "/documents" in
  _make_request "GET" endpoint None JNull None None None
                (Some ("List Documents for Record: " ++ fmt record_id)).

(** *** Jobs *)

Definition get_jobs_status (detailed : bool) (page page_size : Z)
           (status date_from date_to : option string) : T W json :=
  let endpoint :=
    "/clients/" ++ client_id self ++ "/records/jobs/status/metrics" in
  let params := [("detailed", JStr (if detailed then "true" else "false"));
                 ("page", JNum page); ("page_size", JNum page_size)] in
  let params := add_filter "status" status params in
  let params := add_filter "date_from" date_from params in
  let params := add_filter "date_to" date_to params in
  _make_request "GET" endpoint (Some params) JNull None None None
                (Some "Get Jobs Status").

(** *** Summary *)

Definition get_record_summary (record_id : json) : T W json :=
  record_details <- get_record_details record_id ;;
  documents <-
    try_except (list_documents record_id)
               (fun _ => ret (JDict [("documents", JList [])])) ;;
  listed <- lift (py_get documents "documents" (JList [])) ;;
  counted <- lift (py_get documents "documents" (JList [])) ;;
  total_documents <- lift (py_len counted) ;;
  status <- lift (py_get record_details "status" JNull) ;;
  configuration_ref <- lift (py_get record_details "configuration_ref" JNull) ;;
  created_at <- lift (py_get record_details "created_at" JNull) ;;
  completed_at <- lift (py_get record_details "completed_at" JNull) ;;
  ret (JDict [("record", record_details);
              ("documents", listed);
              ("total_documents", JNum total_documents);
              ("status", status);
              ("configuration_ref", configuration_ref);
              ("created_at", created_at);
              ("completed_at", completed_at)]).

End Client.

(** ** What [_make_request] settles on

    The local variables [headers], [request_timeout] and [operation_name]
    of [_make_request], and the body it hands to the session. *)

Definition chosen_headers (self : NebuiaClient)
           (custom_headers : option (dict string)) : dict string :=
  if given custom_headers then items_of custom_headers else headers self.

Definition chosen_timeout (self : NebuiaClient) (timeout : option Z) : Z :=
  match timeout with
  | Some t => if t =? 0 then Wire.timeout self else t
  | None => Wire.timeout self
  end.

Definition chosen_name (W : Type) (net : Net W) (method endpoint : string)
           (operation_name : option string) : string :=
  match operation_name with
  | Some n =>
      if String.eqb n "" then upper net method ++ " " ++ endpoint else n
  | None => upper net method ++ " " ++ endpoint
  end.

Definition chosen_payload (v : verb) (data : json)
           (files : option (dict file_tuple)) : payload :=
  match v with
  | GET => NoPayload
  | POST => if given files then FormPayload data (items_of files)
            else JsonPayload data
  end.

(** The method name a verb stands for. *)
Definition verb_name (v : verb) : string :=
  match v with GET => "GET" | POST => "POST" end.

(** ** Every method of the client *)

Inductive operation : Type :=
| CreateConfiguration (config_name : string) (config_data : json)
| GetConfiguration (config_name : string)
| ListConfigurations (page page_size : Z)
| CreateRecord (configuration_ref : string)
| GetRecordDetails (record_id : json)
| CreateProcessingJob (record_id : json)
| GetDocumentStatus (document_id : json)
| ListRecords (page page_size : Z)
              (status configuration_ref date_from date_to : option string)
| VerifyDocumentType (record_id document_type_id : json) (timeout : Z)
| UploadDocument (record_id : json) (file_path document_type : string)
                 (timeout : Z)
| ListDocuments (record_id : json)
| GetJobsStatus (detailed : bool) (page page_size : Z)
                (status date_from date_to : option string)
| GetRecordSummary (record_id : json).

(** The call of a method. *)
Definition perform (W : Type) (net : Net W) (self : NebuiaClient)
           (op : operation) : T W json :=
  match op with
  | CreateConfiguration config_name config_data =>
      create_configuration net self config_name config_data
  | GetConfiguration config_name => get_configuration net self config_name
  | ListConfigurations page page_size =>
      list_configurations net self page page_size
  | CreateRecord configuration_ref => create_record net self configuration_ref
  | GetRecordDetails record_id => get_record_details net self record_id
  | CreateProcessingJob record_id => create_processing_job net self record_id
  | GetDocumentStatus document_id => get_document_status net self document_id
  | ListRecords page page_size status configuration_ref date_from date_to =>
      list_records net self page page_size status configuration_ref date_from
                   date_to
  | VerifyDocumentType record_id document_type_id timeout =>
      verify_document_type net self record_id document_type_id timeout
  | UploadDocument record_id file_path document_type timeout =>
      upload_document net self record_id file_path document_type timeout
  | ListDocuments record_id => list_documents net self record_id
  | GetJobsStatus detailed page page_size status date_from date_to =>
      get_jobs_status net self detailed page page_size status date_from date_to
  | GetRecordSummary record_id => get_record_summary net self record_id
  end.

(** The methods that go through [_make_request]: all but
    [get_document_status]. *)
Definition uses_make_request (op : operation) : bool :=
  match op with
  | GetDocumentStatus _ => false
  | _ => true
  end.

(** ** Reading wire traces *)

(** The calls of the session, with what they came to. *)
Fixpoint sent_of (t : list wire_event) : list (request * sent) :=
  match t with
  | [] => []
  | Sent rq r :: rest => (rq, r) :: sent_of rest
  | _ :: rest => sent_of rest
  end.

(** The entries written to the cURL log. *)
Fixpoint logged_of (t : list wire_event) : list string :=
  match t with
  | [] => []
  | Logged log_entry :: rest => log_entry :: logged_of rest
  | _ :: rest => logged_of rest
  end.

(** The files open after a trace, given those open before it. *)
Fixpoint left_open (t : list wire_event) (open_files : list string)
  : list string :=
  match t with
  | [] => open_files
  | Opened path :: rest => left_open rest (path :: open_files)
  | Closed path :: rest => left_open rest (remove string_dec path open_files)
  | _ :: rest => left_open rest open_files
  end.

(** A cURL log entry that shows the API secret: it contains the header
    [X-API-Secret] as [shlex.quote] writes it. *)
Definition shows_secret (self : NebuiaClient) (log_entry : string) : Prop :=
  is_substring (shlex_quote ("X-API-Secret: " ++ api_secret self)) log_entry
  = true.

(** [every_run Q m]: the trace of every run of [m] satisfies [Q]. *)
Definition every_run (W A : Type) (Q : list wire_event -> Prop) (m : T W A)
  : Prop :=
  forall w, Q (trace (m w)).

(** A request that carries the credentials of the client. *)
Definition carries_credentials (self : NebuiaClient) (rq : request) : Prop :=
  dict_get "X-API-Key" (rq_headers rq) = Some (api_key self)
  /\ dict_get "X-API-Secret" (rq_headers rq) = Some (api_secret self).

(** The two places requests go to: the client's part of the API, and the
    embeddings distributor. *)
Definition client_root (self : NebuiaClient) : string :=
  BASE_URL ++ "/clients/" ++ client_id self ++ "/".

Definition embeddings_root : string :=
  "https://embeddings-distributor.nebuia.com/document/".

(** A request that carries the credentials and goes to one of the two
    places: to the client's part of the API and not to the embeddings
    distributor when [to_client] holds, the other way round when it does
    not. *)
Definition addressed (self : NebuiaClient) (to_client : bool)
           (ev : wire_event) : Prop :=
  match ev with
  | Sent rq _ =>
      carries_credentials self rq
      /\ is_prefix (client_root self) (rq_url rq) = to_client
      /\ is_prefix embeddings_root (rq_url rq) = negb to_client
  | _ => True
  end.

(** The words of the command that [create_processing_job] logs. *)
Definition processing_job_words (self : NebuiaClient) (url : string)
  : list string :=
  ["curl"; "-X"; "POST"; shlex_quote url;
   "-H"; shlex_quote ("X-API-Key: " ++ api_key self);
   "-H"; shlex_quote ("X-API-Secret: " ++ api_secret self);
   "-H"; shlex_quote "Content-Type: application/json";
   "--connect-timeout"; str_of_int (timeout self)].

(** A log entry, if the event is one, shows the secret. *)
Definition secret_if_logged (self : NebuiaClient) (ev : wire_event) : Prop :=
  match ev with
  | Logged log_entry => shows_secret self log_entry
  | _ => True
  end.

(** With logging on: every log entry shows the secret, and there is a log
    entry for every call of the session. *)
Definition logged_in_clear (self : NebuiaClient) (t : list wire_event) : Prop :=
  Forall (secret_if_logged self) t
  /\ (List.length (sent_of t) <= List.length (logged_of t))%nat.

(** The endpoints of the client's part of the API. *)
Definition client_endpoint (self : NebuiaClient) (endpoint : string) : Prop :=
  exists rest, endpoint = "/clients/" ++ client_id self ++ "/" ++ rest.

(** The custom headers the client passes, if any, are its upload
    headers. *)
Definition own_headers (self : NebuiaClient)
           (custom_headers : option (dict string)) : Prop :=
  custom_headers = None \/ custom_headers = Some (upload_headers self).

(** ** A scripted network, for concrete runs

    The world counts the calls of the session; the answer to a call depends
    on the request and on the calls made before it. *)
Definition scripted_net (answer : request -> nat -> sent) (fs : string -> bool)
  : Net nat :=
  {| session_send := fun rq w => (answer rq w, S w);
     file_exists := fun p _ => fs p;
     file_stat_error := fun _ _ => None;
     file_open := fun _ w => (None, w);
     file_close := fun _ w => w;
     strftime := fun _ => "2025-03-31 12:00:00";
     json_dumps := fun _ => "<json>";
     repr := fun _ => "<repr>";
     unicode_upper := fun s => s |}.

Definition sample_client : NebuiaClient :=
  MkClient "client-1" "key-1" "secret-1" 300 true.

Definition ok_response (v : json) : sent :=
  Responded (MkResponse true 200 "OK" (Parsed v)).

Definition failing_response : sent :=
  Responded (MkResponse false 500 "Internal Server Error"
                        (NotJson false "Expecting value")).

(** A service that answers every request with a record of two documents,
    and a file system that holds one PDF. *)
Definition sample_net : Net nat :=
  scripted_net
    (fun _ _ =>
       ok_response (JDict [("status", JStr "complete");
                           ("documents", JList [JDict []; JDict []])]))
    (fun p => String.eqb p "docs/acta.pdf").

(** A service that answers the first request and fails from the second
    on. *)
Definition failing_net : Net nat :=
  scripted_net
    (fun _ n =>
       match n with
       | O => ok_response (JDict [("status", JStr "complete")])
       | S _ => failing_response
       end)
    (fun p => String.eqb p "docs/acta.pdf").

(** The method name [po\u017ft] as the bytes of its UTF-8 spelling, and the
    sample service under Python's case mapping of it: the long s goes to
    [S]. *)
Definition long_s_post : string :=
  "po" ++ String (ascii_of_nat 197) (String (ascii_of_nat 191) "t").

Definition unicode_net : Net nat :=
  {| session_send := session_send sample_net;
     file_exists := file_exists sample_net;
     file_stat_error := file_stat_error sample_net;
     file_open := file_open sample_net;
     file_close := file_close sample_net;
     strftime := strftime sample_net;
     json_dumps := json_dumps sample_net;
     repr := repr sample_net;
     unicode_upper := fun s => if String.eqb s long_s_post then "POST" else s |}.

(** A configuration with every required field. *)
Definition full_configuration : json :=
  JDict [("title", JStr "Dictamen"); ("subtitle", JStr "Personas morales");
         ("description", JStr "Dictamen legal");
         ("endpoint", JStr "dictamen"); ("icon", JStr "gavel");
         ("documents", JDict [])].

End Wire.

(* ================================================================== *)
(** * Documents that share a type

    [extract_document_entities] keeps one list per document type: a
    document whose type is already a key of [extracted_info] adds to the
    list that is there. *)

(** The document types of a payload, each once, in the order of its first
    document. *)
Fixpoint document_types (types : list string) : list string :=
  match types with
  | [] => []
  | t :: rest =>
      t :: filter (fun t' => negb (String.eqb t' t)) (document_types rest)
  end.

Section Grouping.
Variable X : Type.

(** What the documents of type [t] hold, in the order of the documents. *)
Definition structures_of (t : string) (docs : list (string * list X))
  : list X :=
  flat_map (fun d => if String.eqb (fst d) t then snd d else []) docs.

(** The documents by type. *)
Definition grouped (docs : list (string * list X))
  : list (string * list X) :=
  map (fun t => (t, structures_of t docs)) (document_types (map fst docs)).

(** One more document of type [t], after those gathered in [A]. *)
Definition add_document (A : list (string * list X)) (t : string)
           (ss : list X) : list (string * list X) :=
  if existsb (String.eqb t) (map fst A)
  then map (fun a => if String.eqb (fst a) t then (fst a, snd a ++ ss)%list
                     else a) A
  else (A ++ [(t, ss)])%list.

End Grouping.

(** The lists that [extracted_info] holds are distinct objects, made
    during the call. *)
Definition lists_apart (h0 : Store.heap)
           (items : list (Store.val * Store.val)) : Prop :=
  NoDup (map snd items)
  /\ Forall (fun kv => forall l, snd kv = Store.VRef l ->
                                 nth_error h0 l = None) items.

Definition grouped_rep (h0 : Store.heap) (extracted_info : Store.loc)
           (h : Store.heap)
           (A : list (string * list (list (Store.val * Store.val)))) : Prop :=
  exists items,
    nth_error h extracted_info = Some (Store.ODict items)
    /\ Forall2 (Store.entry_rep extracted_info h) items A
    /\ lists_apart h0 items.

(** A store with a record of two documents of the type "acta", one entity
    each. *)
Definition repeated_store : Store.heap :=
  [Store.ODict [(Store.VStr "name_to_show", Store.VStr "X");
                (Store.VStr "value", Store.VInt 1)];
   Store.ODict [(Store.VStr "structure", Store.VRef 0%nat)];
   Store.OList [Store.VRef 1%nat];
   Store.ODict [(Store.VStr "document_type", Store.VStr "acta");
                (Store.VStr "entities", Store.VRef 2%nat)];
   Store.ODict [(Store.VStr "value", Store.VInt 2)];
   Store.ODict [(Store.VStr "structure", Store.VRef 4%nat)];
   Store.OList [Store.VRef 5%nat];
   Store.ODict [(Store.VStr "document_type", Store.VStr "acta");
                (Store.VStr "entities", Store.VRef 6%nat)];
   Store.OList [Store.VRef 3%nat; Store.VRef 7%nat];
   Store.ODict [(Store.VStr "documents", Store.VRef 8%nat)]].

(** A store with a record whose [documents] is null, and one with a record
    whose second document has null [entities]. *)
Definition null_documents_store : Store.heap :=
  [Store.ODict [(Store.VStr "status", Store.VStr "waiting");
                (Store.VStr "documents", Store.VNone)]].

Definition null_entities_store : Store.heap :=
  [Store.ODict [(Store.VStr "document_type", Store.VStr "acta")];
   Store.ODict [(Store.VStr "document_type", Store.VStr "poder");
                (Store.VStr "entities", Store.VNone)];
   Store.OList [Store.VRef 0%nat; Store.VRef 1%nat];
   Store.ODict [(Store.VStr "documents", Store.VRef 2%nat)]].

(** The documents with their structures cleaned. *)
Definition cleaned_documents
           (docs : list (string * list (list (Store.val * Store.val))))
  : list (string * list (list (Store.val * Store.val))) :=
  map (fun d => (fst d, map Store.cleaned (snd d))) docs.

(* ================================================================== *)
(** * Laws of the monad and of traces *)

Section MonadFacts.
Variable W : Type.

Lemma bind_ret_run (A B : Type) (m : M W A) (f : A -> M W B) w a w1 t1 :
  m w = (Ret a, w1, t1) ->
  bind m f w = (outcome (f a w1), final (f a w1), (t1 ++ trace (f a w1))%list).
Proof.
  intros E. unfold bind. rewrite E.
  destruct (f a w1) as [[r w2] t2]. reflexivity.
Qed.

Lemma bind_raise_run (A B : Type) (m : M W A) (f : A -> M W B) w e w1 t1 :
  m w = (Raise e, w1, t1) -> bind m f w = (Raise e, w1, t1).
Proof. intros E. unfold bind. rewrite E. reflexivity. Qed.

Lemma bind_abort_run (A B : Type) (m : M W A) (f : A -> M W B) w y w1 t1 :
  m w = (Abort y, w1, t1) -> bind m f w = (Abort y, w1, t1).
Proof. intros E. unfold bind. rewrite E. reflexivity. Qed.

Lemma emits_ret (A : Type) P (a : A) : emits P (@ret W A a).
Proof. intros w. constructor. Qed.

Lemma emits_raise (A : Type) P e : emits P (@raise W A e).
Proof. intros w. constructor. Qed.

Lemma emits_lift (A : Type) P (r : result A) : emits P (@lift W A r).
Proof. intros w. constructor. Qed.

Lemma emits_out_of_fuel (A : Type) P : emits P (@out_of_fuel W A).
Proof. intros w. constructor. Qed.

Lemma emits_bind (A B : Type) P (m : M W A) (f : A -> M W B) :
  emits P m -> (forall a, emits P (f a)) -> emits P (bind m f).
Proof.
  intros Hm Hf w. unfold bind. specialize (Hm w).
  destruct (m w) as [[r w1] t1]. destruct r; simpl in *; auto.
  specialize (Hf a w1). destruct (f a w1) as [[r2 w2] t2]. simpl in *.
  apply Forall_app; split; assumption.
Qed.

Lemma emits_try_except (A : Type) P (m : M W A) (h : exn -> M W A) :
  emits P m -> (forall e, emits P (h e)) -> emits P (try_except m h).
Proof.
  intros Hm Hh w. unfold try_except. specialize (Hm w).
  destruct (m w) as [[r w1] t1]. destruct r; simpl in *; auto.
  specialize (Hh e w1). destruct (h e w1) as [[r2 w2] t2]. simpl in *.
  apply Forall_app; split; assumption.
Qed.

Lemma emits_call (P : event -> Prop) (send : W -> reply * W) ev :
  (forall r, P (ev r)) -> emits (A:=json) P (call send ev).
Proof.
  intros H w. unfold call. destruct (send w) as [r w']. simpl.
  constructor; auto.
Qed.

Lemma emits_weaken (A : Type) (P Q : event -> Prop) (m : M W A) :
  (forall ev, P ev -> Q ev) -> emits P m -> emits Q m.
Proof. intros H Hm w. eapply Forall_impl; eauto. Qed.

(** [try_except] with a handler that cannot raise never raises. *)
Lemma try_except_total (A : Type) (m : M W A) (h : exn -> M W A) w :
  (forall e w', forall e', outcome (h e w') <> Raise e') ->
  forall e', outcome (try_except m h w) <> Raise e'.
Proof.
  intros Hh e'. unfold try_except.
  destruct (m w) as [[r w1] t1] eqn:E. destruct r; simpl; try discriminate.
  specialize (Hh e w1 e'). destruct (h e w1) as [[r2 w2] t2]. exact Hh.
Qed.

End MonadFacts.

(* ================================================================== *)
(** * The entry point never raises *)

(** C2.  For every input and every behaviour of the environment,
    [process_documents] does not raise: whatever exception the body of its
    [try] raises is turned into the value [None]. *)
Theorem process_documents_never_raises :
  forall (W : Type) (env : Env W) (fuel : nat) (documents : dict string)
         (config_name : string) (wait_for_completion : bool) (timeout : Z)
         (auto_process : bool) (status_check_interval status_check_timeout : Z)
         (w : W),
    (forall e,
        outcome (process_documents env fuel documents config_name
                   wait_for_completion timeout auto_process
                   status_check_interval status_check_timeout w) <> Raise e)
    /\
    (forall e,
        outcome (process_documents_body env fuel documents config_name
                   wait_for_completion timeout auto_process
                   status_check_interval status_check_timeout w) = Raise e ->
        outcome (process_documents env fuel documents config_name
                   wait_for_completion timeout auto_process
                   status_check_interval status_check_timeout w) = Ret JNull).
Proof.
  intros. split.
  - intros e. unfold process_documents. apply try_except_total.
    intros e0 w' e'. simpl. discriminate.
  - intros e H. unfold process_documents, try_except.
    destruct (process_documents_body _ _ _ _ _ _ _ _ _ _) as [[r w1] t1].
    unfold outcome in H. simpl in H. subst r. reflexivity.
Qed.

(* ================================================================== *)
(** * Dictionaries *)

Section DictFacts.
Variable V : Type.

Lemma dict_get_none_notin (k : string) (d : dict V) :
  dict_get k d = None <-> ~ In k (dict_keys d).
Proof.
  induction d as [|[k' v] d IH]; simpl.
  - tauto.
  - destruct (String.eqb k k') eqn:E.
    + apply String.eqb_eq in E. subst. split; [discriminate | tauto].
    + apply String.eqb_neq in E. rewrite IH. split.
      * intros H [H1 | H1]; [congruence | tauto].
      * tauto.
Qed.

Lemma dict_set_fresh (k : string) (v : V) (d : dict V) :
  ~ In k (dict_keys d) -> dict_set k v d = (d ++ [(k, v)])%list.
Proof.
  induction d as [|[k' v'] d IH]; simpl; intros H.
  - reflexivity.
  - destruct (String.eqb k k') eqn:E.
    + apply String.eqb_eq in E. subst. tauto.
    + rewrite IH by tauto. reflexivity.
Qed.

Lemma dict_keys_set (k : string) (v : V) (d : dict V) (k0 : string) :
  In k0 (dict_keys (dict_set k v d)) <-> k0 = k \/ In k0 (dict_keys d).
Proof.
  induction d as [|[k' v'] d IH]; simpl.
  - split; intros [H | H]; auto; contradiction.
  - destruct (String.eqb k k') eqn:E; simpl.
    + apply String.eqb_eq in E. subst. split; intros H; intuition.
    + rewrite IH. split; intros H; intuition.
Qed.

Lemma dict_mem_in (k : string) (d : dict V) :
  dict_mem k d = true <-> In k (dict_keys d).
Proof.
  unfold dict_mem. destruct (dict_get k d) eqn:E.
  - split; [intros _ | reflexivity].
    destruct (in_dec string_dec k (dict_keys d)) as [H | H]; [assumption|].
    apply dict_get_none_notin in H. congruence.
  - apply dict_get_none_notin in E. split; [discriminate | tauto].
Qed.

End DictFacts.

(* ================================================================== *)
(** * [validate_documents] *)

Lemma validate_loop_spec (W : Type) (env : Env W) (w : W)
      (items : list (string * string)) :
  forall valid : dict string,
    NoDup (dict_keys items) ->
    (forall k, In k (dict_keys items) -> ~ In k (dict_keys valid)) ->
    validate_loop env items valid w
    = match stat_failure env w items with
      | Some msg => (Raise (Exn OSError msg), w, [])
      | None =>
          (Ret (valid ++ map stored_entry (filter (valid_entry env w) items))%list,
           w, [])
      end.
Proof.
  induction items as [|[doc_type file_path] items IH]; intros valid Hnd Hfresh.
  - simpl. rewrite app_nil_r. reflexivity.
  - simpl in Hnd. inversion Hnd as [|? ? Hnotin Hnd']; subst.
    cbn [validate_loop stat_failure]. unfold bind at 1. unfold path_exists at 1.
    cbn [filter]. unfold valid_entry at 1, exists_true at 1. cbn [snd].
    destruct (fs_stat_error env (Pathlib.str (Pathlib.parse file_path)) w);
      [reflexivity |].
    destruct (fs_exists env (Pathlib.str (Pathlib.parse file_path)) w); cbn.
    + destruct (Pathlib.is_pdf (Pathlib.parse file_path)); cbn.
      * rewrite IH.
        -- destruct (stat_failure env w items); [reflexivity |].
           rewrite dict_set_fresh by (apply Hfresh; left; reflexivity).
           rewrite <- app_assoc. reflexivity.
        -- assumption.
        -- intros k Hk Hin. apply dict_keys_set in Hin. destruct Hin as [-> | Hin].
           ++ contradiction.
           ++ apply (Hfresh k); [right; assumption | assumption].
      * rewrite IH; [destruct (stat_failure env w items); reflexivity
                    | assumption |].
        intros k Hk. apply Hfresh. right. assumption.
    + rewrite IH; [destruct (stat_failure env w items); reflexivity
                  | assumption |].
      intros k Hk. apply Hfresh. right. assumption.
Qed.

(** C7 (amended).  For a mapping of document types to paths,
    [validate_documents] asks [exists()] for each path in turn.  When
    [exists()] answers for every path, it returns, in the order of the
    input, one entry for exactly the entries whose path exists and whose
    suffix is [.pdf] in any letter case; the key is kept and the value is the
    path as [str(Path(p))] spells it.  When [exists()] lets an [OSError]
    through, [validate_documents] raises that error, of the first such
    entry, to its caller.  In both cases it makes no call to the service and
    leaves the world as it is. *)
Theorem validate_documents_keeps_existing_pdfs :
  forall (W : Type) (env : Env W) (documents : dict string) (w : W),
    NoDup (dict_keys documents) ->
    validate_documents env documents w
    = match stat_failure env w documents with
      | Some msg => (Raise (Exn OSError msg), w, [])
      | None =>
          (Ret (map stored_entry (filter (valid_entry env w) documents)), w, [])
      end.
Proof.
  intros W env documents w Hnd. unfold validate_documents.
  rewrite validate_loop_spec; [reflexivity | assumption | intros k _ H; exact H].
Qed.

(* ================================================================== *)
(** * Which calls each phase makes *)

Section Phases.
Variable W : Type.
Variable env : Env W.

Lemma trace_bind (A B : Type) (m : M W A) (f : A -> M W B) (w : W) :
  trace (bind m f w)
  = (trace (m w)
     ++ match outcome (m w) with
        | Ret a => trace (f a (final (m w)))
        | _ => []
        end)%list.
Proof.
  unfold bind, trace, outcome, final.
  destruct (m w) as [[r w1] t1]. destruct r; simpl.
  - destruct (f a w1) as [[r2 w2] t2]. reflexivity.
  - rewrite app_nil_r. reflexivity.
  - rewrite app_nil_r. reflexivity.
Qed.

Lemma outcome_bind (A B : Type) (m : M W A) (f : A -> M W B) (w : W) :
  outcome (bind m f w)
  = match outcome (m w) with
    | Ret a => outcome (f a (final (m w)))
    | Raise e => Raise e
    | Abort y => Abort y
    end.
Proof.
  unfold bind, outcome, final.
  destruct (m w) as [[r w1] t1]. destruct r; simpl; try reflexivity.
  destruct (f a w1) as [[r2 w2] t2]. reflexivity.
Qed.

Lemma trace_try_except (A : Type) (m : M W A) (h : exn -> M W A) (w : W) :
  trace (try_except m h w)
  = (trace (m w)
     ++ match outcome (m w) with
        | Raise e => trace (h e (final (m w)))
        | _ => []
        end)%list.
Proof.
  unfold try_except, trace, outcome, final.
  destruct (m w) as [[r w1] t1]. destruct r; simpl.
  - rewrite app_nil_r. reflexivity.
  - destruct (h e w1) as [[r2 w2] t2]. reflexivity.
  - rewrite app_nil_r. reflexivity.
Qed.

Lemma emits_time_time (P : event -> Prop) :
  (forall t, P (EvTime t)) -> emits P (time_time env).
Proof. intros H w. unfold time_time. simpl. constructor; auto. Qed.

Lemma emits_time_sleep (P : event -> Prop) d :
  (forall x, P (EvSleep x)) -> emits P (time_sleep env d).
Proof.
  intros H w. unfold time_sleep.
  destruct (d <? 0); [constructor |].
  destruct (SLEEP_MAX <? d); simpl; constructor; auto.
Qed.

Lemma emits_path_exists (P : event -> Prop) p : emits P (path_exists env p).
Proof.
  intros w. unfold path_exists.
  destruct (fs_stat_error env (Pathlib.str p) w); constructor.
Qed.

Lemma emits_open_rb (P : event -> Prop) p : emits P (open_rb env p).
Proof.
  intros w. unfold open_rb.
  destruct (fs_open_error env (Pathlib.str p) w); constructor.
Qed.

Lemma emits_file_close (P : event -> Prop) p :
  emits P (file_close (W:=W) p).
Proof. intros w. constructor. Qed.

Lemma emits_try_finally (A : Type) P (m : M W A) (f : M W unit) :
  emits P m -> emits P f -> emits P (try_finally m f).
Proof.
  intros Hm Hf w. unfold try_finally. specialize (Hm w).
  destruct (m w) as [[r w1] t1]. simpl in Hm. specialize (Hf w1).
  destruct r; simpl; auto;
    destruct (f w1) as [[r2 w2] t2]; simpl in Hf;
    destruct r2; simpl; apply Forall_app; split; assumption.
Qed.

Ltac emits_step :=
  first
    [ apply emits_ret | apply emits_raise | apply emits_lift
    | apply emits_out_of_fuel | apply emits_path_exists
    | apply emits_open_rb | apply emits_file_close
    | apply emits_try_finally
    | apply emits_time_time; intros ?; cbv; auto
    | apply emits_time_sleep; intros ?; cbv; auto
    | apply emits_call; intros ?; cbv; auto
    | apply emits_bind; [| intros ?]
    | apply emits_try_except; [| intros ?]
    | assumption
    | match goal with
      | |- emits _ (if ?b then _ else _) => destruct b
      | |- emits _ (match ?x with _ => _ end) => destruct x
      end ].

Ltac emits_auto := repeat emits_step.

Lemma quiet_lacks ev : quiet ev -> lacks is_verify ev /\ lacks is_create_job ev.
Proof. intros [H1 H2]. split; assumption. Qed.

Lemma upload_document_quiet record_id file_path doc_type :
  emits quiet (upload_document env record_id file_path doc_type).
Proof. unfold upload_document. emits_auto. Qed.

Lemma get_record_details_quiet record_id :
  emits quiet (get_record_details env record_id).
Proof. unfold get_record_details. emits_auto. Qed.

Lemma validate_loop_quiet items :
  forall valid, emits quiet (validate_loop env items valid).
Proof.
  induction items as [|[k p] items IH]; intros valid; cbn [validate_loop].
  - emits_auto.
  - emits_auto; apply IH.
Qed.

Lemma upload_loop_quiet record_id items :
  forall ids, emits quiet (upload_loop env record_id items ids).
Proof.
  induction items as [|[k p] items IH]; intros ids; cbn [upload_loop].
  - emits_auto.
  - apply emits_bind; [| intros ?; apply IH].
    apply emits_try_except; [| intros ?; emits_auto].
    apply emits_bind; [apply upload_document_quiet | intros ?].
    apply emits_bind; [apply get_record_details_quiet | intros ?].
    emits_auto.
Qed.

Lemma create_and_upload_quiet documents config_name :
  emits quiet (_create_and_upload env documents config_name).
Proof.
  unfold _create_and_upload, create_record.
  apply emits_bind; [emits_auto | intros ?].
  apply emits_bind; [emits_auto | intros ?].
  destruct (negb (truthy a0)); [emits_auto |].
  apply emits_bind; [apply upload_loop_quiet | intros ?]. emits_auto.
Qed.

Lemma check_round_quiet items :
  forall pending, emits quiet (check_round env items pending).
Proof.
  induction items as [|[k i] items IH]; intros pending; cbn [check_round].
  - emits_auto.
  - apply emits_bind; [| intros ?; apply IH].
    unfold get_document_status. emits_auto.
Qed.

Lemma embedding_loop_quiet fuel ids interval timeout start :
  emits quiet (embedding_loop env fuel ids interval timeout start).
Proof.
  induction fuel as [|fuel IH]; cbn [embedding_loop].
  - emits_auto.
  - apply emits_bind; [emits_auto | intros t].
    destruct (t - start <? timeout); [| emits_auto].
    apply emits_bind; [apply check_round_quiet | intros pending].
    destruct pending; emits_auto.
Qed.

Lemma wait_for_embedding_quiet fuel ids interval timeout :
  emits quiet (_wait_for_embedding env fuel ids interval timeout).
Proof.
  unfold _wait_for_embedding.
  apply emits_bind; [emits_auto | intros start].
  apply emits_bind; [apply embedding_loop_quiet | intros b].
  emits_auto.
Qed.

Lemma status_callback_silent (P : event -> Prop) status elapsed record_details :
  emits P (status_callback (W:=W) status elapsed record_details).
Proof. unfold status_callback. emits_auto. Qed.

Lemma wait_record_loop_no_verify fuel record_id timeout interval start :
  emits (lacks is_verify)
        (wait_record_loop env fuel record_id timeout interval
                          (Some (status_callback (W:=W))) start).
Proof.
  induction fuel as [|fuel IH]; cbn [wait_record_loop].
  - emits_auto.
  - apply emits_bind; [emits_auto | intros t].
    destruct (t - start <? timeout); [| emits_auto].
    apply emits_bind; [unfold get_record_details; emits_auto | intros rd].
    apply emits_bind; [emits_auto | intros st].
    apply emits_bind; [emits_auto | intros t'].
    apply emits_bind; [apply status_callback_silent | intros _].
    emits_auto.
Qed.

Lemma process_record_no_verify fuel record_id results wait timeout :
  emits (lacks is_verify) (_process_record env fuel record_id results wait timeout).
Proof.
  unfold _process_record.
  apply emits_bind.
  - apply emits_try_except; [| intros ?; emits_auto].
    apply emits_bind; [unfold create_processing_job; emits_auto | intros ?].
    do 3 (apply emits_bind; [emits_auto | intros ?]).
    destruct wait; [| emits_auto].
    apply emits_try_except; [| intros ?; emits_auto].
    apply emits_bind; [| intros ?; emits_auto].
    unfold wait_for_record_completion.
    apply emits_bind; [emits_auto | intros ?].
    apply wait_record_loop_no_verify.
  - intros [c|]; [emits_auto |].
    unfold get_record_details. emits_auto.
Qed.

End Phases.

(* ================================================================== *)
(** * Verification and the decision to create a job *)

Section Verification.
Variable W : Type.
Variable env : Env W.

Lemma silent_ret (A : Type) (a : A) : silent (@ret W A a).
Proof. intros w. cbn. repeat split. discriminate. Qed.

Lemma silent_lift (A : Type) (r : result A) :
  (forall y, r <> Abort y) -> silent (@lift W A r).
Proof. intros H w. cbn. repeat split. assumption. Qed.

Lemma silent_bind (A B : Type) (m : M W A) (f : A -> M W B) :
  silent m -> (forall a, silent (f a)) -> silent (bind m f).
Proof.
  intros Hm Hf w. destruct (Hm w) as (H1 & H2 & H3).
  unfold bind. destruct (m w) as [[r w1] t1]. cbn in H1, H2, H3. subst.
  destruct r as [a | e | y].
  - destruct (Hf a w) as (G1 & G2 & G3).
    destruct (f a w) as [[r2 w2] t2]. cbn in *. subst. repeat split. assumption.
  - cbn. repeat split. discriminate.
  - exfalso. eapply H3. reflexivity.
Qed.

Lemma py_get_no_abort v k d y : py_get v k d <> Abort y.
Proof. destruct v; discriminate. Qed.

Lemma py_getitem_no_abort v k y : py_getitem v k <> Abort y.
Proof. destruct v; cbn; try discriminate. destruct (dict_get k d); discriminate. Qed.

Lemma py_setitem_no_abort v k x y : py_setitem v k x <> Abort y.
Proof. destruct v; discriminate. Qed.

Lemma py_iter_no_abort v y : py_iter v <> Abort y.
Proof. destruct v; discriminate. Qed.

Lemma py_contains_no_abort k v y : py_contains k v <> Abort y.
Proof. destruct v; discriminate. Qed.

Lemma display_silent result : silent (_display_verification_points (W:=W) result).
Proof.
  unfold _display_verification_points.
  apply silent_bind; [apply silent_lift; intros; apply py_contains_no_abort |].
  intros [|]; [| apply silent_ret].
  apply silent_bind; [apply silent_lift; intros; apply py_getitem_no_abort |].
  intros pts. destruct (truthy pts); [| apply silent_ret].
  apply silent_bind; [apply silent_lift; intros; apply py_get_no_abort |].
  intros _.
  apply silent_bind; [apply silent_lift; intros; apply py_get_no_abort |].
  intros _.
  apply silent_bind; [apply silent_lift; intros; apply py_iter_no_abort |].
  intros _. apply silent_ret.
Qed.

(** One handler-level verification: exactly one call to the service, a
    value in every case, and a positive verdict only for a reply that
    passed. *)
Lemma handler_verify_run record_id doc_id w :
  exists is_valid verification,
    NebuiaHandler.verify_document_type env record_id doc_id w
    = (Ret (is_valid, verification),
       snd (http_verify_document_type env record_id doc_id w),
       [EvVerify record_id doc_id
                 (fst (http_verify_document_type env record_id doc_id w))])
    /\ (is_valid = true ->
        reply_passed (fst (http_verify_document_type env record_id doc_id w))
        = true).
Proof.
  unfold NebuiaHandler.verify_document_type, try_except, bind,
    NebuiaClient.verify_document_type, call.
  destruct (http_verify_document_type env record_id doc_id w) as [r w'].
  destruct r as [body | e]; cbn [result_of_reply fst snd].
  - unfold lift at 1.
    destruct (py_get body "status" JNull) as [status | e | y] eqn:Est.
    + unfold reply_passed. rewrite Est.
      destruct (_display_verification_points (W:=W) body w')
        as [[r1 w1] t1] eqn:Ed.
      assert (Hpure : w1 = w' /\ t1 = [] /\ forall y, r1 <> Abort y).
      { destruct (display_silent body w') as (H1 & H2 & H3).
        rewrite Ed in H1, H2, H3. cbn in H1, H2, H3. auto. }
      destruct Hpure as (-> & -> & Hna).
      destruct r1 as [[] | e | y].
      * cbn. eexists _, _. split; [reflexivity | auto].
      * cbn. eexists _, _. split; [reflexivity | discriminate].
      * exfalso. eapply Hna. reflexivity.
    + cbn. eexists _, _. split; [reflexivity | discriminate].
    + destruct body; discriminate.
  - cbn. eexists _, _. split; [reflexivity | discriminate].
Qed.

(** [_verify_all_documents]: it never creates a job, and the overall flag
    is true only if it started true and every call made passed. *)
Lemma verify_loop_spec record_id items :
  forall results passed w,
    Forall (lacks is_create_job)
           (trace (verify_loop env record_id items results passed w))
    /\ (forall results',
           outcome (verify_loop env record_id items results passed w)
           = Ret (results', true) ->
           passed = true
           /\ Forall verify_ok
                     (trace (verify_loop env record_id items results passed w))).
Proof.
  induction items as [|[doc_type doc_id] items IH]; intros results passed w.
  - cbn. split; [constructor |]. intros r H. inversion H. subst. auto.
  - cbn [verify_loop]. destruct (truthy doc_id); [| apply IH].
    destruct (handler_verify_run record_id doc_id w)
      as (is_valid & verification & Hrun & Hpass).
    set (w' := snd (http_verify_document_type env record_id doc_id w)) in *.
    set (ev := EvVerify record_id doc_id
                 (fst (http_verify_document_type env record_id doc_id w))) in *.
    set (x := verify_loop env record_id items
                (dict_set doc_type verification results)
                (if negb is_valid then false else passed) w').
    match goal with
    | |- Forall _ (trace ?run) /\ _ =>
        assert (Hr : run = (outcome x, final x, ev :: trace x))
    end.
    { unfold bind at 1, try_except at 1, bind at 1. rewrite Hrun. cbn [ret].
      fold x. destruct x as [[r2 w2] t2]. reflexivity. }
    rewrite Hr. clear Hr.
    destruct (IH (dict_set doc_type verification results)
                 (if negb is_valid then false else passed) w') as [IH1 IH2].
    fold x in IH1, IH2. cbn [trace outcome fst snd]. split.
    + constructor; [reflexivity | assumption].
    + intros results' H. destruct (IH2 results' H) as [Hp Hall].
      destruct is_valid; cbn in Hp; [| discriminate].
      split; [assumption |].
      constructor; [apply Hpass; reflexivity | assumption].
Qed.

(** Items with a falsy id are passed over: the run is the run on the
    items with a truthy id. *)
Lemma verify_loop_skips_falsy record_id items :
  forall results passed w,
    verify_loop env record_id items results passed w
    = verify_loop env record_id
                  (filter (fun kv => truthy (snd kv)) items) results passed w.
Proof.
  induction items as [|[doc_type doc_id] items IH]; intros results passed w.
  - reflexivity.
  - cbn [verify_loop filter snd]. destruct (truthy doc_id) eqn:E.
    + cbn [verify_loop]. rewrite E. unfold bind at 1 3.
      destruct (try_except _ _ w) as [[r w1] t1].
      destruct r as [[r' p']| |]; try reflexivity.
      rewrite IH. reflexivity.
    + apply IH.
Qed.

End Verification.

Section Decision.
Variable W : Type.
Variable env : Env W.

Lemma quiet_verify_ok ev : quiet ev -> verify_ok ev.
Proof. intros [H _]. destruct ev; cbn in *; auto; discriminate. Qed.

Lemma lacks_verify_ok ev : lacks is_verify ev -> verify_ok ev.
Proof. unfold lacks. destruct ev; cbn; auto; discriminate. Qed.

Lemma no_job_in t ev :
  Forall (lacks is_create_job) t -> In ev t -> is_create_job ev = true -> False.
Proof.
  intros H Hin Hj. rewrite Forall_forall in H. specialize (H _ Hin).
  unfold lacks in H. congruence.
Qed.

Lemma quiet_no_job t : Forall quiet t -> Forall (lacks is_create_job) t.
Proof. apply Forall_impl. intros ev [_ H]. exact H. Qed.

Lemma quiet_no_verify t : Forall quiet t -> Forall (lacks is_verify) t.
Proof. apply Forall_impl. intros ev [H _]. exact H. Qed.

Lemma gated_no_job auto t : Forall (lacks is_create_job) t -> gated auto t.
Proof. intros H ev Hin Hj. exfalso. eapply no_job_in; eauto. Qed.

Lemma gated_after_quiet auto t1 t2 :
  Forall quiet t1 -> gated auto t2 -> gated auto (t1 ++ t2).
Proof.
  intros Hq Hg ev Hin Hj. apply in_app_or in Hin. destruct Hin as [Hin | Hin].
  - exfalso. eapply (@no_job_in t1 ev);
      [apply quiet_no_job; exact Hq | exact Hin | exact Hj].
  - destruct (Hg ev Hin Hj) as [Ha Hall]. split; [assumption |].
    apply Forall_app. split; [| assumption].
    eapply Forall_impl; [| exact Hq]. apply quiet_verify_ok.
Qed.

Lemma process_documents_trace fuel documents config_name wait timeout auto
      interval status_timeout w :
  trace (process_documents env fuel documents config_name wait timeout auto
                           interval status_timeout w)
  = trace (process_documents_body env fuel documents config_name wait timeout
                                  auto interval status_timeout w).
Proof.
  unfold process_documents. rewrite trace_try_except.
  destruct (outcome _); cbn; apply app_nil_r.
Qed.

Lemma process_documents_body_gated fuel documents config_name wait timeout auto
      interval status_timeout w :
  gated auto
        (trace (process_documents_body env fuel documents config_name wait
                                       timeout auto interval status_timeout w)).
Proof.
  unfold process_documents_body.
  rewrite trace_bind. apply gated_after_quiet.
  { apply validate_loop_quiet. }
  destruct (outcome _) as [valid | |]; try (apply gated_no_job; constructor).
  destruct (dict_is_empty valid); [apply gated_no_job; constructor |].
  rewrite trace_bind. apply gated_after_quiet.
  { apply create_and_upload_quiet. }
  destruct (outcome _) as [[[record_id document_ids]|] | |];
    try (apply gated_no_job; constructor).
  rewrite trace_bind. apply gated_after_quiet.
  { apply wait_for_embedding_quiet. }
  destruct (outcome _) as [[|] | |]; try (apply gated_no_job; constructor).
  2:{ cbn [negb]. apply gated_no_job, quiet_no_job, get_record_details_quiet. }
  cbn [negb]. rewrite trace_bind.
  match goal with
  | |- gated _ (trace (_verify_all_documents _ _ _ ?w1) ++ _) =>
      destruct (verify_loop_spec env record_id document_ids [] true w1)
        as [Hnj Hok];
      fold (_verify_all_documents env record_id document_ids) in Hnj, Hok
  end.
  destruct (outcome _) as [[results passed] | |] eqn:Ev;
    try (rewrite app_nil_r; apply gated_no_job; assumption).
  rewrite trace_bind.
  match goal with
  | |- gated _ (?tv ++ trace (get_record_details _ _ ?w2) ++ ?rest) =>
      pose proof (get_record_details_quiet env record_id w2) as Hget;
      set (tg := trace (get_record_details env record_id w2)) in *
  end.
  match goal with
  | |- context [outcome (get_record_details ?a ?b ?c)] =>
      destruct (outcome (get_record_details a b c)) as [record_details | |]
  end.
  2,3: rewrite app_nil_r; apply gated_no_job; apply Forall_app; split;
    auto using quiet_no_job.
  rewrite trace_bind. cbn [lift trace snd app outcome fst].
  destruct (py_setitem record_details "verification_results" (JDict results))
    as [record_details' | |].
  2,3: rewrite app_nil_r; apply gated_no_job; apply Forall_app; split;
    auto using quiet_no_job.
  destruct auto; cbn [andb].
  2:{ cbn. rewrite app_nil_r. apply gated_no_job. apply Forall_app; split;
      auto using quiet_no_job. }
  destruct passed.
  2:{ cbn. rewrite app_nil_r. apply gated_no_job. apply Forall_app; split;
      auto using quiet_no_job. }
  intros ev _ _. split; [reflexivity |].
  destruct (Hok results eq_refl) as [_ Hall].
  apply Forall_app. split; [assumption |].
  apply Forall_app. split.
  - eapply Forall_impl; [| exact Hget]. apply quiet_verify_ok.
  - eapply Forall_impl; [| apply process_record_no_verify].
    apply lacks_verify_ok.
Qed.

End Decision.

(** C1.  In every run of [process_documents], if the trace holds a call to
    create-processing-job, then the caller enabled auto-processing and every
    document-type verification call of the run passed; in every other run
    the trace holds no such call. *)
Theorem job_created_only_when_enabled_and_verified :
  forall (W : Type) (env : Env W) (fuel : nat) (documents : dict string)
         (config_name : string) (wait_for_completion : bool) (timeout : Z)
         (auto_process : bool) (status_check_interval status_check_timeout : Z)
         (w : W) (ev : event),
    In ev (trace (process_documents env fuel documents config_name
                    wait_for_completion timeout auto_process
                    status_check_interval status_check_timeout w)) ->
    is_create_job ev = true ->
    auto_process = true
    /\ Forall verify_ok
              (trace (process_documents env fuel documents config_name
                        wait_for_completion timeout auto_process
                        status_check_interval status_check_timeout w)).
Proof.
  intros W env fuel documents config_name wait timeout auto interval st w ev.
  rewrite process_documents_trace. apply process_documents_body_gated.
Qed.

(* ================================================================== *)
(** * Embedding timeout *)

(** C3 (amended).  In a run of [process_documents] in which the wait for
    embedding gives up (returns [False]), no verification call is made and
    no job is created.  The run makes one more call, the fetch of the
    record, and returns what that fetch comes to: the snapshot exactly as
    the service sent it, with no [verification_results] key added, when the
    fetch is answered; and [None] when the fetch raises, since the fetch
    stands inside the [try] of [process_documents]. *)
Theorem embedding_timeout_skips_verification_and_job :
  forall (W : Type) (env : Env W) (fuel : nat) (documents : dict string)
         (config_name : string) (wait_for_completion : bool) (timeout : Z)
         (auto_process : bool) (status_check_interval status_check_timeout : Z)
         (w w1 w2 w3 : W) (t1 t2 t3 : list event)
         (valid_documents : dict string) (record_id : json)
         (document_ids : dict json),
    validate_documents env documents w = (Ret valid_documents, w1, t1) ->
    dict_is_empty valid_documents = false ->
    _create_and_upload env valid_documents config_name w1
    = (Ret (Some (record_id, document_ids)), w2, t2) ->
    _wait_for_embedding env fuel document_ids status_check_interval
                        status_check_timeout w2
    = (Ret false, w3, t3) ->
    Forall quiet
           (trace (process_documents env fuel documents config_name
                     wait_for_completion timeout auto_process
                     status_check_interval status_check_timeout w))
    /\ (forall (snapshot : json) (w4 : W),
           http_get_record_details env record_id w3 = (Reply snapshot, w4) ->
           process_documents env fuel documents config_name wait_for_completion
                             timeout auto_process status_check_interval
                             status_check_timeout w
           = (Ret snapshot, w4,
              (t1 ++ t2 ++ t3
                  ++ [EvGetRecord record_id (Reply snapshot)])%list))
    /\ (forall (e : exn) (w4 : W),
           http_get_record_details env record_id w3 = (Fault e, w4) ->
           process_documents env fuel documents config_name wait_for_completion
                             timeout auto_process status_check_interval
                             status_check_timeout w
           = (Ret JNull, w4,
              (t1 ++ t2 ++ t3 ++ [EvGetRecord record_id (Fault e)])%list)).
Proof.
  intros W env fuel documents config_name wait timeout auto interval st
         w w1 w2 w3 t1 t2 t3 valid record_id document_ids
         Hval Hne Hcu Hwait.
  split; [| split].
  - rewrite process_documents_trace. unfold process_documents_body.
    rewrite trace_bind. apply Forall_app. split; [apply validate_loop_quiet |].
    rewrite Hval. cbn [outcome final fst snd]. rewrite Hne.
    rewrite trace_bind. apply Forall_app.
    split; [apply create_and_upload_quiet |].
    rewrite Hcu. cbn [outcome final fst snd].
    rewrite trace_bind. apply Forall_app.
    split; [apply wait_for_embedding_quiet |].
    rewrite Hwait. cbn [outcome final fst snd negb].
    apply get_record_details_quiet.
  - intros snapshot w4 Hget.
    unfold process_documents, try_except, process_documents_body.
    unfold bind at 1. rewrite Hval. rewrite Hne.
    unfold bind at 1. rewrite Hcu.
    unfold bind at 1. rewrite Hwait. cbn [negb].
    unfold get_record_details, call. rewrite Hget. cbn [result_of_reply].
    reflexivity.
  - intros e w4 Hget.
    unfold process_documents, try_except, process_documents_body.
    unfold bind at 1. rewrite Hval. rewrite Hne.
    unfold bind at 1. rewrite Hcu.
    unfold bind at 1. rewrite Hwait. cbn [negb].
    unfold get_record_details, call. rewrite Hget. cbn [result_of_reply ret].
    rewrite !app_nil_r. reflexivity.
Qed.

(* ================================================================== *)
(** * Documents without an id are never verified *)

Section FalsyIds.
Variable W : Type.
Variable env : Env W.

Lemma verify_loop_total record_id items :
  forall results passed w,
  exists results' passed' w' t,
    verify_loop env record_id items results passed w
    = (Ret (results', passed'), w', t)
    /\ (forall k, In k (dict_keys results')
                  <-> In k (dict_keys results)
                      \/ exists doc_id, In (k, doc_id) items
                                        /\ truthy doc_id = true)
    /\ verified_ids t = map snd (with_truthy_id items)
    /\ (with_truthy_id items = [] ->
        results' = results /\ passed' = passed /\ w' = w /\ t = []).
Proof.
  induction items as [|[doc_type doc_id] items IH]; intros results passed w.
  - exists results, passed, w, []. cbn. repeat split; auto.
    + intros [H | (i & [] & _)]. exact H.
  - cbn [verify_loop]. unfold with_truthy_id. cbn [filter snd].
    destruct (truthy doc_id) eqn:Etr.
    + destruct (handler_verify_run env record_id doc_id w)
        as (is_valid & verification & Hrun & _).
      destruct (IH (dict_set doc_type verification results)
                   (if negb is_valid then false else passed)
                   (snd (http_verify_document_type env record_id doc_id w)))
        as (results' & passed' & w' & t & Hloop & Hkeys & Hids & _).
      exists results', passed', w',
        (EvVerify record_id doc_id
           (fst (http_verify_document_type env record_id doc_id w)) :: t).
      split.
      { unfold bind at 1, try_except at 1, bind at 1. rewrite Hrun. cbn [ret].
        rewrite Hloop. reflexivity. }
      split.
      { intros k. rewrite Hkeys. rewrite dict_keys_set. split.
        - intros [[-> | H] | (i & Hin & Ht)].
          + right. exists doc_id. split; [left; reflexivity | assumption].
          + left. assumption.
          + right. exists i. split; [right; assumption | assumption].
        - intros [H | (i & [Heq | Hin] & Ht)].
          + left. right. assumption.
          + inversion Heq. subst. left. left. reflexivity.
          + right. exists i. split; assumption. }
      split.
      { cbn. fold (with_truthy_id items). rewrite Hids. reflexivity. }
      discriminate.
    + destruct (IH results passed w)
        as (results' & passed' & w' & t & Hloop & Hkeys & Hids & Hnone).
      exists results', passed', w', t. split; [assumption |].
      split.
      { intros k. rewrite Hkeys. split.
        - intros [H | (i & Hin & Ht)]; [left; assumption |].
          right. exists i. split; [right; assumption | assumption].
        - intros [H | (i & [Heq | Hin] & Ht)]; [left; assumption | |].
          + inversion Heq. subst. congruence.
          + right. exists i. split; assumption. }
      split; assumption.
Qed.

End FalsyIds.

(** C9.  [_verify_all_documents] handles exactly the document types whose
    id is truthy: it runs as it would on the mapping without the falsy
    entries, it always returns, the keys of its results are the types with
    a truthy id, the verification calls it makes are those for the truthy
    ids in order, and when no id is truthy it makes no call and reports an
    overall pass with empty results.  [_create_and_upload] does produce such
    a falsy id ([None]) when the record details list the uploaded document
    without a [document_id]. *)
Theorem verify_all_documents_skips_falsy_ids :
  (forall (W : Type) (env : Env W) (record_id : json) (document_ids : dict json)
          (w : W),
      _verify_all_documents env record_id document_ids w
      = _verify_all_documents env record_id (with_truthy_id document_ids) w
      /\ (exists results passed,
             outcome (_verify_all_documents env record_id document_ids w)
             = Ret (results, passed)
             /\ (forall k, In k (dict_keys results)
                           <-> exists doc_id, In (k, doc_id) document_ids
                                              /\ truthy doc_id = true)
             /\ (with_truthy_id document_ids = [] ->
                 results = [] /\ passed = true))
      /\ verified_ids (trace (_verify_all_documents env record_id document_ids w))
         = map snd (with_truthy_id document_ids)
      /\ (with_truthy_id document_ids = [] ->
          _verify_all_documents env record_id document_ids w
          = (Ret ([], true), w, [])))
  /\ _create_and_upload no_id_env [("acta", "acta.pdf")] "dictaminacion" 0
     = (Ret (Some (JStr "rec-1", [("acta", JNull)])), 0,
        [EvCreateRecord "dictaminacion" (Reply (JDict [("id", JStr "rec-1")]));
         EvUpload (JStr "rec-1") "acta.pdf" "acta" (Reply (JDict []));
         EvGetRecord (JStr "rec-1")
           (Reply (JDict [("status", JStr "waiting");
                          ("documents",
                           JList [JDict [("document_type", JStr "acta")]])]))])
  /\ _verify_all_documents no_id_env (JStr "rec-1") [("acta", JNull)] 0
     = (Ret ([], true), 0, []).
Proof.
  split; [| split; reflexivity].
  intros W env record_id document_ids w.
  destruct (verify_loop_total env record_id document_ids [] true w)
    as (results & passed & w' & t & Hloop & Hkeys & Hids & Hnone).
  unfold _verify_all_documents. split; [apply verify_loop_skips_falsy |].
  rewrite Hloop. cbn [outcome trace fst snd]. split; [| split].
  - exists results, passed. split; [reflexivity |]. split.
    + intros k. rewrite Hkeys. cbn. tauto.
    + intros H. destruct (Hnone H) as (-> & -> & _). auto.
  - exact Hids.
  - intros H. destruct (Hnone H) as (-> & -> & -> & ->). reflexivity.
Qed.

(* ================================================================== *)
(** * The wait for embedding *)

Section Embedding.
Variable W : Type.
Variable env : Env W.










End Embedding.

Section EmbeddingRuns.
Variable W : Type.
Variable env : Env W.




Variables (ids : dict json) (interval timeout start : Z).





Hypothesis laws : ClockLaws env.



End EmbeddingRuns.




(* ================================================================== *)
(** * The wait for a record *)

Section RecordWait.
Variable W : Type.
Variable env : Env W.
Variables (record_id : json) (timeout interval : Z).
Variable status_callback : option (json -> Z -> json -> M W unit).
Variable answer : json -> Z -> json -> result unit.
Hypothesis observer : observer_answers status_callback answer.
Variable start : Z.

(** One turn of the loop, spelled out. *)
Lemma wait_record_loop_unfold fuel w :
  wait_record_loop env (S fuel) record_id timeout interval status_callback
                   start w
  = if now env w - start <? timeout then
      match http_get_record_details env record_id (tick env w) with
      | (Fault e, w1) =>
          (Raise e, w1, [EvTime (now env w); EvGetRecord record_id (Fault e)])
      | (Reply body, w1) =>
          match py_get body "status" (JStr "unknown") with
          | Ret status =>
              let x := after_fetch env record_id timeout interval status_callback
                                   answer start fuel body status w1 in
              (outcome x, final x,
               EvTime (now env w) :: EvGetRecord record_id (Reply body)
                      :: trace x)
          | Raise e =>
              (Raise e, w1,
               [EvTime (now env w); EvGetRecord record_id (Reply body)])
          | Abort y =>
              (Abort y, w1,
               [EvTime (now env w); EvGetRecord record_id (Reply body)])
          end
      end
    else
      (Raise (Exn TimeoutError
                  ("Timeout exceeded for record " ++ py_str env record_id
                   ++ " after " ++ py_str env (JNum timeout) ++ " seconds")),
       tick env w, [EvTime (now env w)]).
Proof.
  cbn [wait_record_loop]. unfold bind at 1, time_time at 1.
  destruct (now env w - start <? timeout); [| reflexivity].
  unfold bind at 1, get_record_details at 1, call.
  destruct (http_get_record_details env record_id (tick env w)) as [r w1].
  destruct r as [body | e]; [| reflexivity]. cbn [result_of_reply].
  unfold bind at 1, lift at 1.
  destruct (py_get body "status" (JStr "unknown")) as [status | e | y];
    [| reflexivity | reflexivity].
  unfold bind at 1, time_time at 1. unfold bind at 1.
  unfold after_fetch. cbv zeta.
  destruct (observer status (now env w1 - start) body (tick env w1)) as [Hcb _].
  rewrite Hcb.
  destruct (answer status (now env w1 - start) body) as [[] | e | y];
    [| reflexivity | reflexivity].
  destruct (py_eq_str status "complete"); [reflexivity |].
  destruct (py_eq_str status "error").
  - unfold bind at 1, lift at 1.
    destruct (py_get body "error_message" (JStr "Unknown error")); reflexivity.
  - unfold bind at 1, time_sleep at 1.
    destruct (interval <? 0); [reflexivity |].
    destruct (SLEEP_MAX <? interval); [reflexivity |].
    destruct (wait_record_loop env fuel record_id timeout interval
                               status_callback start _) as [[r2 w2] t2].
    reflexivity.
Qed.

(** The trace and the outcome of a loop that did not run out of fuel have
    the shape [record_wait_run]. *)
Lemma wait_record_loop_shape fuel :
  forall w,
    outcome (wait_record_loop env fuel record_id timeout interval
                              status_callback start w) <> Abort OutOfFuel ->
    record_wait_run env record_id timeout interval answer start
      (trace (wait_record_loop env fuel record_id timeout interval
                               status_callback start w))
      (outcome (wait_record_loop env fuel record_id timeout interval
                                 status_callback start w)).
Proof.
  induction fuel as [|fuel IH]; intros w Hne.
  - exfalso. apply Hne. reflexivity.
  - rewrite wait_record_loop_unfold in *.
    destruct (now env w - start <? timeout) eqn:Et.
    2:{ apply Z.ltb_ge in Et. apply wait_expired. assumption. }
    apply Z.ltb_lt in Et.
    destruct (http_get_record_details env record_id (tick env w)) as [r w1].
    destruct r as [body | e].
    2:{ apply wait_fetch_failed. assumption. }
    destruct (py_get body "status" (JStr "unknown")) as [status | e | y] eqn:Est.
    2:{ apply wait_not_a_dict; assumption. }
    2:{ exfalso. eapply py_get_no_abort. exact Est. }
    unfold after_fetch in *. cbv zeta in *.
    destruct (observer status (now env w1 - start) body (tick env w1))
      as [_ Hna].
    destruct (answer status (now env w1 - start) body) as [[] | e | y] eqn:Ecb.
    2:{ eapply wait_observer_failed; eassumption. }
    2:{ exfalso. eapply Hna. reflexivity. }
    destruct (py_eq_str status "complete") eqn:Ec.
    { eapply wait_complete; eassumption. }
    destruct (py_eq_str status "error") eqn:Ee.
    { destruct (py_get body "error_message" (JStr "Unknown error"))
        as [m | e | y] eqn:Em.
      - eapply wait_error; eassumption.
      - destruct body; cbn in Est, Em; discriminate.
      - exfalso. eapply py_get_no_abort. exact Em. }
    destruct (interval <? 0) eqn:Ei.
    { apply Z.ltb_lt in Ei. eapply wait_bad_interval; eassumption. }
    apply Z.ltb_ge in Ei.
    destruct (SLEEP_MAX <? interval) eqn:Eo.
    { apply Z.ltb_lt in Eo. eapply wait_overflow; eassumption. }
    apply Z.ltb_ge in Eo. cbn [outcome trace fst snd] in *.
    eapply wait_again; try eassumption; [lia |]. apply IH. exact Hne.
Qed.



Hypothesis laws : ClockLaws env.


End RecordWait.


(* ================================================================== *)
(** * Facts about the store *)

Section StoreFacts.
Import Store.

Lemma update_length l o h : List.length (update l o h) = List.length h.
Proof.
  revert l. induction h as [|x h IH]; intros [|l]; cbn; auto.
Qed.

Lemma nth_error_update_same l o h :
  (l < List.length h)%nat -> nth_error (update l o h) l = Some o.
Proof.
  revert l. induction h as [|x h IH]; intros [|l] Hl; cbn in *; try lia.
  - reflexivity.
  - apply IH. lia.
Qed.

Lemma nth_error_update_other l l' o h :
  l <> l' -> nth_error (update l o h) l' = nth_error h l'.
Proof.
  revert l l'. induction h as [|x h IH]; intros [|l] [|l'] Hne; cbn;
    try reflexivity; try congruence.
  apply IH. congruence.
Qed.

Lemma update_app_right l o (h0 made : heap) :
  (List.length h0 <= l)%nat ->
  update l o (h0 ++ made)%list
  = (h0 ++ update (l - List.length h0)%nat o made)%list.
Proof.
  revert l. induction h0 as [|x h0 IH]; intros l Hl; cbn in *.
  - rewrite Nat.sub_0_r. reflexivity.
  - destruct l as [|l]; [lia |]. cbn. rewrite IH by lia. reflexivity.
Qed.

Lemma update_last o o' (h : heap) :
  update (List.length h) o' (h ++ [o])%list = (h ++ [o'])%list.
Proof. induction h as [|x h IH]; cbn; [reflexivity | rewrite IH; reflexivity]. Qed.

Lemma nth_error_last (h : heap) o :
  nth_error (h ++ [o])%list (List.length h) = Some o.
Proof. rewrite nth_error_app2 by lia. rewrite Nat.sub_diag. reflexivity. Qed.

Lemma nth_error_app_some (h made : heap) l o :
  nth_error h l = Some o -> nth_error (h ++ made)%list l = Some o.
Proof.
  intros H. rewrite nth_error_app1; [assumption |].
  apply nth_error_Some. congruence.
Qed.

(** ** Rules for triples *)

Lemma bind_run (A B : Type) (m : H A) (f : A -> H B) h :
  bind m f h
  = match fst (m h) with
    | Ret a => f a (snd (m h))
    | Raise e => (Raise e, snd (m h))
    | Abort y => (Abort y, snd (m h))
    end.
Proof. unfold bind. destruct (m h) as [[a | e | y] h1]; reflexivity. Qed.

Lemma hoare_bind (A B : Type) (P : heap -> Prop) (m : H A) (f : A -> H B)
      (Q : result A -> heap -> Prop) (R : result B -> heap -> Prop) :
  hoare P m Q ->
  (forall a, hoare (Q (Ret a)) (f a) R) ->
  (forall e h, Q (Raise e) h -> R (Raise e) h) ->
  (forall y h, Q (Abort y) h -> R (Abort y) h) ->
  hoare P (bind m f) R.
Proof.
  intros Hm Hf He Hy h HP. rewrite bind_run. specialize (Hm h HP).
  destruct (fst (m h)) as [a | e | y]; cbn.
  - apply Hf. exact Hm.
  - apply He. exact Hm.
  - apply Hy. exact Hm.
Qed.

Lemma hoare_weaken (A : Type) (P P' : heap -> Prop) (m : H A)
      (Q Q' : result A -> heap -> Prop) :
  hoare P' m Q' ->
  (forall h, P h -> P' h) -> (forall r h, Q' r h -> Q r h) ->
  hoare P m Q.
Proof. intros Hm HP HQ h Hh. apply HQ, Hm, HP, Hh. Qed.

Lemma keeps_ret (A : Type) I (a : A) : keeps I (ret a).
Proof. intros h Hh. exact Hh. Qed.

Lemma keeps_raise (A : Type) I e : keeps I (@raise A e).
Proof. intros h Hh. exact Hh. Qed.

Lemma keeps_bind (A B : Type) I (m : H A) (f : A -> H B) :
  keeps I m -> (forall a, keeps I (f a)) -> keeps I (bind m f).
Proof. intros Hm Hf. eapply hoare_bind; eauto. Qed.

Lemma keeps_readonly (A : Type) I (m : H A) : readonly m -> keeps I m.
Proof. intros Hro h Hh. cbn. rewrite Hro. exact Hh. Qed.

Lemma keeps_for_each (A : Type) I (xs : list A) (body : A -> H unit) :
  (forall x, keeps I (body x)) -> keeps I (for_each xs body).
Proof.
  intros Hb. induction xs as [|x xs IH]; cbn [for_each].
  - apply keeps_ret.
  - apply keeps_bind; [apply Hb | intros _; exact IH].
Qed.

(** ** Operations that only read *)

Lemma readonly_ret (A : Type) (a : A) : readonly (ret a).
Proof. intros h. reflexivity. Qed.

Lemma readonly_raise (A : Type) e : readonly (@raise A e).
Proof. intros h. reflexivity. Qed.

Lemma readonly_bind (A B : Type) (m : H A) (f : A -> H B) :
  readonly m -> (forall a, readonly (f a)) -> readonly (bind m f).
Proof.
  intros Hm Hf h. rewrite bind_run. specialize (Hm h).
  destruct (fst (m h)); cbn; try assumption.
  rewrite Hf. assumption.
Qed.

Lemma readonly_deref l : readonly (deref l).
Proof. intros h. unfold deref. destruct (nth_error h l); reflexivity. Qed.

Ltac ro :=
  repeat first
         [ apply readonly_ret | apply readonly_raise | apply readonly_deref
         | apply readonly_bind; [| intros ?]
         | match goal with
           | |- readonly (match ?x with _ => _ end) => destruct x
           end ].

Lemma readonly_type_name v : readonly (type_name v).
Proof. unfold type_name. ro. Qed.

Lemma readonly_type_error (A : Type) v what : readonly (@type_error A v what).
Proof.
  unfold type_error. apply readonly_bind; [apply readonly_type_name |].
  intros ?. apply readonly_raise.
Qed.

Lemma readonly_attribute_error (A : Type) v a :
  readonly (@attribute_error A v a).
Proof.
  unfold attribute_error. apply readonly_bind; [apply readonly_type_name |].
  intros ?. apply readonly_raise.
Qed.

Lemma readonly_truthy v : readonly (truthy v).
Proof. unfold truthy. ro. Qed.

Lemma readonly_contains_str c k : readonly (contains_str c k).
Proof.
  unfold contains_str. destruct c; ro;
    try (apply readonly_bind; [apply readonly_type_name | intros ?; ro]).
Qed.

Lemma readonly_getitem_str c k : readonly (getitem_str c k).
Proof. unfold getitem_str. destruct c; ro; apply readonly_type_error. Qed.

Lemma readonly_method_get c k d : readonly (method_get c k d).
Proof. unfold method_get. destruct c; ro; apply readonly_attribute_error. Qed.

Lemma readonly_iterate c : readonly (iterate c).
Proof. unfold iterate. destruct c; ro; apply readonly_type_error. Qed.

Lemma readonly_hash_key k : readonly (hash_key k).
Proof.
  unfold hash_key. destruct k; ro.
Qed.

Lemma readonly_deref_dict d : readonly (deref_dict d).
Proof.
  unfold deref_dict. apply readonly_bind; [apply readonly_deref |].
  intros [items | elems]; [ro | intros h; reflexivity].
Qed.

Lemma readonly_dict_contains d k : readonly (dict_contains d k).
Proof.
  unfold dict_contains.
  apply readonly_bind; [apply readonly_hash_key | intros _].
  apply readonly_bind; [apply readonly_deref_dict | intros ?]. ro.
Qed.

Lemma readonly_dict_getitem d k : readonly (dict_getitem d k).
Proof.
  unfold dict_getitem.
  apply readonly_bind; [apply readonly_hash_key | intros _].
  apply readonly_bind; [apply readonly_deref_dict | intros ?]. ro.
Qed.

End StoreFacts.

(* ================================================================== *)
(** * [extract_document_entities] writes to new objects only *)

Section Frame.
Import Store.
Variable h0 : heap.
Variable info : loc.

Lemma working_alloc o h : working h0 info h -> working h0 info (h ++ [o])%list.
Proof.
  intros ((made & ->) & Hle & items & Hnth & Hall). split; [| split].
  - exists (made ++ [o])%list. rewrite app_assoc. reflexivity.
  - exact Hle.
  - exists items. split; [| exact Hall]. apply nth_error_app_some. exact Hnth.
Qed.

Lemma working_update l o h :
  working h0 info h -> (List.length h0 <= l)%nat -> l <> info ->
  working h0 info (update l o h).
Proof.
  intros ((made & ->) & Hle & items & Hnth & Hall) Hl Hne. split; [| split].
  - rewrite update_app_right by exact Hl. eauto.
  - exact Hle.
  - exists items. split; [| exact Hall].
    rewrite nth_error_update_other by exact Hne. exact Hnth.
Qed.

Lemma working_update_info items' h :
  working h0 info h ->
  Forall (fun kv => exists l, snd kv = VRef l /\ (List.length h0 <= l)%nat)
         items' ->
  working h0 info (update info (ODict items') h).
Proof.
  intros ((made & ->) & Hle & items & Hnth & Hall) Hall'. split; [| split].
  - rewrite update_app_right by exact Hle. eauto.
  - exact Hle.
  - exists items'. split; [| exact Hall'].
    apply nth_error_update_same. apply nth_error_Some. congruence.
Qed.

Lemma working_info_allocated h :
  working h0 info h -> (info < List.length h)%nat.
Proof.
  intros (_ & _ & items & Hnth & _). apply nth_error_Some. congruence.
Qed.

Lemma hoare_alloc o :
  hoare (working h0 info) (alloc o)
        (fun r h => working h0 info h /\ is_made h0 info r).
Proof.
  intros h Hh. cbn. split; [apply working_alloc; exact Hh |].
  intros v Hv. inversion Hv; subst. exists (List.length h).
  pose proof (working_info_allocated Hh) as Hlt.
  destruct Hh as (_ & Hle & _). repeat split; lia.
Qed.

Lemma hoare_method_copy c :
  hoare (working h0 info) (method_copy c)
        (fun r h => working h0 info h /\ is_made h0 info r).
Proof.
  intros h Hh. cbn beta. destruct c as [| b | n | s | l];
    try (unfold method_copy; split;
         [rewrite readonly_attribute_error; exact Hh
         | intros v Hv; cbv in Hv; discriminate]).
  unfold method_copy. rewrite bind_run. unfold deref.
  destruct (nth_error h l) as [o |]; cbn.
  - apply hoare_alloc. exact Hh.
  - split; [exact Hh | intros v Hv; discriminate].
Qed.

Lemma keeps_delitem_made c k :
  (forall l, c = VRef l -> (List.length h0 <= l)%nat /\ l <> info) ->
  keeps (working h0 info) (delitem_str c k).
Proof.
  intros Hc. destruct c as [| b | n | s | l];
    try (apply keeps_readonly; apply readonly_type_error).
  destruct (Hc l eq_refl) as [Hl Hne].
  intros h Hh. unfold delitem_str. rewrite bind_run. unfold deref.
  destruct (nth_error h l) as [[items | elems] |]; cbn; try exact Hh.
  destruct (lookup (VStr k) items); cbn; [| exact Hh].
  apply working_update; assumption.
Qed.

Lemma lookup_in k items v :
  lookup k items = Some v -> exists k', In (k', v) items.
Proof.
  induction items as [|[k' v'] items IH]; cbn; [discriminate |].
  destruct (key_eqb k k').
  - intros H. inversion H; subst. eauto.
  - intros H. destruct (IH H) as (k'' & Hin). eauto.
Qed.

(** What [extracted_info[doc_type]] gives is one of the new lists. *)
Lemma hoare_dict_getitem k :
  hoare (working h0 info) (dict_getitem info k)
        (fun r h => working h0 info h
                    /\ forall v, r = Ret v ->
                                 exists l, v = VRef l
                                           /\ (List.length h0 <= l)%nat).
Proof.
  intros h Hh. rewrite readonly_dict_getitem. split; [exact Hh |].
  destruct Hh as (_ & _ & items & Hnth & Hall).
  intros v Hv. unfold dict_getitem in Hv. rewrite bind_run in Hv.
  destruct (fst (hash_key k h)) eqn:Ehash; try discriminate.
  rewrite readonly_hash_key in Hv. rewrite bind_run in Hv.
  unfold deref_dict at 1 2 in Hv. rewrite bind_run in Hv.
  unfold deref in Hv. rewrite Hnth in Hv. cbn in Hv.
  destruct (lookup k items) as [x |] eqn:El; cbn in Hv; [| discriminate].
  inversion Hv; subst. destruct (lookup_in _ _ El) as (k' & Hin).
  rewrite Forall_forall in Hall. exact (Hall _ Hin).
Qed.

Lemma keeps_method_append_made c x :
  (forall l, c = VRef l -> (List.length h0 <= l)%nat) ->
  keeps (working h0 info) (method_append c x).
Proof.
  intros Hc. destruct c as [| b | n | s | l];
    try (apply keeps_readonly; apply readonly_attribute_error).
  specialize (Hc l eq_refl).
  intros h Hh. unfold method_append. rewrite bind_run. unfold deref.
  destruct (nth_error h l) as [[items | elems] |] eqn:El; cbn; try exact Hh.
  - rewrite readonly_attribute_error. exact Hh.
  - apply working_update; [exact Hh | exact Hc |].
    destruct Hh as (_ & _ & items & Hnth & _). congruence.
Qed.

Ltac side := intros ? ? [? ?]; assumption.

Lemma keeps_process_entity doc_type entity :
  keeps (working h0 info) (process_entity info doc_type entity).
Proof.
  unfold process_entity.
  apply keeps_bind; [apply keeps_readonly, readonly_contains_str |].
  intros [|]; [| apply keeps_ret].
  apply keeps_bind; [apply keeps_readonly, readonly_getitem_str |].
  intros original.
  eapply hoare_bind; [apply hoare_method_copy | | side | side].
  intros structure.
  eapply hoare_weaken with
    (P' := fun h => working h0 info h
                    /\ forall l, structure = VRef l ->
                                 (List.length h0 <= l)%nat /\ l <> info)
    (Q' := fun _ h => working h0 info h).
  2:{ intros h [Hh Hmade]. split; [exact Hh |]. intros l ->.
      destruct (Hmade _ eq_refl) as (l' & Heq & Hl & Hne).
      inversion Heq; subst. auto. }
  2:{ auto. }
  intros h [Hh Hs]. revert h Hh.
  change (keeps (working h0 info)
                (bind (contains_str structure "name_to_show")
                      (fun has_name =>
                         bind (if has_name
                               then delitem_str structure "name_to_show"
                               else ret tt)
                              (fun _ =>
                                 bind (dict_getitem info doc_type)
                                      (fun entries =>
                                         method_append entries structure))))).
  apply keeps_bind; [apply keeps_readonly, readonly_contains_str |].
  intros has_name. apply keeps_bind.
  { destruct has_name; [apply keeps_delitem_made; exact Hs | apply keeps_ret]. }
  intros _.
  eapply hoare_bind; [apply hoare_dict_getitem | | side | side].
  intros entries h [Hh Hentries].
  apply keeps_method_append_made; [| exact Hh].
  intros l ->. destruct (Hentries _ eq_refl) as (l' & Heq & Hl).
  inversion Heq; subst. exact Hl.
Qed.

Lemma set_item_forall (P : val * val -> Prop) k v items :
  Forall P items -> (forall k', P (k', v)) -> Forall P (set_item k v items).
Proof.
  intros Hall Hv. induction Hall as [|[k' v'] items Hx Hall IH]; cbn.
  - constructor; [apply Hv | constructor].
  - destruct (key_eqb k k'); constructor; auto.
Qed.

Lemma keeps_dict_setitem_made k v :
  (exists l, v = VRef l /\ (List.length h0 <= l)%nat) ->
  keeps (working h0 info) (dict_setitem info k v).
Proof.
  intros Hv h Hh. unfold dict_setitem. rewrite bind_run.
  destruct (fst (hash_key k h)) eqn:Ehash; rewrite readonly_hash_key;
    try exact Hh.
  rewrite bind_run. unfold deref_dict at 1 2. rewrite bind_run. unfold deref.
  pose proof Hh as (_ & _ & items & Hnth & Hall). rewrite Hnth. cbn.
  apply working_update_info; [exact Hh |].
  apply set_item_forall; [exact Hall | intros k'; exact Hv].
Qed.

Lemma keeps_process_document document :
  keeps (working h0 info) (process_document info document).
Proof.
  unfold process_document.
  apply keeps_bind; [apply keeps_readonly, readonly_method_get |].
  intros doc_type.
  apply keeps_bind.
  { eapply hoare_weaken; [apply hoare_alloc | auto | cbn; tauto]. }
  intros no_entities.
  apply keeps_bind; [apply keeps_readonly, readonly_method_get |].
  intros entities.
  apply keeps_bind; [apply keeps_readonly, readonly_dict_contains |].
  intros known. apply keeps_bind.
  { destruct known; cbn [negb]; [apply keeps_ret |].
    eapply hoare_bind; [apply hoare_alloc | | side | side].
    intros entries h [Hh Hmade].
    apply keeps_dict_setitem_made; [| exact Hh].
    destruct (Hmade _ eq_refl) as (l & -> & Hl & _). eauto. }
  intros _.
  apply keeps_bind; [apply keeps_readonly, readonly_iterate |].
  intros es. apply keeps_for_each. intros entity. apply keeps_process_entity.
Qed.

End Frame.

(* ================================================================== *)
(** * What [extract_document_entities] returns *)

Section Runs.
Import Store.

Lemma dict_at_inv h c items :
  dict_at h c = Some items ->
  exists l, c = VRef l /\ nth_error h l = Some (ODict items).
Proof.
  destruct c as [| | | | l]; cbn; try discriminate.
  destruct (nth_error h l) as [[i | e] |] eqn:E; intros H; try discriminate.
  inversion H; subst. eauto.
Qed.

Lemma list_at_inv h c elems :
  list_at h c = Some elems ->
  exists l, c = VRef l /\ nth_error h l = Some (OList elems).
Proof.
  destruct c as [| | | | l]; cbn; try discriminate.
  destruct (nth_error h l) as [[i | e] |] eqn:E; intros H; try discriminate.
  inversion H; subst. eauto.
Qed.

Lemma run_contains_str h c k items :
  dict_at h c = Some items ->
  contains_str c k h = (Ret (has_key k items), h).
Proof.
  intros H. destruct (dict_at_inv _ _ H) as (l & -> & Hl).
  unfold contains_str, bind, deref. rewrite Hl. reflexivity.
Qed.

Lemma run_getitem_str h c k items v :
  dict_at h c = Some items -> lookup (VStr k) items = Some v ->
  getitem_str c k h = (Ret v, h).
Proof.
  intros H Hk. destruct (dict_at_inv _ _ H) as (l & -> & Hl).
  unfold getitem_str, bind, deref. rewrite Hl. cbn. rewrite Hk. reflexivity.
Qed.

Lemma run_method_get h c k d items :
  dict_at h c = Some items ->
  method_get c k d h
  = (Ret (match lookup (VStr k) items with Some v => v | None => d end), h).
Proof.
  intros H. destruct (dict_at_inv _ _ H) as (l & -> & Hl).
  unfold method_get, bind, deref. rewrite Hl. reflexivity.
Qed.

Lemma run_iterate h c elems :
  list_at h c = Some elems -> iterate c h = (Ret elems, h).
Proof.
  intros H. destruct (list_at_inv _ _ H) as (l & -> & Hl).
  unfold iterate, bind, deref. rewrite Hl. reflexivity.
Qed.

Lemma run_method_copy h c items :
  dict_at h c = Some items ->
  method_copy c h = (Ret (VRef (List.length h)), (h ++ [ODict items])%list).
Proof.
  intros H. destruct (dict_at_inv _ _ H) as (l & -> & Hl).
  unfold method_copy, bind, deref. rewrite Hl. reflexivity.
Qed.

Lemma remove_key_absent k items :
  lookup k items = None -> remove_key k items = items.
Proof.
  induction items as [|[k' v] items IH]; cbn; [reflexivity |].
  destruct (key_eqb k k'); [discriminate |].
  intros H. rewrite IH by exact H. reflexivity.
Qed.

Lemma set_item_absent k v items :
  lookup k items = None -> set_item k v items = (items ++ [(k, v)])%list.
Proof.
  induction items as [|[k' v'] items IH]; cbn; [reflexivity |].
  destruct (key_eqb k k'); [discriminate |].
  intros H. rewrite IH by exact H. reflexivity.
Qed.

(** Copying a structure and deleting [name_to_show] from the copy: the
    store gains one object, the cleaned copy. *)
Lemma run_clean_copy (A : Type) h s items (rest : val -> H A) :
  dict_at h s = Some items ->
  bind (method_copy s)
       (fun structure =>
          bind (contains_str structure "name_to_show")
               (fun has_name =>
                  bind (if has_name
                        then delitem_str structure "name_to_show"
                        else ret tt)
                       (fun _ => rest structure))) h
  = rest (VRef (List.length h)) (h ++ [ODict (cleaned items)])%list.
Proof.
  intros Hs. unfold bind at 1. rewrite (run_method_copy _ _ Hs).
  assert (Hnew : nth_error (h ++ [ODict items]) (List.length h)
                 = Some (ODict items)).
  { rewrite nth_error_app2 by lia. rewrite Nat.sub_diag. reflexivity. }
  unfold bind at 1.
  rewrite (@run_contains_str _ (VRef (List.length h)) "name_to_show" items)
    by (cbn; rewrite Hnew; reflexivity).
  unfold has_key, cleaned.
  destruct (lookup (VStr "name_to_show") items) as [v |] eqn:Ek.
  - unfold bind at 1. unfold delitem_str, bind, deref. rewrite Hnew. cbn.
    rewrite Ek. cbn. rewrite update_last. reflexivity.
  - unfold bind at 1. cbn. rewrite remove_key_absent by exact Ek. reflexivity.
Qed.

Lemma run_dict_contains h info t items :
  nth_error h info = Some (ODict items) ->
  dict_contains info (VStr t) h = (Ret (has_key t items), h).
Proof.
  intros H. unfold dict_contains, bind, hash_key, deref_dict, bind, deref.
  cbn. rewrite H. reflexivity.
Qed.

Lemma run_dict_setitem h info t v items :
  nth_error h info = Some (ODict items) ->
  dict_setitem info (VStr t) v h
  = (Ret tt, update info (ODict (set_item (VStr t) v items)) h).
Proof.
  intros H. unfold dict_setitem, bind, hash_key, deref_dict, bind, deref.
  cbn. rewrite H. reflexivity.
Qed.

Lemma run_dict_getitem h info t v items :
  nth_error h info = Some (ODict items) -> lookup (VStr t) items = Some v ->
  dict_getitem info (VStr t) h = (Ret v, h).
Proof.
  intros H Hk. unfold dict_getitem, bind, hash_key, deref_dict, bind, deref.
  cbn. rewrite H. cbn. rewrite Hk. reflexivity.
Qed.

Lemma run_method_append h l x elems :
  nth_error h l = Some (OList elems) ->
  method_append (VRef l) x h = (Ret tt, update l (OList (elems ++ [x])) h).
Proof.
  intros H. unfold method_append, bind, deref. rewrite H. reflexivity.
Qed.

End Runs.

Section Shaping.
Import Store.

Lemma dict_at_intact h0 h v x :
  intact h0 h -> dict_at h0 v = Some x -> dict_at h v = Some x.
Proof.
  intros Hi H. destruct (dict_at_inv _ _ H) as (l & -> & Hl).
  cbn. rewrite (Hi _ _ Hl). reflexivity.
Qed.

Lemma list_at_intact h0 h v x :
  intact h0 h -> list_at h0 v = Some x -> list_at h v = Some x.
Proof.
  intros Hi H. destruct (list_at_inv _ _ H) as (l & -> & Hl).
  cbn. rewrite (Hi _ _ Hl). reflexivity.
Qed.

Lemma view_entity_intact h0 h e x :
  intact h0 h -> view_entity h0 e = Some x -> view_entity h e = Some x.
Proof.
  intros Hi. unfold view_entity.
  destruct (dict_at h0 e) as [items |] eqn:Ee; [| discriminate].
  rewrite (dict_at_intact _ Hi Ee).
  destruct (lookup (VStr "structure") items) as [s |]; [| auto].
  destruct (dict_at h0 s) as [structure |] eqn:Es; [| discriminate].
  rewrite (dict_at_intact _ Hi Es). auto.
Qed.

Lemma all_some_map_intact (X Y : Type) (f0 f : X -> option Y) xs :
  forall ys,
    (forall x y, f0 x = Some y -> f x = Some y) ->
    all_some (map f0 xs) = Some ys -> all_some (map f xs) = Some ys.
Proof.
  induction xs as [|x xs IH]; intros ys Hf H; cbn in *; [exact H |].
  destruct (f0 x) as [y |] eqn:Ex; [| discriminate].
  rewrite (Hf _ _ Ex).
  destruct (all_some (map f0 xs)) as [ys' |] eqn:Exs; [| discriminate].
  rewrite (IH ys' Hf eq_refl). exact H.
Qed.

Lemma view_document_intact h0 h d x :
  intact h0 h -> view_document h0 d = Some x -> view_document h d = Some x.
Proof.
  intros Hi. unfold view_document.
  destruct (dict_at h0 d) as [items |] eqn:Ed; [| discriminate].
  rewrite (dict_at_intact _ Hi Ed).
  destruct (match lookup (VStr "document_type") items with
            | Some (VStr s) => Some s
            | None => Some "unknown"
            | _ => None
            end) as [ty |]; [| discriminate].
  destruct (lookup (VStr "entities") items) as [e |].
  - destruct (list_at h0 e) as [es |] eqn:Ee; [| discriminate].
    rewrite (list_at_intact _ Hi Ee).
    destruct (all_some (map (view_entity h0) es)) as [vs |] eqn:Evs;
      [| discriminate].
    rewrite (@all_some_map_intact _ _ (view_entity h0) (view_entity h) es vs);
      [auto | | exact Evs].
    intros e' v'. apply view_entity_intact. exact Hi.
  - auto.
Qed.

Lemma view_record_intact h0 h r docs :
  intact h0 h -> view_record h0 r = Some docs -> view_record h r = Some docs.
Proof.
  intros Hi. unfold view_record.
  destruct (dict_at h0 r) as [items |] eqn:Er; [| discriminate].
  rewrite (dict_at_intact _ Hi Er).
  destruct (lookup (VStr "documents") items) as [d |]; [| discriminate].
  destruct (list_at h0 d) as [ds |] eqn:Ed; [| discriminate].
  rewrite (list_at_intact _ Hi Ed).
  apply all_some_map_intact. intros d' x. apply view_document_intact. exact Hi.
Qed.

Lemma intact_but_trans p h1 h2 h3 :
  intact_but p h1 h2 -> intact_but p h2 h3 -> intact_but p h1 h3.
Proof. intros H12 H23 l o Hl Hne. apply H23; [apply H12 |]; assumption. Qed.

Lemma intact_but_app p h made : intact_but p h (h ++ made)%list.
Proof. intros l o Hl _. apply nth_error_app_some. exact Hl. Qed.

Lemma intact_but_update p o h : intact_but p h (update p o h).
Proof.
  intros l o' Hl Hne. rewrite nth_error_update_other by congruence. exact Hl.
Qed.

Lemma intact_step p h0 h h' :
  intact h0 h -> intact_but p h h' -> nth_error h0 p = None -> intact h0 h'.
Proof.
  intros Hi Hb Hp l o Hl. apply Hb; [apply Hi; exact Hl |]. congruence.
Qed.

Variable h0 : heap.
Variable info : loc.
Variable t : string.
Variable lk : loc.
Variable items : list (val * val).
Hypothesis lk_fresh : nth_error h0 lk = None.
Hypothesis lk_not_info : lk <> info.
Hypothesis lk_entry : lookup (VStr t) items = Some (VRef lk).

(** One entity: nothing for an entity without [structure]; otherwise the
    cleaned copy is made and its reference appended to the list of the
    document type. *)
Lemma run_process_entity h entity v elems :
  view_entity h entity = Some v ->
  nth_error h info = Some (ODict items) ->
  nth_error h lk = Some (OList elems) ->
  process_entity info (VStr t) entity h
  = (Ret tt,
     match v with
     | None => h
     | Some s =>
         update lk (OList (elems ++ [VRef (List.length h)]))
                (h ++ [ODict (cleaned s)])%list
     end).
Proof.
  intros Hv Hinfo Hlk. unfold view_entity in Hv.
  destruct (dict_at h entity) as [eitems |] eqn:Ee; [| discriminate].
  unfold process_entity. unfold bind at 1.
  rewrite (@run_contains_str h entity "structure" eitems Ee). unfold has_key.
  destruct (lookup (VStr "structure") eitems) as [s |] eqn:Es.
  - destruct (dict_at h s) as [structure |] eqn:Ed; [| discriminate].
    inversion Hv; subst. unfold bind at 1.
    rewrite (@run_getitem_str h entity "structure" eitems s Ee Es).
    rewrite (@run_clean_copy unit h s structure _ Ed). unfold bind at 1.
    rewrite (@run_dict_getitem _ info t (VRef lk) items);
      [| apply nth_error_app_some; exact Hinfo | exact lk_entry].
    apply run_method_append. apply nth_error_app_some. exact Hlk.
  - inversion Hv; subst. reflexivity.
Qed.

(** The loop over the entities of one document. *)
Lemma run_entity_loop es :
  forall vs h elems,
    all_some (map (view_entity h0) es) = Some vs ->
    intact h0 h ->
    nth_error h info = Some (ODict items) ->
    nth_error h lk = Some (OList elems) ->
    exists h' cs,
      for_each es (process_entity info (VStr t)) h = (Ret tt, h')
      /\ intact_but lk h h'
      /\ nth_error h' lk = Some (OList (elems ++ map VRef cs))
      /\ copies_at info h' cs (map cleaned (present vs)).
Proof.
  induction es as [|e es IH]; intros vs h elems Hvs Hi Hinfo Hlk.
  - cbn in Hvs. inversion Hvs; subst. exists h, []. cbn.
    rewrite app_nil_r. repeat split; auto.
    + intros l o Hl _. exact Hl.
    + constructor.
  - cbn [map all_some] in Hvs.
    destruct (view_entity h0 e) as [v |] eqn:Ev; [| discriminate].
    destruct (all_some (map (view_entity h0) es)) as [vs' |] eqn:Evs;
      [| discriminate].
    inversion Hvs; subst. cbn [for_each]. unfold bind at 1.
    rewrite (@run_process_entity h e v elems
               (view_entity_intact _ Hi Ev) Hinfo Hlk).
    destruct v as [s |].
    + set (h1 := update lk (OList (elems ++ [VRef (List.length h)]))
                        (h ++ [ODict (cleaned s)])%list).
      assert (Hlt : (lk < List.length h)%nat)
        by (apply nth_error_Some; congruence).
      assert (Hlt' : (info < List.length h)%nat)
        by (apply nth_error_Some; congruence).
      assert (Hb : intact_but lk h h1).
      { eapply intact_but_trans; [apply intact_but_app |].
        apply intact_but_update. }
      assert (Hlk1 : nth_error h1 lk
                     = Some (OList (elems ++ [VRef (List.length h)]))).
      { unfold h1. apply nth_error_update_same. rewrite length_app. lia. }
      assert (Hnew : nth_error h1 (List.length h) = Some (ODict (cleaned s))).
      { unfold h1. rewrite nth_error_update_other by lia.
        rewrite nth_error_app2 by lia. rewrite Nat.sub_diag. reflexivity. }
      destruct (IH vs' h1 (elems ++ [VRef (List.length h)])%list eq_refl)
        as (h' & cs & Hrun & Hb' & Hlk' & Hcs).
      * eapply intact_step; eauto.
      * apply Hb; [exact Hinfo | congruence].
      * exact Hlk1.
      * exists h', (List.length h :: cs). split; [exact Hrun |].
        split; [eapply intact_but_trans; eauto |]. split.
        -- rewrite Hlk'. rewrite <- app_assoc. reflexivity.
        -- cbn [present map]. constructor; [| exact Hcs].
           split; [lia |]. apply Hb'; [exact Hnew | lia].
    + destruct (IH vs' h elems eq_refl Hi Hinfo Hlk)
        as (h' & cs & Hrun & Hb' & Hlk' & Hcs).
      exists h', cs. auto.
Qed.

End Shaping.

Section ShapingDocuments.
Import Store.

Lemma copies_at_intact info h h' cs ss :
  intact_but info h h' -> copies_at info h cs ss -> copies_at info h' cs ss.
Proof.
  intros Hb H. induction H as [|c s cs ss [Hne Hc] _ IH]; constructor; auto.
Qed.

Lemma entry_rep_intact info h h' kv a :
  intact_but info h h' -> entry_rep info h kv a -> entry_rep info h' kv a.
Proof.
  intros Hb (Hk & l & cs & Hv & Hne & Hl & Hcs). split; [exact Hk |].
  exists l, cs. repeat split; auto. eapply copies_at_intact; eauto.
Qed.

Lemma lookup_absent info h items A t :
  Forall2 (entry_rep info h) items A ->
  ~ In t (map fst A) ->
  lookup (VStr t) items = None.
Proof.
  intros H. induction H as [|[k v] a items A (Hk & _) _ IH]; cbn; intros Hn.
  - reflexivity.
  - cbn in Hk. subst k. cbn.
    destruct (String.eqb t (fst a)) eqn:E.
    + apply String.eqb_eq in E. exfalso. apply Hn. left. symmetry. exact E.
    + apply IH. intros Hin. apply Hn. right. exact Hin.
Qed.

Lemma lookup_app_absent k v items :
  lookup k items = None -> key_eqb k k = true ->
  lookup k (items ++ [(k, v)]) = Some v.
Proof.
  intros H Hk. induction items as [|[k' v'] items IH]; cbn in *.
  - rewrite Hk. reflexivity.
  - destruct (key_eqb k k'); [discriminate | auto].
Qed.

Lemma all_some_dicts info h cs ss :
  copies_at info h cs ss ->
  all_some (map (dict_at h) (map VRef cs)) = Some ss.
Proof.
  intros H. induction H as [|c s cs ss [_ Hc] _ IH]; cbn; [reflexivity |].
  rewrite Hc. rewrite IH. reflexivity.
Qed.

Lemma read_entries_rep info h l cs ss :
  nth_error h l = Some (OList (map VRef cs)) ->
  copies_at info h cs ss ->
  read_entries h (VRef l) = Some ss.
Proof.
  intros Hl Hcs. unfold read_entries. cbn. rewrite Hl.
  eapply all_some_dicts. exact Hcs.
Qed.

Lemma read_items_rep info h items A :
  Forall2 (entry_rep info h) items A ->
  all_some (map (fun kv =>
                   match read_entries h (snd kv) with
                   | Some ss => Some (fst kv, ss)
                   | None => None
                   end) items)
  = Some (map (fun a => (VStr (fst a), snd a)) A).
Proof.
  intros Hall.
  induction Hall as [|[k v] a items A (Hk & l & cs & Hv & _ & Hl & Hcs) _ IH].
  - reflexivity.
  - cbn [fst snd] in Hk, Hv. subst k v. cbn [map all_some fst snd].
    rewrite (read_entries_rep _ Hl Hcs). rewrite IH. reflexivity.
Qed.

(** Reading back a store in which [extracted_info] holds [A]. *)
Lemma read_result_rep info h A :
  result_rep info h A ->
  read_result h (VRef info) = Some (map (fun a => (VStr (fst a), snd a)) A).
Proof.
  intros (items & Hinfo & Hall). unfold read_result. cbn [dict_at].
  rewrite Hinfo. eapply read_items_rep. exact Hall.
Qed.

Variable h0 : heap.
Variable info : loc.
Hypothesis info_fresh : nth_error h0 info = None.

Lemma intact_length h : intact h0 h -> (List.length h0 <= List.length h)%nat.
Proof.
  intros Hi. destruct h0 as [|o0 rest] eqn:E; [cbn; lia |].
  rewrite <- E in *.
  destruct (nth_error h0 (List.length h0 - 1)) as [o |] eqn:En.
  - apply Hi in En. assert (List.length h0 - 1 < List.length h)%nat
      by (apply nth_error_Some; congruence).
    lia.
  - apply nth_error_None in En. rewrite E in En. cbn in En. lia.
Qed.

(** One document whose type is not yet a key: the key is added with a new
    list, which receives the cleaned copies of the structures. *)
Lemma run_process_document h document tdoc structs A :
  view_document h0 document = Some (tdoc, structs) ->
  intact h0 h ->
  result_rep info h A ->
  ~ In tdoc (map fst A) ->
  exists h',
    process_document info document h = (Ret tt, h')
    /\ intact h0 h'
    /\ result_rep info h' (A ++ [(tdoc, map cleaned structs)]).
Proof.
  intros Hview Hi (items & Hinfo & Hall) Hnew.
  unfold view_document in Hview.
  destruct (dict_at h0 document) as [ditems |] eqn:Ed; [| discriminate].
  pose proof (intact_length Hi) as Hlen.
  assert (Hinfo_lt : (info < List.length h)%nat)
    by (apply nth_error_Some; congruence).
  set (lk := S (List.length h)).
  set (items' := (items ++ [(VStr tdoc, VRef lk)])%list).
  set (h2 := ((h ++ [OList []]) ++ [OList []])%list).
  set (h3 := update info (ODict items') h2).
  (* the entities the loop visits, and their views *)
  assert (Hents :
    exists ents es vs,
      match lookup (VStr "entities") ditems with
      | Some v => v
      | None => VRef (List.length h)
      end = ents
      /\ list_at h3 ents = Some es
      /\ all_some (map (view_entity h0) es) = Some vs
      /\ structs = present vs
      /\ match lookup (VStr "document_type") ditems with
         | Some v => v
         | None => VStr "unknown"
         end = VStr tdoc).
  { assert (Hb3 : intact h0 h3).
    { intros l o Hl. unfold h3. rewrite nth_error_update_other by congruence.
      unfold h2. do 2 apply nth_error_app_some. apply Hi. exact Hl. }
    destruct (lookup (VStr "document_type") ditems) as [ty |] eqn:Ety.
    - destruct ty as [| | | s |]; try discriminate.
      destruct (lookup (VStr "entities") ditems) as [e |] eqn:Eent.
      + destruct (list_at h0 e) as [es |] eqn:Ees; [| discriminate].
        destruct (all_some (map (view_entity h0) es)) as [vs |] eqn:Evs;
          [| discriminate].
        inversion Hview; subst. exists e, es, vs.
        repeat split; auto. eapply list_at_intact; eauto.
      + cbn in Hview. inversion Hview; subst.
        exists (VRef (List.length h)), [], []. repeat split; auto.
        cbn. unfold h3. rewrite nth_error_update_other by lia.
        unfold h2. rewrite <- app_assoc. rewrite nth_error_app2 by lia.
        rewrite Nat.sub_diag. reflexivity.
    - destruct (lookup (VStr "entities") ditems) as [e |] eqn:Eent.
      + destruct (list_at h0 e) as [es |] eqn:Ees; [| discriminate].
        destruct (all_some (map (view_entity h0) es)) as [vs |] eqn:Evs;
          [| discriminate].
        inversion Hview; subst. exists e, es, vs.
        repeat split; auto. eapply list_at_intact; eauto.
      + cbn in Hview. inversion Hview; subst.
        exists (VRef (List.length h)), [], []. repeat split; auto.
        cbn. unfold h3. rewrite nth_error_update_other by lia.
        unfold h2. rewrite <- app_assoc. rewrite nth_error_app2 by lia.
        rewrite Nat.sub_diag. reflexivity. }
  destruct Hents as (ents & es & vs & Hents & Hes & Hvs & -> & Hty).
  assert (Habsent : lookup (VStr tdoc) items = None)
    by (eapply lookup_absent; eauto).
  (* the run up to the loop *)
  assert (Hprefix :
    process_document info document h
    = for_each es (process_entity info (VStr tdoc)) h3).
  { unfold process_document. unfold bind at 1.
    rewrite (@run_method_get h document "document_type" (VStr "unknown")
               ditems (dict_at_intact _ Hi Ed)).
    rewrite Hty. unfold bind at 1. cbn [alloc].
    unfold bind at 1.
    rewrite (@run_method_get (h ++ [OList []])%list document "entities"
               (VRef (List.length h)) ditems).
    2:{ eapply dict_at_intact; [| exact Ed].
        intros l o Hl. apply nth_error_app_some. apply Hi. exact Hl. }
    rewrite Hents. unfold bind at 1.
    rewrite (@run_dict_contains (h ++ [OList []])%list info tdoc items)
      by (apply nth_error_app_some; exact Hinfo).
    unfold has_key. rewrite Habsent. cbn [negb].
    unfold bind at 1. unfold bind at 1. cbn [alloc].
    rewrite (@run_dict_setitem ((h ++ [OList []]) ++ [OList []])%list info tdoc
               (VRef (List.length (h ++ [OList []])%list)) items)
      by (do 2 apply nth_error_app_some; exact Hinfo).
    rewrite set_item_absent by exact Habsent.
    replace (List.length (h ++ [OList []])%list) with lk
      by (unfold lk; rewrite length_app; cbn; lia).
    fold items'. fold h2. fold h3.
    unfold bind at 1. rewrite (@run_iterate h3 ents es Hes). reflexivity. }
  assert (Hlen2 : List.length h2 = S (S (List.length h))).
  { unfold h2. rewrite !length_app. cbn. lia. }
  assert (Hinfo3 : nth_error h3 info = Some (ODict items')).
  { unfold h3. apply nth_error_update_same. lia. }
  assert (Hlk3 : nth_error h3 lk = Some (OList [])).
  { unfold h3. rewrite nth_error_update_other by (unfold lk; lia).
    unfold h2.
    replace lk with (List.length (h ++ [OList []])%list)
      by (unfold lk; rewrite length_app; cbn; lia).
    apply nth_error_last. }
  assert (Hb3 : intact_but info h h3).
  { intros l o Hl Hne. unfold h3. rewrite nth_error_update_other by congruence.
    unfold h2. do 2 apply nth_error_app_some. exact Hl. }
  assert (Hi3 : intact h0 h3) by (eapply intact_step; eauto).
  assert (F1 : nth_error h0 lk = None)
    by (apply nth_error_None; unfold lk; lia).
  assert (F2 : lk <> info) by (unfold lk; lia).
  assert (F3 : lookup (VStr tdoc) items' = Some (VRef lk)).
  { unfold items'. apply lookup_app_absent; [exact Habsent |].
    cbn. apply String.eqb_refl. }
  destruct (@run_entity_loop h0 info tdoc lk items' F1 F2 F3 es vs h3 []
              Hvs Hi3 Hinfo3 Hlk3)
    as (h' & cs & Hrun & Hb' & Hlk' & Hcs).
  assert (Hbh : intact_but info h h').
  { intros l o Hl Hne. apply Hb'; [apply Hb3; assumption |].
    assert (l < List.length h)%nat by (apply nth_error_Some; congruence).
    unfold lk. lia. }
  exists h'. split; [rewrite Hprefix; exact Hrun |].
  split; [eapply intact_step; eauto |].
  exists items'. split.
  - apply Hb'; [exact Hinfo3 | unfold lk; lia].
  - unfold items'. apply Forall2_app.
    + eapply Forall2_impl; [| exact Hall].
      intros kv a. apply entry_rep_intact. exact Hbh.
    + constructor; [| constructor]. split; [reflexivity |].
      exists lk, cs. cbn [snd]. repeat split; auto.
Qed.

(** The loop over the documents. *)
Lemma run_document_loop ds :
  forall docs h A,
    all_some (map (view_document h0) ds) = Some docs ->
    NoDup (map fst A ++ map fst docs) ->
    intact h0 h ->
    result_rep info h A ->
    exists h',
      for_each ds (process_document info) h = (Ret tt, h')
      /\ intact h0 h'
      /\ result_rep info h'
                    (A ++ map (fun d => (fst d, map cleaned (snd d))) docs).
Proof.
  induction ds as [|d ds IH]; intros docs h A Hdocs Hnd Hi Hrep.
  - cbn in Hdocs. inversion Hdocs; subst. exists h. cbn.
    rewrite app_nil_r. auto.
  - cbn [map all_some] in Hdocs.
    destruct (view_document h0 d) as [[tdoc structs] |] eqn:Ed; [| discriminate].
    destruct (all_some (map (view_document h0) ds)) as [docs' |] eqn:Eds;
      [| discriminate].
    inversion Hdocs; subst. cbn [map fst] in Hnd.
    destruct (@run_process_document h d tdoc structs A Ed Hi Hrep)
      as (h1 & Hrun1 & Hi1 & Hrep1).
    { apply NoDup_remove_2 in Hnd. intros Hin. apply Hnd.
      apply in_or_app. left. exact Hin. }
    destruct (IH docs' h1 (A ++ [(tdoc, map cleaned structs)])%list eq_refl)
      as (h' & Hrun & Hi' & Hrep'); auto.
    { rewrite map_app. cbn. rewrite <- app_assoc. cbn. exact Hnd. }
    exists h'. split; [| split; [exact Hi' |]].
    + cbn [for_each]. unfold bind at 1. rewrite Hrun1. exact Hrun.
    + cbn [map]. rewrite <- app_assoc in Hrep'. exact Hrep'.
Qed.

End ShapingDocuments.

Section ShapingResult.
  Import Store.

Lemma run_truthy_dict h c items :
  Store.dict_at h c = Some items ->
  Store.truthy c h = (Ret (match items with [] => false | _ => true end), h).
Proof.
  intros H. destruct (dict_at_inv _ _ H) as (l & -> & Hl).
  unfold Store.truthy, Store.bind, Store.deref. rewrite Hl.
  destruct items; reflexivity.
Qed.

Lemma truthy_false_extends h made c :
  fst (Store.truthy c h) = Ret false ->
  Store.truthy c (h ++ made)%list = (Ret false, (h ++ made)%list).
Proof.
  destruct c as [| b | n | s | l]; cbn; intros H; try (inversion H; reflexivity).
  unfold Store.bind, Store.deref in *.
  destruct (nth_error h l) as [o |] eqn:El; [| discriminate].
  rewrite (@nth_error_app_some h made l o El). unfold Store.ret in *.
  destruct o as [[|i items] | [|e elems]]; cbn in *; try discriminate;
    reflexivity.
Qed.

(** C8.  For a Record payload (a dict whose [documents] is a list of
    documents with distinct types, each with its entities),
    [extract_document_entities] returns a new dict that maps each
    document's type to the list of the [structure] dicts of that document's
    entities, each without its [name_to_show] field; a document with no
    entities is mapped to the empty list; and for a falsy payload or a dict
    without the key [documents] it returns a new empty dict.  It raises in
    none of these cases. *)
Theorem extract_document_entities_shapes_the_record :
  (forall (h : Store.heap) (record_result : Store.val)
          (docs : list (string * list (list (Store.val * Store.val)))),
      Store.view_record h record_result = Some docs ->
      NoDup (map fst docs) ->
      exists h',
        Store.extract_document_entities record_result h
        = (Ret (Store.VRef (List.length h)), h')
        /\ Store.read_result h' (Store.VRef (List.length h))
           = Some (Store.shaped docs))
  /\ (forall (docs : list (string * list (list (Store.val * Store.val))))
             (doc_type : string),
         In (doc_type, []) docs ->
         In (Store.VStr doc_type, []) (Store.shaped docs))
  /\ (forall (h : Store.heap) (record_result : Store.val),
         fst (Store.truthy record_result h) = Ret false
         \/ (exists items,
                Store.dict_at h record_result = Some items
                /\ Store.lookup (Store.VStr "documents") items = None) ->
         Store.extract_document_entities record_result h
         = (Ret (Store.VRef (List.length h)), (h ++ [Store.ODict []])%list)).
Proof.
  split; [| split].
  - intros h record_result docs Hview Hnd.
    unfold Store.view_record in Hview.
    destruct (Store.dict_at h record_result) as [ritems |] eqn:Er;
      [| discriminate].
    destruct (Store.lookup (Store.VStr "documents") ritems) as [d |] eqn:Ed;
      [| discriminate].
    destruct (Store.list_at h d) as [ds |] eqn:Eds; [| discriminate].
    set (info := List.length h).
    set (h1 := (h ++ [Store.ODict []])%list).
    assert (Hi : intact h h1).
    { intros l o Hl. apply nth_error_app_some. exact Hl. }
    assert (Hfresh : nth_error h info = None) by (apply nth_error_None; unfold info; lia).
    assert (Hrep : result_rep info h1 []).
    { exists []. split; [apply nth_error_last | constructor]. }
    destruct (@run_document_loop h info Hfresh ds docs h1 [] Hview)
      as (h' & Hrun & Hi' & Hrep'); auto.
    exists h'. split.
    + unfold Store.extract_document_entities. unfold Store.bind at 1.
      cbn [Store.alloc_loc]. fold h1. fold info.
      unfold Store.bind at 1.
      rewrite (@run_truthy_dict h1 record_result ritems
                 (dict_at_intact _ Hi Er)).
      destruct ritems as [|ri ritems']; [discriminate |].
      unfold Store.bind at 1.
      rewrite (@run_contains_str h1 record_result "documents" (ri :: ritems')
                 (dict_at_intact _ Hi Er)).
      unfold has_key. rewrite Ed. cbn [negb orb].
      unfold Store.bind at 1.
      rewrite (@run_getitem_str h1 record_result "documents" (ri :: ritems') d
                 (dict_at_intact _ Hi Er) Ed).
      unfold Store.bind at 1.
      rewrite (@run_iterate h1 d ds (list_at_intact _ Hi Eds)).
      unfold Store.bind at 1. rewrite Hrun. reflexivity.
    + rewrite (read_result_rep Hrep'). cbn [app]. unfold Store.shaped.
      rewrite map_map. reflexivity.
  - intros docs doc_type Hin. unfold Store.shaped.
    apply (in_map (fun d => (Store.VStr (fst d), map Store.cleaned (snd d)))
                  docs (doc_type, []) Hin).
  - intros h record_result Hcase.
    unfold Store.extract_document_entities. unfold Store.bind at 1.
    cbn [Store.alloc_loc]. unfold Store.bind at 1.
    destruct Hcase as [Hfalse | (items & Hd & Hno)].
    + rewrite (@truthy_false_extends h [Store.ODict []] record_result Hfalse).
      reflexivity.
    + assert (Hd1 : Store.dict_at (h ++ [Store.ODict []])%list record_result
                    = Some items).
      { eapply dict_at_intact; [| exact Hd].
        intros l o Hl. apply nth_error_app_some. exact Hl. }
      rewrite (@run_truthy_dict _ record_result items Hd1).
      destruct items as [|i items']; [reflexivity |].
      unfold Store.bind at 1.
      rewrite (@run_contains_str _ record_result "documents" (i :: items') Hd1).
      unfold has_key. rewrite Hno. reflexivity.
Qed.

End ShapingResult.

(** C10.  [extract_document_entities] leaves its argument as it was: for
    every store and every value passed, the store after the call is the
    store before it followed by the objects made during the call, so every
    object that existed (each entity, each [structure] with its
    [name_to_show] and its other fields) is unchanged; the deletion acts on
    the copy. *)
Theorem extract_document_entities_leaves_its_argument :
  forall (h : Store.heap) (record_result : Store.val),
    (exists made,
        snd (Store.extract_document_entities record_result h)
        = (h ++ made)%list)
    /\ (forall l o,
           nth_error h l = Some o ->
           nth_error (snd (Store.extract_document_entities record_result h)) l
           = Some o)
    /\ (forall docs,
           Store.view_record h record_result = Some docs ->
           Store.view_record
             (snd (Store.extract_document_entities record_result h))
             record_result
           = Some docs).
Proof.
  intros h record_result.
  assert (Hw : Store.working h (List.length h)
                 (snd (Store.extract_document_entities record_result h))).
  { unfold Store.extract_document_entities. rewrite bind_run.
    cbn [Store.alloc_loc fst snd].
    assert (H0 : Store.working h (List.length h) (h ++ [Store.ODict []])%list).
    { split; [eauto | split; [lia |]]. exists []. split; [| constructor].
      rewrite nth_error_app2 by lia. rewrite Nat.sub_diag. reflexivity. }
    revert H0. generalize (h ++ [Store.ODict []])%list. intros h1 H1.
    apply (@keeps_bind _ _ (Store.working h (List.length h))
             (Store.truthy record_result)); [| | exact H1].
    { apply keeps_readonly, readonly_truthy. }
    intros is_truthy. apply keeps_bind.
    { destruct is_truthy; [apply keeps_readonly, readonly_contains_str
                          | apply keeps_ret]. }
    intros has_documents.
    destruct (negb is_truthy || negb has_documents); [apply keeps_ret |].
    apply keeps_bind; [apply keeps_readonly, readonly_getitem_str |].
    intros documents.
    apply keeps_bind; [apply keeps_readonly, readonly_iterate |].
    intros ds. apply keeps_bind; [| intros _; apply keeps_ret].
    apply keeps_for_each. intros document. apply keeps_process_document. }
  destruct Hw as ((made & Hmade) & _).
  assert (Hi : Store.intact
                 h (snd (Store.extract_document_entities record_result h))).
  { intros l o Hl. rewrite Hmade. apply nth_error_app_some. exact Hl. }
  split; [| split].
  - exists made. exact Hmade.
  - exact Hi.
  - intros docs Hdocs. eapply view_record_intact; eauto.
Qed.

(** The handler's own observer is one the theorem on
    [wait_for_record_completion] covers. *)
Lemma status_callback_observes (W : Type) :
  observer_answers (Some (status_callback (W:=W))) status_callback_answer.
Proof.
  intros status elapsed record_details w.
  unfold status_callback_answer, status_callback.
  destruct record_details; destruct status; cbn; split;
    try reflexivity; discriminate.
Qed.


(* ================================================================== *)
(** * Paths: spelling a path and reading it again *)

Section PathRoundTrip.
Import Pathlib.

Lemma split_sep_no_slash s :
  Forall (fun x => has_slash x = false) (split_sep s).
Proof.
  induction s as [|c s IH]; cbn.
  - constructor; [reflexivity | constructor].
  - destruct (Ascii.eqb c "/") eqn:E.
    + constructor; [reflexivity | exact IH].
    + destruct (split_sep s) as [|p ps].
      * constructor; [cbn; rewrite E; reflexivity | constructor].
      * inversion IH; subst.
        constructor; [cbn; rewrite E; assumption | assumption].
Qed.

Lemma split_sep_plain x : has_slash x = false -> split_sep x = [x].
Proof.
  induction x as [|c x IH]; cbn; [reflexivity |]. intros H.
  apply orb_false_iff in H. destruct H as [E H]. rewrite E.
  rewrite IH by assumption. reflexivity.
Qed.

Lemma split_sep_app x r :
  has_slash x = false -> split_sep (x ++ String "/" r) = x :: split_sep r.
Proof.
  induction x as [|c x IH]; cbn; intros H; [reflexivity |].
  apply orb_false_iff in H. destruct H as [E H]. rewrite E.
  rewrite IH by assumption. reflexivity.
Qed.

Lemma split_sep_join comps :
  comps <> [] ->
  Forall (fun x => has_slash x = false) comps ->
  split_sep (join comps) = comps.
Proof.
  induction comps as [|x rest IH]; [congruence |]. intros _ H.
  inversion H as [|? ? Hx Hrest]; subst. destruct rest as [|y rest'].
  - cbn. apply split_sep_plain. assumption.
  - change (join (x :: y :: rest')) with (x ++ String "/" (join (y :: rest'))).
    rewrite split_sep_app by assumption.
    rewrite IH; [reflexivity | discriminate | assumption].
Qed.

Lemma filter_all (A : Type) (f : A -> bool) l :
  Forall (fun x => f x = true) l -> filter f l = l.
Proof.
  induction 1 as [|x l Hx _ IH]; cbn; [reflexivity |].
  rewrite Hx, IH. reflexivity.
Qed.

Lemma filter_kept (A : Type) (f : A -> bool) l :
  Forall (fun x => f x = true) (filter f l).
Proof.
  induction l as [|x l IH]; cbn; [constructor |].
  destruct (f x) eqn:E; [constructor; assumption | assumption].
Qed.

Lemma filter_forall (A : Type) (P : A -> Prop) (f : A -> bool) l :
  Forall P l -> Forall P (filter f l).
Proof.
  induction 1 as [|x l Hx _ IH]; cbn; [constructor |].
  destruct (f x); [constructor; assumption | assumption].
Qed.

(** A path that begins with a character other than the separator has
    no root. *)
Lemma splitroot_relative c s :
  Ascii.eqb c "/" = false -> splitroot (String c s) = ("", String c s).
Proof.
  destruct c as [[] [] [] [] [] [] [] []]; cbn; intros H;
    first [reflexivity | discriminate].
Qed.

Lemma splitroot_one c s :
  Ascii.eqb c "/" = false ->
  splitroot (String "/" (String c s)) = ("/", String c s).
Proof.
  destruct c as [[] [] [] [] [] [] [] []]; cbn; intros H;
    first [reflexivity | discriminate].
Qed.

Lemma splitroot_two c s :
  Ascii.eqb c "/" = false ->
  splitroot (String "/" (String "/" (String c s))) = ("//", String c s).
Proof.
  destruct c as [[] [] [] [] [] [] [] []]; cbn; intros H;
    first [reflexivity | discriminate].
Qed.

Lemma splitroot_root p :
  fst (splitroot p) = "" \/ fst (splitroot p) = "/" \/ fst (splitroot p) = "//".
Proof.
  destruct p as [|c1 p]; [left; reflexivity |].
  destruct (Ascii.eqb c1 "/") eqn:E1;
    [| rewrite splitroot_relative by assumption; left; reflexivity].
  apply Ascii.eqb_eq in E1. subst c1.
  destruct p as [|c2 p]; [right; left; reflexivity |].
  destruct (Ascii.eqb c2 "/") eqn:E2;
    [| rewrite splitroot_one by assumption; right; left; reflexivity].
  apply Ascii.eqb_eq in E2. subst c2.
  destruct p as [|c3 p]; [right; right; reflexivity |].
  destruct (Ascii.eqb c3 "/") eqn:E3;
    [| rewrite splitroot_two by assumption; right; right; reflexivity].
  apply Ascii.eqb_eq in E3. subst c3. right. left. reflexivity.
Qed.

Lemma join_head x rest :
  keep_part x = true -> has_slash x = false ->
  exists c s, join (x :: rest) = String c s /\ Ascii.eqb c "/" = false.
Proof.
  intros Hk Hs. destruct x as [|c x]; [discriminate |].
  cbn in Hs. apply orb_false_iff in Hs. destruct Hs as [E _].
  destruct rest as [|y rest'].
  - exists c, x. split; [reflexivity | assumption].
  - exists c, (x ++ String "/" (join (y :: rest'))).
    split; [reflexivity | assumption].
Qed.

(** [Path(str(Path(p))) == Path(p)]. *)
Lemma parse_str_parse p : parse (str (parse p)) = parse p.
Proof.
  unfold parse at 2 3. pose proof (splitroot_root p) as Hroot.
  destruct (splitroot p) as [rt rel]. cbn [fst] in Hroot.
  set (comps := filter keep_part (split_sep rel)).
  assert (Hkeep : Forall (fun x => keep_part x = true) comps)
    by apply filter_kept.
  assert (Hplain : Forall (fun x => has_slash x = false) comps)
    by (apply filter_forall, split_sep_no_slash).
  unfold str. cbn [root tail].
  destruct comps as [|x rest] eqn:Ec.
  - destruct Hroot as [-> | [-> | ->]]; reflexivity.
  - inversion Hkeep as [|? ? Hx _]; inversion Hplain as [|? ? Hsx _]; subst.
    destruct (@join_head x rest Hx Hsx) as (c & s & Hj & Hc).
    assert (Hsplit : filter keep_part (split_sep (String c s)) = x :: rest).
    { rewrite <- Hj. rewrite split_sep_join by (discriminate || assumption).
      apply filter_all. assumption. }
    rewrite Hj.
    destruct Hroot as [-> | [-> | ->]]; cbn [append String.eqb];
      unfold parse.
    + rewrite splitroot_relative by assumption. rewrite Hsplit. reflexivity.
    + rewrite splitroot_one by assumption. rewrite Hsplit. reflexivity.
    + rewrite splitroot_two by assumption. rewrite Hsplit. reflexivity.
Qed.

End PathRoundTrip.

(* ================================================================== *)
(** * [validate_documents], once more *)

Section Validated.
Variable W : Type.
Variable env : Env W.

Lemma stored_entry_fixed kv : stored_entry (stored_entry kv) = stored_entry kv.
Proof.
  unfold stored_entry. cbn [fst snd]. rewrite parse_str_parse. reflexivity.
Qed.

Lemma valid_entry_stored w kv :
  valid_entry env w (stored_entry kv) = valid_entry env w kv.
Proof.
  unfold valid_entry, stored_entry. cbn [snd]. rewrite parse_str_parse.
  reflexivity.
Qed.

Lemma keys_of_kept (f : string * string -> bool) (d : dict string) :
  NoDup (dict_keys d) -> NoDup (dict_keys (map stored_entry (filter f d))).
Proof.
  unfold dict_keys. rewrite map_map. cbn [stored_entry fst].
  induction d as [|kv d IH]; cbn; intros H; [constructor |].
  inversion H as [|? ? Hnotin Hnd]; subst.
  destruct (f kv); cbn; [| apply IH; assumption].
  constructor; [| apply IH; assumption].
  intros Hin. apply Hnotin. apply in_map_iff in Hin.
  destruct Hin as (kv' & Hk & Hin). apply filter_In in Hin.
  apply in_map_iff. exists kv'. tauto.
Qed.

Lemma kept_again w (d : dict string) :
  map stored_entry
      (filter (valid_entry env w)
              (map stored_entry (filter (valid_entry env w) d)))
  = map stored_entry (filter (valid_entry env w) d).
Proof.
  induction d as [|kv d IH]; cbn; [reflexivity |].
  destruct (valid_entry env w kv) eqn:E; cbn; [| exact IH].
  rewrite valid_entry_stored, E. cbn. rewrite stored_entry_fixed, IH.
  reflexivity.
Qed.

Lemma stat_failure_kept w (d : dict string) :
  stat_failure env w (map stored_entry (filter (valid_entry env w) d)) = None.
Proof.
  induction d as [|[k p] d IH]; cbn [filter map]; [reflexivity |].
  destruct (valid_entry env w (k, p)) eqn:E; [| exact IH].
  cbn [map stored_entry fst snd stat_failure]. rewrite parse_str_parse.
  unfold valid_entry, exists_true in E. cbn [snd] in E.
  destruct (fs_stat_error env (Pathlib.str (Pathlib.parse p)) w);
    [discriminate | exact IH].
Qed.

(** The client's [upload_document], path by path: the two checks, the
    opening of the file, the request. *)
Lemma upload_document_unfold record_id file_path doc_type w :
  upload_document env record_id file_path doc_type w
  = match fs_stat_error env (Pathlib.str (Pathlib.parse file_path)) w with
    | Some msg => (Raise (Exn OSError msg), w, [])
    | None =>
        if negb (fs_exists env (Pathlib.str (Pathlib.parse file_path)) w)
        then (Raise (Exn FileNotFoundError
                         ("File not found: "
                          ++ Pathlib.str (Pathlib.parse file_path))), w, [])
        else if negb (Pathlib.is_pdf (Pathlib.parse file_path))
        then (Raise (Exn ValueError
                         ("File must be a PDF: "
                          ++ Pathlib.str (Pathlib.parse file_path))), w, [])
        else
          match fs_open_error env (Pathlib.str (Pathlib.parse file_path)) w
          with
          | Some msg => (Raise (Exn OSError msg), w, [])
          | None =>
              call (http_upload_document
                      env record_id (Pathlib.str (Pathlib.parse file_path))
                      doc_type)
                   (EvUpload record_id
                             (Pathlib.str (Pathlib.parse file_path)) doc_type)
                   w
          end
    end.
Proof.
  unfold upload_document. unfold bind at 1, path_exists at 1.
  destruct (fs_stat_error env (Pathlib.str (Pathlib.parse file_path)) w);
    [reflexivity |].
  destruct (fs_exists env (Pathlib.str (Pathlib.parse file_path)) w);
    cbn [negb]; [| reflexivity].
  destruct (Pathlib.is_pdf (Pathlib.parse file_path)); cbn [negb];
    [| reflexivity].
  unfold bind at 1, open_rb at 1.
  destruct (fs_open_error env (Pathlib.str (Pathlib.parse file_path)) w);
    [reflexivity |].
  unfold try_finally, file_close, ret, call.
  destruct (http_upload_document env record_id
              (Pathlib.str (Pathlib.parse file_path)) doc_type w) as [r w2].
  destruct r; reflexivity.
Qed.

End Validated.

(** X1.  Validating is idempotent: a mapping that [validate_documents]
    returns holds the valid entries of its input, in order, each with its
    path as [str(Path(p))]; and given that mapping again in the same world,
    [validate_documents] returns it unchanged.  The paths it stores are read
    back by [Path] as the same paths, so the second run asks [exists()] what
    the first run asked. *)
Theorem validate_documents_is_idempotent :
  forall (W : Type) (env : Env W) (documents valid_documents : dict string)
         (w : W),
    NoDup (dict_keys documents) ->
    outcome (validate_documents env documents w) = Ret valid_documents ->
    valid_documents = map stored_entry (filter (valid_entry env w) documents)
    /\ validate_documents env valid_documents w
       = (Ret valid_documents, w, []).
Proof.
  intros W env documents valid_documents w Hnd Hrun.
  unfold validate_documents in *.
  rewrite validate_loop_spec in Hrun;
    [| assumption | intros k _ H; exact H].
  destruct (stat_failure env w documents); [discriminate |].
  cbn in Hrun. inversion Hrun; subst valid_documents. clear Hrun.
  split; [reflexivity |].
  rewrite validate_loop_spec;
    [| apply keys_of_kept; assumption | intros k _ H; exact H].
  rewrite stat_failure_kept. cbn [app]. rewrite kept_again. reflexivity.
Qed.

(** X2.  What [validate_documents] keeps passes the checks of the
    client's [upload_document]: for an entry of the validated mapping, and
    as long as [exists()] still answers [True] for the file,
    [upload_document] raises neither [FileNotFoundError] nor [ValueError].
    It opens the file: when [open] raises its [OSError] nothing is sent,
    otherwise the request is made, with the path as validated. *)
Theorem validated_documents_pass_the_upload_checks :
  forall (W : Type) (env : Env W) (documents valid_documents : dict string)
         (w w' : W) (record_id : json) (doc_type file_path : string),
    NoDup (dict_keys documents) ->
    outcome (validate_documents env documents w) = Ret valid_documents ->
    In (doc_type, file_path) valid_documents ->
    exists_true env w' file_path = true ->
    upload_document env record_id file_path doc_type w'
    = match fs_open_error env file_path w' with
      | Some msg => (Raise (Exn OSError msg), w', [])
      | None =>
          call (http_upload_document env record_id file_path doc_type)
               (EvUpload record_id file_path doc_type) w'
      end.
Proof.
  intros W env documents valid_documents w w' record_id doc_type file_path
         Hnd Hrun Hin Hfs.
  unfold validate_documents in Hrun.
  rewrite validate_loop_spec in Hrun;
    [| assumption | intros k _ H; exact H].
  destruct (stat_failure env w documents); [discriminate |].
  cbn in Hrun. inversion Hrun; subst valid_documents. clear Hrun.
  apply in_map_iff in Hin. destruct Hin as ([k p] & Hst & Hin).
  apply filter_In in Hin. destruct Hin as [_ Hvalid].
  unfold stored_entry in Hst. cbn [fst snd] in Hst. inversion Hst; subst.
  unfold valid_entry in Hvalid. cbn [snd] in Hvalid.
  apply andb_true_iff in Hvalid. destruct Hvalid as [_ Hpdf].
  rewrite upload_document_unfold. rewrite parse_str_parse.
  unfold exists_true in Hfs.
  destruct (fs_stat_error env (Pathlib.str (Pathlib.parse p)) w');
    [discriminate |].
  rewrite Hfs, Hpdf. reflexivity.
Qed.

(* ================================================================== *)
(** * The handler's [verify_document_type] *)

(** One handler-level verification, in full. *)
Lemma handler_verify_answers :
  forall (W : Type) (env : Env W) (record_id document_type_id : json) (w : W),
    exists is_valid verification,
      NebuiaHandler.verify_document_type env record_id document_type_id w
      = (Ret (is_valid, verification),
         snd (http_verify_document_type env record_id document_type_id w),
         [EvVerify record_id document_type_id
                   (fst (http_verify_document_type env record_id
                                                   document_type_id w))])
      /\ is_valid = result_passed verification
      /\ (is_valid = true ->
          fst (http_verify_document_type env record_id document_type_id w)
          = Reply verification)
      /\ (forall e,
             fst (http_verify_document_type env record_id document_type_id w)
             = Fault e ->
             is_valid = false
             /\ verification = JDict [("status", JBool false);
                                      ("error", JStr (exn_msg e))]).
Proof.
  intros W env record_id doc_id w.
  unfold NebuiaHandler.verify_document_type, try_except, bind,
    NebuiaClient.verify_document_type, call.
  destruct (http_verify_document_type env record_id doc_id w) as [r w'].
  destruct r as [body | e]; cbn [result_of_reply fst snd].
  - unfold lift at 1.
    destruct (py_get body "status" JNull) as [status | e | y] eqn:Est.
    + destruct (_display_verification_points (W:=W) body w')
        as [[r1 w1] t1] eqn:Ed.
      assert (Hpure : w1 = w' /\ t1 = [] /\ forall y, r1 <> Abort y).
      { destruct (display_silent (W:=W) body w') as (H1 & H2 & H3).
        rewrite Ed in H1, H2, H3. cbn in H1, H2, H3. auto. }
      destruct Hpure as (-> & -> & Hna).
      destruct r1 as [[] | e | y].
      * cbn. eexists _, _. split; [reflexivity |].
        split; [unfold result_passed, reply_passed; rewrite Est; reflexivity |].
        split; [reflexivity | discriminate].
      * cbn. eexists _, _. split; [reflexivity |].
        split; [reflexivity |]. split; discriminate.
      * exfalso. eapply Hna. reflexivity.
    + cbn. eexists _, _. split; [reflexivity |].
      split; [reflexivity |]. split; discriminate.
    + destruct body; discriminate.
  - cbn. eexists _, _. split; [reflexivity |]. split; [reflexivity |].
    split; [discriminate |]. intros e' H. inversion H; subst. auto.
Qed.

(** X3.  The handler's [verify_document_type] always answers: it makes
    exactly one verification request, never raises, and the flag it returns
    is [verification.get("status") is True] of the details it returns.  A
    positive flag means the service replied with those details; a request
    that raised gives the flag [False] with the details
    [{"status": False, "error": str(e)}]. *)
Theorem handler_verify_document_type_always_answers :
  forall (W : Type) (env : Env W) (record_id document_type_id : json) (w : W),
    exists is_valid verification,
      NebuiaHandler.verify_document_type env record_id document_type_id w
      = (Ret (is_valid, verification),
         snd (http_verify_document_type env record_id document_type_id w),
         [EvVerify record_id document_type_id
                   (fst (http_verify_document_type env record_id
                                                   document_type_id w))])
      /\ is_valid = result_passed verification
      /\ (is_valid = true ->
          fst (http_verify_document_type env record_id document_type_id w)
          = Reply verification)
      /\ (forall e,
             fst (http_verify_document_type env record_id document_type_id w)
             = Fault e ->
             is_valid = false
             /\ verification = JDict [("status", JBool false);
                                      ("error", JStr (exn_msg e))]).
Proof. exact handler_verify_answers. Qed.

(* ================================================================== *)
(** * [_verify_all_documents]: the flag and the results *)

Section VerificationFlag.
Variable W : Type.
Variable env : Env W.

Lemma forallb_snoc (A : Type) (f : A -> bool) l x :
  forallb f (l ++ [x]) = forallb f l && f x.
Proof. rewrite forallb_app. cbn. rewrite andb_true_r. reflexivity. Qed.

(** The loop adds one entry per item with a truthy id, and the flag
    stays true exactly while every entry added passed. *)
Lemma verify_loop_flag record_id items :
  forall results passed w,
    NoDup (dict_keys items) ->
    (forall k, In k (dict_keys items) -> ~ In k (dict_keys results)) ->
    exists added w' t,
      verify_loop env record_id items results passed w
      = (Ret ((results ++ added)%list,
              passed && forallb (fun kv => result_passed (snd kv)) added),
         w', t).
Proof.
  induction items as [|[doc_type doc_id] items IH];
    intros results passed w Hnd Hfresh.
  - exists [], w, []. cbn. rewrite app_nil_r, andb_true_r. reflexivity.
  - cbn [dict_keys map fst] in Hnd. inversion Hnd as [|? ? Hnotin Hnd']; subst.
    cbn [verify_loop]. destruct (truthy doc_id).
    + destruct (handler_verify_answers env record_id doc_id w)
        as (is_valid & verification & Hrun & Hflag & _).
      destruct (IH (dict_set doc_type verification results)
                   (if negb is_valid then false else passed)
                   (snd (http_verify_document_type env record_id doc_id w)))
        as (added & w' & t & Hloop).
      { exact Hnd'. }
      { intros k Hk Hin. apply dict_keys_set in Hin.
        destruct Hin as [-> | Hin]; [contradiction |].
        apply (Hfresh k); [right; exact Hk | exact Hin]. }
      exists ((doc_type, verification) :: added), w',
        (EvVerify record_id doc_id
           (fst (http_verify_document_type env record_id doc_id w)) :: t).
      unfold bind at 1, try_except at 1, bind at 1. rewrite Hrun. cbn [ret].
      rewrite Hloop.
      rewrite dict_set_fresh by (apply Hfresh; left; reflexivity).
      rewrite <- app_assoc. cbn [app forallb snd]. rewrite <- Hflag.
      destruct is_valid, passed; reflexivity.
    + apply IH; [exact Hnd' |].
      intros k Hk. apply Hfresh. right. exact Hk.
Qed.

End VerificationFlag.

(** X4.  The two values [_verify_all_documents] returns agree: the overall
    flag is true exactly when every entry of [verification_results] has the
    status [True].  (The keys of a mapping are distinct.) *)
Theorem verification_flag_agrees_with_results :
  forall (W : Type) (env : Env W) (record_id : json) (document_ids : dict json)
         (w : W) (verification_results : dict json) (verification_passed : bool),
    NoDup (dict_keys document_ids) ->
    outcome (_verify_all_documents env record_id document_ids w)
    = Ret (verification_results, verification_passed) ->
    verification_passed
    = forallb (fun kv => result_passed (snd kv)) verification_results.
Proof.
  intros W env record_id document_ids w results passed Hnd Hrun.
  unfold _verify_all_documents in Hrun.
  destruct (@verify_loop_flag W env record_id document_ids [] true w Hnd)
    as (added & w' & t & Hloop).
  { intros k _ H. exact H. }
  rewrite Hloop in Hrun. cbn in Hrun. inversion Hrun; subst. reflexivity.
Qed.

(* ================================================================== *)
(** * [_create_and_upload]: which documents are tracked *)

Section Tracking.
Variable W : Type.
Variable env : Env W.

Lemma accepted_uploads_app t1 t2 :
  accepted_uploads (t1 ++ t2) = (accepted_uploads t1 ++ accepted_uploads t2)%list.
Proof.
  induction t1 as [|ev t1 IH]; [reflexivity |].
  destruct ev; cbn; try exact IH. destruct r; cbn; [rewrite IH |]; auto.
Qed.

Lemma find_document_id_no_abort doc_type ds y :
  find_document_id doc_type ds <> Abort y.
Proof.
  induction ds as [|d ds IH]; cbn; [discriminate |].
  destruct (py_get d "document_type" JNull) as [t | e | y'] eqn:Et; cbn;
    [| discriminate | exfalso; eapply py_get_no_abort; exact Et].
  destruct (py_eq_str t doc_type); [| exact IH].
  destruct (py_get d "document_id" JNull) as [i | e | y'] eqn:Ei; cbn;
    [discriminate | discriminate |].
  exfalso. eapply py_get_no_abort. exact Ei.
Qed.

(** One turn of the upload loop: the mapping is left as it is, or the
    document type is set and its upload was accepted. *)
Lemma upload_turn record_id doc_type file_path rest ids w :
  exists ids' w' t,
    upload_loop env record_id ((doc_type, file_path) :: rest) ids w
    = (outcome (upload_loop env record_id rest ids' w'),
       final (upload_loop env record_id rest ids' w'),
       (t ++ trace (upload_loop env record_id rest ids' w'))%list)
    /\ (ids' = ids
        \/ exists i,
            ids' = dict_set doc_type i ids
            /\ In (doc_type, Pathlib.str (Pathlib.parse file_path))
                  (accepted_uploads t)).
Proof.
  cbn [upload_loop]. unfold bind at 1.
  match goal with
  | |- context [try_except ?m ?h w] =>
      assert (Hturn : exists ids' w' t,
                 try_except m h w = (Ret ids', w', t)
                 /\ (ids' = ids
                     \/ exists i,
                         ids' = dict_set doc_type i ids
                         /\ In (doc_type, Pathlib.str (Pathlib.parse file_path))
                               (accepted_uploads t)))
  end.
  { unfold try_except. unfold bind at 1. rewrite upload_document_unfold.
    unfold bind, call, get_record_details, call, raise, ret, lift.
    destruct (fs_stat_error env (Pathlib.str (Pathlib.parse file_path)) w);
      [eexists _, _, _; split; [reflexivity | left; reflexivity] |].
    destruct (fs_exists env (Pathlib.str (Pathlib.parse file_path)) w);
      cbn [negb]; [| eexists _, _, _; split; [reflexivity | left; reflexivity]].
    destruct (Pathlib.is_pdf (Pathlib.parse file_path));
      cbn [negb]; [| eexists _, _, _; split; [reflexivity | left; reflexivity]].
    destruct (fs_open_error env (Pathlib.str (Pathlib.parse file_path)) w);
      [eexists _, _, _; split; [reflexivity | left; reflexivity] |].
    destruct (http_upload_document env record_id
                (Pathlib.str (Pathlib.parse file_path)) doc_type w)
      as [[body | e] w1]; cbn [result_of_reply];
      [| eexists _, _, _; split; [reflexivity | left; reflexivity]].
    destruct (http_get_record_details env record_id w1)
      as [[details | e] w2]; cbn [result_of_reply];
      [| eexists _, _, _; split; [reflexivity | left; reflexivity]].
    destruct (py_get details "documents" (JList [])) as [documents | e | y]
      eqn:Edocs;
      [| eexists _, _, _; split; [reflexivity | left; reflexivity]
       | exfalso; eapply py_get_no_abort; exact Edocs].
    destruct (py_iter documents) as [ds | e | y] eqn:Eiter;
      [| eexists _, _, _; split; [reflexivity | left; reflexivity]
       | exfalso; eapply py_iter_no_abort; exact Eiter].
    destruct (find_document_id doc_type ds) as [[i |] | e | y] eqn:Efind.
    - eexists _, _, _. split; [reflexivity |]. right. exists i.
      split; [reflexivity |]. cbn. left. reflexivity.
    - eexists _, _, _. split; [reflexivity | left; reflexivity].
    - eexists _, _, _. split; [reflexivity | left; reflexivity].
    - exfalso. eapply find_document_id_no_abort. exact Efind. }
  destruct Hturn as (ids' & w' & t & Hrun & Hids).
  exists ids', w', t. rewrite Hrun.
  destruct (upload_loop env record_id rest ids' w') as [[r w2] t2].
  split; [reflexivity | exact Hids].
Qed.

(** The upload loop returns, and a key of the mapping it returns was
    there before or belongs to a document whose upload was accepted. *)
Lemma upload_loop_tracks record_id items :
  forall ids w,
  exists ids',
    outcome (upload_loop env record_id items ids w) = Ret ids'
    /\ forall k,
        In k (dict_keys ids') ->
        In k (dict_keys ids)
        \/ exists file_path,
            In (k, file_path) items
            /\ In (k, Pathlib.str (Pathlib.parse file_path))
                  (accepted_uploads
                     (trace (upload_loop env record_id items ids w))).
Proof.
  induction items as [|[doc_type file_path] items IH]; intros ids w.
  - exists ids. cbn. split; [reflexivity | auto].
  - destruct (upload_turn record_id doc_type file_path items ids w)
      as (ids1 & w1 & t1 & Hrun & Hids).
    destruct (IH ids1 w1) as (ids' & Hout & Hkeys).
    exists ids'. rewrite Hrun. cbn [outcome trace fst snd].
    split; [exact Hout |]. intros k Hk.
    rewrite accepted_uploads_app.
    destruct (Hkeys k Hk) as [Hin | (fp & Hin & Hacc)].
    + destruct Hids as [-> | (i & -> & Hacc)]; [left; exact Hin |].
      apply dict_keys_set in Hin. destruct Hin as [-> | Hin];
        [| left; exact Hin].
      right. exists file_path. split; [left; reflexivity |].
      apply in_or_app. left. exact Hacc.
    + right. exists fp. split; [right; exact Hin |].
      apply in_or_app. right. exact Hacc.
Qed.

End Tracking.

(** X5.  [_create_and_upload] tracks only documents the service accepted:
    when it returns a record id and a mapping of document ids, the id is
    truthy, the mapping is not empty, and each of its keys is the type of a
    document whose upload request was answered without an error.  When the
    reply to the record creation carries no truthy [id], it returns [None]
    and no upload is attempted. *)
Theorem create_and_upload_tracks_accepted_uploads :
  forall (W : Type) (env : Env W) (documents : dict string)
         (config_name : string) (w : W),
    (forall record_id document_ids,
        outcome (_create_and_upload env documents config_name w)
        = Ret (Some (record_id, document_ids)) ->
        truthy record_id = true
        /\ document_ids <> []
        /\ forall doc_type,
            In doc_type (dict_keys document_ids) ->
            exists file_path,
              In (doc_type, file_path) documents
              /\ In (doc_type, Pathlib.str (Pathlib.parse file_path))
                    (accepted_uploads
                       (trace (_create_and_upload env documents config_name w))))
    /\ (forall body w' record_id,
           http_create_record env config_name w = (Reply body, w') ->
           py_get body "id" JNull = Ret record_id ->
           truthy record_id = false ->
           _create_and_upload env documents config_name w
           = (Ret None, w', [EvCreateRecord config_name (Reply body)])).
Proof.
  intros W env documents config_name w. split.
  - intros record_id document_ids.
    destruct (_create_and_upload env documents config_name w)
      as [[r0 w0] t0] eqn:Erun.
    cbn [outcome trace fst snd]. intros ->.
    unfold _create_and_upload, create_record, call in Erun.
    unfold bind at 1 in Erun.
    destruct (http_create_record env config_name w) as [r w1].
    destruct r as [body | e]; cbn [result_of_reply] in Erun; [| discriminate].
    unfold bind at 1, lift at 1 in Erun.
    destruct (py_get body "id" JNull) as [rid | e | y]; try discriminate.
    destruct (truthy rid) eqn:Etr; cbn [negb] in Erun; [| discriminate].
    destruct (upload_loop_tracks env rid documents [] w1)
      as (ids' & Hout & Hkeys).
    unfold bind at 1 in Erun.
    destruct (upload_loop env rid documents [] w1) as [[r2 w2] t2].
    cbn [outcome trace fst snd] in Hout, Hkeys. subst r2.
    destruct ids' as [|kv ids']; cbn in Erun; [discriminate |].
    inversion Erun; subst. split; [exact Etr |].
    split; [discriminate |]. intros doc_type Hk.
    destruct (Hkeys doc_type Hk) as [[] | (fp & Hin & Hacc)].
    exists fp. split; [exact Hin |]. cbn. rewrite app_nil_r. exact Hacc.
  - intros body w' record_id Hcreate Hid Hfalsy.
    unfold _create_and_upload, create_record, call.
    unfold bind at 1. rewrite Hcreate. cbn [result_of_reply].
    unfold bind at 1, lift at 1. rewrite Hid. rewrite Hfalsy. reflexivity.
Qed.

(* ================================================================== *)
(** * [_process_record] *)

Ltac emits_tac :=
  repeat first
    [ apply emits_ret | apply emits_raise | apply emits_lift
    | apply emits_out_of_fuel | apply emits_path_exists
    | apply emits_time_time; intros ?; cbv; auto
    | apply emits_time_sleep; intros ?; cbv; auto
    | apply emits_call; intros ?; cbv; auto
    | apply emits_bind; [| intros ?]
    | apply emits_try_except; [| intros ?]
    | assumption
    | match goal with
      | |- emits _ (if ?b then _ else _) => destruct b
      | |- emits _ (match ?x with _ => _ end) => destruct x
      end ].

Section ProcessRecord.
Variable W : Type.
Variable env : Env W.

Lemma outcome_try_except (A : Type) (m : M W A) (h : exn -> M W A) (w : W) :
  outcome (try_except m h w)
  = match outcome (m w) with
    | Raise e => outcome (h e (final (m w)))
    | other => other
    end.
Proof.
  unfold try_except, outcome, final.
  destruct (m w) as [[r w1] t1]. destruct r; cbn; try reflexivity.
  destruct (h e w1) as [[r2 w2] t2]. reflexivity.
Qed.

Lemma dict_get_set_same (V : Type) (k : string) (v : V) (d : dict V) :
  dict_get k (dict_set k v d) = Some v.
Proof.
  induction d as [|[k' v'] d IH]; cbn.
  - rewrite String.eqb_refl. reflexivity.
  - destruct (String.eqb k k') eqn:E; cbn; rewrite E; [reflexivity | exact IH].
Qed.

Lemma py_get_setitem v k x v' default :
  py_setitem v k x = Ret v' -> py_get v' k default = Ret x.
Proof.
  destruct v; cbn; try discriminate. intros H. inversion H; subst. cbn.
  rewrite dict_get_set_same. reflexivity.
Qed.

(** The calls of the wait for the record: clock readings, fetches and
    sleeps. *)
Lemma wait_record_loop_emits (P : event -> Prop) fuel record_id timeout
      interval start :
  (forall t, P (EvTime t)) -> (forall d, P (EvSleep d)) ->
  (forall i r, P (EvGetRecord i r)) ->
  emits P (wait_record_loop env fuel record_id timeout interval
                            (Some (status_callback (W:=W))) start).
Proof.
  intros Ht Hs Hg. induction fuel as [|fuel IH]; cbn [wait_record_loop].
  - emits_tac.
  - apply emits_bind; [apply emits_time_time; exact Ht | intros t].
    destruct (t - start <? timeout); [| emits_tac].
    apply emits_bind;
      [unfold get_record_details; apply emits_call; apply Hg | intros rd].
    apply emits_bind; [emits_tac | intros st].
    apply emits_bind; [apply emits_time_time; exact Ht | intros t'].
    apply emits_bind; [apply status_callback_silent | intros _].
    destruct (py_eq_str st "complete"); [emits_tac |].
    destruct (py_eq_str st "error"); [emits_tac |].
    apply emits_bind; [apply emits_time_sleep; exact Hs | intros _].
    exact IH.
Qed.

End ProcessRecord.

Section LatestSnapshot.
Variable W : Type.
Variable env : Env W.

Lemma last_fetch_app t1 t2 :
  last_fetch (t1 ++ t2)
  = match last_fetch t2 with
    | Some r => Some r
    | None => last_fetch t1
    end.
Proof.
  induction t1 as [|ev t1 IH]; cbn.
  - destruct (last_fetch t2); reflexivity.
  - rewrite IH. destruct (last_fetch t2); reflexivity.
Qed.

Lemma py_eq_str_true v s : py_eq_str v s = true -> v = JStr s.
Proof.
  destruct v; cbn; try discriminate. intros H.
  apply String.eqb_eq in H. subst. reflexivity.
Qed.

(** A wait that returns a record returns the last snapshot it fetched,
    and that snapshot is complete. *)
Lemma record_wait_run_returns record_id timeout interval answer start tr r :
  record_wait_run env record_id timeout interval answer start tr r ->
  forall record,
    r = Ret record ->
    last_fetch tr = Some (Reply record) /\ is_complete record.
Proof.
  induction 1; intros record Hr; try discriminate.
  - inversion Hr; subst. split; [reflexivity |].
    unfold is_complete.
    match goal with
    | Hs : py_get _ "status" _ = Ret ?st, Hc : py_eq_str ?st _ = true |- _ =>
        rewrite Hs; apply py_eq_str_true in Hc; rewrite Hc; reflexivity
    end.
  - destruct (IHrecord_wait_run record Hr) as [Hl Hc]. split; [| exact Hc].
    cbn. cbn in Hl. rewrite Hl. reflexivity.
Qed.

Lemma wait_for_record_completion_returns fuel record_id timeout interval
      status_callback answer w record :
  observer_answers status_callback answer ->
  outcome (wait_for_record_completion env fuel record_id timeout interval
                                      status_callback w) = Ret record ->
  last_fetch (trace (wait_for_record_completion env fuel record_id timeout
                                                interval status_callback w))
  = Some (Reply record)
  /\ is_complete record.
Proof.
  intros Hobs. unfold wait_for_record_completion.
  rewrite outcome_bind, trace_bind. unfold time_time.
  cbn [outcome final trace fst snd]. intros Hout.
  assert (Hne : outcome (wait_record_loop env fuel record_id timeout interval
                           status_callback (now env w) (tick env w))
                <> Abort OutOfFuel) by (rewrite Hout; discriminate).
  pose proof (@wait_record_loop_shape W env record_id timeout interval
                status_callback answer Hobs (now env w) fuel (tick env w) Hne)
    as Hshape.
  destruct (record_wait_run_returns Hshape Hout) as [Hl Hc].
  split; [| exact Hc]. rewrite last_fetch_app. rewrite Hl. reflexivity.
Qed.

(** [_process_record], in full: the job creation comes first and is the
    only one; a record returned is the last snapshot fetched, with the
    verification results set. *)
Lemma process_record_run fuel record_id results wait timeout w :
  exists r t,
    trace (_process_record env fuel record_id results wait timeout w)
    = EvCreateJob record_id r :: t
    /\ Forall (lacks is_create_job) t
    /\ (forall record,
           outcome (_process_record env fuel record_id results wait timeout w)
           = Ret record ->
           exists snapshot,
             last_fetch t = Some (Reply snapshot)
             /\ py_setitem snapshot "verification_results" (JDict results)
                = Ret record)
    /\ (wait = false -> exists r', t = [EvGetRecord record_id r']).
Proof.
  destruct (_process_record env fuel record_id results wait timeout w)
    as [[r0 w0] t0] eqn:Erun.
  cbn [outcome trace fst snd].
  unfold _process_record in Erun.
  match type of Erun with
  | bind (try_except (bind _ ?f) ?h) ?k w = _ =>
      set (body := f) in Erun; set (k' := k) in Erun
  end.
  assert (Hbody : forall job_response w1,
             Forall (lacks is_create_job) (trace (body job_response w1))
             /\ (forall c, outcome (body job_response w1) = Ret (Some c) ->
                           exists snapshot,
                             last_fetch (trace (body job_response w1))
                             = Some (Reply snapshot)
                             /\ py_setitem snapshot "verification_results"
                                           (JDict results) = Ret c)
             /\ (wait = false ->
                 trace (body job_response w1) = []
                 /\ (forall c, outcome (body job_response w1) <> Ret (Some c))
                 /\ forall y, outcome (body job_response w1) <> Abort y)).
  { intros job_response w1. split; [| split].
    - revert w1. change (emits (lacks is_create_job) (body job_response)).
      unfold body. do 3 (apply emits_bind; [emits_tac | intros ?]).
      destruct wait; [| emits_tac].
      apply emits_try_except; [| intros ?; emits_tac].
      apply emits_bind; [| intros ?; emits_tac].
      unfold wait_for_record_completion.
      apply emits_bind; [emits_tac | intros ?].
      apply wait_record_loop_emits; intros; reflexivity.
    - intros c. destruct (body job_response w1) as [[rb wb] tb] eqn:Eb.
      cbn [outcome trace fst snd]. intros ->.
      unfold body in Eb. cbv beta in Eb.
      unfold bind at 1, lift at 1 in Eb.
      destruct (py_get job_response "job_id" JNull); try discriminate.
      unfold bind at 1, lift at 1 in Eb.
      destruct (py_get job_response "status" JNull); try discriminate.
      unfold bind at 1, lift at 1 in Eb.
      destruct (py_get job_response "message" JNull); try discriminate.
      destruct wait; [| discriminate].
      unfold try_except at 1, bind at 1 in Eb.
      destruct (wait_for_record_completion env fuel record_id timeout 10
                  (Some (status_callback (W:=W))) w1)
        as [[rec w2] t2] eqn:Ewait.
      destruct rec as [record | e | y].
      + pose proof (@wait_for_record_completion_returns
                      fuel record_id timeout 10
                      (Some (status_callback (W:=W))) status_callback_answer
                      w1 record (status_callback_observes (W:=W))) as Hret.
        rewrite Ewait in Hret. cbn [outcome trace fst snd] in Hret.
        destruct (Hret eq_refl) as [Hl _].
        unfold bind at 1, lift at 1 in Eb.
        destruct (py_setitem record "verification_results" (JDict results))
          as [c' | e | y] eqn:Eset.
        * cbn in Eb. inversion Eb; subst. exists record.
          split; [| exact Eset]. cbn. rewrite !app_nil_r. exact Hl.
        * destruct (is_TimeoutError e); [discriminate |].
          destruct (is_NebuiaError e); discriminate.
        * discriminate.
      + destruct (is_TimeoutError e); [discriminate |].
        destruct (is_NebuiaError e); discriminate.
      + discriminate.
    - intros ->. unfold body, bind, lift, ret.
      destruct (py_get job_response "job_id" JNull) as [? | ? | y] eqn:E1;
        [| repeat split; discriminate
         | exfalso; eapply py_get_no_abort; exact E1].
      destruct (py_get job_response "status" JNull) as [? | ? | y] eqn:E2;
        [| repeat split; discriminate
         | exfalso; eapply py_get_no_abort; exact E2].
      destruct (py_get job_response "message" JNull) as [? | ? | y] eqn:E3;
        [repeat split; discriminate | repeat split; discriminate |].
      exfalso. eapply py_get_no_abort. exact E3. }
  clearbody body.
  unfold bind at 1, try_except at 1, bind at 1, create_processing_job, call
    in Erun.
  destruct (http_create_processing_job env record_id w) as [r w1].
  assert (Hnone : forall w2,
             exists r' v,
               k' None w2 = (v, snd (http_get_record_details env record_id w2),
                             [EvGetRecord record_id r'])
               /\ forall record,
                   v = Ret record ->
                   exists snapshot,
                     r' = Reply snapshot
                     /\ py_setitem snapshot "verification_results"
                                   (JDict results) = Ret record).
  { intros w2. unfold k', bind, get_record_details, call, lift.
    destruct (http_get_record_details env record_id w2) as [r' w3].
    exists r'. destruct r' as [details | e]; cbn [result_of_reply snd].
    - eexists. split; [rewrite app_nil_r; reflexivity |].
      intros record H. exists details. split; [reflexivity | exact H].
    - eexists. split; [reflexivity | discriminate]. }
  assert (Hlast : forall tb r' snapshot,
             r' = Reply snapshot ->
             last_fetch (tb ++ [EvGetRecord record_id r'])
             = Some (Reply snapshot)).
  { intros tb r' snapshot ->. rewrite last_fetch_app. reflexivity. }
  destruct r as [job_response | e]; cbn [result_of_reply] in Erun.
  - destruct (Hbody job_response w1) as (Hquiet & Hsome & Hnowait).
    destruct (body job_response w1) as [[r2 w2] t2].
    cbn [outcome trace final fst snd] in Hquiet, Hsome, Hnowait.
    destruct r2 as [[c |] | e2 | y2].
    + cbn in Erun. inversion Erun; subst. eexists _, _.
      split; [reflexivity |]. rewrite app_nil_r.
      split; [exact Hquiet |]. split.
      * intros record H. inversion H; subst. apply Hsome. reflexivity.
      * intros Hw. destruct (Hnowait Hw) as (_ & Hno & _).
        exfalso. eapply Hno. reflexivity.
    + destruct (Hnone w2) as (r' & v & Hk & Hv).
      cbn [ret] in Erun. rewrite Hk in Erun. inversion Erun; subst.
      eexists _, _. split; [reflexivity |]. split; [| split].
      * apply Forall_app. split; [exact Hquiet |].
        constructor; [reflexivity | constructor].
      * intros record H. destruct (Hv record H) as (snapshot & Hr & Hset).
        exists snapshot. split; [apply Hlast; exact Hr | exact Hset].
      * intros Hw. destruct (Hnowait Hw) as (-> & _ & _).
        eexists. reflexivity.
    + destruct (Hnone w2) as (r' & v & Hk & Hv).
      cbn [ret] in Erun. rewrite app_nil_r in Erun. rewrite Hk in Erun.
      inversion Erun; subst. eexists _, _.
      split; [reflexivity |]. split; [| split].
      * apply Forall_app. split; [exact Hquiet |].
        constructor; [reflexivity | constructor].
      * intros record H. destruct (Hv record H) as (snapshot & Hr & Hset).
        exists snapshot. split; [apply Hlast; exact Hr | exact Hset].
      * intros Hw. destruct (Hnowait Hw) as (-> & _ & _).
        eexists. reflexivity.
    + cbn in Erun. inversion Erun; subst. eexists _, _.
      split; [reflexivity |]. split; [exact Hquiet |]. split.
      * discriminate.
      * intros Hw. destruct (Hnowait Hw) as (_ & _ & Hna).
        exfalso. eapply Hna. reflexivity.
  - destruct (Hnone w1) as (r' & v & Hk & Hv).
    cbn [ret] in Erun. rewrite Hk in Erun. inversion Erun; subst.
    eexists _, _. split; [reflexivity |]. split; [| split].
    + constructor; [reflexivity | constructor].
    + intros record H. destruct (Hv record H) as (snapshot & Hr & Hset).
      exists snapshot. split; [apply (Hlast []); exact Hr | exact Hset].
    + intros _. eexists. reflexivity.
Qed.

End LatestSnapshot.

(** X6.  [_process_record] makes exactly one job-creation request, as its
    first call; whenever it returns a record, that record carries the given
    verification results under [verification_results]; and when the caller
    does not ask to wait, it makes just two calls: the job creation and one
    record fetch.  A job creation that fails is not an error of
    [_process_record]: whether or not the caller asked to wait, the
    exception is dropped, no wait is made, the current record is fetched,
    and the outcome is that of the fetch with the verification results set
    on the record. *)
Theorem process_record_attaches_verification_results :
  forall (W : Type) (env : Env W) (fuel : nat) (record_id : json)
         (verification_results : dict json) (wait_for_completion : bool)
         (timeout : Z) (w : W),
    (exists r t,
        trace (_process_record env fuel record_id verification_results
                               wait_for_completion timeout w)
        = EvCreateJob record_id r :: t
        /\ Forall (lacks is_create_job) t)
    /\ (forall record,
           outcome (_process_record env fuel record_id verification_results
                                    wait_for_completion timeout w)
           = Ret record ->
           py_get record "verification_results" JNull
           = Ret (JDict verification_results))
    /\ (wait_for_completion = false ->
        exists r r',
          trace (_process_record env fuel record_id verification_results
                                 wait_for_completion timeout w)
          = [EvCreateJob record_id r; EvGetRecord record_id r'])
    /\ (forall e w1,
           http_create_processing_job env record_id w = (Fault e, w1) ->
           _process_record env fuel record_id verification_results
                           wait_for_completion timeout w
           = (rbind (result_of_reply
                       (fst (http_get_record_details env record_id w1)))
                    (fun record_details =>
                       py_setitem record_details "verification_results"
                                  (JDict verification_results)),
              snd (http_get_record_details env record_id w1),
              [EvCreateJob record_id (Fault e);
               EvGetRecord record_id
                           (fst (http_get_record_details env record_id w1))])).
Proof.
  intros W env fuel record_id results wait timeout w.
  destruct (process_record_run env fuel record_id results wait timeout w)
    as (r & t & Htr & Hquiet & Hret & Hnowait).
  split; [| split; [| split]].
  - exists r, t. split; assumption.
  - intros record H. destruct (Hret record H) as (snapshot & _ & Hset).
    eapply py_get_setitem. exact Hset.
  - intros Hw. destruct (Hnowait Hw) as (r' & ->). exists r, r'. exact Htr.
  - intros e w1 Hjob. unfold _process_record.
    unfold bind at 1, try_except at 1, bind at 1, create_processing_job, call.
    rewrite Hjob. cbn [result_of_reply ret].
    unfold bind, get_record_details, call, lift.
    destruct (http_get_record_details env record_id w1) as [r' w2].
    cbn [fst snd]. destruct r' as [details | e']; cbn [result_of_reply rbind].
    + destruct (py_setitem details "verification_results" (JDict results));
        reflexivity.
    + reflexivity.
Qed.

(* ================================================================== *)
(** * [process_documents]: what it returns *)

Section Returned.
Variable W : Type.
Variable env : Env W.

Lemma validate_loop_none w items :
  forall valid,
    (forall kv, In kv items -> valid_entry env w kv = false) ->
    validate_loop env items valid w
    = match stat_failure env w items with
      | Some msg => (Raise (Exn OSError msg), w, [])
      | None => (Ret valid, w, [])
      end.
Proof.
  induction items as [|[doc_type file_path] items IH]; intros valid H.
  - reflexivity.
  - pose proof (H (doc_type, file_path) (or_introl eq_refl)) as Hkv.
    unfold valid_entry, exists_true in Hkv. cbn [snd] in Hkv.
    cbn [validate_loop stat_failure]. unfold bind at 1, path_exists at 1.
    destruct (fs_stat_error env (Pathlib.str (Pathlib.parse file_path)) w);
      [reflexivity |].
    destruct (fs_exists env (Pathlib.str (Pathlib.parse file_path)) w);
      cbn [negb].
    + cbn [andb] in Hkv. rewrite Hkv. cbn [negb].
      rewrite IH; [destruct (stat_failure env w items); reflexivity |].
      intros kv Hin. apply H. right. exact Hin.
    + rewrite IH; [destruct (stat_failure env w items); reflexivity |].
      intros kv Hin. apply H. right. exact Hin.
Qed.

Lemma latest_bind (A : Type) (m : M W A) (f : A -> M W json) w :
  (forall a w1, returns_latest_snapshot (f a w1)) ->
  returns_latest_snapshot (bind m f w).
Proof.
  intros Hf result. rewrite outcome_bind, trace_bind.
  destruct (outcome (m w)) as [a | e | y]; try discriminate.
  intros Hout. destruct (Hf a (final (m w)) result Hout)
    as [-> | (snapshot & Hl & Hres)]; [left; reflexivity |].
  right. exists snapshot. split; [| exact Hres].
  rewrite last_fetch_app, Hl. reflexivity.
Qed.

Lemma latest_ret_none w : returns_latest_snapshot (@ret W json JNull w).
Proof. intros result H. cbn in H. inversion H. left. reflexivity. Qed.

Lemma latest_fetch record_id w :
  returns_latest_snapshot (get_record_details env record_id w).
Proof.
  intros result. unfold get_record_details, call.
  destruct (http_get_record_details env record_id w) as [[body | e] w1];
    cbn; [| discriminate].
  intros H. inversion H; subst. right. exists result. auto.
Qed.

Lemma latest_fetch_and_set record_id results w :
  returns_latest_snapshot
    ((record_details <- get_record_details env record_id ;;
      record_details' <-
        lift (py_setitem record_details "verification_results"
                         (JDict results)) ;;
      ret record_details') w).
Proof.
  intros result. unfold bind, get_record_details, call, lift, ret.
  destruct (http_get_record_details env record_id w) as [[body | e] w1];
    cbn [result_of_reply]; [| discriminate].
  destruct (py_setitem body "verification_results" (JDict results)) as [v | |]
    eqn:Eset; cbn; try discriminate.
  intros H. inversion H; subst. right. exists body.
  split; [reflexivity |]. right. exists results. exact Eset.
Qed.

Lemma latest_process_record fuel record_id results wait timeout w :
  returns_latest_snapshot
    (_process_record env fuel record_id results wait timeout w).
Proof.
  intros result Hout.
  destruct (process_record_run env fuel record_id results wait timeout w)
    as (r & t & Htr & _ & Hret & _).
  destruct (Hret result Hout) as (snapshot & Hl & Hset).
  right. exists snapshot. split.
  - rewrite Htr. change (EvCreateJob record_id r :: t)
      with ([EvCreateJob record_id r] ++ t)%list.
    rewrite last_fetch_app, Hl. reflexivity.
  - right. exists results. exact Hset.
Qed.

Lemma latest_body fuel documents config_name wait timeout auto interval
      status_timeout w :
  returns_latest_snapshot
    (process_documents_body env fuel documents config_name wait timeout auto
                            interval status_timeout w).
Proof.
  unfold process_documents_body.
  apply latest_bind. intros valid w1.
  destruct (dict_is_empty valid); [apply latest_ret_none |].
  apply latest_bind. intros created w2.
  destruct created as [[record_id document_ids] |]; [| apply latest_ret_none].
  apply latest_bind. intros embedding_success w3.
  destruct embedding_success; cbn [negb]; [| apply latest_fetch].
  apply latest_bind. intros [results passed] w4.
  destruct (auto && passed) eqn:Ego.
  - apply latest_bind. intros record_details w5.
    apply latest_bind. intros record_details' w6.
    apply latest_process_record.
  - apply latest_fetch_and_set.
Qed.

End Returned.

(** X7.  When no document is valid (none exists as a PDF, be it that
    [exists()] answers [False] or raises; the empty mapping is the extreme
    case), [process_documents] returns [None] at once: it makes no call to
    the service and leaves the world as it is. *)
Theorem process_documents_without_valid_documents :
  forall (W : Type) (env : Env W) (fuel : nat) (documents : dict string)
         (config_name : string) (wait_for_completion : bool) (timeout : Z)
         (auto_process : bool) (status_check_interval status_check_timeout : Z)
         (w : W),
    (forall kv, In kv documents -> valid_entry env w kv = false) ->
    process_documents env fuel documents config_name wait_for_completion
                      timeout auto_process status_check_interval
                      status_check_timeout w
    = (Ret JNull, w, []).
Proof.
  intros W env fuel documents config_name wait timeout auto interval
         status_timeout w Hnone.
  unfold process_documents, try_except, process_documents_body,
    validate_documents.
  unfold bind at 1. rewrite (validate_loop_none env w documents [] Hnone).
  destruct (stat_failure env w documents); reflexivity.
Qed.

(** X8.  A record that [process_documents] returns is never stale: the
    value is [None], or it is the reply to the last record fetch of the
    run, either as it is (the embedding wait timed out) or with
    [verification_results] set on it. *)
Theorem process_documents_returns_the_latest_snapshot :
  forall (W : Type) (env : Env W) (fuel : nat) (documents : dict string)
         (config_name : string) (wait_for_completion : bool) (timeout : Z)
         (auto_process : bool) (status_check_interval status_check_timeout : Z)
         (w : W) (result : json),
    outcome (process_documents env fuel documents config_name
               wait_for_completion timeout auto_process status_check_interval
               status_check_timeout w)
    = Ret result ->
    result = JNull
    \/ exists snapshot,
        last_fetch (trace (process_documents env fuel documents config_name
                             wait_for_completion timeout auto_process
                             status_check_interval status_check_timeout w))
        = Some (Reply snapshot)
        /\ (result = snapshot
            \/ exists verification_results,
                py_setitem snapshot "verification_results"
                           (JDict verification_results) = Ret result).
Proof.
  intros W env fuel documents config_name wait timeout auto interval
         status_timeout w result.
  rewrite process_documents_trace. unfold process_documents.
  rewrite outcome_try_except.
  pose proof (latest_body env fuel documents config_name wait timeout auto
                          interval status_timeout w) as Hbody.
  specialize (Hbody result).
  destruct (outcome (process_documents_body env fuel documents config_name wait
                       timeout auto interval status_timeout w))
    as [v | e | y].
  - exact Hbody.
  - cbn. intros H. inversion H. left. reflexivity.
  - discriminate.
Qed.

(* ================================================================== *)
(** * The client's workflows *)

Section WorkflowFacts.
Variable W : Type.
Variable env : Env W.

Lemma observer_emits (P : event -> Prop)
      (status_callback : option (json -> Z -> json -> M W unit)) answer
      status elapsed record_details :
  observer_answers status_callback answer ->
  emits P (match status_callback with
           | Some cb => cb status elapsed record_details
           | None => ret tt
           end).
Proof.
  intros Hobs w. destruct (Hobs status elapsed record_details w) as [Hrun _].
  rewrite Hrun. constructor.
Qed.

Lemma wait_record_loop_emits_observed (P : event -> Prop) fuel record_id
      timeout interval status_callback answer start :
  observer_answers status_callback answer ->
  (forall t, P (EvTime t)) -> (forall d, P (EvSleep d)) ->
  (forall i r, P (EvGetRecord i r)) ->
  emits P (wait_record_loop env fuel record_id timeout interval
                            status_callback start).
Proof.
  intros Hobs Ht Hs Hg. induction fuel as [|fuel IH]; cbn [wait_record_loop].
  - emits_tac.
  - apply emits_bind; [apply emits_time_time; exact Ht | intros t].
    destruct (t - start <? timeout); [| emits_tac].
    apply emits_bind;
      [unfold get_record_details; apply emits_call; apply Hg | intros rd].
    apply emits_bind; [emits_tac | intros st].
    apply emits_bind; [apply emits_time_time; exact Ht | intros t'].
    apply emits_bind; [eapply observer_emits; exact Hobs | intros _].
    destruct (py_eq_str st "complete"); [emits_tac |].
    destruct (py_eq_str st "error"); [emits_tac |].
    apply emits_bind; [apply emits_time_sleep; exact Hs | intros _].
    exact IH.
Qed.

Lemma wait_for_record_completion_emits (P : event -> Prop) fuel record_id
      timeout interval status_callback answer :
  observer_answers status_callback answer ->
  (forall t, P (EvTime t)) -> (forall d, P (EvSleep d)) ->
  (forall i r, P (EvGetRecord i r)) ->
  emits P (wait_for_record_completion env fuel record_id timeout interval
                                      status_callback).
Proof.
  intros Hobs Ht Hs Hg. unfold wait_for_record_completion.
  apply emits_bind; [apply emits_time_time; exact Ht | intros start].
  eapply wait_record_loop_emits_observed; eassumption.
Qed.

Lemma no_upload_accepted t :
  Forall (lacks is_upload) t -> accepted_uploads t = [].
Proof.
  induction 1 as [|ev t Hev _ IH]; [reflexivity |].
  destruct ev; cbn in *; try exact IH. discriminate.
Qed.

Lemma stops_after_accepted t1 t2 :
  Forall (lacks upload_refused) t1 ->
  stops_at_failed_upload t2 -> stops_at_failed_upload (t1 ++ t2).
Proof.
  induction 1 as [|ev t1 Hev _ IH]; intros H2; [exact H2 |].
  destruct ev; cbn; auto. destruct r; [auto | discriminate].
Qed.

Lemma stops_without_refusal t :
  Forall (lacks upload_refused) t -> stops_at_failed_upload t.
Proof.
  intros H. rewrite <- (app_nil_r t). apply stops_after_accepted; [exact H |].
  exact I.
Qed.

Lemma created_app t1 t2 :
  records_created (t1 ++ t2) = (records_created t1 + records_created t2)%nat.
Proof. unfold records_created. rewrite filter_app, length_app. reflexivity. Qed.

Lemma none_created t :
  Forall (lacks is_create_record) t -> records_created t = 0%nat.
Proof.
  unfold records_created.
  induction 1 as [|ev t Hev _ IH]; [reflexivity |].
  cbn. unfold lacks in Hev. rewrite Hev. exact IH.
Qed.

(** [upload_document] raises before any request, or makes the one
    upload request. *)
Lemma upload_document_cases record_id file_path doc_type w :
  (exists e,
      upload_document env record_id file_path doc_type w = (Raise e, w, []))
  \/ upload_document env record_id file_path doc_type w
     = (result_of_reply
          (fst (http_upload_document env record_id
                  (Pathlib.str (Pathlib.parse file_path)) doc_type w)),
        snd (http_upload_document env record_id
               (Pathlib.str (Pathlib.parse file_path)) doc_type w),
        [EvUpload record_id (Pathlib.str (Pathlib.parse file_path)) doc_type
                  (fst (http_upload_document env record_id
                          (Pathlib.str (Pathlib.parse file_path)) doc_type
                          w))]).
Proof.
  rewrite upload_document_unfold. unfold call.
  destruct (fs_stat_error env (Pathlib.str (Pathlib.parse file_path)) w);
    [left; eexists; reflexivity |].
  destruct (fs_exists env (Pathlib.str (Pathlib.parse file_path)) w);
    cbn [negb]; [| left; eexists; reflexivity].
  destruct (Pathlib.is_pdf (Pathlib.parse file_path));
    cbn [negb]; [| left; eexists; reflexivity].
  destruct (fs_open_error env (Pathlib.str (Pathlib.parse file_path)) w);
    [left; eexists; reflexivity |].
  right.
  destruct (http_upload_document env record_id
              (Pathlib.str (Pathlib.parse file_path)) doc_type w) as [r w1].
  reflexivity.
Qed.

(** The upload loop of [process_full_workflow]: it returns after every
    upload was accepted, or it raises at the first one that was not, be
    it refused by the service or by the checks of [upload_document]. *)
Lemma upload_all_run record_id items :
  forall w,
    Forall (lacks is_create_record) (trace (upload_all env record_id items w))
    /\ ((outcome (upload_all env record_id items w) = Ret tt
         /\ Forall (lacks upload_refused)
                   (trace (upload_all env record_id items w))
         /\ accepted_uploads (trace (upload_all env record_id items w))
            = map stored_entry items)
        \/ (exists e,
               outcome (upload_all env record_id items w) = Raise e
               /\ stops_at_failed_upload
                    (trace (upload_all env record_id items w)))).
Proof.
  induction items as [|[doc_type file_path] items IH]; intros w.
  - cbn. split; [constructor |]. left. repeat split; constructor.
  - destruct (upload_all env record_id ((doc_type, file_path) :: items) w)
      as [[r0 w0] t0] eqn:Erun.
    cbn [outcome trace fst snd].
    cbn [upload_all] in Erun. unfold bind at 1 in Erun.
    destruct (upload_document_cases record_id file_path doc_type w)
      as [(e & Hup) | Hup]; rewrite Hup in Erun; clear Hup.
    + inversion Erun; subst. split; [constructor |]. right. exists e.
      split; [reflexivity | exact I].
    + destruct (http_upload_document env record_id
                  (Pathlib.str (Pathlib.parse file_path)) doc_type w)
        as [[body | e] w1]; cbn [result_of_reply fst snd] in Erun.
      * destruct (IH w1) as [Hcr Hcases].
        destruct (upload_all env record_id items w1) as [[r1 w1'] t1].
        cbn [outcome trace fst snd] in Hcr, Hcases.
        inversion Erun; subst. cbn [app].
        split; [constructor; [reflexivity | exact Hcr] |].
        destruct Hcases as [(Hout & Hacc & Hups) | (e & Hout & Hstop)].
        -- left. split; [exact Hout |]. split.
           ++ constructor; [reflexivity | exact Hacc].
           ++ cbn. rewrite Hups. reflexivity.
        -- right. exists e. split; [exact Hout | exact Hstop].
      * inversion Erun; subst. split; [repeat constructor |]. right.
        exists e. split; reflexivity.
Qed.

Variable status_callback : option (json -> Z -> json -> M W unit).
Variable answer : json -> Z -> json -> result unit.
Hypothesis observer : observer_answers status_callback answer.

(** [process_full_workflow], in full. *)
Lemma process_full_workflow_run fuel configuration_ref document_map timeout w :
  let x := process_full_workflow env fuel configuration_ref document_map
                                 timeout status_callback w in
  (exists r t, trace x = EvCreateRecord configuration_ref r :: t
               /\ Forall (lacks is_create_record) t)
  /\ stops_at_failed_upload (trace x)
  /\ (forall e, outcome x = Raise e ->
                exn_cls e = NebuiaError
                /\ exists cause,
                    exn_msg e = "Workflow execution failed: " ++ cause)
  /\ (forall record,
         outcome x = Ret record ->
         is_complete record
         /\ accepted_uploads (trace x) = map stored_entry document_map
         /\ last_fetch (trace x) = Some (Reply record)).
Proof.
  intros x. subst x. unfold process_full_workflow.
  match goal with
  | |- context [try_except ?m _] => set (body := m)
  end.
  rewrite outcome_try_except, trace_try_except.
  assert (Hraise : forall e w',
             trace (@raise W json
                      (Exn NebuiaError
                           ("Workflow execution failed: " ++ exn_msg e)) w')
             = []) by reflexivity.
  assert (Htail : (trace (body w)
                   ++ match outcome (body w) with
                      | Raise e =>
                          trace (@raise W json
                                   (Exn NebuiaError
                                        ("Workflow execution failed: "
                                           ++ exn_msg e)) (final (body w)))
                      | _ => []
                      end)%list
                  = trace (body w)).
  { destruct (outcome (body w)); cbn; apply app_nil_r. }
  rewrite Htail. clear Htail Hraise.
  assert (Hbody :
    (exists r t, trace (body w) = EvCreateRecord configuration_ref r :: t
                 /\ Forall (lacks is_create_record) t)
    /\ stops_at_failed_upload (trace (body w))
    /\ (forall record,
           outcome (body w) = Ret record ->
           is_complete record
           /\ accepted_uploads (trace (body w)) = map stored_entry document_map
           /\ last_fetch (trace (body w)) = Some (Reply record))).
  { destruct (body w) as [[rb wb] tb] eqn:Eb. cbn [outcome trace fst snd].
    unfold body in Eb. unfold bind at 1, create_record, call in Eb.
    destruct (http_create_record env configuration_ref w) as [r w1].
    destruct r as [record_response | e]; cbn [result_of_reply] in Eb.
    2:{ inversion Eb; subst.
        split; [eexists _, _; split; [reflexivity | constructor] |].
        split; [exact I | discriminate]. }
    unfold bind at 1, lift at 1 in Eb.
    destruct (py_get record_response "id" JNull) as [record_id | e | y].
    2,3: inversion Eb; subst;
      (split; [eexists _, _; split; [reflexivity | constructor] |]);
      (split; [exact I | discriminate]).
    unfold bind at 1 in Eb.
    destruct (upload_all_run record_id document_map w1) as [Hcr Hcases].
    destruct (upload_all env record_id document_map w1) as [[ru wu] tu].
    cbn [outcome trace fst snd] in Hcr, Hcases.
    destruct Hcases as [(Hout & Hacc & Hups) | (e & Hout & Hstop)]; subst ru.
    2:{ inversion Eb; subst. cbn [app].
        split; [eexists _, _; split; [reflexivity | exact Hcr] |].
        split; [exact Hstop | discriminate]. }
    assert (Hquiet : forall P : event -> Prop,
               (forall t, P (EvTime t)) -> (forall d, P (EvSleep d)) ->
               (forall i r, P (EvGetRecord i r)) ->
               Forall P (trace (wait_for_record_completion
                                  env fuel record_id timeout 10
                                  status_callback wu))).
    { intros P Ht Hs Hg.
      apply (@wait_for_record_completion_emits P fuel record_id timeout 10
               status_callback answer observer Ht Hs Hg wu). }
    pose proof (@wait_for_record_completion_returns
                  W env fuel record_id timeout 10 status_callback answer wu)
      as Hwait.
    destruct (wait_for_record_completion env fuel record_id timeout 10
                status_callback wu) as [[rw ww] tw].
    cbn [outcome trace fst snd] in Hquiet, Hwait.
    inversion Eb; subst. cbn [app].
    split; [| split].
    - eexists _, _. split; [reflexivity |]. apply Forall_app.
      split; [exact Hcr |]. apply Hquiet; intros; reflexivity.
    - change (stops_at_failed_upload
                ([EvCreateRecord configuration_ref (Reply record_response)]
                   ++ tu ++ tw)).
      apply stops_after_accepted; [repeat constructor |].
      apply stops_after_accepted; [exact Hacc |].
      apply stops_without_refusal. apply Hquiet; intros; reflexivity.
    - intros record Hret.
      destruct (Hwait record observer Hret) as [Hl Hc].
      split; [exact Hc |]. split.
      + cbn. rewrite accepted_uploads_app, Hups.
        rewrite (@no_upload_accepted tw); [apply app_nil_r |].
        apply Hquiet; intros; reflexivity.
      + change (last_fetch
                  ([EvCreateRecord configuration_ref (Reply record_response)]
                     ++ tu ++ tw)
                = Some (Reply record)).
        rewrite !last_fetch_app, Hl. reflexivity. }
  destruct Hbody as (Hfirst & Hstop & Hret).
  split; [exact Hfirst |]. split; [exact Hstop |]. split.
  - destruct (outcome (body w)) as [v | e0 | y]; try discriminate.
    cbn. intros e H. inversion H; subst. cbn.
    split; [reflexivity |]. exists (exn_msg e0). reflexivity.
  - intros record H. apply Hret.
    destruct (outcome (body w)) as [v | e0 | y]; try discriminate; exact H.
Qed.

End WorkflowFacts.

Section Sequence.
Variable W : Type.
Variable env : Env W.

Lemma no_observer : observer_answers (W:=W) None no_observer_answer.
Proof. intros status elapsed record_details w. split; [reflexivity | discriminate]. Qed.

(** The sequential loop: one workflow per document map, each with its
    own record, each result a complete record. *)
Lemma process_each_run fuel configuration_ref document_maps :
  forall results w results',
    outcome (process_each env fuel configuration_ref document_maps results w)
    = Ret results' ->
    exists added,
      results' = (results ++ added)%list
      /\ List.length added = List.length document_maps
      /\ Forall is_complete added
      /\ records_created
           (trace (process_each env fuel configuration_ref document_maps
                                results w))
         = List.length document_maps.
Proof.
  induction document_maps as [|document_map rest IH]; intros results w results'.
  - cbn. intros H. inversion H; subst. exists []. rewrite app_nil_r.
    repeat split. constructor.
  - cbn [process_each]. rewrite outcome_bind, trace_bind.
    pose proof (@process_full_workflow_run W env None no_observer_answer
                  no_observer fuel configuration_ref document_map 900 w)
      as Hrun.
    cbv zeta in Hrun.
    destruct Hrun as ((r & t & Htr & Hcr) & _ & _ & Hret).
    destruct (outcome (process_full_workflow env fuel configuration_ref
                         document_map 900 None w)) as [record | e | y];
      try discriminate.
    intros Hout. destruct (Hret record eq_refl) as (Hc & _ & _).
    destruct (IH _ _ _ Hout) as (added & -> & Hlen & Hall & Hn).
    exists (record :: added). rewrite <- app_assoc. split; [reflexivity |].
    split; [cbn; rewrite Hlen; reflexivity |].
    split; [constructor; assumption |].
    rewrite created_app, Hn, Htr. unfold records_created. cbn.
    fold (records_created t). rewrite (none_created Hcr). reflexivity.
Qed.

End Sequence.

(** X9.  [process_full_workflow] fails only with a [NebuiaError] whose
    message starts with "Workflow execution failed: ", whatever was raised
    inside (a timeout of the wait included); and it stops at the first
    upload the service refuses: no call follows it.  (The observer passed
    in only returns or raises.) *)
Theorem process_full_workflow_fails_as_nebuia_error :
  forall (W : Type) (env : Env W) (fuel : nat) (configuration_ref : string)
         (document_map : dict string) (timeout : Z)
         (status_callback : option (json -> Z -> json -> M W unit))
         (answer : json -> Z -> json -> result unit) (w : W),
    observer_answers status_callback answer ->
    (forall e,
        outcome (process_full_workflow env fuel configuration_ref document_map
                                       timeout status_callback w) = Raise e ->
        exn_cls e = NebuiaError
        /\ exists cause, exn_msg e = "Workflow execution failed: " ++ cause)
    /\ stops_at_failed_upload
         (trace (process_full_workflow env fuel configuration_ref document_map
                                       timeout status_callback w)).
Proof.
  intros W env fuel configuration_ref document_map timeout status_callback
         answer w Hobs.
  pose proof (@process_full_workflow_run W env status_callback answer Hobs fuel
                configuration_ref document_map timeout w) as Hrun.
  cbv zeta in Hrun. destruct Hrun as (_ & Hstop & Hraise & _).
  split; assumption.
Qed.

(** X10.  When [process_full_workflow] returns a record, the record is
    complete, it is the reply to the last fetch of the run, and every
    document of the map was uploaded and accepted, in the order of the
    map. *)
Theorem process_full_workflow_returns_a_complete_record :
  forall (W : Type) (env : Env W) (fuel : nat) (configuration_ref : string)
         (document_map : dict string) (timeout : Z)
         (status_callback : option (json -> Z -> json -> M W unit))
         (answer : json -> Z -> json -> result unit) (w : W) (record : json),
    observer_answers status_callback answer ->
    outcome (process_full_workflow env fuel configuration_ref document_map
                                   timeout status_callback w) = Ret record ->
    is_complete record
    /\ accepted_uploads
         (trace (process_full_workflow env fuel configuration_ref document_map
                                       timeout status_callback w))
       = map stored_entry document_map
    /\ last_fetch
         (trace (process_full_workflow env fuel configuration_ref document_map
                                       timeout status_callback w))
       = Some (Reply record).
Proof.
  intros W env fuel configuration_ref document_map timeout status_callback
         answer w record Hobs Hout.
  pose proof (@process_full_workflow_run W env status_callback answer Hobs fuel
                configuration_ref document_map timeout w) as Hrun.
  cbv zeta in Hrun. destruct Hrun as (_ & _ & _ & Hret).
  apply Hret. exact Hout.
Qed.

(** X11.  [process_multiple_records] processes in sequence only: with
    [concurrent=True] it returns the empty list and makes no call at all,
    whatever the document maps; without it, a list it returns has one
    complete record per document map, and one record was created for each
    map. *)
Theorem process_multiple_records_runs_in_sequence_only :
  forall (W : Type) (env : Env W) (fuel : nat) (configuration_ref : string)
         (document_maps : list (dict string)) (max_concurrent : Z) (w : W),
    process_multiple_records env fuel configuration_ref document_maps true
                             max_concurrent w
    = (Ret [], w, [])
    /\ (forall results,
           outcome (process_multiple_records env fuel configuration_ref
                      document_maps false max_concurrent w) = Ret results ->
           List.length results = List.length document_maps
           /\ Forall is_complete results
           /\ records_created
                (trace (process_multiple_records env fuel configuration_ref
                          document_maps false max_concurrent w))
              = List.length document_maps).
Proof.
  intros W env fuel configuration_ref document_maps max_concurrent w.
  split; [reflexivity |]. intros results Hout.
  unfold process_multiple_records in *.
  destruct (process_each_run env fuel configuration_ref document_maps [] w Hout)
    as (added & -> & Hlen & Hall & Hn).
  cbn [app]. auto.
Qed.

(* ================================================================== *)
(** * The client on the wire *)

Section WireFacts.
Variable W : Type.
Variable net : Wire.Net W.
Variable self : Wire.NebuiaClient.

Lemma wire_trace_bind (A B : Type) (m : Wire.T W A) (f : A -> Wire.T W B) w :
  Wire.trace (Wire.bind m f w)
  = (Wire.trace (m w)
     ++ match Wire.outcome (m w) with
        | Ret a => Wire.trace (f a (Wire.final (m w)))
        | _ => []
        end)%list.
Proof.
  unfold Wire.bind, Wire.trace, Wire.outcome, Wire.final.
  destruct (m w) as [[r w1] t1]. destruct r; cbn.
  - destruct (f a w1) as [[r2 w2] t2]. reflexivity.
  - rewrite app_nil_r. reflexivity.
  - rewrite app_nil_r. reflexivity.
Qed.

Lemma wire_outcome_bind (A B : Type) (m : Wire.T W A) (f : A -> Wire.T W B) w :
  Wire.outcome (Wire.bind m f w)
  = match Wire.outcome (m w) with
    | Ret a => Wire.outcome (f a (Wire.final (m w)))
    | Raise e => Raise e
    | Abort y => Abort y
    end.
Proof.
  unfold Wire.bind, Wire.outcome, Wire.final.
  destruct (m w) as [[r w1] t1]. destruct r; cbn; try reflexivity.
  destruct (f a w1) as [[r2 w2] t2]. reflexivity.
Qed.

Lemma sent_of_app t1 t2 :
  Wire.sent_of (t1 ++ t2) = (Wire.sent_of t1 ++ Wire.sent_of t2)%list.
Proof.
  induction t1 as [|ev t1 IH]; [reflexivity |].
  destruct ev; cbn; rewrite ?IH; reflexivity.
Qed.

(** [_make_request], in full: at most one log entry, then at most one
    call of the session; without a call it raises, with one its outcome
    is what the [try] block makes of the call. *)
Lemma make_request_run method endpoint params data files custom_headers
      timeout operation_name w :
  exists lg sd,
    Wire.trace (Wire._make_request net self method endpoint params data files
                                   custom_headers timeout operation_name w)
    = (lg ++ sd)%list
    /\ (lg = []
        \/ exists c,
            Wire._to_curl_command net self method (Wire.BASE_URL ++ endpoint)
                                  (Wire.chosen_headers self custom_headers)
                                  params data files = Ret c
            /\ lg = [Wire.Logged
                       (Wire.log_entry_of
                          (Wire.strftime net w) c
                          (Wire.chosen_name net method endpoint operation_name))])
    /\ (Wire.enable_curl_logging self = true -> sd <> [] -> lg <> [])
    /\ (Wire.enable_curl_logging self = false -> lg = [])
    /\ ((sd = []
         /\ exists e,
             Wire.outcome (Wire._make_request net self method endpoint params
                                              data files custom_headers
                                              timeout operation_name w)
             = Raise e)
        \/ exists v r,
            sd = [Wire.Sent
                    (Wire.MkRequest
                       v (Wire.BASE_URL ++ endpoint)
                       (Wire.chosen_headers self custom_headers) params
                       (Wire.chosen_payload v data files)
                       (Wire.chosen_timeout self timeout)) r]
            /\ Wire.upper net method = Wire.verb_name v
            /\ Wire.outcome (Wire._make_request net self method endpoint
                                                params data files
                                                custom_headers timeout
                                                operation_name w)
               = Wire.result_of_sent r).
Proof.
  destruct (Wire._make_request net self method endpoint params data files
                               custom_headers timeout operation_name w)
    as [[r0 w0] t0] eqn:Erun.
  cbn [Wire.trace Wire.outcome fst snd].
  unfold Wire._make_request in Erun.
  fold (Wire.chosen_headers self custom_headers) in Erun.
  fold (Wire.chosen_timeout self timeout) in Erun.
  fold (Wire.chosen_name net method endpoint operation_name) in Erun.
  set (hdrs := Wire.chosen_headers self custom_headers) in *.
  set (rt := Wire.chosen_timeout self timeout) in *.
  set (name := Wire.chosen_name net method endpoint operation_name) in *.
  set (url := (Wire.BASE_URL ++ endpoint)%string) in *.
  assert (Hsend : forall v,
             exists r w',
               Wire.session_call
                 net (Wire.MkRequest v url hdrs params
                                     (Wire.chosen_payload v data files) rt) w
               = (Wire.result_of_sent r, w',
                  [Wire.Sent (Wire.MkRequest
                                v url hdrs params
                                (Wire.chosen_payload v data files) rt) r])).
  { intros v. unfold Wire.session_call.
    destruct (Wire.session_send net _ w) as [r w']. exists r, w'.
    reflexivity. }
  assert (Hpost :
    (if Wire.given files
     then Wire.session_call
            net (Wire.MkRequest Wire.POST url hdrs params
                   (Wire.FormPayload data (Wire.items_of files)) rt)
     else Wire.session_call
            net (Wire.MkRequest Wire.POST url hdrs params
                   (Wire.JsonPayload data) rt))
    = Wire.session_call
        net (Wire.MkRequest Wire.POST url hdrs params
                            (Wire.chosen_payload Wire.POST data files) rt)).
  { unfold Wire.chosen_payload. destruct (Wire.given files); reflexivity. }
  rewrite Hpost in Erun. clear Hpost.
  change (Wire.MkRequest Wire.GET url hdrs params Wire.NoPayload rt)
    with (Wire.MkRequest Wire.GET url hdrs params
                         (Wire.chosen_payload Wire.GET data files) rt)
    in Erun.
  unfold Wire.bind at 1 in Erun.
  destruct (Wire.enable_curl_logging self) eqn:Elog.
  - unfold Wire.bind at 1, Wire.lift at 1 in Erun.
    destruct (Wire._to_curl_command net self method url hdrs params data files)
      as [c | e | y] eqn:Ecurl.
    + unfold Wire._log_curl_command in Erun. rewrite Elog in Erun.
      cbn [negb] in Erun.
      set (lg := [Wire.Logged
                    (Wire.log_entry_of (Wire.strftime net w) c name)]) in *.
      destruct (String.eqb (Wire.upper net method) "GET") eqn:Eget.
      * apply String.eqb_eq in Eget.
        destruct (Hsend Wire.GET) as (r & w' & Hs). rewrite Hs in Erun.
        inversion Erun; subst. eexists lg, _.
        split; [reflexivity |]. split; [right; exists c; auto |].
        split; [intros _ _; discriminate |]. split; [discriminate |].
        right. exists Wire.GET, r. auto.
      * destruct (String.eqb (Wire.upper net method) "POST") eqn:Epost.
        -- apply String.eqb_eq in Epost.
           destruct (Hsend Wire.POST) as (r & w' & Hs). rewrite Hs in Erun.
           inversion Erun; subst. eexists lg, _.
           split; [reflexivity |]. split; [right; exists c; auto |].
           split; [intros _ _; discriminate |]. split; [discriminate |].
           right. exists Wire.POST, r. auto.
        -- cbn in Erun. inversion Erun; subst. exists lg, [].
           split; [reflexivity |]. split; [right; exists c; auto |].
           split; [intros _ H; contradiction |]. split; [discriminate |].
           left. split; [reflexivity |]. eexists. reflexivity.
    + inversion Erun; subst. exists [], [].
      split; [reflexivity |]. split; [left; reflexivity |].
      split; [intros _ H; contradiction |]. split; [reflexivity |].
      left. split; [reflexivity |]. exists e. reflexivity.
    + exfalso. unfold Wire._to_curl_command, Wire.curl_words in Ecurl.
      repeat match type of Ecurl with
             | context [if ?b then _ else _] => destruct b
             | context [Wire.py_items ?d] => destruct d; cbn in Ecurl
             end; cbn in Ecurl; discriminate.
  - unfold Wire.ret at 1 in Erun.
    destruct (String.eqb (Wire.upper net method) "GET") eqn:Eget.
    + apply String.eqb_eq in Eget.
      destruct (Hsend Wire.GET) as (r & w' & Hs). rewrite Hs in Erun.
      inversion Erun; subst. eexists [], _.
      split; [reflexivity |]. split; [left; reflexivity |].
      split; [discriminate |]. split; [reflexivity |].
      right. exists Wire.GET, r. auto.
    + destruct (String.eqb (Wire.upper net method) "POST") eqn:Epost.
      * apply String.eqb_eq in Epost.
        destruct (Hsend Wire.POST) as (r & w' & Hs). rewrite Hs in Erun.
        inversion Erun; subst. eexists [], _.
        split; [reflexivity |]. split; [left; reflexivity |].
        split; [discriminate |]. split; [reflexivity |].
        right. exists Wire.POST, r. auto.
      * cbn in Erun. inversion Erun; subst. exists [], [].
        split; [reflexivity |]. split; [left; reflexivity |].
        split; [discriminate |]. split; [reflexivity |].
        left. split; [reflexivity |]. eexists. reflexivity.
Qed.

End WireFacts.

Section WireRuns.
Variable W : Type.
Variable net : Wire.Net W.
Variable self : Wire.NebuiaClient.

(** Properties of traces that hold of nothing happening and of one trace
    after another. *)
Variable Q : list Wire.wire_event -> Prop.
Hypothesis Q_nil : Q [].
Hypothesis Q_app : forall t1 t2, Q t1 -> Q t2 -> Q (t1 ++ t2).

Lemma every_run_ret (A : Type) (a : A) : Wire.every_run Q (@Wire.ret W A a).
Proof. intros w. exact Q_nil. Qed.

Lemma every_run_raise (A : Type) e : Wire.every_run Q (@Wire.raise W A e).
Proof. intros w. exact Q_nil. Qed.

Lemma every_run_lift (A : Type) (r : result A) :
  Wire.every_run Q (@Wire.lift W A r).
Proof. intros w. exact Q_nil. Qed.

Lemma every_run_bind (A B : Type) (m : Wire.T W A) (f : A -> Wire.T W B) :
  Wire.every_run Q m -> (forall a, Wire.every_run Q (f a)) ->
  Wire.every_run Q (Wire.bind m f).
Proof.
  intros Hm Hf w. rewrite wire_trace_bind. apply Q_app; [apply Hm |].
  destruct (Wire.outcome (m w)); [apply Hf | exact Q_nil | exact Q_nil].
Qed.

Lemma every_run_try_except (A : Type) (m : Wire.T W A)
      (h : exn -> Wire.T W A) :
  Wire.every_run Q m -> (forall e, Wire.every_run Q (h e)) ->
  Wire.every_run Q (Wire.try_except m h).
Proof.
  intros Hm Hh w. unfold Wire.try_except. specialize (Hm w).
  destruct (m w) as [[r w1] t1]. cbn in Hm. destruct r; try exact Hm.
  specialize (Hh e w1). destruct (h e w1) as [[r2 w2] t2]. cbn in *.
  apply Q_app; assumption.
Qed.

Lemma every_run_try_finally (A : Type) (m : Wire.T W A) (f : Wire.T W unit) :
  Wire.every_run Q m -> Wire.every_run Q f ->
  Wire.every_run Q (Wire.try_finally m f).
Proof.
  intros Hm Hf w. unfold Wire.try_finally. specialize (Hm w).
  destruct (m w) as [[r w1] t1]. cbn in Hm. specialize (Hf w1).
  destruct r; try exact Hm;
    destruct (f w1) as [[r2 w2] t2]; cbn in *;
    destruct r2; cbn; apply Q_app; assumption.
Qed.

Hypothesis Q_opened : forall p, Q [Wire.Opened p].
Hypothesis Q_closed : forall p, Q [Wire.Closed p].
Hypothesis Q_request :
  forall method endpoint params data files custom_headers timeout
         operation_name,
    Wire.client_endpoint self endpoint ->
    Wire.own_headers self custom_headers ->
    Wire.every_run Q (Wire._make_request net self method endpoint params data
                                         files custom_headers timeout
                                         operation_name).

Ltac endpoint_tac :=
  first [ left; reflexivity | right; reflexivity
        | eexists; cbn; reflexivity ].

(** What holds of every trace of [_make_request] holds of every trace of
    every method built on it. *)
Lemma perform_every_run op :
  Wire.uses_make_request op = true ->
  Wire.every_run Q (Wire.perform net self op).
Proof.
  destruct op; cbn [Wire.uses_make_request Wire.perform]; intros Huses;
    try discriminate.
  - unfold Wire.create_configuration.
    apply every_run_bind; [apply every_run_lift | intros missing].
    destruct missing; [| apply every_run_raise].
    apply Q_request; endpoint_tac.
  - apply Q_request; endpoint_tac.
  - apply Q_request; endpoint_tac.
  - apply Q_request; endpoint_tac.
  - apply Q_request; endpoint_tac.
  - apply Q_request; endpoint_tac.
  - apply Q_request; endpoint_tac.
  - apply Q_request; endpoint_tac.
  - unfold Wire.upload_document.
    apply every_run_bind.
    { intros w. unfold Wire.path_exists.
      destruct (Wire.file_stat_error net _ w); exact Q_nil. }
    intros ex.
    destruct (negb ex); [apply every_run_raise |].
    destruct (negb (Pathlib.is_pdf (Pathlib.parse file_path)));
      [apply every_run_raise |].
    apply every_run_bind.
    { intros w. unfold Wire.open_rb.
      destruct (Wire.file_open net _ w) as [[e |] w']; cbn;
        [exact Q_nil | apply Q_opened]. }
    intros _. apply every_run_try_finally.
    + apply Q_request; endpoint_tac.
    + intros w. apply Q_closed.
  - apply Q_request; endpoint_tac.
  - apply Q_request; endpoint_tac.
  - unfold Wire.get_record_summary.
    apply every_run_bind; [apply Q_request; endpoint_tac | intros rd].
    apply every_run_bind.
    { apply every_run_try_except; [apply Q_request; endpoint_tac |].
      intros e. apply every_run_ret. }
    intros documents.
    repeat (apply every_run_bind; [apply every_run_lift | intros ?]).
    apply every_run_ret.
Qed.

End WireRuns.

Section Substrings.

Lemma is_prefix_app p s : is_prefix p (p ++ s) = true.
Proof.
  induction p as [|c p IH]; cbn; [reflexivity |].
  rewrite Ascii.eqb_refl, IH. reflexivity.
Qed.

Lemma is_prefix_same p a b : is_prefix (p ++ a) (p ++ b) = is_prefix a b.
Proof.
  induction p as [|c p IH]; cbn; [reflexivity |].
  rewrite Ascii.eqb_refl, IH. reflexivity.
Qed.

Lemma is_prefix_longer p s b :
  is_prefix p s = true -> is_prefix p (s ++ b) = true.
Proof.
  revert s. induction p as [|c p IH]; intros s; [reflexivity |].
  destruct s as [|d s]; cbn; [discriminate |]. intros H.
  apply andb_true_iff in H. destruct H as [-> H]. cbn. apply IH. exact H.
Qed.

Lemma is_substring_of_prefix p s :
  is_prefix p s = true -> is_substring p s = true.
Proof. intros H. destruct s; cbn; rewrite H; reflexivity. Qed.

Lemma is_substring_after p a s :
  is_substring p s = true -> is_substring p (a ++ s) = true.
Proof.
  intros H. induction a as [|c a IH]; [exact H |].
  cbn. rewrite IH. apply orb_true_r.
Qed.

Lemma is_substring_before p s b :
  is_substring p s = true -> is_substring p (s ++ b) = true.
Proof.
  induction s as [|c s IH]; intros H.
  - cbn in H. rewrite orb_false_r in H. destruct p; [| discriminate].
    destruct b; reflexivity.
  - cbn in H. apply orb_true_iff in H. destruct H as [H | H].
    + apply is_substring_of_prefix.
      apply is_prefix_longer. exact H.
    + change (String c s ++ b)%string with (String c (s ++ b)).
      cbn [is_substring]. rewrite (IH H). apply orb_true_r.
Qed.

Lemma is_substring_self p : is_substring p p = true.
Proof.
  apply is_substring_of_prefix. rewrite <- (is_prefix_app p "").
  f_equal. induction p as [|c p IH]; cbn; [reflexivity |].
  rewrite <- IH. reflexivity.
Qed.

(** A word of a joined command is a substring of it. *)
Lemma is_substring_concat x sep l :
  In x l -> is_substring x (String.concat sep l) = true.
Proof.
  induction l as [|y l IH]; [contradiction |]. intros Hin.
  destruct l as [|z l].
  - destruct Hin as [-> | []]. apply is_substring_self.
  - change (String.concat sep (y :: z :: l))
      with (y ++ sep ++ String.concat sep (z :: l))%string.
    destruct Hin as [-> | Hin].
    + apply is_substring_before, is_substring_self.
    + apply is_substring_after, is_substring_after, IH. exact Hin.
Qed.

End Substrings.

Section WireRequests.
Variable W : Type.
Variable net : Wire.Net W.
Variable self : Wire.NebuiaClient.

Lemma own_headers_carry custom_headers :
  Wire.own_headers self custom_headers ->
  dict_get "X-API-Key" (Wire.chosen_headers self custom_headers)
  = Some (Wire.api_key self)
  /\ dict_get "X-API-Secret" (Wire.chosen_headers self custom_headers)
     = Some (Wire.api_secret self)
  /\ In ("X-API-Secret", Wire.api_secret self)
        (Wire.chosen_headers self custom_headers).
Proof.
  intros [-> | ->]; cbn; repeat split; auto.
Qed.

Lemma client_endpoint_prefix endpoint :
  Wire.client_endpoint self endpoint ->
  is_prefix (Wire.client_root self) (Wire.BASE_URL ++ endpoint) = true.
Proof.
  intros (rest & ->). unfold Wire.client_root.
  rewrite is_prefix_same. rewrite (is_prefix_same "/clients/").
  rewrite is_prefix_same. reflexivity.
Qed.

(** Two prefixes that part at one character are not prefixes of the
    same string. *)
Lemma is_prefix_parts p a b r1 r2 s :
  Ascii.eqb a b = false ->
  is_prefix (p ++ String a r1) s = true ->
  is_prefix (p ++ String b r2) s = false.
Proof.
  intros Hab. revert s. induction p as [|x p IH]; intros [|c s]; cbn;
    try discriminate.
  - intros H. apply andb_true_iff in H. destruct H as [Hac _].
    apply Ascii.eqb_eq in Hac. subst c. rewrite Ascii.eqb_sym, Hab.
    reflexivity.
  - intros H. apply andb_true_iff in H. destruct H as [-> H]. cbn.
    apply IH. exact H.
Qed.

(** The two places are apart: a URL of one is not a URL of the other. *)
Lemma client_not_embeddings url :
  is_prefix (Wire.client_root self) url = true ->
  is_prefix Wire.embeddings_root url = false.
Proof.
  change (Wire.client_root self)
    with ("https://"
            ++ String "c" ("lients-copilot.nebuia.com" ++ "/clients/"
                             ++ Wire.client_id self ++ "/")).
  change Wire.embeddings_root
    with ("https://" ++ String "e" "mbeddings-distributor.nebuia.com/document/").
  apply is_prefix_parts. reflexivity.
Qed.

Lemma embeddings_not_client url :
  is_prefix Wire.embeddings_root url = true ->
  is_prefix (Wire.client_root self) url = false.
Proof.
  change (Wire.client_root self)
    with ("https://"
            ++ String "c" ("lients-copilot.nebuia.com" ++ "/clients/"
                             ++ Wire.client_id self ++ "/")).
  change Wire.embeddings_root
    with ("https://" ++ String "e" "mbeddings-distributor.nebuia.com/document/").
  apply is_prefix_parts. reflexivity.
Qed.

(** Every request [_make_request] sends carries the credentials and goes
    to the client's part of the API. *)
Lemma make_request_well_addressed method endpoint params data files
      custom_headers timeout operation_name :
  Wire.client_endpoint self endpoint ->
  Wire.own_headers self custom_headers ->
  Wire.every_run (Forall (Wire.addressed self true))
                 (Wire._make_request net self method endpoint params data
                                     files custom_headers timeout
                                     operation_name).
Proof.
  intros Hend Hown w.
  destruct (make_request_run net self method endpoint params data files
                             custom_headers timeout operation_name w)
    as (lg & sd & -> & Hlg & _ & _ & Hsd).
  apply Forall_app. split.
  - destruct Hlg as [-> | (c & _ & ->)]; repeat constructor.
  - destruct Hsd as [[-> _] | (v & r & -> & _ & _)]; [constructor |].
    constructor; [| constructor]. cbn [Wire.addressed Wire.rq_url
                                       Wire.rq_headers negb].
    destruct (own_headers_carry Hown) as (Hk & Hs & _).
    split; [split; assumption |].
    pose proof (client_endpoint_prefix Hend) as Hp.
    split; [exact Hp | apply client_not_embeddings; exact Hp].
Qed.

(** The words of the command hold every header, quoted. *)
Lemma curl_words_headers method url headers params data files words :
  Wire.curl_words net self method url headers params data files = Ret words ->
  forall kv, In kv headers ->
             In (Wire.shlex_quote (fst kv ++ ": " ++ snd kv)) words.
Proof.
  unfold Wire.curl_words. intros Hwords kv Hin.
  match type of Hwords with
  | context [(?base ++ flat_map ?f headers)%list] =>
      assert (Hq : In (Wire.shlex_quote (fst kv ++ ": " ++ snd kv))
                      (base ++ flat_map f headers)%list);
      [| set (command := (base ++ flat_map f headers)%list) in * ]
  end.
  { apply in_or_app. right. apply in_flat_map. exists kv.
    split; [exact Hin | right; left; reflexivity]. }
  clearbody command.
  destruct (truthy data && negb (Wire.given files));
    destruct (Wire.given files); cbn in Hwords;
    try (inversion Hwords; subst; repeat (apply in_or_app; left); exact Hq).
  - destruct (truthy data); cbn in Hwords.
    + destruct (Wire.py_items data) as [fields | e | y]; cbn in Hwords;
        try discriminate.
      inversion Hwords; subst. repeat (apply in_or_app; left). exact Hq.
    + inversion Hwords; subst. repeat (apply in_or_app; left). exact Hq.
  - destruct (truthy data); cbn in Hwords.
    + destruct (Wire.py_items data) as [fields | e | y]; cbn in Hwords;
        try discriminate.
      inversion Hwords; subst. repeat (apply in_or_app; left). exact Hq.
    + inversion Hwords; subst. repeat (apply in_or_app; left). exact Hq.
Qed.

(** A log entry contains what its command contains. *)
Lemma log_entry_contains x timestamp curl_command operation_name :
  is_substring x curl_command = true ->
  is_substring x (Wire.log_entry_of timestamp curl_command operation_name)
  = true.
Proof.
  intros H. unfold Wire.log_entry_of.
  do 11 apply is_substring_after. apply is_substring_before. exact H.
Qed.

(** With logging on, [_make_request] logs before it sends, and the entry
    shows the secret. *)
Lemma make_request_logged_in_clear method endpoint params data files
      custom_headers timeout operation_name :
  Wire.enable_curl_logging self = true ->
  Wire.client_endpoint self endpoint ->
  Wire.own_headers self custom_headers ->
  Wire.every_run (Wire.logged_in_clear self)
                 (Wire._make_request net self method endpoint params data
                                     files custom_headers timeout
                                     operation_name).
Proof.
  intros Hon Hend Hown w.
  destruct (make_request_run net self method endpoint params data files
                             custom_headers timeout operation_name w)
    as (lg & sd & -> & Hlg & Hboth & _ & Hsd).
  destruct (own_headers_carry Hown) as (_ & _ & Hin).
  assert (Hshows : Forall (Wire.secret_if_logged self) lg).
  { destruct Hlg as [-> | (c & Hc & ->)]; [constructor |].
    constructor; [| constructor]. cbn. unfold Wire.shows_secret.
    apply log_entry_contains.
    unfold Wire._to_curl_command in Hc.
    destruct (Wire.curl_words net self method (Wire.BASE_URL ++ endpoint)
                (Wire.chosen_headers self custom_headers) params data files)
      as [words | e | y] eqn:Ewords; cbn in Hc; try discriminate.
    inversion Hc; subst. apply is_substring_concat.
    eapply curl_words_headers in Hin; [exact Hin | exact Ewords]. }
  split.
  - apply Forall_app. split; [exact Hshows |].
    destruct Hsd as [[-> _] | (v & r & -> & _ & _)]; repeat constructor.
  - destruct Hsd as [[-> _] | (v & r & -> & _ & _)].
    + rewrite app_nil_r.
      destruct Hlg as [-> | (c & _ & ->)]; cbn; lia.
    + specialize (Hboth Hon ltac:(discriminate)).
      destruct Hlg as [-> | (c & _ & ->)]; [contradiction |]. cbn. lia.
Qed.

Lemma logged_in_clear_app t1 t2 :
  Wire.logged_in_clear self t1 -> Wire.logged_in_clear self t2 ->
  Wire.logged_in_clear self (t1 ++ t2).
Proof.
  intros [H1 L1] [H2 L2]. split; [apply Forall_app; split; assumption |].
  assert (Hl : forall t1 t2,
             Wire.logged_of (t1 ++ t2)
             = (Wire.logged_of t1 ++ Wire.logged_of t2)%list).
  { clear. induction t1 as [|ev t1 IH]; intros t2; [reflexivity |].
    destruct ev; cbn; rewrite ?IH; reflexivity. }
  rewrite sent_of_app, Hl, !length_app. lia.
Qed.

End WireRequests.

(** X12.  A client that was constructed has no empty credential, and
    every request that any of its methods sends carries its API key and its
    API secret as headers.  Where a request goes is settled by the method:
    the requests of every method built on [_make_request] go to the
    client's own part of the API and not to the embeddings distributor;
    [get_document_status] sends its one request, a GET with the same two
    headers, to the embeddings distributor and not to the client's API. *)
Theorem every_request_carries_the_credentials :
  forall (W : Type) (net : Wire.Net W) (client_id api_key api_secret : string)
         (timeout : Z) (enable_curl_logging : bool) (self : Wire.NebuiaClient)
         (op : Wire.operation) (w : W),
    Wire.__init__ client_id api_key api_secret timeout enable_curl_logging
    = Ret self ->
    Forall (Wire.addressed self (Wire.uses_make_request op))
           (Wire.trace (Wire.perform net self op w))
    /\ (forall document_id,
           exists r,
             Wire.trace (Wire.perform net self
                                      (Wire.GetDocumentStatus document_id) w)
             = [Wire.Sent
                  (Wire.MkRequest
                     Wire.GET
                     (Wire.embeddings_root ++ Wire.fmt net document_id
                        ++ "/status")
                     (Wire.headers self) None Wire.NoPayload
                     (Wire.timeout self)) r])
    /\ Wire.api_key self = api_key /\ api_key <> ""
    /\ Wire.api_secret self = api_secret /\ api_secret <> "".
Proof.
  intros W net client_id api_key api_secret timeout logging self op w Hinit.
  split; [| split].
  - destruct (Wire.uses_make_request op) eqn:Euses.
    + apply (@perform_every_run W net self (Forall (Wire.addressed self true)));
        try assumption.
      * constructor.
      * intros t1 t2 H1 H2. apply Forall_app. split; assumption.
      * intros p. repeat constructor.
      * intros p. repeat constructor.
      * intros. apply make_request_well_addressed; assumption.
    + destruct op; try discriminate. cbn [Wire.perform].
      unfold Wire.get_document_status, Wire.session_call.
      destruct (Wire.session_send net _ w) as [r w']. cbn [Wire.trace snd].
      constructor; [| constructor].
      cbn [Wire.addressed Wire.rq_url Wire.rq_headers negb].
      split; [split; reflexivity |].
      assert (Hp : is_prefix Wire.embeddings_root
                             ("https://embeddings-distributor.nebuia.com/document/"
                                ++ Wire.fmt net document_id ++ "/status")
                   = true)
        by (apply (is_prefix_app Wire.embeddings_root)).
      split; [apply embeddings_not_client; exact Hp | exact Hp].
  - intros document_id. cbn [Wire.perform].
    unfold Wire.get_document_status, Wire.session_call.
    destruct (Wire.session_send net _ w) as [r w']. exists r. reflexivity.
  - unfold Wire.__init__, Wire.__post_init__ in Hinit.
    destruct (String.eqb client_id "") eqn:E1; [discriminate |].
    destruct (String.eqb api_key "") eqn:E2; [discriminate |].
    destruct (String.eqb api_secret "") eqn:E3; [discriminate |].
    cbn in Hinit. inversion Hinit; subst. cbn.
    apply String.eqb_neq in E2, E3. auto.
Qed.

(** X13.  With cURL logging on, the API secret is written to the log in
    clear: every log entry a method writes contains the header
    [X-API-Secret] with the secret, as [shlex.quote] spells it, and every
    request made through [_make_request] has its log entry.  The one method
    that calls the session itself, [get_document_status], writes no log
    entry at all. *)
Theorem curl_log_shows_the_api_secret :
  forall (W : Type) (net : Wire.Net W) (self : Wire.NebuiaClient) (w : W),
    Wire.enable_curl_logging self = true ->
    (forall op,
        Wire.uses_make_request op = true ->
        Wire.logged_in_clear self (Wire.trace (Wire.perform net self op w)))
    /\ (forall document_id,
           Wire.logged_of
             (Wire.trace (Wire.get_document_status net self document_id w))
           = []
           /\ List.length
                (Wire.sent_of
                   (Wire.trace (Wire.get_document_status net self document_id
                                                         w)))
              = 1%nat).
Proof.
  intros W net self w Hon. split.
  - intros op Huses.
    apply (@perform_every_run W net self (Wire.logged_in_clear self));
      try assumption.
    + split; [constructor | cbn; lia].
    + apply logged_in_clear_app.
    + intros p. split; [repeat constructor | cbn; lia].
    + intros p. split; [repeat constructor | cbn; lia].
    + intros. apply make_request_logged_in_clear; assumption.
  - intros document_id. unfold Wire.get_document_status, Wire.session_call.
    destruct (Wire.session_send net _ w) as [r w']. cbn. auto.
Qed.

(** X14.  The contract of [_make_request]: it calls the session at most
    once; it returns a value only when that call was answered by a response
    that is [ok], and the value is the parsed body; a response that is not
    [ok] is raised as a [NebuiaApiError] with the status code and the
    reason in its message, whatever the body; a [requests.RequestException]
    is raised as a [NebuiaError] with the prefix "Network error: "; and a
    method whose [upper()] is neither GET nor POST raises without any call
    of the session. *)
Theorem make_request_outcomes :
  forall (W : Type) (net : Wire.Net W) (self : Wire.NebuiaClient)
         (method endpoint : string) (params : option (dict json)) (data : json)
         (files : option (dict Wire.file_tuple))
         (custom_headers : option (dict string)) (timeout : option Z)
         (operation_name : option string) (w : W),
    let x := Wire._make_request net self method endpoint params data files
                                custom_headers timeout operation_name w in
    (List.length (Wire.sent_of (Wire.trace x)) <= 1)%nat
    /\ (forall v,
           Wire.outcome x = Ret v ->
           exists rq resp,
             Wire.sent_of (Wire.trace x) = [(rq, Wire.Responded resp)]
             /\ Wire.ok resp = true
             /\ Wire.body resp = Wire.Parsed v
             /\ Wire.rq_url rq = Wire.BASE_URL ++ endpoint)
    /\ (forall rq resp,
           In (rq, Wire.Responded resp) (Wire.sent_of (Wire.trace x)) ->
           Wire.ok resp = false ->
           Wire.outcome x
           = Raise (Exn NebuiaApiError
                        ("API Error (" ++ Wire.str_of_int (Wire.status_code resp)
                         ++ "): Request failed: " ++ Wire.reason resp)))
    /\ (forall rq msg,
           In (rq, Wire.RequestFailed msg) (Wire.sent_of (Wire.trace x)) ->
           Wire.outcome x = Raise (Exn NebuiaError ("Network error: " ++ msg)))
    /\ (Wire.upper net method <> "GET" -> Wire.upper net method <> "POST" ->
        Wire.sent_of (Wire.trace x) = [] /\ exists e, Wire.outcome x = Raise e).
Proof.
  intros W net self method endpoint params data files custom_headers timeout
         operation_name w x. subst x.
  destruct (make_request_run net self method endpoint params data files
                             custom_headers timeout operation_name w)
    as (lg & sd & Htr & Hlg & _ & _ & Hsd).
  rewrite Htr, sent_of_app.
  assert (Hnone : Wire.sent_of lg = []).
  { destruct Hlg as [-> | (c & _ & ->)]; reflexivity. }
  rewrite Hnone. cbn [app].
  destruct Hsd as [[-> (e & Hout)] | (v & r & -> & Hverb & Hout)]; cbn.
  - split; [lia |]. split; [intros v H; congruence |].
    split; [intros rq resp [] |]. split; [intros rq msg [] |].
    intros _ _. split; [reflexivity | exists e; exact Hout].
  - split; [lia |]. rewrite Hout. split; [| split; [| split]].
    + intros val Hval. destruct r as [resp | msg | e]; cbn in Hval;
        try discriminate.
      destruct (Wire.ok resp) eqn:Eok; cbn in Hval; [| discriminate].
      destruct (Wire.body resp) as [v' | [|] msg] eqn:Ebody; try discriminate.
      inversion Hval; subst. eexists _, resp. repeat split; auto.
    + intros rq resp [Heq | []] Hnot. inversion Heq; subst. cbn.
      rewrite Hnot. reflexivity.
    + intros rq msg [Heq | []]. inversion Heq; subst. reflexivity.
    + intros Hg Hp. exfalso. destruct v; cbn in Hverb; contradiction.
Qed.

Section CommandWords.

(** A quoted word starts as the word does, or with a quote. *)
Lemma shlex_quote_head c s c' s' :
  Wire.shlex_quote (String c s) = String c' s' -> c' = c \/ c' = "'"%char.
Proof.
  unfold Wire.shlex_quote. cbn [String.eqb].
  destruct (Wire.all_safe (String c s)); intros H; inversion H; auto.
Qed.

(** [str(n)] starts with a digit, or with a minus sign and a digit. *)
Lemma str_of_uint_head d :
  exists c s, NilZero.string_of_uint d = String c s
              /\ c <> "-"%char /\ c <> "'"%char.
Proof.
  destruct d; cbn; eexists _, _; (split; [reflexivity |]);
    split; discriminate.
Qed.

Lemma str_of_int_not_data n : Wire.str_of_int n <> "--data".
Proof.
  unfold Wire.str_of_int. destruct (Z.to_int n) as [d | d]; cbn;
    destruct (str_of_uint_head d) as (c & s & -> & Hc & _); intros H;
    inversion H; subst; contradiction.
Qed.

End CommandWords.

(** X15.  The cURL log is not always the request: with logging on,
    [create_processing_job] hands the session the JSON body [{}], while the
    command it logs as equivalent is made of the words of [_to_curl_command]
    for that request, which are the method, the URL, the three headers and
    the timeout: there is no [--data] option among them, since an empty body
    is falsy.  For a body that is truthy the words do hold [--data].  The
    trace is the log entry and then the request. *)
Theorem processing_job_is_logged_without_its_body :
  forall (W : Type) (net : Wire.Net W) (self : Wire.NebuiaClient)
         (record_id : json) (w : W),
    Wire.enable_curl_logging self = true ->
    let url := Wire.BASE_URL ++ "/clients/" ++ Wire.client_id self
                 ++ "/records/" ++ Wire.fmt net record_id ++ "/process" in
    Wire.curl_words net self "POST" url (Wire.headers self) None (JDict [])
                    None
    = Ret (Wire.processing_job_words self url)
    /\ ~ In "--data" (Wire.processing_job_words self url)
    /\ (exists r,
           Wire.trace (Wire.create_processing_job net self record_id w)
           = [Wire.Logged
                (Wire.log_entry_of
                   (Wire.strftime net w)
                   (String.concat " " (Wire.processing_job_words self url))
                   ("Create Processing Job for Record: "
                      ++ Wire.fmt net record_id));
              Wire.Sent
                (Wire.MkRequest Wire.POST url (Wire.headers self) None
                                (Wire.JsonPayload (JDict []))
                                (Wire.timeout self)) r])
    /\ (forall data words,
           truthy data = true ->
           Wire.curl_words net self "POST" url (Wire.headers self) None data
                           None
           = Ret words ->
           In "--data" words).
Proof.
  intros W net self record_id w Hon url.
  split; [reflexivity |]. split; [| split].
  - unfold Wire.processing_job_words. cbn [In]. intros H.
    repeat match type of H with
           | _ \/ _ => destruct H as [H | H]
           end;
      try discriminate; try contradiction;
      match type of H with
      | Wire.shlex_quote _ = _ =>
          apply shlex_quote_head in H; destruct H; discriminate
      | Wire.str_of_int _ = _ => exact (@str_of_int_not_data _ H)
      end.
  - subst url. unfold Wire.create_processing_job, Wire._make_request.
    change (Wire.upper net "POST") with "POST".
    change (String.eqb "POST" "GET") with false.
    change (String.eqb "POST" "POST") with true.
    change (String.eqb ("Create Processing Job for Record: "
                          ++ Wire.fmt net record_id) "") with false.
    cbv iota. rewrite Hon.
    unfold Wire._to_curl_command. cbn [Wire.given].
    match goal with
    | |- context [Wire.curl_words ?n ?s ?m ?u ?h ?p ?d ?f] =>
        assert (Hwords : Wire.curl_words n s m u h p d f
                         = Ret (Wire.processing_job_words s u))
          by reflexivity;
        rewrite Hwords; clear Hwords
    end.
    cbn [rbind].
    unfold Wire.bind, Wire.lift, Wire._log_curl_command. rewrite Hon.
    cbn [negb]. unfold Wire.session_call.
    match goal with
    | |- context [Wire.session_send net ?rq w] =>
        destruct (Wire.session_send net rq w) as [r w']
    end.
    exists r. reflexivity.
  - intros data words Htruthy. unfold Wire.curl_words.
    change (Wire.upper net "POST") with "POST".
    rewrite Htruthy. cbn [Wire.given andb negb rbind].
    intros H. inversion H; subst. clear H.
    repeat first [left; reflexivity | right].
Qed.

Section Configurations.
Variable W : Type.
Variable net : Wire.Net W.
Variable self : Wire.NebuiaClient.

Lemma missing_in_dict fields d :
  Wire.missing_in fields (JDict d)
  = Ret (filter (fun field => negb (dict_mem field d)) fields).
Proof.
  induction fields as [|field fields IH]; cbn; [reflexivity |].
  rewrite IH. cbn. destruct (dict_mem field d); reflexivity.
Qed.

Lemma missing_in_none fields config_data :
  Wire.missing_in fields config_data = Ret [] ->
  forall field, In field fields -> py_contains field config_data = Ret true.
Proof.
  induction fields as [|f fields IH]; cbn; [intros _ field [] |].
  destruct (py_contains f config_data) as [present | e | y] eqn:Ef; cbn;
    try discriminate.
  destruct (Wire.missing_in fields config_data) as [missing | e | y]; cbn;
    try discriminate.
  destruct present; [| discriminate]. intros H. inversion H; subst.
  intros field [<- | Hin]; [exact Ef | apply IH; auto].
Qed.

End Configurations.

(** X16.  [create_configuration] checks the configuration before
    anything else: for a dict that lacks some of title, subtitle,
    description, endpoint, icon and documents it raises a [ValueError] that
    names the missing fields in that order, and nothing is logged or sent;
    a request it does send has all six fields in its data, which is the
    JSON body. *)
Theorem create_configuration_checks_the_required_fields :
  forall (W : Type) (net : Wire.Net W) (self : Wire.NebuiaClient)
         (config_name : string) (config_data : json) (w : W),
    (forall d,
        config_data = JDict d ->
        filter (fun field => negb (dict_mem field d)) Wire.required_fields
        <> [] ->
        Wire.create_configuration net self config_name config_data w
        = (Raise (Exn ValueError
                      ("Configuration data missing required fields: "
                       ++ String.concat
                            ", "
                            (filter (fun field => negb (dict_mem field d))
                                    Wire.required_fields))),
           w, []))
    /\ (forall rq r,
           In (rq, r)
              (Wire.sent_of
                 (Wire.trace (Wire.create_configuration net self config_name
                                                        config_data w))) ->
           (forall field,
               In field Wire.required_fields ->
               py_contains field config_data = Ret true)
           /\ Wire.rq_payload rq = Wire.JsonPayload config_data).
Proof.
  intros W net self config_name config_data w. split.
  - intros d -> Hmissing. unfold Wire.create_configuration.
    unfold Wire.bind at 1, Wire.lift at 1. rewrite missing_in_dict.
    destruct (filter (fun field => negb (dict_mem field d))
                     Wire.required_fields) as [|f rest];
      [contradiction | reflexivity].
  - intros rq r. unfold Wire.create_configuration.
    rewrite wire_trace_bind. unfold Wire.lift at 1 2 3.
    cbn [Wire.trace Wire.outcome Wire.final fst snd app].
    destruct (Wire.missing_in Wire.required_fields config_data)
      as [[|f rest] | e | y] eqn:Emissing;
      cbn [Wire.sent_of Wire.trace snd app]; try contradiction.
    match goal with
    | |- context [Wire._make_request ?n ?s ?m ?e ?p ?d ?f ?c ?t ?o ?x] =>
        destruct (make_request_run n s m e p d f c t o x)
          as (lg & sd & Htr & Hlg & _ & _ & Hsd)
    end.
    rewrite Htr.
    rewrite sent_of_app.
    assert (Hnone : Wire.sent_of lg = []).
    { destruct Hlg as [-> | (c & _ & ->)]; reflexivity. }
    rewrite Hnone. cbn [app].
    destruct Hsd as [[-> _] | (v & r' & -> & Hverb & _)]; cbn;
      [contradiction |].
    intros [Heq | []]. inversion Heq; subst.
    split; [apply (missing_in_none _ _ Emissing) |].
    destruct v; [discriminate | reflexivity].
Qed.

Section Summary.
Variable W : Type.
Variable net : Wire.Net W.
Variable self : Wire.NebuiaClient.

Lemma wire_outcome_try_except (A : Type) (m : Wire.T W A)
      (h : exn -> Wire.T W A) w :
  Wire.outcome (Wire.try_except m h w)
  = match Wire.outcome (m w) with
    | Raise e => Wire.outcome (h e (Wire.final (m w)))
    | other => other
    end.
Proof.
  unfold Wire.try_except, Wire.outcome, Wire.final.
  destruct (m w) as [[r w1] t1]. destruct r; cbn; try reflexivity.
  destruct (h e w1) as [[r2 w2] t2]. reflexivity.
Qed.

Lemma wire_outcome_lift (A B : Type) (r : result A) (f : A -> Wire.T W B) w :
  Wire.outcome (Wire.bind (Wire.lift r) f w)
  = match r with
    | Ret a => Wire.outcome (f a w)
    | Raise e => Raise e
    | Abort y => Abort y
    end.
Proof. rewrite wire_outcome_bind. destruct r; reflexivity. Qed.

End Summary.

(** X17.  [get_record_summary] counts what it lists: in a summary it
    returns, [total_documents] is the length of [documents].  A failure of
    the document listing does not fail the summary: when the record is
    fetched and the listing raises, whatever the exception, the summary is
    returned with no documents and a total of 0. *)
Theorem record_summary_counts_its_documents :
  forall (W : Type) (net : Wire.Net W) (self : Wire.NebuiaClient)
         (record_id : json) (w : W),
    (forall summary,
        Wire.outcome (Wire.get_record_summary net self record_id w)
        = Ret summary ->
        exists documents n,
          py_get summary "documents" JNull = Ret documents
          /\ Wire.py_len documents = Ret n
          /\ py_get summary "total_documents" JNull = Ret (JNum n))
    /\ (forall record e,
           Wire.outcome (Wire.get_record_details net self record_id w)
           = Ret (JDict record) ->
           Wire.outcome
             (Wire.list_documents
                net self record_id
                (Wire.final (Wire.get_record_details net self record_id w)))
           = Raise e ->
           exists summary,
             Wire.outcome (Wire.get_record_summary net self record_id w)
             = Ret summary
             /\ py_get summary "record" JNull = Ret (JDict record)
             /\ py_get summary "documents" JNull = Ret (JList [])
             /\ py_get summary "total_documents" JNull = Ret (JNum 0)).
Proof.
  intros W net self record_id w. split.
  - intros summary. unfold Wire.get_record_summary.
    rewrite wire_outcome_bind.
    destruct (Wire.outcome (Wire.get_record_details net self record_id w))
      as [record_details | e | y]; try discriminate.
    rewrite wire_outcome_bind.
    destruct (Wire.outcome (Wire.try_except _ _ _)) as [documents | e | y];
      try discriminate.
    rewrite wire_outcome_lift.
    destruct (py_get documents "documents" (JList [])) as [listed | e | y];
      try discriminate.
    rewrite wire_outcome_lift.
    rewrite wire_outcome_lift.
    destruct (Wire.py_len listed) as [n | e | y] eqn:Elen; try discriminate.
    rewrite wire_outcome_lift.
    destruct (py_get record_details "status" JNull); try discriminate.
    rewrite wire_outcome_lift.
    destruct (py_get record_details "configuration_ref" JNull);
      try discriminate.
    rewrite wire_outcome_lift.
    destruct (py_get record_details "created_at" JNull); try discriminate.
    rewrite wire_outcome_lift.
    destruct (py_get record_details "completed_at" JNull); try discriminate.
    cbn. intros H. inversion H; subst. exists listed, n. cbn. auto.
  - intros record e Hrecord Hlist. unfold Wire.get_record_summary.
    rewrite wire_outcome_bind, Hrecord.
    rewrite wire_outcome_bind, wire_outcome_try_except, Hlist.
    cbn [Wire.ret Wire.outcome fst].
    rewrite !wire_outcome_lift. cbn.
    eexists. split; [reflexivity |]. cbn. auto.
Qed.

Section Uploads.
Variable W : Type.
Variable net : Wire.Net W.
Variable self : Wire.NebuiaClient.

Lemma left_open_app t1 t2 :
  forall open_files,
    Wire.left_open (t1 ++ t2) open_files
    = Wire.left_open t2 (Wire.left_open t1 open_files).
Proof.
  induction t1 as [|ev t1 IH]; intros open_files; [reflexivity |].
  destruct ev; cbn; apply IH.
Qed.

(** [_make_request] opens and closes nothing, and it does not abort. *)
Lemma make_request_leaves_files method endpoint params data files
      custom_headers timeout operation_name w open_files :
  Wire.left_open
    (Wire.trace (Wire._make_request net self method endpoint params data
                                    files custom_headers timeout
                                    operation_name w)) open_files
  = open_files
  /\ forall y,
      Wire.outcome (Wire._make_request net self method endpoint params data
                                       files custom_headers timeout
                                       operation_name w) <> Abort y.
Proof.
  destruct (make_request_run net self method endpoint params data files
                             custom_headers timeout operation_name w)
    as (lg & sd & -> & Hlg & _ & _ & Hsd).
  split.
  - rewrite left_open_app.
    destruct Hlg as [-> | (c & _ & ->)];
      destruct Hsd as [[-> _] | (v & r & -> & _ & _)]; reflexivity.
  - intros y.
    destruct Hsd as [[_ (e & ->)] | (v & r & _ & _ & ->)]; [discriminate |].
    destruct r as [resp | msg | e]; cbn; try discriminate.
    destruct (Wire.ok resp); cbn; [| discriminate].
    destruct (Wire.body resp) as [v' | [|] msg]; discriminate.
Qed.

End Uploads.

(** X18.  [upload_document] leaves no file open: on every path, also when
    the request raises, a file it opened is closed at the end.  It sends a
    request only for a file that exists and has the suffix [.pdf]; the
    request is a multipart one, with the document type as its form field,
    the open file as its part, and the upload headers (no content type of
    its own). *)
Theorem upload_document_closes_the_file :
  forall (W : Type) (net : Wire.Net W) (self : Wire.NebuiaClient)
         (record_id : json) (file_path document_type : string) (timeout : Z)
         (w : W),
    let path := Pathlib.str (Pathlib.parse file_path) in
    let x := Wire.upload_document net self record_id file_path document_type
                                  timeout w in
    Wire.left_open (Wire.trace x) [] = []
    /\ (forall rq r,
           In (rq, r) (Wire.sent_of (Wire.trace x)) ->
           Wire.file_exists net path w = true
           /\ Pathlib.is_pdf (Pathlib.parse file_path) = true
           /\ (exists mid,
                  Wire.trace x
                  = (Wire.Opened path :: mid ++ [Wire.Closed path])%list)
           /\ Wire.rq_headers rq = Wire.upload_headers self
           /\ Wire.rq_payload rq
              = Wire.FormPayload
                  (JDict [("document_type", JStr document_type)])
                  [("file",
                    Wire.MkFile (Pathlib.name (Pathlib.parse file_path)) path
                                "application/pdf")]).
Proof.
  intros W net self record_id file_path document_type timeout w path x.
  subst x.
  destruct (Wire.upload_document net self record_id file_path document_type
                                 timeout w) as [[r0 w0] t0] eqn:Erun.
  cbn [Wire.trace snd].
  unfold Wire.upload_document in Erun.
  unfold Wire.bind at 1, Wire.path_exists at 1 in Erun.
  fold path in Erun.
  destruct (Wire.file_stat_error net path w) eqn:Estat.
  { inversion Erun; subst. split; [reflexivity | intros rq r []]. }
  destruct (Wire.file_exists net path w) eqn:Eex; cbn [negb] in Erun.
  2:{ inversion Erun; subst. split; [reflexivity | intros rq r []]. }
  destruct (Pathlib.is_pdf (Pathlib.parse file_path)) eqn:Epdf;
    cbn [negb] in Erun.
  2:{ inversion Erun; subst. split; [reflexivity | intros rq r []]. }
  unfold Wire.bind at 1, Wire.open_rb at 1 in Erun. fold path in Erun.
  destruct (Wire.file_open net path w) as [[e |] w1].
  { inversion Erun; subst. split; [reflexivity | intros rq r []]. }
  unfold Wire.try_finally, Wire.close in Erun. fold path in Erun.
  match type of Erun with
  | context [Wire._make_request ?n ?s ?m ?e ?p ?d ?f ?c ?t ?o ?x] =>
      destruct (make_request_run n s m e p d f c t o x)
        as (lg & sd & Htr & Hlg & _ & _ & Hsd);
      destruct (make_request_leaves_files n s m e p d f c t o x [path])
        as [Hfiles Hna];
      destruct (Wire._make_request n s m e p d f c t o x) as [[r1 w2] t1]
  end.
  cbn [Wire.trace Wire.outcome fst snd] in Htr, Hfiles, Hna, Hsd.
  assert (Ht0 : t0 = (Wire.Opened path :: t1 ++ [Wire.Closed path])%list
                /\ True).
  { destruct r1 as [v | e | y]; [| | exfalso; eapply Hna; reflexivity];
      inversion Erun; subst; split; auto. }
  destruct Ht0 as [-> _]. split.
  - cbn [Wire.left_open]. rewrite left_open_app, Hfiles. cbn.
    destruct (string_dec path path); [reflexivity | contradiction].
  - intros rq r. cbn [Wire.sent_of]. rewrite sent_of_app. cbn [Wire.sent_of].
    rewrite app_nil_r. subst t1. rewrite sent_of_app.
    assert (Hnone : Wire.sent_of lg = []).
    { destruct Hlg as [-> | (c & _ & ->)]; reflexivity. }
    rewrite Hnone. cbn [app].
    destruct Hsd as [[-> _] | (v & r' & -> & Hverb & _)]; cbn;
      [contradiction |].
    intros [Heq | []]. inversion Heq; subst.
    split; [reflexivity |]. split; [reflexivity |].
    split; [eexists; reflexivity |]. split; [reflexivity |].
    destruct v; [discriminate | reflexivity].
Qed.

(* ================================================================== *)
(** * Documents that share a type: facts *)

Section GroupingFacts.
Variable X : Type.

Lemma document_types_in t l : In t (document_types l) <-> In t l.
Proof.
  induction l as [|t0 l IH]; cbn [document_types In]; [tauto |].
  rewrite filter_In, IH. destruct (String.eqb_spec t t0) as [-> | Hne].
  - split; auto.
  - cbn. split.
    + intros [H | [H _]]; auto.
    + intros [H | H]; [left; exact H | right; split; [exact H | reflexivity]].
Qed.

Lemma document_types_nodup l : NoDup (document_types l).
Proof.
  induction l as [|t0 l IH]; cbn [document_types]; constructor.
  - rewrite filter_In. intros [_ H]. rewrite String.eqb_refl in H.
    discriminate.
  - apply NoDup_filter. exact IH.
Qed.

Lemma existsb_types t l :
  existsb (String.eqb t) (document_types l) = existsb (String.eqb t) l.
Proof.
  apply Bool.eq_true_iff_eq. rewrite !existsb_exists.
  split; intros (x & Hin & Hx); exists x; split; auto;
    apply document_types_in; exact Hin.
Qed.

Lemma existsb_in t l : existsb (String.eqb t) l = true <-> In t l.
Proof.
  rewrite existsb_exists. split.
  - intros (x & Hin & Hx). apply String.eqb_eq in Hx. subst. exact Hin.
  - intros Hin. exists t. split; [exact Hin | apply String.eqb_refl].
Qed.

Lemma document_types_snoc l t :
  document_types (l ++ [t])
  = (document_types l ++ (if existsb (String.eqb t) l then [] else [t]))%list.
Proof.
  induction l as [|t0 l IH]; cbn [document_types app existsb filter];
    [reflexivity |].
  rewrite IH, filter_app. f_equal. f_equal.
  destruct (String.eqb_spec t t0) as [-> | Hne].
  - cbn [orb]. destruct (existsb (String.eqb t0) l); cbn [filter];
      [reflexivity | rewrite String.eqb_refl; reflexivity].
  - cbn [orb]. destruct (existsb (String.eqb t) l); cbn [filter];
      [reflexivity |].
    destruct (String.eqb_spec t t0); [contradiction | reflexivity].
Qed.

Lemma structures_of_snoc t (pre : list (string * list X)) t' ss :
  structures_of t (pre ++ [(t', ss)])
  = (structures_of t pre ++ (if String.eqb t' t then ss else []))%list.
Proof.
  unfold structures_of. rewrite flat_map_app. cbn. rewrite app_nil_r.
  reflexivity.
Qed.

Lemma structures_of_absent t (docs : list (string * list X)) :
  existsb (String.eqb t) (map fst docs) = false -> structures_of t docs = [].
Proof.
  unfold structures_of.
  induction docs as [|[t0 ss] docs IH]; cbn; [reflexivity |].
  rewrite (String.eqb_sym t t0).
  destruct (String.eqb t0 t); cbn; [discriminate |]. exact IH.
Qed.

Lemma grouped_keys (docs : list (string * list X)) :
  map fst (grouped docs) = document_types (map fst docs).
Proof. unfold grouped. rewrite map_map. cbn. apply map_id. Qed.

(** Adding a document to the documents by type is grouping one more
    document. *)
Lemma add_document_grouped (pre : list (string * list X)) t ss :
  add_document (grouped pre) t ss = grouped (pre ++ [(t, ss)]).
Proof.
  unfold add_document. rewrite grouped_keys, existsb_types.
  assert (Hg : grouped (pre ++ [(t, ss)])
               = map (fun t0 => (t0, structures_of t0 (pre ++ [(t, ss)])))
                     (document_types (map fst pre)
                      ++ (if existsb (String.eqb t) (map fst pre)
                          then [] else [t]))%list).
  { unfold grouped. rewrite map_app. cbn [map fst].
    rewrite document_types_snoc. reflexivity. }
  rewrite Hg. clear Hg.
  destruct (existsb (String.eqb t) (map fst pre)) eqn:E.
  - rewrite app_nil_r. unfold grouped. rewrite map_map. apply map_ext.
    intros t0. cbn [fst snd]. rewrite structures_of_snoc.
    rewrite (String.eqb_sym t t0).
    destruct (String.eqb t0 t); [reflexivity | rewrite app_nil_r; reflexivity].
  - rewrite map_app. cbn [map]. rewrite structures_of_snoc.
    rewrite String.eqb_refl. rewrite (structures_of_absent _ _ E).
    cbn [app]. f_equal. unfold grouped. apply map_ext_in.
    intros t0 Hin. rewrite structures_of_snoc.
    destruct (String.eqb_spec t t0) as [-> | Hne];
      [| rewrite app_nil_r; reflexivity].
    apply (proj1 (document_types_in _ _)) in Hin.
    apply (proj2 (existsb_in _ _)) in Hin. congruence.
Qed.

End GroupingFacts.

Lemma grouped_map (X Y : Type) (f : X -> Y) (docs : list (string * list X)) :
  grouped (map (fun d => (fst d, map f (snd d))) docs)
  = map (fun a => (fst a, map f (snd a))) (grouped docs).
Proof.
  unfold grouped. rewrite !map_map. cbn [fst snd].
  apply map_ext. intros t. f_equal. unfold structures_of.
  induction docs as [|[t0 ss] docs IH]; cbn; [reflexivity |].
  rewrite map_app, IH. destruct (String.eqb t0 t); reflexivity.
Qed.

Section GroupingStore.
Import Store.

Lemma view_document_inv h document tdoc structs :
  view_document h document = Some (tdoc, structs) ->
  exists ditems es vs,
    dict_at h document = Some ditems
    /\ match lookup (VStr "document_type") ditems with
       | Some v => v
       | None => VStr "unknown"
       end = VStr tdoc
    /\ match lookup (VStr "entities") ditems with
       | Some e => list_at h e = Some es
       | None => es = []
       end
    /\ all_some (map (view_entity h) es) = Some vs
    /\ structs = present vs.
Proof.
  unfold view_document.
  destruct (dict_at h document) as [ditems |] eqn:Ed; [| discriminate].
  intros Hv. exists ditems.
  destruct (lookup (VStr "document_type") ditems) as [ty |] eqn:Ety;
    [destruct ty; try discriminate |];
    (destruct (lookup (VStr "entities") ditems) as [e |] eqn:Ee;
     [ destruct (list_at h e) as [es |] eqn:Ees; [| discriminate];
       destruct (all_some (map (view_entity h) es)) as [vs |] eqn:Evs;
       [| discriminate];
       inversion Hv; subst; exists es, vs; auto
     | cbn in Hv; inversion Hv; subst; exists [], []; auto ]).
Qed.

(** [process_document] up to its loop: the default list of entities is
    made, and the list of a type that is not yet a key. *)
Lemma process_document_unfold info h document ditems tdoc items :
  dict_at h document = Some ditems ->
  match lookup (VStr "document_type") ditems with
  | Some v => v
  | None => VStr "unknown"
  end = VStr tdoc ->
  nth_error h info = Some (ODict items) ->
  process_document info document h
  = bind (iterate (match lookup (VStr "entities") ditems with
                   | Some v => v
                   | None => VRef (List.length h)
                   end))
         (fun es => for_each es (process_entity info (VStr tdoc)))
         (if has_key tdoc items then (h ++ [OList []])%list
          else update info
                      (ODict (items ++ [(VStr tdoc,
                                         VRef (S (List.length h)))]))
                      ((h ++ [OList []]) ++ [OList []])%list).
Proof.
  intros Ed Hty Hinfo. unfold process_document. unfold bind at 1.
  rewrite (@run_method_get h document "document_type" (VStr "unknown")
             ditems Ed).
  rewrite Hty. unfold bind at 1. cbn [alloc]. unfold bind at 1.
  rewrite (@run_method_get (h ++ [OList []])%list document "entities"
             (VRef (List.length h)) ditems).
  2:{ eapply dict_at_intact; [| exact Ed].
      intros l o Hl. apply nth_error_app_some. exact Hl. }
  unfold bind at 1.
  rewrite (@run_dict_contains (h ++ [OList []])%list info tdoc items)
    by (apply nth_error_app_some; exact Hinfo).
  destruct (has_key tdoc items) eqn:Ek; cbn [negb].
  - unfold bind at 1. reflexivity.
  - unfold bind at 1. unfold bind at 1. cbn [alloc].
    rewrite (@run_dict_setitem ((h ++ [OList []]) ++ [OList []])%list info
               tdoc (VRef (List.length (h ++ [OList []])%list)) items)
      by (do 2 apply nth_error_app_some; exact Hinfo).
    unfold has_key in Ek.
    destruct (lookup (VStr tdoc) items) eqn:El; [discriminate |].
    rewrite set_item_absent by exact El.
    replace (List.length (h ++ [OList []])%list) with (S (List.length h))
      by (rewrite length_app; cbn; lia).
    reflexivity.
Qed.

Lemma rep_keys info h items A :
  Forall2 (entry_rep info h) items A ->
  map fst items = map VStr (map fst A).
Proof.
  intros H. induction H as [|kv a items A (Hk & _) _ IH]; cbn;
    [reflexivity |].
  rewrite Hk, IH. reflexivity.
Qed.

Lemma has_key_rep info h items A t :
  Forall2 (entry_rep info h) items A ->
  has_key t items = existsb (String.eqb t) (map fst A).
Proof.
  intros H. unfold has_key.
  induction H as [|[k v] a items A (Hk & _) _ IH]; cbn; [reflexivity |].
  cbn in Hk. subst k. cbn. destruct (String.eqb t (fst a)); [reflexivity |].
  exact IH.
Qed.

Lemma entry_of_key info h items A t :
  Forall2 (entry_rep info h) items A ->
  has_key t items = true ->
  exists lk cs,
    lookup (VStr t) items = Some (VRef lk) /\ lk <> info
    /\ nth_error h lk = Some (OList (map VRef cs)).
Proof.
  intros H. unfold has_key.
  induction H as [|[k v] a items A (Hk & l & cs & Hv & Hne & Hl & _) _ IH];
    cbn; [discriminate |].
  cbn in Hk, Hv. subst k v. cbn.
  destruct (String.eqb t (fst a)); [| exact IH].
  intros _. exists l, cs. auto.
Qed.

Lemma lookup_in_key info h items A t v :
  Forall2 (entry_rep info h) items A ->
  lookup (VStr t) items = Some v -> In (VStr t, v) items.
Proof.
  intros H.
  induction H as [|[k v'] a items A (Hk & _) _ IH]; cbn; [discriminate |].
  cbn in Hk. subst k. cbn.
  destruct (String.eqb_spec t (fst a)) as [-> | Hne].
  - intros E. inversion E; subst. left. reflexivity.
  - intros E. right. exact (IH E).
Qed.

Lemma lookup_unique info h items A t v :
  Forall2 (entry_rep info h) items A ->
  NoDup (map fst A) ->
  In (VStr t, v) items -> lookup (VStr t) items = Some v.
Proof.
  intros H.
  induction H as [|[k v'] a items A (Hk & _) Hall IH]; intros Hnd Hin;
    [destruct Hin |].
  cbn in Hk. subst k. cbn in Hnd. inversion Hnd as [| x xs Hnotin Hnd']; subst.
  cbn. destruct Hin as [Heq | Hin].
  - inversion Heq; subst. rewrite String.eqb_refl. reflexivity.
  - destruct (String.eqb_spec t (fst a)) as [-> | Hne]; [| exact (IH Hnd' Hin)].
    exfalso. apply Hnotin.
    assert (Hk : In (VStr (fst a)) (map fst items))
      by (exact (in_map fst _ _ Hin)).
    rewrite (rep_keys Hall) in Hk. apply in_map_iff in Hk.
    destruct Hk as (x & Hx & Hinx). inversion Hx; subst. exact Hinx.
Qed.

Lemma same_list_same_key (items : list (val * val)) k1 k2 v :
  NoDup (map snd items) -> In (k1, v) items -> In (k2, v) items -> k1 = k2.
Proof.
  induction items as [|[k v'] items IH]; intros Hnd H1 H2; [destruct H1 |].
  cbn in Hnd. inversion Hnd as [| x xs Hnotin Hnd']; subst.
  destruct H1 as [E1 | H1], H2 as [E2 | H2].
  - congruence.
  - inversion E1; subst. exfalso. apply Hnotin.
    exact (in_map snd _ _ H2).
  - inversion E2; subst. exfalso. apply Hnotin.
    exact (in_map snd _ _ H1).
  - exact (IH Hnd' H1 H2).
Qed.

Lemma copies_at_lift info lk elems h h' cs ss :
  intact_but lk h h' -> nth_error h lk = Some (OList elems) ->
  copies_at info h cs ss -> copies_at info h' cs ss.
Proof.
  intros Hb Hlk H.
  induction H as [|c s cs ss [Hne Hc] _ IH]; constructor; auto.
  split; [exact Hne |]. apply Hb; [exact Hc | congruence].
Qed.

Lemma entry_rep_lift info lk elems h h' kv a :
  intact_but lk h h' -> nth_error h lk = Some (OList elems) ->
  snd kv <> VRef lk -> entry_rep info h kv a -> entry_rep info h' kv a.
Proof.
  intros Hb Hlk Hne (Hk & l & cs & Hv & Hni & Hl & Hcs).
  split; [exact Hk |]. exists l, cs. repeat split; auto.
  - apply Hb; [exact Hl | congruence].
  - eapply copies_at_lift; eauto.
Qed.

Lemma entry_rep_allocated info h items A kv :
  Forall2 (entry_rep info h) items A -> In kv items ->
  exists l, snd kv = VRef l /\ (l < List.length h)%nat.
Proof.
  intros H.
  induction H as [|kv' a items A (_ & l & cs & Hv & _ & Hl & _) _ IH];
    intros Hin; [destruct Hin |].
  destruct Hin as [<- | Hin]; [| exact (IH Hin)].
  exists l. split; [exact Hv |]. apply nth_error_Some. congruence.
Qed.

Lemma Forall2_update (K V : Type) (R R' : K -> V -> Prop) (upd : V -> V)
      xs ys :
  Forall2 R xs ys ->
  (forall x y, In x xs -> R x y -> R' x (upd y)) ->
  Forall2 R' xs (map upd ys).
Proof.
  intros H. induction H as [|x y xs ys Hxy _ IH]; intros Hupd; cbn;
    constructor.
  - apply Hupd; [left; reflexivity | exact Hxy].
  - apply IH. intros x' y' Hin. apply Hupd. right. exact Hin.
Qed.

Lemma for_each_app_run (A : Type) (xs ys : list A) (body : A -> H unit) :
  forall h h',
    for_each xs body h = (Ret tt, h') ->
    for_each (xs ++ ys) body h = for_each ys body h'.
Proof.
  induction xs as [|x xs IH]; intros h h' Hrun; cbn [for_each app] in *.
  - inversion Hrun; subst. reflexivity.
  - unfold bind in *. destruct (body x h) as [[[] | e | y] h1];
      try discriminate.
    exact (IH _ _ Hrun).
Qed.

Variable h0 : heap.
Variable info : loc.
Hypothesis info_fresh : nth_error h0 info = None.

(** One document, whatever its type: a type that is already a key gets
    the cleaned copies at the end of its list, a new type gets a new
    list. *)
Lemma run_process_document_grouped h document tdoc structs A :
  view_document h0 document = Some (tdoc, structs) ->
  intact h0 h ->
  grouped_rep h0 info h A ->
  NoDup (map fst A) ->
  exists h',
    process_document info document h = (Ret tt, h')
    /\ intact h0 h'
    /\ grouped_rep h0 info h' (add_document A tdoc (map cleaned structs)).
Proof.
  intros Hview Hi (items & Hinfo & Hall & Hnd & Hfresh) HndA.
  destruct (view_document_inv _ _ Hview)
    as (ditems & es & vs & Ed & Hty & Hes & Hvs & ->).
  pose proof (intact_length info info_fresh Hi) as Hlen.
  assert (Hinfo_lt : (info < List.length h)%nat)
    by (apply nth_error_Some; congruence).
  rewrite (@process_document_unfold info h document ditems tdoc items
             (dict_at_intact _ Hi Ed) Hty Hinfo).
  unfold add_document. rewrite <- (has_key_rep tdoc Hall).
  destruct (has_key tdoc items) eqn:Ek.
  - (* the type is a key *)
    destruct (entry_of_key _ Hall Ek) as (lk & cs0 & Hlook & Hlkne & Hlk).
    pose proof (lookup_in_key _ Hall Hlook) as Hitem.
    set (h1 := (h ++ [OList []])%list).
    assert (Hi1 : intact h0 h1).
    { intros l o Hl. apply nth_error_app_some. apply Hi. exact Hl. }
    assert (Hents :
      list_at h1 (match lookup (VStr "entities") ditems with
                  | Some v => v
                  | None => VRef (List.length h)
                  end) = Some es).
    { destruct (lookup (VStr "entities") ditems) as [e |].
      - eapply list_at_intact; eauto.
      - subst es. cbn. unfold h1. rewrite nth_error_last. reflexivity. }
    unfold bind at 1. rewrite (run_iterate _ _ Hents).
    assert (F1 : nth_error h0 lk = None).
    { rewrite Forall_forall in Hfresh. exact (Hfresh _ Hitem lk eq_refl). }
    destruct (@run_entity_loop h0 info tdoc lk items F1 Hlkne Hlook es vs h1
                (map VRef cs0) Hvs Hi1)
      as (h' & cs & Hrun & Hb' & Hlk' & Hcs).
    { apply nth_error_app_some. exact Hinfo. }
    { apply nth_error_app_some. exact Hlk. }
    assert (Hb : intact_but lk h h').
    { eapply intact_but_trans; [apply intact_but_app | exact Hb']. }
    exists h'. split; [exact Hrun |].
    split; [eapply intact_step; eauto |].
    exists items. split; [| split; [| split; assumption]].
    + apply Hb; [exact Hinfo | congruence].
    + eapply Forall2_update; [exact Hall |].
      intros [k v] a Hin Hrep.
      destruct (String.eqb_spec (fst a) tdoc) as [Heq | Hneq].
      * destruct Hrep as (Hk & l & cs1 & Hv & Hni & Hl & Hcs1).
        cbn [fst snd] in Hk, Hv. subst k v.
        rewrite Heq in Hin.
        rewrite (lookup_unique _ _ Hall HndA Hin) in Hlook.
        inversion Hlook; subst l.
        split; [reflexivity |]. exists lk, (cs1 ++ cs)%list.
        cbn [fst snd]. repeat split; auto.
        -- rewrite Hlk'. rewrite map_app. congruence.
        -- apply Forall2_app; [| exact Hcs].
           eapply copies_at_lift; eauto.
      * eapply entry_rep_lift; eauto. cbn [snd]. intros Hv. subst v.
        destruct Hrep as (Hk & _). cbn [fst] in Hk.
        pose proof (same_list_same_key _ _ _ _ Hnd Hin Hitem) as Hsame.
        rewrite Hk in Hsame. inversion Hsame. contradiction.
  - (* a new type *)
    set (lk := S (List.length h)).
    set (items' := (items ++ [(VStr tdoc, VRef lk)])%list).
    set (h2 := ((h ++ [OList []]) ++ [OList []])%list).
    set (h3 := update info (ODict items') h2).
    assert (Habsent : lookup (VStr tdoc) items = None).
    { unfold has_key in Ek. destruct (lookup (VStr tdoc) items);
        [discriminate | reflexivity]. }
    assert (Hlen2 : List.length h2 = S (S (List.length h))).
    { unfold h2. rewrite !length_app. cbn. lia. }
    assert (Hb3 : intact_but info h h3).
    { intros l o Hl Hne. unfold h3.
      rewrite nth_error_update_other by congruence.
      unfold h2. do 2 apply nth_error_app_some. exact Hl. }
    assert (Hi3 : intact h0 h3) by (eapply intact_step; eauto).
    assert (Hents :
      list_at h3 (match lookup (VStr "entities") ditems with
                  | Some v => v
                  | None => VRef (List.length h)
                  end) = Some es).
    { destruct (lookup (VStr "entities") ditems) as [e |].
      - eapply list_at_intact; eauto.
      - subst es. cbn. unfold h3. rewrite nth_error_update_other by lia.
        unfold h2. rewrite <- app_assoc. rewrite nth_error_app2 by lia.
        rewrite Nat.sub_diag. reflexivity. }
    unfold bind at 1. rewrite (run_iterate _ _ Hents).
    assert (Hinfo3 : nth_error h3 info = Some (ODict items')).
    { unfold h3. apply nth_error_update_same. lia. }
    assert (Hlk3 : nth_error h3 lk = Some (OList [])).
    { unfold h3. rewrite nth_error_update_other by (unfold lk; lia).
      unfold h2.
      replace lk with (List.length (h ++ [OList []])%list)
        by (unfold lk; rewrite length_app; cbn; lia).
      apply nth_error_last. }
    assert (F1 : nth_error h0 lk = None)
      by (apply nth_error_None; unfold lk; lia).
    assert (F2 : lk <> info) by (unfold lk; lia).
    assert (F3 : lookup (VStr tdoc) items' = Some (VRef lk)).
    { unfold items'. apply lookup_app_absent; [exact Habsent |].
      cbn. apply String.eqb_refl. }
    destruct (@run_entity_loop h0 info tdoc lk items' F1 F2 F3 es vs h3 []
                Hvs Hi3 Hinfo3 Hlk3)
      as (h' & cs & Hrun & Hb' & Hlk' & Hcs).
    assert (Hbh : intact_but info h h').
    { intros l o Hl Hne. apply Hb'; [apply Hb3; assumption |].
      assert (l < List.length h)%nat by (apply nth_error_Some; congruence).
      unfold lk. lia. }
    exists h'. split; [exact Hrun |].
    split; [eapply intact_step; eauto |].
    exists items'. split; [| split; [| split]].
    + apply Hb'; [exact Hinfo3 | unfold lk; lia].
    + unfold items'. apply Forall2_app.
      * eapply Forall2_impl; [| exact Hall].
        intros kv a. apply entry_rep_intact. exact Hbh.
      * constructor; [| constructor]. split; [reflexivity |].
        exists lk, cs. cbn [snd]. repeat split; auto.
    + unfold items'. rewrite map_app. cbn [map snd].
      apply NoDup_app; [exact Hnd | repeat constructor; intros [] |].
      intros v Hin [Hv | []]. subst v. apply in_map_iff in Hin.
      destruct Hin as (kv & Hkv & Hin).
      destruct (entry_rep_allocated _ Hall Hin) as (l & Hl & Hlt).
      rewrite Hkv in Hl. inversion Hl. unfold lk in *. lia.
    + unfold items'. apply Forall_app. split; [exact Hfresh |].
      constructor; [| constructor]. cbn [snd]. intros l Hl.
      inversion Hl; subst. exact F1.
Qed.

(** The loop over the documents, after the documents [pre]. *)
Lemma run_document_loop_grouped ds :
  forall docs pre h,
    all_some (map (view_document h0) ds) = Some docs ->
    intact h0 h ->
    grouped_rep h0 info h (grouped (cleaned_documents pre)) ->
    exists h',
      for_each ds (process_document info) h = (Ret tt, h')
      /\ intact h0 h'
      /\ grouped_rep h0 info h'
                     (grouped (cleaned_documents (pre ++ docs))).
Proof.
  induction ds as [|d ds IH]; intros docs pre h Hdocs Hi Hrep.
  - cbn in Hdocs. inversion Hdocs; subst. exists h. cbn.
    rewrite app_nil_r. auto.
  - cbn [map all_some] in Hdocs.
    destruct (view_document h0 d) as [[tdoc structs] |] eqn:Ed;
      [| discriminate].
    destruct (all_some (map (view_document h0) ds)) as [docs' |] eqn:Eds;
      [| discriminate].
    inversion Hdocs; subst.
    destruct (@run_process_document_grouped h d tdoc structs _ Ed Hi Hrep)
      as (h1 & Hrun1 & Hi1 & Hrep1).
    { rewrite grouped_keys. apply document_types_nodup. }
    rewrite add_document_grouped in Hrep1.
    destruct (IH docs' (pre ++ [(tdoc, structs)])%list h1 eq_refl Hi1)
      as (h' & Hrun & Hi' & Hrep').
    { unfold cleaned_documents. rewrite map_app. exact Hrep1. }
    exists h'. split; [| split; [exact Hi' |]].
    + cbn [for_each]. unfold bind at 1. rewrite Hrun1. exact Hrun.
    + rewrite <- app_assoc in Hrep'. exact Hrep'.
Qed.

End GroupingStore.

(** X19.  Documents that share a type are gathered under one key: for
    any payload with documents, [extract_document_entities] returns a new
    dict with each document type once, in the order of the first document
    of the type, mapped to the cleaned structures of all the documents of
    that type, in the order of the documents.  No document is dropped or
    overwritten. *)
Theorem extract_document_entities_groups_by_type :
  forall (h : Store.heap) (record_result : Store.val)
         (docs : list (string * list (list (Store.val * Store.val)))),
    Store.view_record h record_result = Some docs ->
    exists h',
      Store.extract_document_entities record_result h
      = (Ret (Store.VRef (List.length h)), h')
      /\ Store.read_result h' (Store.VRef (List.length h))
         = Some (map (fun t =>
                        (Store.VStr t,
                         map Store.cleaned (structures_of t docs)))
                     (document_types (map fst docs))).
Proof.
  intros h record_result docs Hview.
  unfold Store.view_record in Hview.
  destruct (Store.dict_at h record_result) as [ritems |] eqn:Er;
    [| discriminate].
  destruct (Store.lookup (Store.VStr "documents") ritems) as [d |] eqn:Ed;
    [| discriminate].
  destruct (Store.list_at h d) as [ds |] eqn:Eds; [| discriminate].
  set (info := List.length h).
  set (h1 := (h ++ [Store.ODict []])%list).
  assert (Hi : Store.intact h h1).
  { intros l o Hl. apply nth_error_app_some. exact Hl. }
  assert (Hfresh : nth_error h info = None)
    by (apply nth_error_None; unfold info; lia).
  assert (Hrep : grouped_rep h info h1 (grouped (cleaned_documents []))).
  { exists []. split; [apply nth_error_last |].
    split; [constructor |]. split; constructor. }
  destruct (@run_document_loop_grouped h info Hfresh ds docs [] h1 Hview Hi
              Hrep)
    as (h' & Hrun & Hi' & items & Hinfo & Hall & _).
  exists h'. split.
  - unfold Store.extract_document_entities. unfold Store.bind at 1.
    cbn [Store.alloc_loc]. fold h1. fold info.
    unfold Store.bind at 1.
    rewrite (@run_truthy_dict h1 record_result ritems
               (dict_at_intact _ Hi Er)).
    destruct ritems as [|ri ritems']; [discriminate |].
    unfold Store.bind at 1.
    rewrite (@run_contains_str h1 record_result "documents" (ri :: ritems')
               (dict_at_intact _ Hi Er)).
    unfold Store.has_key. rewrite Ed. cbn [negb orb].
    unfold Store.bind at 1.
    rewrite (@run_getitem_str h1 record_result "documents" (ri :: ritems') d
               (dict_at_intact _ Hi Er) Ed).
    unfold Store.bind at 1.
    rewrite (@run_iterate h1 d ds (list_at_intact _ Hi Eds)).
    unfold Store.bind at 1. rewrite Hrun. reflexivity.
  - assert (Hres : Store.result_rep info h'
                     (grouped (cleaned_documents ([] ++ docs))))
      by (exists items; auto).
    rewrite (read_result_rep Hres). cbn [app]. unfold cleaned_documents.
    rewrite grouped_map. unfold grouped. rewrite !map_map. reflexivity.
Qed.

(** X20.  A null where the code expects a list is an error, not an absent
    key: for a record whose [documents] is [None], and for a record with a
    document whose [entities] is [None] (the documents before it being well
    formed), [extract_document_entities] raises the [TypeError] of
    iterating [None].  The defaults of [.get] apply to a missing key
    only. *)
Theorem extract_document_entities_raises_on_null :
  (forall (h : Store.heap) (record_result : Store.val)
          (items : list (Store.val * Store.val)),
      Store.dict_at h record_result = Some items ->
      Store.lookup (Store.VStr "documents") items = Some Store.VNone ->
      Store.extract_document_entities record_result h
      = (Raise (Exn TypeError "'NoneType' object is not iterable"),
         (h ++ [Store.ODict []])%list))
  /\ (forall (h : Store.heap) (record_result documents document : Store.val)
             (items ditems : list (Store.val * Store.val))
             (before after : list Store.val)
             (docs : list (string * list (list (Store.val * Store.val))))
             (doc_type : string),
         Store.dict_at h record_result = Some items ->
         Store.lookup (Store.VStr "documents") items = Some documents ->
         Store.list_at h documents = Some (before ++ document :: after)%list ->
         Store.all_some (map (Store.view_document h) before) = Some docs ->
         Store.dict_at h document = Some ditems ->
         match Store.lookup (Store.VStr "document_type") ditems with
         | Some v => v
         | None => Store.VStr "unknown"
         end = Store.VStr doc_type ->
         Store.lookup (Store.VStr "entities") ditems = Some Store.VNone ->
         fst (Store.extract_document_entities record_result h)
         = Raise (Exn TypeError "'NoneType' object is not iterable")).
Proof.
  split.
  - intros h record_result items Er Ed.
    assert (Hi : Store.intact h (h ++ [Store.ODict []])%list).
    { intros l o Hl. apply nth_error_app_some. exact Hl. }
    unfold Store.extract_document_entities. unfold Store.bind at 1.
    cbn [Store.alloc_loc]. unfold Store.bind at 1.
    rewrite (@run_truthy_dict _ record_result items (dict_at_intact _ Hi Er)).
    destruct items as [|ri items']; [discriminate |].
    unfold Store.bind at 1.
    rewrite (@run_contains_str _ record_result "documents" (ri :: items')
               (dict_at_intact _ Hi Er)).
    unfold Store.has_key. rewrite Ed. cbn [negb orb].
    unfold Store.bind at 1.
    rewrite (@run_getitem_str _ record_result "documents" (ri :: items')
               Store.VNone (dict_at_intact _ Hi Er) Ed).
    reflexivity.
  - intros h record_result documents document items ditems before after docs
           doc_type Er Ed Eds Hview Edoc Hty Hent.
    set (info := List.length h).
    set (h1 := (h ++ [Store.ODict []])%list).
    assert (Hi : Store.intact h h1).
    { intros l o Hl. apply nth_error_app_some. exact Hl. }
    assert (Hfresh : nth_error h info = None)
      by (apply nth_error_None; unfold info; lia).
    assert (Hrep : grouped_rep h info h1 (grouped (cleaned_documents []))).
    { exists []. split; [apply nth_error_last |].
      split; [constructor |]. split; constructor. }
    destruct (@run_document_loop_grouped h info Hfresh before docs [] h1
                Hview Hi Hrep)
      as (h' & Hrun & Hi' & info_items & Hinfo & _).
    unfold Store.extract_document_entities. unfold Store.bind at 1.
    cbn [Store.alloc_loc]. fold h1. fold info.
    unfold Store.bind at 1.
    rewrite (@run_truthy_dict h1 record_result items
               (dict_at_intact _ Hi Er)).
    destruct items as [|ri items']; [discriminate |].
    unfold Store.bind at 1.
    rewrite (@run_contains_str h1 record_result "documents" (ri :: items')
               (dict_at_intact _ Hi Er)).
    unfold Store.has_key. rewrite Ed. cbn [negb orb].
    unfold Store.bind at 1.
    rewrite (@run_getitem_str h1 record_result "documents" (ri :: items')
               documents (dict_at_intact _ Hi Er) Ed).
    unfold Store.bind at 1.
    rewrite (@run_iterate h1 documents _ (list_at_intact _ Hi Eds)).
    unfold Store.bind at 1.
    rewrite (for_each_app_run before (document :: after)
                              (Store.process_document info) h1 Hrun).
    cbn [Store.for_each]. unfold Store.bind at 1.
    rewrite (@process_document_unfold info h' document ditems doc_type
               info_items (dict_at_intact _ Hi' Edoc) Hty Hinfo).
    rewrite Hent. destruct (Store.has_key doc_type info_items); reflexivity.
Qed.

(* ================================================================== *)
(** * Concrete runs *)

Lemma scripted_laws fs create upload details status verify job :
  ClockLaws (scripted fs create upload details status verify job).
Proof. constructor; intros; cbn; lia. Qed.

(** A run that creates a job: auto-processing is on and the one
    verification passed. *)
Lemma job_created_run :
  In (EvCreateJob (JStr "rec-1") (Reply (JDict [("job_id", JStr "job-1")])))
     (trace (process_documents processing_env 5 one_document "dictaminacion"
                               true 300 true 5 180 0))
  /\ is_create_job
       (EvCreateJob (JStr "rec-1") (Reply (JDict [("job_id", JStr "job-1")])))
     = true
  /\ (true = true
      /\ Forall verify_ok
                (trace (process_documents processing_env 5 one_document
                                          "dictaminacion" true 300 true 5 180 0))).
Proof.
  assert (Hin : In (EvCreateJob (JStr "rec-1")
                                (Reply (JDict [("job_id", JStr "job-1")])))
                   (trace (process_documents processing_env 5 one_document
                                             "dictaminacion" true 300 true 5
                                             180 0))).
  { vm_compute. do 8 right. left. reflexivity. }
  split; [exact Hin | split; [reflexivity |]].
  exact (@job_created_only_when_enabled_and_verified
           Z processing_env 5%nat one_document "dictaminacion" true 300 true 5
           180 0 _ Hin eq_refl).
Defined.

(** A run in which the wait for embedding gives up. *)
Lemma embedding_timeout_run :
  validate_documents slow_env both_documents 0
  = (Ret [("acta", "docs/acta.pdf"); ("poder", "docs/poder.PDF")], 0, [])
  /\ dict_is_empty [("acta", "docs/acta.pdf"); ("poder", "docs/poder.PDF")]
     = false
  /\ _create_and_upload slow_env
                        [("acta", "docs/acta.pdf"); ("poder", "docs/poder.PDF")]
                        "dictaminacion" 0
     = (Ret (Some (JStr "rec-1", two_documents)), 0,
        trace (_create_and_upload slow_env
                 [("acta", "docs/acta.pdf"); ("poder", "docs/poder.PDF")]
                 "dictaminacion" 0))
  /\ _wait_for_embedding slow_env 5 two_documents 5 10 0
     = (Ret false, 10, trace (_wait_for_embedding slow_env 5 two_documents 5 10 0))
  /\ http_get_record_details slow_env (JStr "rec-1") 10
     = (Reply (JDict [("status", JStr "waiting");
                      ("documents",
                       JList [JDict [("document_type", JStr "acta");
                                     ("document_id", JStr "doc-a")];
                              JDict [("document_type", JStr "poder");
                                     ("document_id", JStr "doc-b")]])]), 10)
  /\ Forall quiet
            (trace (process_documents slow_env 5 both_documents "dictaminacion"
                                      true 300 true 5 10 0))
  /\ outcome (process_documents slow_env 5 both_documents "dictaminacion" true
                                300 true 5 10 0)
     = Ret (JDict [("status", JStr "waiting");
                   ("documents",
                    JList [JDict [("document_type", JStr "acta");
                                  ("document_id", JStr "doc-a")];
                           JDict [("document_type", JStr "poder");
                                  ("document_id", JStr "doc-b")]])]).
Proof.
  assert (H1 : validate_documents slow_env both_documents 0
               = (Ret [("acta", "docs/acta.pdf"); ("poder", "docs/poder.PDF")],
                  0, [])) by reflexivity.
  assert (H2 : dict_is_empty
                 [("acta", "docs/acta.pdf"); ("poder", "docs/poder.PDF")]
               = false) by reflexivity.
  assert (H3 : _create_and_upload slow_env
                 [("acta", "docs/acta.pdf"); ("poder", "docs/poder.PDF")]
                 "dictaminacion" 0
               = (Ret (Some (JStr "rec-1", two_documents)), 0,
                  trace (_create_and_upload slow_env
                           [("acta", "docs/acta.pdf"); ("poder", "docs/poder.PDF")]
                           "dictaminacion" 0))) by (vm_compute; reflexivity).
  assert (H4 : _wait_for_embedding slow_env 5 two_documents 5 10 0
               = (Ret false, 10,
                  trace (_wait_for_embedding slow_env 5 two_documents 5 10 0)))
    by (vm_compute; reflexivity).
  assert (H5 : http_get_record_details slow_env (JStr "rec-1") 10
               = (Reply (JDict [("status", JStr "waiting");
                                ("documents",
                                 JList [JDict [("document_type", JStr "acta");
                                               ("document_id", JStr "doc-a")];
                                        JDict [("document_type", JStr "poder");
                                               ("document_id", JStr "doc-b")]])]),
                  10)) by reflexivity.
  pose proof (@embedding_timeout_skips_verification_and_job
                Z slow_env 5%nat both_documents "dictaminacion" true 300 true
                5 10 0 0 0 10 _ _ _ _ _ _ H1 H2 H3 H4) as (Hquiet & Hsnap & _).
  repeat (split; [assumption |]).
  rewrite (Hsnap _ _ H5). reflexivity.
Defined.

(** C3, counterexample.  Document [doc-b] is never embedded, so the wait
    for embedding exhausts its timeout of 10; the fetch of the record that
    follows is answered with HTTP 500.  No snapshot is returned: the run
    ends with [None]. *)
Lemma embedding_timeout_then_failed_fetch :
  _wait_for_embedding fading_env 5 two_documents 5 10 0
  = (Ret false, 10,
     [EvTime 0; EvTime 0;
      EvStatus (JStr "doc-a") (Reply (JDict [("status", JStr "complete")]));
      EvStatus (JStr "doc-b") (Reply (JDict [("status", JStr "pending")]));
      EvSleep 5; EvTime 5;
      EvStatus (JStr "doc-a") (Reply (JDict [("status", JStr "complete")]));
      EvStatus (JStr "doc-b") (Reply (JDict [("status", JStr "pending")]));
      EvSleep 5; EvTime 10])
  /\ outcome (process_documents fading_env 5 both_documents "dictaminacion"
                                true 300 true 5 10 0)
     = Ret JNull
  /\ last (trace (process_documents fading_env 5 both_documents
                                    "dictaminacion" true 300 true 5 10 0))
          (EvTime 0)
     = EvGetRecord (JStr "rec-1")
         (Fault (Exn NebuiaApiError
                     "API Error (500): Request failed: Internal Server Error"))
  /\ Forall quiet
            (trace (process_documents fading_env 5 both_documents
                                      "dictaminacion" true 300 true 5 10 0)).
Proof.
  split; [vm_compute; reflexivity |].
  split; [vm_compute; reflexivity |].
  split; [vm_compute; reflexivity |].
  vm_compute. repeat constructor.
Qed.







(** A mapping with a present PDF, a present image and a missing PDF. *)
Lemma validate_documents_run :
  NoDup (dict_keys [("acta", "./docs/acta.pdf"); ("foto", "docs/foto.png");
                    ("poder", "docs/poder.pdf")])
  /\ validate_documents small_fs_env
       [("acta", "./docs/acta.pdf"); ("foto", "docs/foto.png");
        ("poder", "docs/poder.pdf")] 0
     = (Ret [("acta", "docs/acta.pdf")], 0, []).
Proof.
  assert (H : NoDup (dict_keys [("acta", "./docs/acta.pdf");
                                ("foto", "docs/foto.png");
                                ("poder", "docs/poder.pdf")])).
  { repeat constructor; cbn; intuition discriminate. }
  split; [exact H |].
  exact (@validate_documents_keeps_existing_pdfs Z small_fs_env _ 0 H).
Defined.

(** C7, counterexample.  A file name of 256 characters: [os.stat] fails
    with ENAMETOOLONG, [exists()] lets the error through, and
    [validate_documents] raises it instead of leaving the entry out.  The
    entry is not a valid one. *)
Lemma validate_documents_raises_for_a_long_name :
  validate_documents long_name_env [("acta", long_name)] 0
  = (Raise (Exn OSError
                ("[Errno 36] File name too long: '" ++ long_name ++ "'")),
     0, [])
  /\ valid_entry long_name_env 0 ("acta", long_name) = false
  /\ String.length long_name = 256%nat.
Proof.
  split; [vm_compute; reflexivity |].
  split; vm_compute; reflexivity.
Qed.

(** The path "./docs/acta.pdf" exists and is a PDF, and the entry returned
    for it is spelled as [str(Path(p))] spells it: its value is
    "docs/acta.pdf". *)
Example validate_documents_respells_the_path :
  validate_documents small_fs_env [("acta", "./docs/acta.pdf")] 0
  = (Ret [("acta", "docs/acta.pdf")], 0, [])
  /\ valid_entry small_fs_env 0 ("acta", "./docs/acta.pdf") = true
  /\ ~ In ("acta", "docs/acta.pdf") [("acta", "./docs/acta.pdf")].
Proof.
  split; [reflexivity | split; [reflexivity |]].
  intros [H | []]. discriminate.
Qed.

(** A mapping in which no document has an id. *)
Lemma verify_all_documents_run :
  with_truthy_id [("acta", JNull); ("poder", JStr "")] = []
  /\ _verify_all_documents no_id_env (JStr "rec-1")
                           [("acta", JNull); ("poder", JStr "")] 0
     = (Ret ([], true), 0, []).
Proof.
  assert (H : with_truthy_id [("acta", JNull); ("poder", JStr "")] = [])
    by reflexivity.
  split; [exact H |].
  exact (proj2 (proj2 (proj2 (proj1 verify_all_documents_skips_falsy_ids
                                Z no_id_env (JStr "rec-1")
                                [("acta", JNull); ("poder", JStr "")] 0))) H).
Defined.

(** The sample record: what [response.json()] builds, and what the
    specification expects of the result. *)
Example load_sample_record :
  Store.load Store.sample_record [] = (Ret Store.sample_root, Store.sample_store).
Proof. reflexivity. Qed.

Example shaped_sample_view :
  Store.shaped Store.sample_view
  = [(Store.VStr "acta", [[(Store.VStr "value", Store.VInt 1)]]);
     (Store.VStr "poder", [])].
Proof. reflexivity. Qed.

(** The round trip of the specification: one document with one entity whose
    structure has [name_to_show] and [value], one document without
    entities. *)
Lemma extract_sample_record :
  Store.view_record Store.sample_store Store.sample_root
  = Some Store.sample_view
  /\ NoDup (map fst Store.sample_view)
  /\ exists h',
      Store.extract_document_entities Store.sample_root Store.sample_store
      = (Ret (Store.VRef (List.length Store.sample_store)), h')
      /\ Store.read_result h' (Store.VRef (List.length Store.sample_store))
         = Some (Store.shaped Store.sample_view).
Proof.
  assert (H1 : Store.view_record Store.sample_store Store.sample_root
               = Some Store.sample_view) by reflexivity.
  assert (H2 : NoDup (map fst Store.sample_view)).
  { repeat constructor; cbn; intuition discriminate. }
  split; [exact H1 | split; [exact H2 |]].
  exact (proj1 extract_document_entities_shapes_the_record
               Store.sample_store Store.sample_root Store.sample_view H1 H2).
Defined.

(** After the call on the sample record its view is the same: the
    structure still has its [name_to_show]. *)
Lemma extract_sample_record_keeps_the_record :
  Store.view_record Store.sample_store Store.sample_root
  = Some Store.sample_view
  /\ Store.view_record
       (snd (Store.extract_document_entities Store.sample_root
                                             Store.sample_store))
       Store.sample_root
     = Some Store.sample_view.
Proof.
  assert (H1 : Store.view_record Store.sample_store Store.sample_root
               = Some Store.sample_view) by reflexivity.
  split; [exact H1 |].
  exact (proj2 (proj2 (extract_document_entities_leaves_its_argument
                         Store.sample_store Store.sample_root))
               Store.sample_view H1).
Defined.

(** The polling scenarios of the specification, every second with a timeout
    of ten: pending, pending, complete returns the third snapshot after two
    sleeps; pending, error raises the processing error; pending for ever
    raises the timeout. *)
Example poll_pending_pending_complete :
  wait_for_record_completion
    (record_with_status (fun t => if t <? 2 then "pending" else "complete"))
    20 (JStr "rec-1") 10 1 None 0
  = (Ret (JDict [("status", JStr "complete");
                 ("error_message", JStr "bad scan")]),
     2,
     [EvTime 0;
      EvTime 0;
      EvGetRecord (JStr "rec-1")
        (Reply (JDict [("status", JStr "pending");
                       ("error_message", JStr "bad scan")]));
      EvTime 0; EvSleep 1;
      EvTime 1;
      EvGetRecord (JStr "rec-1")
        (Reply (JDict [("status", JStr "pending");
                       ("error_message", JStr "bad scan")]));
      EvTime 1; EvSleep 1;
      EvTime 2;
      EvGetRecord (JStr "rec-1")
        (Reply (JDict [("status", JStr "complete");
                       ("error_message", JStr "bad scan")]));
      EvTime 2]).
Proof. vm_compute. reflexivity. Qed.

Example poll_pending_error :
  outcome (wait_for_record_completion
             (record_with_status (fun t => if t <? 1 then "pending" else "error"))
             20 (JStr "rec-1") 10 1 None 0)
  = Raise (Exn NebuiaError "Record processing failed: bad scan").
Proof. vm_compute. reflexivity. Qed.

Example poll_pending_for_ever :
  outcome (wait_for_record_completion
             (record_with_status (fun _ => "pending"))
             20 (JStr "rec-1") 10 1 None 0)
  = Raise (Exn TimeoutError
               "Timeout exceeded for record rec-1 after <repr> seconds").
Proof. vm_compute. reflexivity. Qed.

(** With a polling interval of 10^10 seconds the wait ends at its first
    sleep, with the [OverflowError] of [time.sleep]. *)
Example poll_interval_beyond_sleep :
  wait_for_record_completion (record_with_status (fun _ => "pending"))
                             5 (JStr "rec-1") 300 10000000000 None 0
  = (Raise (Exn OverflowError "timestamp too large to convert to C _PyTime_t"),
     0,
     [EvTime 0; EvTime 0;
      EvGetRecord (JStr "rec-1")
                  (Reply (JDict [("status", JStr "pending");
                                 ("error_message", JStr "bad scan")]));
      EvTime 0]).
Proof. vm_compute. reflexivity. Qed.
(* ================================================================== *)
(** * More concrete runs *)

(** Validating the mapping of the example twice: the first call keeps the
    PDF that exists, and the second call returns what it is given. *)
Lemma validate_twice_run :
  NoDup (dict_keys both_documents)
  /\ outcome (validate_documents small_fs_env both_documents 0)
     = Ret [("acta", "docs/acta.pdf")]
  /\ [("acta", "docs/acta.pdf")]
     = map stored_entry (filter (valid_entry small_fs_env 0) both_documents)
  /\ validate_documents small_fs_env [("acta", "docs/acta.pdf")] 0
     = (Ret [("acta", "docs/acta.pdf")], 0, []).
Proof.
  assert (H : NoDup (dict_keys both_documents)).
  { repeat constructor; cbn; intuition discriminate. }
  assert (Hrun : outcome (validate_documents small_fs_env both_documents 0)
                 = Ret [("acta", "docs/acta.pdf")]) by reflexivity.
  split; [exact H |]. split; [exact Hrun |].
  exact (@validate_documents_is_idempotent
           Z small_fs_env both_documents _ 0 H Hrun).
Defined.

(** The validated PDF of the example is uploaded as it was validated when
    it can be opened; when it exists and cannot be read, [open] raises and
    no request is made. *)
Lemma upload_after_validation_run :
  NoDup (dict_keys both_documents)
  /\ In ("acta", "docs/acta.pdf") [("acta", "docs/acta.pdf")]
  /\ (outcome (validate_documents small_fs_env both_documents 0)
      = Ret [("acta", "docs/acta.pdf")]
      /\ exists_true small_fs_env 7 "docs/acta.pdf" = true
      /\ upload_document small_fs_env (JStr "rec-1") "docs/acta.pdf" "acta" 7
         = (Ret (JDict []), 7,
            [EvUpload (JStr "rec-1") "docs/acta.pdf" "acta"
                      (Reply (JDict []))]))
  /\ (outcome (validate_documents unreadable_env both_documents 0)
      = Ret [("acta", "docs/acta.pdf")]
      /\ exists_true unreadable_env 7 "docs/acta.pdf" = true
      /\ upload_document unreadable_env (JStr "rec-1") "docs/acta.pdf" "acta" 7
         = (Raise (Exn OSError "[Errno 13] Permission denied: 'docs/acta.pdf'"),
            7, [])).
Proof.
  assert (H : NoDup (dict_keys both_documents)).
  { repeat constructor; cbn; intuition discriminate. }
  assert (Hin : In ("acta", "docs/acta.pdf") [("acta", "docs/acta.pdf")])
    by (left; reflexivity).
  assert (Hrun : outcome (validate_documents small_fs_env both_documents 0)
                 = Ret [("acta", "docs/acta.pdf")]) by reflexivity.
  assert (Hfs : exists_true small_fs_env 7 "docs/acta.pdf" = true)
    by reflexivity.
  assert (Hrun' : outcome (validate_documents unreadable_env both_documents 0)
                  = Ret [("acta", "docs/acta.pdf")]) by reflexivity.
  assert (Hfs' : exists_true unreadable_env 7 "docs/acta.pdf" = true)
    by reflexivity.
  split; [exact H |]. split; [exact Hin |]. split.
  - split; [exact Hrun |]. split; [exact Hfs |].
    exact (@validated_documents_pass_the_upload_checks
             Z small_fs_env both_documents _ 0 7 (JStr "rec-1") "acta"
             "docs/acta.pdf" H Hrun Hin Hfs).
  - split; [exact Hrun' |]. split; [exact Hfs' |].
    exact (@validated_documents_pass_the_upload_checks
             Z unreadable_env both_documents _ 0 7 (JStr "rec-1") "acta"
             "docs/acta.pdf" H Hrun' Hin Hfs').
Defined.

(** Two documents, of which the second fails the verification: the flag is
    false, and so is the conjunction over the results. *)
Lemma verification_flag_run :
  NoDup (dict_keys two_documents)
  /\ outcome (_verify_all_documents mixed_env (JStr "rec-1") two_documents 0)
     = Ret ([("acta", JDict [("status", JBool true)]);
             ("poder",
              JDict [("status", JBool false);
                     ("points", JList [JStr "No es un poder notarial"]);
                     ("type_document_found", JStr "factura")])],
            false)
  /\ false
     = forallb (fun kv => result_passed (snd kv))
               [("acta", JDict [("status", JBool true)]);
                ("poder",
                 JDict [("status", JBool false);
                        ("points", JList [JStr "No es un poder notarial"]);
                        ("type_document_found", JStr "factura")])].
Proof.
  assert (H : NoDup (dict_keys two_documents)).
  { repeat constructor; cbn; intuition discriminate. }
  assert (Hrun :
    outcome (_verify_all_documents mixed_env (JStr "rec-1") two_documents 0)
    = Ret ([("acta", JDict [("status", JBool true)]);
            ("poder",
             JDict [("status", JBool false);
                    ("points", JList [JStr "No es un poder notarial"]);
                    ("type_document_found", JStr "factura")])],
           false)) by reflexivity.
  split; [exact H |]. split; [exact Hrun |].
  exact (@verification_flag_agrees_with_results
           Z mixed_env (JStr "rec-1") two_documents 0 _ _ H Hrun).
Defined.

(** One accepted upload is tracked; a record creation without an id ends
    the run before any upload. *)
Lemma create_and_upload_run :
  (outcome (_create_and_upload processing_env one_document "dictaminacion" 0)
   = Ret (Some (JStr "rec-1", [("acta", JStr "doc-a")]))
   /\ truthy (JStr "rec-1") = true
   /\ [("acta", JStr "doc-a")] <> []
   /\ forall doc_type,
       In doc_type (dict_keys [("acta", JStr "doc-a")]) ->
       exists file_path,
         In (doc_type, file_path) one_document
         /\ In (doc_type, Pathlib.str (Pathlib.parse file_path))
               (accepted_uploads
                  (trace (_create_and_upload processing_env one_document
                                             "dictaminacion" 0))))
  /\ (http_create_record no_record_env "dictaminacion" 0
      = (Reply (JDict [("message", JStr "quota exceeded")]), 0)
      /\ py_get (JDict [("message", JStr "quota exceeded")]) "id" JNull
         = Ret JNull
      /\ truthy JNull = false
      /\ _create_and_upload no_record_env one_document "dictaminacion" 0
         = (Ret None, 0,
            [EvCreateRecord "dictaminacion"
               (Reply (JDict [("message", JStr "quota exceeded")]))])).
Proof.
  split.
  - assert (Hrun :
      outcome (_create_and_upload processing_env one_document "dictaminacion" 0)
      = Ret (Some (JStr "rec-1", [("acta", JStr "doc-a")]))) by reflexivity.
    split; [exact Hrun |].
    exact (proj1 (@create_and_upload_tracks_accepted_uploads
                    Z processing_env one_document "dictaminacion" 0)
                 _ _ Hrun).
  - split; [reflexivity |]. split; [reflexivity |]. split; [reflexivity |].
    exact (proj2 (@create_and_upload_tracks_accepted_uploads
                    Z no_record_env one_document "dictaminacion" 0)
                 _ 0 JNull eq_refl eq_refl eq_refl).
Defined.

(** Without waiting, [_process_record] creates the job and fetches the
    record once; the record returned carries the verification results.
    When the service refuses the job, the caller who asked to wait still
    gets the record, with the results set, after the two calls. *)
Lemma process_record_two_calls_run :
  (exists record,
      outcome (_process_record processing_env 5 (JStr "rec-1")
                               [("acta", JDict [("status", JBool true)])]
                               false 300 0) = Ret record
      /\ py_get record "verification_results" JNull
         = Ret (JDict [("acta", JDict [("status", JBool true)])]))
  /\ false = false
  /\ (exists r r',
         trace (_process_record processing_env 5 (JStr "rec-1")
                                [("acta", JDict [("status", JBool true)])]
                                false 300 0)
         = [EvCreateJob (JStr "rec-1") r; EvGetRecord (JStr "rec-1") r'])
  /\ http_create_processing_job failing_job_env (JStr "rec-1") 0
     = (Fault (Exn NebuiaApiError "API Error (409): Request failed: Conflict"),
        0)
  /\ _process_record failing_job_env 5 (JStr "rec-1")
                     [("acta", JDict [("status", JBool true)])] true 300 0
     = (Ret (JDict [("status", JStr "waiting");
                    ("verification_results",
                     JDict [("acta", JDict [("status", JBool true)])])]),
        0,
        [EvCreateJob (JStr "rec-1")
           (Fault (Exn NebuiaApiError
                       "API Error (409): Request failed: Conflict"));
         EvGetRecord (JStr "rec-1")
                     (Reply (JDict [("status", JStr "waiting")]))]).
Proof.
  pose proof (@process_record_attaches_verification_results
                Z processing_env 5 (JStr "rec-1")
                [("acta", JDict [("status", JBool true)])] false 300 0)
    as (_ & Hret & Hnowait & _).
  assert (Hjob : http_create_processing_job failing_job_env (JStr "rec-1") 0
                 = (Fault (Exn NebuiaApiError
                               "API Error (409): Request failed: Conflict"),
                    0)) by reflexivity.
  split.
  - eexists. split; [reflexivity |]. apply Hret. reflexivity.
  - split; [reflexivity |]. split; [apply Hnowait; reflexivity |].
    split; [exact Hjob |].
    exact (proj2 (proj2 (proj2
             (@process_record_attaches_verification_results
                Z failing_job_env 5 (JStr "rec-1")
                [("acta", JDict [("status", JBool true)])] true 300 0)))
             _ _ Hjob).
Defined.

(** An image and a missing file: nothing is valid, nothing is sent. *)
Lemma no_valid_document_run :
  (forall kv,
      In kv [("foto", "docs/foto.png"); ("poder", "docs/poder.pdf")] ->
      valid_entry small_fs_env 0 kv = false)
  /\ process_documents small_fs_env 5
       [("foto", "docs/foto.png"); ("poder", "docs/poder.pdf")]
       "dictaminacion" true 300 true 5 180 0
     = (Ret JNull, 0, []).
Proof.
  assert (H : forall kv,
             In kv [("foto", "docs/foto.png"); ("poder", "docs/poder.pdf")] ->
             valid_entry small_fs_env 0 kv = false).
  { intros kv [<- | [<- | []]]; reflexivity. }
  split; [exact H |].
  exact (@process_documents_without_valid_documents
           Z small_fs_env 5 _ "dictaminacion" true 300 true 5 180 0 H).
Defined.

(** A whole run of the orchestrator: what it returns is the last snapshot
    fetched, with the verification results set. *)
Lemma latest_snapshot_run :
  exists result,
    outcome (process_documents processing_env 5 one_document "dictaminacion"
                               true 300 true 5 180 0) = Ret result
    /\ (result = JNull
        \/ exists snapshot,
            last_fetch (trace (process_documents processing_env 5 one_document
                                 "dictaminacion" true 300 true 5 180 0))
            = Some (Reply snapshot)
            /\ (result = snapshot
                \/ exists verification_results,
                    py_setitem snapshot "verification_results"
                               (JDict verification_results) = Ret result)).
Proof.
  eexists. split; [reflexivity |].
  apply (@process_documents_returns_the_latest_snapshot
           Z processing_env 5 one_document "dictaminacion" true 300 true 5 180 0).
  reflexivity.
Defined.

(** The second of three uploads is refused: the workflow fails with a
    [NebuiaError], and the third document is never sent. *)
Lemma refused_upload_run :
  observer_answers (W:=Z) None no_observer_answer
  /\ outcome (process_full_workflow refusing_env 5 "dictaminacion"
                                    three_documents 900 None 0)
     = Raise (Exn NebuiaError
                  "Workflow execution failed: API Error (413): Request failed: Payload Too Large")
  /\ trace (process_full_workflow refusing_env 5 "dictaminacion"
                                  three_documents 900 None 0)
     = [EvCreateRecord "dictaminacion" (Reply (JDict [("id", JStr "rec-1")]));
        EvUpload (JStr "rec-1") "docs/acta.pdf" "acta" (Reply (JDict []));
        EvUpload (JStr "rec-1") "docs/poder.pdf" "poder"
                 (Fault (Exn NebuiaApiError
                             "API Error (413): Request failed: Payload Too Large"))]
  /\ (exn_cls (Exn NebuiaError
                   "Workflow execution failed: API Error (413): Request failed: Payload Too Large")
      = NebuiaError
      /\ exists cause,
          exn_msg (Exn NebuiaError
                       "Workflow execution failed: API Error (413): Request failed: Payload Too Large")
          = "Workflow execution failed: " ++ cause)
  /\ stops_at_failed_upload
       (trace (process_full_workflow refusing_env 5 "dictaminacion"
                                     three_documents 900 None 0)).
Proof.
  assert (Hobs : observer_answers (W:=Z) None no_observer_answer).
  { intros status elapsed record_details w.
    split; [reflexivity | discriminate]. }
  pose proof (@process_full_workflow_fails_as_nebuia_error
                Z refusing_env 5 "dictaminacion" three_documents 900 None
                no_observer_answer 0 Hobs) as [Hraise Hstop].
  split; [exact Hobs |]. split; [reflexivity |]. split; [reflexivity |].
  split; [apply Hraise; reflexivity | exact Hstop].
Defined.

(** A workflow that succeeds after two turns of waiting. *)
Lemma complete_workflow_run :
  observer_answers (W:=Z) None no_observer_answer
  /\ exists record,
      outcome (process_full_workflow
                 (record_with_status
                    (fun t => if t <? 20 then "processing" else "complete"))
                 5 "dictaminacion" both_documents 900 None 0) = Ret record
      /\ is_complete record
      /\ accepted_uploads
           (trace (process_full_workflow
                     (record_with_status
                        (fun t => if t <? 20 then "processing" else "complete"))
                     5 "dictaminacion" both_documents 900 None 0))
         = map stored_entry both_documents
      /\ last_fetch
           (trace (process_full_workflow
                     (record_with_status
                        (fun t => if t <? 20 then "processing" else "complete"))
                     5 "dictaminacion" both_documents 900 None 0))
         = Some (Reply record).
Proof.
  assert (Hobs : observer_answers (W:=Z) None no_observer_answer).
  { intros status elapsed record_details w.
    split; [reflexivity | discriminate]. }
  split; [exact Hobs |]. eexists. split; [reflexivity |].
  apply (@process_full_workflow_returns_a_complete_record
           Z (record_with_status
                (fun t => if t <? 20 then "processing" else "complete"))
           5 "dictaminacion" both_documents 900 None no_observer_answer 0 _
           Hobs).
  reflexivity.
Defined.

(** Two document maps in sequence: two records, two complete results; the
    same maps with [concurrent=True]: nothing. *)
Lemma multiple_records_run :
  process_multiple_records
    (record_with_status (fun _ => "complete")) 5 "dictaminacion"
    [one_document; both_documents] true 5 0
  = (Ret [], 0, [])
  /\ exists results,
      outcome (process_multiple_records
                 (record_with_status (fun _ => "complete")) 5 "dictaminacion"
                 [one_document; both_documents] false 5 0) = Ret results
      /\ List.length results = 2%nat
      /\ Forall is_complete results
      /\ records_created
           (trace (process_multiple_records
                     (record_with_status (fun _ => "complete")) 5
                     "dictaminacion" [one_document; both_documents] false 5 0))
         = 2%nat.
Proof.
  pose proof (@process_multiple_records_runs_in_sequence_only
                Z (record_with_status (fun _ => "complete")) 5 "dictaminacion"
                [one_document; both_documents] 5 0) as [Hconc Hseq].
  split; [exact Hconc |]. eexists. split; [reflexivity |].
  apply Hseq. reflexivity.
Defined.

(* ================================================================== *)
(** * Concrete runs on the wire *)

(** The summary of a record: two requests, both with the credentials and
    both to the client API; the status of a document: one request, with the
    credentials, to the embeddings service. *)
Lemma credentials_run :
  Wire.__init__ "client-1" "key-1" "secret-1" 300 true = Ret Wire.sample_client
  /\ Forall (Wire.addressed Wire.sample_client true)
            (Wire.trace (Wire.perform Wire.sample_net Wire.sample_client
                                      (Wire.GetRecordSummary (JStr "rec-1"))
                                      0%nat))
  /\ Forall (Wire.addressed Wire.sample_client false)
            (Wire.trace (Wire.perform Wire.sample_net Wire.sample_client
                                      (Wire.GetDocumentStatus (JStr "doc-a"))
                                      0%nat))
  /\ (exists r,
         Wire.trace (Wire.perform Wire.sample_net Wire.sample_client
                                  (Wire.GetDocumentStatus (JStr "doc-a"))
                                  0%nat)
         = [Wire.Sent
              (Wire.MkRequest
                 Wire.GET
                 (Wire.embeddings_root
                    ++ Wire.fmt Wire.sample_net (JStr "doc-a") ++ "/status")
                 (Wire.headers Wire.sample_client) None Wire.NoPayload
                 (Wire.timeout Wire.sample_client)) r])
  /\ Wire.api_key Wire.sample_client = "key-1" /\ "key-1" <> ""
  /\ Wire.api_secret Wire.sample_client = "secret-1" /\ "secret-1" <> "".
Proof.
  assert (H : Wire.__init__ "client-1" "key-1" "secret-1" 300 true
              = Ret Wire.sample_client) by reflexivity.
  pose proof (@every_request_carries_the_credentials
                nat Wire.sample_net "client-1" "key-1" "secret-1" 300 true
                Wire.sample_client (Wire.GetRecordSummary (JStr "rec-1"))
                0%nat H) as (Hsummary & _ & Hkeys).
  pose proof (@every_request_carries_the_credentials
                nat Wire.sample_net "client-1" "key-1" "secret-1" 300 true
                Wire.sample_client (Wire.GetDocumentStatus (JStr "doc-a"))
                0%nat H) as (Hstatus & Hto & _).
  split; [exact H |]. split; [exact Hsummary |]. split; [exact Hstatus |].
  split; [exact (Hto (JStr "doc-a")) | exact Hkeys].
Defined.

(** The log of an upload shows the secret; a status check logs nothing. *)
Lemma curl_log_run :
  Wire.enable_curl_logging Wire.sample_client = true
  /\ Wire.uses_make_request
       (Wire.UploadDocument (JStr "rec-1") "./docs/acta.pdf" "acta" 900) = true
  /\ Wire.logged_in_clear
       Wire.sample_client
       (Wire.trace (Wire.perform
                      Wire.sample_net Wire.sample_client
                      (Wire.UploadDocument (JStr "rec-1") "./docs/acta.pdf"
                                           "acta" 900) 0%nat))
  /\ Wire.logged_of
       (Wire.trace (Wire.get_document_status Wire.sample_net Wire.sample_client
                                             (JStr "doc-a") 0%nat))
     = [].
Proof.
  assert (H : Wire.enable_curl_logging Wire.sample_client = true)
    by reflexivity.
  pose proof (@curl_log_shows_the_api_secret
                nat Wire.sample_net Wire.sample_client 0%nat H)
    as [Hlog Hstatus].
  split; [exact H |]. split; [reflexivity |].
  split; [apply Hlog; reflexivity |].
  exact (proj1 (Hstatus (JStr "doc-a"))).
Defined.

(** A request that is answered, and one with an unsupported method; a
    method name whose [upper()] is POST only by Unicode case mapping is
    sent as a POST. *)
Lemma make_request_run_examples :
  (exists v,
      Wire.outcome (Wire._make_request
                      Wire.sample_net Wire.sample_client "get"
                      "/clients/client-1/records/rec-1" None JNull None None
                      None None 0%nat) = Ret v
      /\ exists rq resp,
          Wire.sent_of
            (Wire.trace (Wire._make_request
                           Wire.sample_net Wire.sample_client "get"
                           "/clients/client-1/records/rec-1" None JNull None
                           None None None 0%nat))
          = [(rq, Wire.Responded resp)]
          /\ Wire.ok resp = true
          /\ Wire.body resp = Wire.Parsed v
          /\ Wire.rq_url rq
             = Wire.BASE_URL ++ "/clients/client-1/records/rec-1")
  /\ (Wire.upper Wire.sample_net "DELETE" <> "GET"
      /\ Wire.upper Wire.sample_net "DELETE" <> "POST"
      /\ Wire.sent_of
           (Wire.trace (Wire._make_request
                          Wire.sample_net Wire.sample_client "DELETE"
                          "/clients/client-1/records/rec-1" None JNull None
                          None None None 0%nat))
         = []
      /\ exists e,
          Wire.outcome (Wire._make_request
                          Wire.sample_net Wire.sample_client "DELETE"
                          "/clients/client-1/records/rec-1" None JNull None
                          None None None 0%nat) = Raise e)
  /\ Wire.upper Wire.unicode_net Wire.long_s_post = "POST"
  /\ exists v rq resp,
      Wire.outcome (Wire._make_request
                      Wire.unicode_net Wire.sample_client Wire.long_s_post
                      "/clients/client-1/records" None JNull None None None
                      None 0%nat) = Ret v
      /\ Wire.sent_of
           (Wire.trace (Wire._make_request
                          Wire.unicode_net Wire.sample_client Wire.long_s_post
                          "/clients/client-1/records" None JNull None None
                          None None 0%nat))
         = [(rq, Wire.Responded resp)]
      /\ Wire.rq_verb rq = Wire.POST.
Proof.
  split; [| split; [| split]].
  - eexists. split; [reflexivity |].
    apply (proj1 (proj2 (@make_request_outcomes
                           nat Wire.sample_net Wire.sample_client "get"
                           "/clients/client-1/records/rec-1" None JNull None
                           None None None 0%nat))).
    reflexivity.
  - assert (Hg : Wire.upper Wire.sample_net "DELETE" <> "GET")
      by discriminate.
    assert (Hp : Wire.upper Wire.sample_net "DELETE" <> "POST")
      by discriminate.
    split; [exact Hg |]. split; [exact Hp |].
    exact (proj2 (proj2 (proj2 (proj2
             (@make_request_outcomes
                nat Wire.sample_net Wire.sample_client "DELETE"
                "/clients/client-1/records/rec-1" None JNull None None None
                None 0%nat)))) Hg Hp).
  - reflexivity.
  - eexists _, _, _. split; [reflexivity |]. split; reflexivity.
Defined.

(** The job creation of the example, as logged and as sent; with a body
    that is not empty the command holds the [--data] option. *)
Lemma processing_job_log_run :
  Wire.enable_curl_logging Wire.sample_client = true
  /\ Wire.curl_words Wire.sample_net Wire.sample_client "POST"
                     "https://clients-copilot.nebuia.com/clients/client-1/records/rec-1/process"
                     (Wire.headers Wire.sample_client) None (JDict []) None
     = Ret ["curl"; "-X"; "POST";
            "https://clients-copilot.nebuia.com/clients/client-1/records/rec-1/process";
            "-H"; "'X-API-Key: key-1'"; "-H"; "'X-API-Secret: secret-1'";
            "-H"; "'Content-Type: application/json'";
            "--connect-timeout"; "300"]
  /\ (exists r,
         Wire.trace (Wire.create_processing_job Wire.sample_net
                                                Wire.sample_client
                                                (JStr "rec-1") 0%nat)
         = [Wire.Logged
              (Wire.log_entry_of
                 "2025-03-31 12:00:00"
                 "curl -X POST https://clients-copilot.nebuia.com/clients/client-1/records/rec-1/process -H 'X-API-Key: key-1' -H 'X-API-Secret: secret-1' -H 'Content-Type: application/json' --connect-timeout 300"
                 "Create Processing Job for Record: rec-1");
            Wire.Sent
              (Wire.MkRequest
                 Wire.POST
                 "https://clients-copilot.nebuia.com/clients/client-1/records/rec-1/process"
                 (Wire.headers Wire.sample_client) None
                 (Wire.JsonPayload (JDict [])) 300) r])
  /\ truthy (JDict [("priority", JStr "high")]) = true
  /\ In "--data"
        ["curl"; "-X"; "POST";
         "https://clients-copilot.nebuia.com/clients/client-1/records/rec-1/process";
         "-H"; "'X-API-Key: key-1'"; "-H"; "'X-API-Secret: secret-1'";
         "-H"; "'Content-Type: application/json'"; "--data"; "'<json>'";
         "--connect-timeout"; "300"].
Proof.
  assert (H : Wire.enable_curl_logging Wire.sample_client = true)
    by reflexivity.
  pose proof (@processing_job_is_logged_without_its_body
                nat Wire.sample_net Wire.sample_client (JStr "rec-1") 0%nat H)
    as (Hwords & _ & Htrace & Hdata).
  split; [exact H |]. split; [exact Hwords |]. split; [exact Htrace |].
  split; [reflexivity |].
  exact (Hdata (JDict [("priority", JStr "high")]) _ eq_refl eq_refl).
Defined.

(** A configuration with a title only: five fields are missing, and
    nothing is sent.  A configuration with all six fields is sent as the
    JSON body. *)
Lemma create_configuration_run :
  (JDict [("title", JStr "Dictamen")] = JDict [("title", JStr "Dictamen")]
   /\ filter (fun field =>
                negb (dict_mem field [("title", JStr "Dictamen")]))
             Wire.required_fields <> []
   /\ Wire.create_configuration Wire.sample_net Wire.sample_client "dictamen"
                                (JDict [("title", JStr "Dictamen")]) 0%nat
      = (Raise (Exn ValueError
                    "Configuration data missing required fields: subtitle, description, endpoint, icon, documents"),
         0%nat, []))
  /\ exists rq r,
      In (rq, r)
         (Wire.sent_of
            (Wire.trace (Wire.create_configuration
                           Wire.sample_net Wire.sample_client "dictamen"
                           Wire.full_configuration 0%nat)))
      /\ (forall field,
             In field Wire.required_fields ->
             py_contains field Wire.full_configuration = Ret true)
      /\ Wire.rq_payload rq = Wire.JsonPayload Wire.full_configuration.
Proof.
  split.
  - assert (Hm : filter (fun field =>
                           negb (dict_mem field [("title", JStr "Dictamen")]))
                        Wire.required_fields <> []) by discriminate.
    split; [reflexivity |]. split; [exact Hm |].
    exact (proj1 (@create_configuration_checks_the_required_fields
                    nat Wire.sample_net Wire.sample_client "dictamen"
                    (JDict [("title", JStr "Dictamen")]) 0%nat)
                 _ eq_refl Hm).
  - assert (Hin : exists rq r,
               In (rq, r)
                  (Wire.sent_of
                     (Wire.trace (Wire.create_configuration
                                    Wire.sample_net Wire.sample_client
                                    "dictamen" Wire.full_configuration
                                    0%nat)))).
    { eexists _, _. left. reflexivity. }
    destruct Hin as (rq & r & Hin). exists rq, r. split; [exact Hin |].
    exact (proj2 (@create_configuration_checks_the_required_fields
                    nat Wire.sample_net Wire.sample_client "dictamen"
                    Wire.full_configuration 0%nat)
                 rq r Hin).
Defined.

(** A summary of a record with two documents; and a record whose
    document listing fails with a status 500: its summary has no
    documents. *)
Lemma record_summary_run :
  (exists summary,
      Wire.outcome (Wire.get_record_summary Wire.sample_net Wire.sample_client
                                            (JStr "rec-1") 0%nat)
      = Ret summary
      /\ exists documents n,
          py_get summary "documents" JNull = Ret documents
          /\ Wire.py_len documents = Ret n
          /\ py_get summary "total_documents" JNull = Ret (JNum n))
  /\ Wire.outcome (Wire.get_record_details Wire.failing_net Wire.sample_client
                                           (JStr "rec-1") 0%nat)
     = Ret (JDict [("status", JStr "complete")])
  /\ Wire.outcome
       (Wire.list_documents
          Wire.failing_net Wire.sample_client (JStr "rec-1")
          (Wire.final (Wire.get_record_details
                         Wire.failing_net Wire.sample_client (JStr "rec-1")
                         0%nat)))
     = Raise (Exn NebuiaApiError
                  "API Error (500): Request failed: Internal Server Error")
  /\ exists summary,
      Wire.outcome (Wire.get_record_summary Wire.failing_net Wire.sample_client
                                            (JStr "rec-1") 0%nat)
      = Ret summary
      /\ py_get summary "record" JNull
         = Ret (JDict [("status", JStr "complete")])
      /\ py_get summary "documents" JNull = Ret (JList [])
      /\ py_get summary "total_documents" JNull = Ret (JNum 0).
Proof.
  split.
  - eexists. split; [reflexivity |].
    apply (proj1 (@record_summary_counts_its_documents
                    nat Wire.sample_net Wire.sample_client (JStr "rec-1")
                    0%nat)).
    reflexivity.
  - assert (H1 : Wire.outcome (Wire.get_record_details
                                 Wire.failing_net Wire.sample_client
                                 (JStr "rec-1") 0%nat)
                 = Ret (JDict [("status", JStr "complete")])) by reflexivity.
    assert (H2 : Wire.outcome
                   (Wire.list_documents
                      Wire.failing_net Wire.sample_client (JStr "rec-1")
                      (Wire.final (Wire.get_record_details
                                     Wire.failing_net Wire.sample_client
                                     (JStr "rec-1") 0%nat)))
                 = Raise (Exn NebuiaApiError
                              "API Error (500): Request failed: Internal Server Error"))
      by reflexivity.
    split; [exact H1 |]. split; [exact H2 |].
    exact (proj2 (@record_summary_counts_its_documents
                    nat Wire.failing_net Wire.sample_client (JStr "rec-1")
                    0%nat)
                 _ _ H1 H2).
Defined.

(** An upload that the service refuses: the file is closed all the same,
    and the request was the multipart one. *)
Lemma upload_closes_run :
  Wire.left_open
    (Wire.trace (Wire.upload_document Wire.failing_net Wire.sample_client
                                      (JStr "rec-1") "./docs/acta.pdf" "acta"
                                      900 1%nat)) []
  = []
  /\ (exists e,
         Wire.outcome (Wire.upload_document Wire.failing_net Wire.sample_client
                                            (JStr "rec-1") "./docs/acta.pdf"
                                            "acta" 900 1%nat)
         = Raise e)
  /\ exists rq r,
      In (rq, r)
         (Wire.sent_of
            (Wire.trace (Wire.upload_document
                           Wire.failing_net Wire.sample_client (JStr "rec-1")
                           "./docs/acta.pdf" "acta" 900 1%nat)))
      /\ Wire.file_exists Wire.failing_net "docs/acta.pdf" 1%nat = true
      /\ Wire.rq_headers rq = Wire.upload_headers Wire.sample_client
      /\ Wire.rq_payload rq
         = Wire.FormPayload
             (JDict [("document_type", JStr "acta")])
             [("file", Wire.MkFile "acta.pdf" "docs/acta.pdf" "application/pdf")].
Proof.
  pose proof (@upload_document_closes_the_file
                nat Wire.failing_net Wire.sample_client (JStr "rec-1")
                "./docs/acta.pdf" "acta" 900 1%nat) as [Hclosed Hsent].
  split; [exact Hclosed |]. split; [eexists; reflexivity |].
  assert (Hin : exists rq r,
             In (rq, r)
                (Wire.sent_of
                   (Wire.trace (Wire.upload_document
                                  Wire.failing_net Wire.sample_client
                                  (JStr "rec-1") "./docs/acta.pdf" "acta" 900
                                  1%nat)))).
  { eexists _, _. left. reflexivity. }
  destruct Hin as (rq & r & Hin). exists rq, r. split; [exact Hin |].
  destruct (Hsent rq r Hin) as (Hex & _ & _ & Hh & Hp).
  split; [exact Hex |]. split; [exact Hh | exact Hp].
Defined.

(** Two documents of the type "acta" give one key with both structures. *)
Lemma repeated_type_run :
  Store.view_record repeated_store (Store.VRef 9%nat)
  = Some [("acta", [[(Store.VStr "name_to_show", Store.VStr "X");
                     (Store.VStr "value", Store.VInt 1)]]);
          ("acta", [[(Store.VStr "value", Store.VInt 2)]])]
  /\ exists h',
      Store.extract_document_entities (Store.VRef 9%nat) repeated_store
      = (Ret (Store.VRef 10%nat), h')
      /\ Store.read_result h' (Store.VRef 10%nat)
         = Some [(Store.VStr "acta",
                  [[(Store.VStr "value", Store.VInt 1)];
                   [(Store.VStr "value", Store.VInt 2)]])].
Proof.
  assert (Hview : Store.view_record repeated_store (Store.VRef 9%nat)
                  = Some [("acta",
                           [[(Store.VStr "name_to_show", Store.VStr "X");
                             (Store.VStr "value", Store.VInt 1)]]);
                          ("acta", [[(Store.VStr "value", Store.VInt 2)]])])
    by reflexivity.
  split; [exact Hview |].
  exact (@extract_document_entities_groups_by_type
           repeated_store (Store.VRef 9%nat) _ Hview).
Defined.

(** A record with null [documents], and a record whose second document has
    null [entities]. *)
Lemma null_payload_run :
  Store.extract_document_entities (Store.VRef 0%nat) null_documents_store
  = (Raise (Exn TypeError "'NoneType' object is not iterable"),
     (null_documents_store ++ [Store.ODict []])%list)
  /\ fst (Store.extract_document_entities (Store.VRef 3%nat)
                                          null_entities_store)
     = Raise (Exn TypeError "'NoneType' object is not iterable").
Proof.
  split.
  - apply (proj1 extract_document_entities_raises_on_null
                 null_documents_store (Store.VRef 0%nat)
                 [(Store.VStr "status", Store.VStr "waiting");
                  (Store.VStr "documents", Store.VNone)]);
      reflexivity.
  - apply (proj2 extract_document_entities_raises_on_null
                 null_entities_store (Store.VRef 3%nat) (Store.VRef 2%nat)
                 (Store.VRef 1%nat)
                 [(Store.VStr "documents", Store.VRef 2%nat)]
                 [(Store.VStr "document_type", Store.VStr "poder");
                  (Store.VStr "entities", Store.VNone)]
                 [Store.VRef 0%nat] [] [("acta", [])] "poder");
      reflexivity.
Defined.
